(** * Chain processing core of the Beam node (node/processor.cpp)

    A shallow embedding of [NodeProcessor]: the two accumulators (UTXO
    tree and kernel tree), the block interpreter, the reorg engine, pruning,
    the cheap transaction check and block templating, followed by the
    properties of the specification that are settled on it.

    Unsigned machine integers are values of [N]; every place where the C++
    arithmetic can wrap is written with an explicit [mod]. *)

From Stdlib Require Import NArith ZArith Lia List Bool.
From stdpp Require Import base option list gmap sorting.

Local Open Scope N_scope.

(** ** Basic types *)

Abbreviation Height := N (only parsing).
Abbreviation Timestamp := N (only parsing).
Abbreviation Amount := N (only parsing).
Abbreviation Commitment := N (only parsing).
Abbreviation Hash := N (only parsing).
Abbreviation Count := N (only parsing).
Abbreviation RowId := N (only parsing).

(** [Input::Count] is a 32-bit unsigned integer. *)
Definition CountModulus : N := 2 ^ 32.
(** [Height] is a 64-bit unsigned integer. *)
Definition HeightModulus : N := 2 ^ 64.
(** [AmountBig] is a 128-bit unsigned integer. *)
Definition AmountBigModulus : N := 2 ^ 128.
(** [Difficulty::Raw] is a 256-bit unsigned integer. *)
Definition RawModulus : N := 2 ^ 256.

Definition count_inc (c : Count) : Count := (c + 1) mod CountModulus.
Definition count_dec (c : Count) : Count := (c + (CountModulus - 1)) mod CountModulus.
Definition height_add (a b : Height) : Height := (a + b) mod HeightModulus.
Definition height_sub (a b : Height) : Height :=
  (a + (HeightModulus - b mod HeightModulus)) mod HeightModulus.

(** [Merkle::Hash hv(Zero)]: the all-zero hash. *)
Definition ZeroHash : Hash := 0.

Module Input.
Record t := mk { m_Commitment : Commitment; m_Maturity : Height }.
End Input.

Module Output.
Record t := mk {
  m_Commitment : Commitment;
  m_Coinbase : bool;
  m_Incubation : Height;
  m_Maturity : Height
}.
End Output.

Module HeightRange.
Record t := mk { m_Min : Height; m_Max : Height }.
End HeightRange.

Module TxKernel.
(** A kernel is kept through the fields the processor reads: its height
    lock, and the identifier that [get_ID] hashes out of its contents. *)
Record t := mk { m_ID : Hash; m_Height : HeightRange.t }.
Definition get_ID (v : t) : Hash := m_ID v.
End TxKernel.

(** ** Accumulators *)

(** [UtxoTree::Key::Data]: commitment, then maturity. *)
Abbreviation Key := (Commitment * Height)%type (only parsing).

Abbreviation UtxoTree := (gmap (N * N) N) (only parsing).
Abbreviation RadixHashOnlyTree := (gset N) (only parsing).

(** Keys are compared as the concatenation commitment‖maturity. *)
Definition key_leb (a b : Key) : bool :=
  (a.1 <? b.1) || ((a.1 =? b.1) && (a.2 <=? b.2)).

Definition leaf_le (x y : Key * Count) : Prop := key_leb x.1 y.1 = true.

#[global] Instance leaf_le_dec x y : Decision (leaf_le x y).
Proof. unfold leaf_le. apply _. Defined.

Definition in_bounds (kMin kMax : Key) (x : Key * Count) : bool :=
  key_leb kMin x.1 && key_leb x.1 kMax.

(** Modelled from the spec: the radix tree behind [UtxoTree] is not part of
    the sources at hand. Section 4.1: "traverse(range_min, range_max,
    visitor) visits leaves whose keys fall in the closed interval in
    ascending order". This is the list of leaves such a traversal meets. *)
Definition leaves_between (t : UtxoTree) (kMin kMax : Key) : list (Key * Count) :=
  merge_sort leaf_le (filter (fun x => in_bounds kMin kMax x = true) (map_to_list t)).

(** The visitor is called on each leaf in turn and answers continue ([true])
    or stop ([false]); its own fields are threaded as [S]. The result is the
    leaf the cursor stopped on, if any. *)
Fixpoint walk {S : Type} (OnLeaf : S -> Key * Count -> bool * S) (s : S)
    (l : list (Key * Count)) : option (Key * Count) * S :=
  match l with
  | [] => (None, s)
  | x :: l' =>
      let '(go, s') := OnLeaf s x in
      if go then walk OnLeaf s' l' else (Some x, s')
  end.

(** Modelled from the spec: [RadixTree::Traverse]. "Returns true iff
    traversal completed without an early stop"; on a stop the cursor is left
    on the leaf. *)
Definition Traverse {S : Type} (t : UtxoTree) (kMin kMax : Key)
    (OnLeaf : S -> Key * Count -> bool * S) (s : S) : bool * option (Key * Count) * S :=
  match walk OnLeaf s (leaves_between t kMin kMax) with
  | (None, s') => (true, None, s')
  | (Some x, s') => (false, Some x, s')
  end.

(** Modelled from the spec: [UtxoTree::Find(cu, key, bCreate)] called with
    [bCreate = true] ("find_or_create(key) -> (leaf, created_flag)"). The
    tree does not initialise the count of a leaf it creates; the value such
    a leaf holds until the caller writes it is [stale]. Result: the tree,
    the count read from the leaf, the created flag. *)
Definition Find_or_create (stale : Count) (key : Key) (t : UtxoTree) : UtxoTree * Count * bool :=
  match t !! key with
  | Some c => (t, c, false)
  | None => (<[key := stale]> t, stale, true)
  end.

(** Modelled from the spec: [RadixHashOnlyTree::Find] on the kernel set,
    "presence-only". With [bCreate = true] an absent key is inserted and the
    flag stays [true]; a present key clears it. With [bCreate = false] the
    result tells whether a leaf was found. *)
Definition Kernels_Find (key : Hash) (bCreate : bool) (k : RadixHashOnlyTree)
    : RadixHashOnlyTree * bool * bool :=
  if decide (key ∈ k) then (k, true, false)
  else if bCreate then ({[key]} ∪ k, true, true)
  else (k, false, false).

(** ** Blocks and transactions *)

Module TxVectors.
Record t := mk {
  m_vInputs : list Input.t;
  m_vOutputs : list Output.t;
  m_vKernelsInput : list TxKernel.t;
  m_vKernelsOutput : list TxKernel.t
}.
Definition set_Inputs (l : list Input.t) (x : t) : t :=
  mk l (m_vOutputs x) (m_vKernelsInput x) (m_vKernelsOutput x).
End TxVectors.

Module Body.
(** [Block::Body]: the [BodyBase] fields and the [TxVectors] it holds. *)
Record t := mk {
  m_Subsidy : N;
  m_Offset : N;
  m_SubsidyClosing : bool;
  m_Txv : TxVectors.t
}.
Definition set_Txv (x : TxVectors.t) (b : t) : t :=
  mk (m_Subsidy b) (m_Offset b) (m_SubsidyClosing b) x.
Definition set_SubsidyClosing (f : bool) (b : t) : t :=
  mk (m_Subsidy b) (m_Offset b) f (m_Txv b).
End Body.

Module Transaction.
Record t := mk { m_Offset : N; m_Txv : TxVectors.t }.
End Transaction.

(** ** Headers, the store and the processor state *)

Module SystemState.
Module ID.
Record t := mk { m_Height : Height; m_Hash : Hash }.
End ID.
Module Full.
Record t := mk {
  m_Height : Height;
  m_Prev : Hash;
  m_ChainWork : N;
  m_Definition : Hash;
  m_TimeStamp : Timestamp;
  m_PoW_Difficulty : N
}.
End Full.
End SystemState.

Abbreviation ByteBuffer := (list N) (only parsing).
Abbreviation PeerID := N (only parsing).

Module StateID.
Record t := mk { m_Row : RowId; m_Height : Height }.
End StateID.

Module Rules.
(** The consensus constants the processor reads through [Rules::get()],
    and the static [Rules::HeightGenesis]. Their values are fixed outside
    the sources at hand and stay parameters. *)
Record t := mk {
  HeightGenesis : Height;
  MaxRollbackHeight : Height;
  WindowForMedian : N;
  MaxBodySize : N;
  CoinbaseEmission : Amount;
  StartDifficulty : N;
  DifficultyReviewCycle : Height
}.
End Rules.

Module Extra.
Record t := mk { m_Subsidy : N; m_Offset : N; m_SubsidyOpen : bool }.
End Extra.

Module Horizon.
Record t := mk { m_Branching : Height; m_Schwarzschild : Height }.
End Horizon.

Module Cursor.
Record t := mk {
  m_Sid : StateID.t;
  m_Full : SystemState.Full.t;
  m_ID : SystemState.ID.t;
  m_History : Hash;
  m_HistoryNext : Hash;
  m_LoHorizon : Height;
  m_DifficultyNext : N
}.
End Cursor.

(** The exceptions the processor raises. *)
Inductive Exn :=
  | NodeDataCorrupted   (* OnCorrupted: "node data corrupted" *)
  | StoreError.         (* raised by the store itself *)

(** What a call does: it returns, or it throws. Loops whose length depends
    on the store are run under a bound. *)
Inductive Outcome (A : Type) :=
  | Ret (a : A)
  | Throw (e : Exn)
  | OutOfFuel.          (* the bound given to a loop of the model ran out *)
Arguments Ret {A} a.
Arguments Throw {A} e.
Arguments OutOfFuel {A}.

#[global] Instance Outcome_ret : MRet Outcome := fun A a => Ret a.
#[global] Instance Outcome_bind : MBind Outcome := fun A B f m =>
  match m with
  | Ret a => f a
  | Throw e => Throw e
  | OutOfFuel => OutOfFuel
  end.

Module NodeDB.
(** Modelled from the spec: the store ([NodeDB]) is an external
    collaborator, "an opaque transactional store with the operations in
    6.2". A row of the header graph holds the header, the row of its
    parent (0 when the parent is not stored), the [Functional] and
    [Active] flags, the body blob, the rollback journal and the peer tag.
    [Reachable] is derived, see [IsReachable]. *)
Record StateRow := mkRow {
  r_Hdr : SystemState.Full.t;
  r_RowPrev : RowId;
  r_Functional : bool;
  r_Active : bool;
  r_Body : ByteBuffer;
  r_Rollback : ByteBuffer;
  r_Peer : option PeerID
}.

Module ParamID.
Inductive Enum := CfgChecksum | LoHorizon | FossilHeight.
End ParamID.

Record t := mk {
  m_States : gmap N StateRow;
  m_Cursor : StateID.t;
  p_CfgChecksum : option N;
  p_LoHorizon : option N;
  p_FossilHeight : option N
}.

Module StateFlags.
Record t := mk { Functional : bool; Reachable : bool; Active : bool }.
End StateFlags.

Definition set_States (m : gmap N StateRow) (db : t) : t :=
  mk m (m_Cursor db) (p_CfgChecksum db) (p_LoHorizon db) (p_FossilHeight db).
Definition set_Cursor (c : StateID.t) (db : t) : t :=
  mk (m_States db) c (p_CfgChecksum db) (p_LoHorizon db) (p_FossilHeight db).

Definition set_Functional (b : bool) (r : StateRow) : StateRow :=
  mkRow (r_Hdr r) (r_RowPrev r) b (r_Active r) (r_Body r) (r_Rollback r) (r_Peer r).
Definition set_Active (b : bool) (r : StateRow) : StateRow :=
  mkRow (r_Hdr r) (r_RowPrev r) (r_Functional r) b (r_Body r) (r_Rollback r) (r_Peer r).
Definition set_Body (bb : ByteBuffer) (r : StateRow) : StateRow :=
  mkRow (r_Hdr r) (r_RowPrev r) (r_Functional r) (r_Active r) bb (r_Rollback r) (r_Peer r).
Definition set_Rollback (rb : ByteBuffer) (r : StateRow) : StateRow :=
  mkRow (r_Hdr r) (r_RowPrev r) (r_Functional r) (r_Active r) (r_Body r) rb (r_Peer r).
Definition set_RowPeer (p : option PeerID) (r : StateRow) : StateRow :=
  mkRow (r_Hdr r) (r_RowPrev r) (r_Functional r) (r_Active r) (r_Body r) (r_Rollback r) p.

(** Every access to a row that does not exist is an error of the store. *)
Definition get_Row (db : t) (row : RowId) : Outcome StateRow :=
  match m_States db !! row with
  | Some r => Ret r
  | None => Throw StoreError
  end.

Definition upd_Row (f : StateRow -> StateRow) (row : RowId) (db : t) : Outcome t :=
  r ← get_Row db row; Ret (set_States (<[row := f r]> (m_States db)) db).

Definition get_State (db : t) (row : RowId) : Outcome SystemState.Full.t :=
  r ← get_Row db row; Ret (r_Hdr r).

Definition get_ChainWork (db : t) (row : RowId) : Outcome N :=
  r ← get_Row db row; Ret (SystemState.Full.m_ChainWork (r_Hdr r)).

(** [get_Prev(rowid&)]: [None] when the row has no stored parent. *)
Definition get_PrevRow (db : t) (row : RowId) : Outcome (option RowId) :=
  r ← get_Row db row;
  Ret (if r_RowPrev r =? 0 then None else Some (r_RowPrev r)).

(** [get_Prev(StateID&)]: on success the row becomes the parent's and the
    height goes down by one; otherwise the argument is left as it was. *)
Definition get_Prev (db : t) (sid : StateID.t) : Outcome (bool * StateID.t) :=
  o ← get_PrevRow db (StateID.m_Row sid);
  Ret (match o with
       | Some p => (true, StateID.mk p (height_sub (StateID.m_Height sid) 1))
       | None => (false, sid)
       end).

(** [get_Cursor]: [false] when the store has no cursor yet. *)
Definition get_Cursor (db : t) : bool * StateID.t :=
  (negb (StateID.m_Row (m_Cursor db) =? 0), m_Cursor db).

(** "Reachable = there is a Functional path from genesis to this node".
    The walk to the parent is bounded by [n]. *)
Fixpoint reachable_in (HeightGenesis : Height) (m : gmap N StateRow) (n : nat) (row : RowId) : bool :=
  match n with
  | O => false
  | S n' =>
      match m !! row with
      | None => false
      | Some r =>
          r_Functional r &&
          ((SystemState.Full.m_Height (r_Hdr r) =? HeightGenesis)
           || reachable_in HeightGenesis m n' (r_RowPrev r))
      end
  end.

Definition IsReachable (HeightGenesis : Height) (db : t) (row : RowId) : bool :=
  reachable_in HeightGenesis (m_States db) (size (m_States db)) row.

Definition GetStateFlags (HeightGenesis : Height) (db : t) (row : RowId) : Outcome StateFlags.t :=
  r ← get_Row db row;
  Ret (StateFlags.mk (r_Functional r) (IsReachable HeightGenesis db row) (r_Active r)).

Definition SetStateFunctional (row : RowId) (db : t) : Outcome t :=
  upd_Row (set_Functional true) row db.
Definition SetStateNotFunctional (row : RowId) (db : t) : Outcome t :=
  upd_Row (set_Functional false) row db.
Definition SetStateBlock (row : RowId) (bb : ByteBuffer) (db : t) : Outcome t :=
  upd_Row (set_Body bb) row db.
Definition SetStateRollback (row : RowId) (rb : ByteBuffer) (db : t) : Outcome t :=
  upd_Row (set_Rollback rb) row db.
Definition DelStateBlock (row : RowId) (db : t) : Outcome t :=
  upd_Row (set_Body []) row db.
Definition set_Peer (row : RowId) (p : option PeerID) (db : t) : Outcome t :=
  upd_Row (set_RowPeer p) row db.
Definition get_Peer (db : t) (row : RowId) : Outcome (option PeerID) :=
  r ← get_Row db row; Ret (r_Peer r).

(** [GetStateBlock]: the body and the journal, each empty when absent. *)
Definition GetStateBlock (db : t) (row : RowId) : Outcome (ByteBuffer * ByteBuffer) :=
  r ← get_Row db row; Ret (r_Body r, r_Rollback r).

(** [MoveFwd]: the state becomes [Active] and the cursor moves onto it. *)
Definition MoveFwd (sid : StateID.t) (db : t) : Outcome t :=
  db' ← upd_Row (set_Active true) (StateID.m_Row sid) db;
  Ret (set_Cursor sid db').

(** [MoveBack]: the state under the cursor stops being [Active] and the
    cursor moves to its parent, or becomes null at the first state. *)
Definition MoveBack (sid : StateID.t) (db : t) : Outcome (StateID.t * t) :=
  db' ← upd_Row (set_Active false) (StateID.m_Row sid) db;
  '(ok, sid') ← get_Prev db' sid;
  let sid'' := if ok : bool then sid' else StateID.mk 0 0 in
  Ret (sid'', set_Cursor sid'' db').

Definition ParamGet (db : t) (id : ParamID.Enum) : option N :=
  match id with
  | ParamID.CfgChecksum => p_CfgChecksum db
  | ParamID.LoHorizon => p_LoHorizon db
  | ParamID.FossilHeight => p_FossilHeight db
  end.

Definition ParamIntGetDef (db : t) (id : ParamID.Enum) (def : N) : N :=
  default def (ParamGet db id).

Definition ParamSet (id : ParamID.Enum) (v : N) (db : t) : t :=
  match id with
  | ParamID.CfgChecksum => mk (m_States db) (m_Cursor db) (Some v) (p_LoHorizon db) (p_FossilHeight db)
  | ParamID.LoHorizon => mk (m_States db) (m_Cursor db) (p_CfgChecksum db) (Some v) (p_FossilHeight db)
  | ParamID.FossilHeight => mk (m_States db) (m_Cursor db) (p_CfgChecksum db) (p_LoHorizon db) (Some v)
  end.

Definition row_sid (x : N * StateRow) : StateID.t :=
  StateID.mk x.1 (SystemState.Full.m_Height (r_Hdr x.2)).

Definition has_child (m : gmap N StateRow) (row : RowId) : bool :=
  existsb (fun x : N * StateRow => r_RowPrev x.2 =? row) (map_to_list m).

Definition height_le (x y : N * StateRow) : Prop :=
  SystemState.Full.m_Height (r_Hdr x.2) <= SystemState.Full.m_Height (r_Hdr y.2).

Definition work_ge (x y : N * StateRow) : Prop :=
  SystemState.Full.m_ChainWork (r_Hdr y.2) <= SystemState.Full.m_ChainWork (r_Hdr x.2).

#[global] Instance height_le_dec x y : Decision (height_le x y).
Proof. unfold height_le. apply _. Defined.
#[global] Instance work_ge_dec x y : Decision (work_ge x y).
Proof. unfold work_ge. apply _. Defined.

(** [EnumTips]: the states nothing builds on, lowest first ("the
    earliest tip"). *)
Definition EnumTips (db : t) : list StateID.t :=
  row_sid <$> merge_sort height_le
    (filter (fun x : N * StateRow => has_child (m_States db) x.1 = false)
            (map_to_list (m_States db))).

Definition has_reachable_child (HeightGenesis : Height) (db : t) (row : RowId) : bool :=
  existsb (fun x : N * StateRow =>
             (r_RowPrev x.2 =? row) && IsReachable HeightGenesis db x.1)
          (map_to_list (m_States db)).

Definition is_functional_tip (HeightGenesis : Height) (db : t) (x : N * StateRow) : bool :=
  IsReachable HeightGenesis db x.1 && negb (has_reachable_child HeightGenesis db x.1).

(** [EnumFunctionalTips]: the [Reachable] states with no [Reachable]
    successor, the greatest chainwork first ("pick best Functional tip"). *)
Definition EnumFunctionalTips (HeightGenesis : Height) (db : t) : list StateID.t :=
  row_sid <$> merge_sort work_ge
    (filter (fun x => is_functional_tip HeightGenesis db x = true)
            (map_to_list (m_States db))).

Definition EnumStatesAt (db : t) (h : Height) : list StateID.t :=
  row_sid <$> filter (fun x : N * StateRow => SystemState.Full.m_Height (r_Hdr x.2) = h)
                     (map_to_list (m_States db)).

(** [DeleteState(rowid, rowPrev)]: refuses ([false]) a state that is
    "still referenced"; otherwise the row goes and the parent's row is
    handed back. *)
Definition DeleteState (row : RowId) (db : t) : Outcome (bool * RowId * t) :=
  r ← get_Row db row;
  if has_child (m_States db) row then Ret (false, row, db)
  else Ret (true, r_RowPrev r, set_States (delete row (m_States db)) db).
End NodeDB.


(** ** The mempool and the block being built *)

Module TxPool.
(** An element of [TxPool::Fluff]: the profit (the fee as the two halves
    of an [AmountBig], the size) and the transaction. *)
Record Element := mkElement {
  m_Fee_Hi : N;
  m_Fee_Lo : N;
  m_nSize : N;
  m_pValue : Transaction.t
}.
(** [m_setProfit], in the order it is iterated. *)
Abbreviation t := (list Element) (only parsing).
End TxPool.

Module BlockContext.
Record t := mk {
  m_Kdf : N;
  m_TxPool : list TxPool.Element;
  m_Hdr : SystemState.Full.t;
  m_Body : ByteBuffer;
  m_Fees : Amount
}.
End BlockContext.

(** ** What the processor takes from its collaborators

    Cryptography, serialization, the consensus constants and the virtual
    hooks live outside [processor.cpp]. The processor is modelled over any
    choice of them. *)
Class Externals := {
  rules : Rules.t;
  (** the count a leaf of the UTXO tree holds between its creation by
      [Find] and the first write of the caller *)
  stale_count : Count;
  (** [Output::get_MinMaturity] *)
  get_MinMaturity : Output.t -> Height -> Height;
  (** [HeightRange::IsInRange] *)
  IsInRange : HeightRange.t -> Height -> bool;
  (** the order of the group of [ECC::Scalar::Native] *)
  ScalarOrder : N;
  ScalarOrder_pos : 0 < ScalarOrder;
  (** [UtxoTree::get_Hash], [RadixHashOnlyTree::get_Hash], [Merkle::Interpret] *)
  Utxos_get_Hash : gmap (N * N) N -> Hash;
  Kernels_get_Hash : gset N -> Hash;
  Merkle_Interpret : Hash -> Hash -> bool -> Hash;
  (** [Deserializer], [Serializer], [SerializerSizeCounter] on a body; the
      size of a serialized confidential output *)
  Deserialize : ByteBuffer -> option Body.t;
  Serialize : Body.t -> ByteBuffer;
  SerializedSize : Body.t -> N;
  SizeOfConfidentialOutput : N;
  (** [Block::BodyBase::IsValid(hr, bSubsidyOpen, reader)] *)
  Body_IsValid : Body.t -> HeightRange.t -> bool -> bool;
  (** the hash [Block::SystemState::Full::get_ID] puts in the identifier *)
  State_get_Hash : SystemState.Full.t -> Hash;
  (** the raw value of a packed difficulty, [Rules::AdjustDifficulty] *)
  Difficulty_Unpack : N -> N;
  AdjustDifficulty : N -> Timestamp -> Timestamp -> N;
  (** [NodeDB::get_PredictedStatesHash] *)
  PredictedStatesHash : gmap N NodeDB.StateRow -> StateID.t -> Hash;
  (** the virtual hook [AdjustFossilEnd(Height&)] *)
  AdjustFossilEnd : Height -> Height;
  (** [Output::Create] with a key derived for (value, height, type): the
      output and the blinding factor; the arguments are the key derivation
      seed, the coinbase flag, the value and the height *)
  Output_Create : N -> bool -> Amount -> Height -> Output.t * N;
  (** the blinding factor and the identifier of the coinbase kernel built at
      a height from a key derivation seed *)
  CoinbaseKernel_Key : N -> Height -> N;
  CoinbaseKernel_ID : N -> Height -> Hash;
  (** [TxVectors::Normalize]: the vectors after cut-through and the number
      of elements removed *)
  Normalize : TxVectors.t -> TxVectors.t * N
}.

(** The calls of the virtual notification hooks, in the order made. *)
Inductive Event :=
  | OnPeerInsane (peer : PeerID)
  | OnNewState
  | OnRolledBack.

Module NodeProcessor.
Record t := mk {
  m_DB : NodeDB.t;
  m_Cursor : Cursor.t;
  m_Utxos : gmap (N * N) N;
  m_Kernels : gset N;
  m_Extra : Extra.t;
  m_Horizon : Horizon.t;
  m_nSizeUtxoComission : N;
  m_Events : list Event
}.
Definition set_DB (x : NodeDB.t) (p : t) : t :=
  mk x (m_Cursor p) (m_Utxos p) (m_Kernels p) (m_Extra p) (m_Horizon p) (m_nSizeUtxoComission p) (m_Events p).
Definition set_Cursor (x : Cursor.t) (p : t) : t :=
  mk (m_DB p) x (m_Utxos p) (m_Kernels p) (m_Extra p) (m_Horizon p) (m_nSizeUtxoComission p) (m_Events p).
Definition set_Utxos (x : gmap (N * N) N) (p : t) : t :=
  mk (m_DB p) (m_Cursor p) x (m_Kernels p) (m_Extra p) (m_Horizon p) (m_nSizeUtxoComission p) (m_Events p).
Definition set_Kernels (x : gset N) (p : t) : t :=
  mk (m_DB p) (m_Cursor p) (m_Utxos p) x (m_Extra p) (m_Horizon p) (m_nSizeUtxoComission p) (m_Events p).
Definition set_Extra (x : Extra.t) (p : t) : t :=
  mk (m_DB p) (m_Cursor p) (m_Utxos p) (m_Kernels p) x (m_Horizon p) (m_nSizeUtxoComission p) (m_Events p).
Definition set_nSizeUtxoComission (x : N) (p : t) : t :=
  mk (m_DB p) (m_Cursor p) (m_Utxos p) (m_Kernels p) (m_Extra p) (m_Horizon p) x (m_Events p).
Definition emit (e : Event) (p : t) : t :=
  mk (m_DB p) (m_Cursor p) (m_Utxos p) (m_Kernels p) (m_Extra p) (m_Horizon p) (m_nSizeUtxoComission p)
     (m_Events p ++ [e]).
End NodeProcessor.

Section Processor.
Context {E : Externals}.

(** ** The block interpreter: the handlers of one element *)

(** [NodeProcessor::HandleBlockElement(const Input&, ...)]. The traveler
    stops at the first leaf it is shown. The input comes back with the
    maturity written into it. *)
Definition HandleBlockElement_Input (v : Input.t) (h : Height) (pHMax : option Height)
    (bFwd bAdjustInputMaturity : bool) (utxos : gmap (N * N) N)
    : bool * Input.t * gmap (N * N) N :=
  let c := Input.m_Commitment v in
  if bFwd then
    let bounds :=
      if bAdjustInputMaturity then Some ((c, 0), (c, default h pHMax))
      else
        match pHMax with
        | None => None
        | Some hMax =>
            if hMax <? Input.m_Maturity v then None
            else Some ((c, Input.m_Maturity v), (c, Input.m_Maturity v))
        end in
    match bounds with
    | None => (false, v, utxos)
    | Some (kMin, kMax) =>
        match Traverse utxos kMin kMax (fun (_ : unit) _ => (false, tt)) tt with
        | (true, _, _) | (false, None, _) => (false, v, utxos)
        | (false, Some (d, n), _) =>
            let n' := count_dec n in
            let utxos' := if n' =? 0 then delete d utxos else <[d := n']> utxos in
            (true, if bAdjustInputMaturity then Input.mk c d.2 else v, utxos')
        end
    end
  else
    let key := (c, Input.m_Maturity v) in
    let '(utxos1, n, bCreate) := Find_or_create stale_count key utxos in
    (true, v, if bCreate then <[key := 1]> utxos1 else <[key := count_inc n]> utxos1).

(** The first part of [HandleBlockElement(const Output&, ...)]: the key of
    the leaf, or nothing when the explicit maturity of the output is
    refused. *)
Definition Output_key (v : Output.t) (h : Height) (pHMax : option Height) : option (N * N) :=
  let dMin := get_MinMaturity v h in
  if Rules.HeightGenesis rules <=? Output.m_Maturity v then
    match pHMax with
    | None => None
    | Some _ =>
        if Output.m_Maturity v <? dMin then None
        else Some (Output.m_Commitment v, Output.m_Maturity v)
    end
  else Some (Output.m_Commitment v, dMin).

(** [NodeProcessor::HandleBlockElement(const Output&, ...)] *)
Definition HandleBlockElement_Output (v : Output.t) (h : Height) (pHMax : option Height)
    (bFwd : bool) (utxos : gmap (N * N) N) : bool * gmap (N * N) N :=
  match Output_key v h pHMax with
  | None => (false, utxos)
  | Some key =>
      let '(utxos1, n, bCreate) := Find_or_create stale_count key utxos in
      if bFwd then
        if bCreate then (true, <[key := 1]> utxos1)
        else
          let nCountInc := count_inc n in
          if nCountInc =? 0 then (false, utxos1)
          else (true, <[key := nCountInc]> utxos1)
      else
        if n =? 1 then (true, delete key utxos1)
        else (true, <[key := count_dec n]> utxos1)
  end.

(** [NodeProcessor::HandleBlockElement(const TxKernel&, bFwd, bIsInput)] *)
Definition HandleBlockElement_Kernel (v : TxKernel.t) (bFwd bIsInput : bool)
    (kernels : gset N) : bool * gset N :=
  let bAdd := xorb bFwd bIsInput in
  let key := TxKernel.get_ID v in
  let '(kernels1, found, bCreate) := Kernels_Find key bAdd kernels in
  if bAdd then
    if bCreate then (true, kernels1) else (false, kernels1)
  else
    if found then (true, kernels1 ∖ {[key]}) else (false, kernels1).

(** [NodeProcessor::ToggleSubsidyOpened]: the processor's kernel tree and
    [m_Extra.m_SubsidyOpen]. *)
Definition ToggleSubsidyOpened (p : NodeProcessor.t) : NodeProcessor.t :=
  let '(kernels1, _, bCreate) := Kernels_Find ZeroHash true (NodeProcessor.m_Kernels p) in
  let e := NodeProcessor.m_Extra p in
  let p1 := NodeProcessor.set_Extra (Extra.mk (Extra.m_Subsidy e) (Extra.m_Offset e) (negb bCreate)) p in
  NodeProcessor.set_Kernels (if bCreate then kernels1 else kernels1 ∖ {[ZeroHash]}) p1.

(** ** The block interpreter: a whole transaction or block *)

(** The four loops of [HandleValidatedTx]. Each stops at the first element
    whose handler answers [false]; [n] is the 32-bit counter of the
    elements handled. *)
Fixpoint loop_UtxoIn (l : list Input.t) (h : Height) (pHMax : option Height)
    (bFwd bAdjustInputMaturity : bool) (n : N) (utxos : gmap (N * N) N)
    : bool * N * list Input.t * gmap (N * N) N :=
  match l with
  | [] => (true, n, [], utxos)
  | v :: l' =>
      let '(ok, v', utxos') := HandleBlockElement_Input v h pHMax bFwd bAdjustInputMaturity utxos in
      if ok then
        let '(ok', n', l'', utxos'') :=
          loop_UtxoIn l' h pHMax bFwd bAdjustInputMaturity (count_inc n) utxos' in
        (ok', n', v' :: l'', utxos'')
      else (false, n, v' :: l', utxos')
  end.

Fixpoint loop_UtxoOut (l : list Output.t) (h : Height) (pHMax : option Height)
    (bFwd : bool) (n : N) (utxos : gmap (N * N) N) : bool * N * gmap (N * N) N :=
  match l with
  | [] => (true, n, utxos)
  | v :: l' =>
      let '(ok, utxos') := HandleBlockElement_Output v h pHMax bFwd utxos in
      if ok then loop_UtxoOut l' h pHMax bFwd (count_inc n) utxos'
      else (false, n, utxos')
  end.

Fixpoint loop_Kernel (l : list TxKernel.t) (bFwd bIsInput : bool) (n : N)
    (kernels : gset N) : bool * N * gset N :=
  match l with
  | [] => (true, n, kernels)
  | v :: l' =>
      let '(ok, kernels') := HandleBlockElement_Kernel v bFwd bIsInput kernels in
      if ok then loop_Kernel l' bFwd bIsInput (count_inc n) kernels'
      else (false, n, kernels')
  end.

(** The loops of the rollback part: the first [n] elements of a vector are
    handled in reverse mode and the answers are dropped. *)
Definition undo_Kernel (l : list TxKernel.t) (bIsInput : bool) (n : N) (kernels : gset N) : gset N :=
  foldl (fun k v => (HandleBlockElement_Kernel v false bIsInput k).2) kernels (take (N.to_nat n) l).

Definition undo_UtxoOut (l : list Output.t) (h : Height) (pHMax : option Height) (n : N)
    (utxos : gmap (N * N) N) : gmap (N * N) N :=
  foldl (fun u v => (HandleBlockElement_Output v h pHMax false u).2) utxos (take (N.to_nat n) l).

Definition undo_UtxoIn (l : list Input.t) (h : Height) (pHMax : option Height) (n : N)
    (utxos : gmap (N * N) N) : gmap (N * N) N :=
  foldl (fun u v => (HandleBlockElement_Input v h pHMax false false u).2) utxos (take (N.to_nat n) l).

(** [NodeProcessor::HandleValidatedTx]. The vectors come back with the
    maturities the input handler wrote into them. *)
Definition HandleValidatedTx (txv : TxVectors.t) (h : Height) (bFwd bAdjustInputMaturity : bool)
    (pHMax : option Height) (p : NodeProcessor.t)
    : Outcome (bool * TxVectors.t * NodeProcessor.t) :=
  let '(ok1, nInp, ins, u1) :=
    loop_UtxoIn (TxVectors.m_vInputs txv) h pHMax bFwd bAdjustInputMaturity 0 (NodeProcessor.m_Utxos p) in
  let '(ok2, nOut, u2) :=
    if ok1 then loop_UtxoOut (TxVectors.m_vOutputs txv) h pHMax bFwd 0 u1 else (false, 0, u1) in
  let '(ok3, nKrnInp, k1) :=
    if ok2 then loop_Kernel (TxVectors.m_vKernelsInput txv) bFwd true 0 (NodeProcessor.m_Kernels p)
    else (false, 0, NodeProcessor.m_Kernels p) in
  let '(ok4, nKrnOut, k2) :=
    if ok3 then loop_Kernel (TxVectors.m_vKernelsOutput txv) bFwd false 0 k1 else (false, 0, k1) in
  let txv' := TxVectors.set_Inputs ins txv in
  if ok4 then
    Ret (true, txv', NodeProcessor.set_Kernels k2 (NodeProcessor.set_Utxos u2 p))
  else if negb bFwd then Throw NodeDataCorrupted
  else
    (* Rollback all the changes. *)
    let k3 := undo_Kernel (TxVectors.m_vKernelsOutput txv) false nKrnOut k2 in
    let k4 := undo_Kernel (TxVectors.m_vKernelsInput txv) true nKrnInp k3 in
    let u3 := undo_UtxoOut (TxVectors.m_vOutputs txv) h pHMax nOut u2 in
    let u4 := undo_UtxoIn ins h pHMax nInp u3 in
    Ret (false, txv', NodeProcessor.set_Kernels k4 (NodeProcessor.set_Utxos u4 p)).

(** [ECC::Scalar::Native] arithmetic on [m_Extra.m_Offset]. *)
Definition scalar_of (k : N) : N := k mod ScalarOrder.
Definition scalar_neg (k : N) : N := (ScalarOrder - k mod ScalarOrder) mod ScalarOrder.
Definition scalar_add (a b : N) : N := (a + b) mod ScalarOrder.

(** [AmountBig] arithmetic on [m_Extra.m_Subsidy]. *)
Definition amountbig_add (a b : N) : N := (a + b) mod AmountBigModulus.
Definition amountbig_sub (a b : N) : N :=
  (a + (AmountBigModulus - b mod AmountBigModulus)) mod AmountBigModulus.

(** [NodeProcessor::HandleValidatedBlock] *)
Definition HandleValidatedBlock (body : Body.t) (h : Height) (bFwd bAdjustInputMaturity : bool)
    (pHMax : option Height) (p : NodeProcessor.t)
    : Outcome (bool * Body.t * NodeProcessor.t) :=
  if Body.m_SubsidyClosing body
     && negb (eqb (Extra.m_SubsidyOpen (NodeProcessor.m_Extra p)) bFwd)
  then Ret (false, body, p)
  else
    '(ok, txv, p1) ← HandleValidatedTx (Body.m_Txv body) h bFwd bAdjustInputMaturity pHMax p;
    let body' := Body.set_Txv txv body in
    if negb ok then Ret (false, body', p1)
    else
      let p2 := if Body.m_SubsidyClosing body then ToggleSubsidyOpened p1 else p1 in
      let e := NodeProcessor.m_Extra p2 in
      let kOffset := scalar_of (Body.m_Offset body) in
      let e' :=
        if bFwd then
          Extra.mk (amountbig_add (Extra.m_Subsidy e) (Body.m_Subsidy body))
                   (scalar_add (Extra.m_Offset e) kOffset) (Extra.m_SubsidyOpen e)
        else
          Extra.mk (amountbig_sub (Extra.m_Subsidy e) (Body.m_Subsidy body))
                   (scalar_add (Extra.m_Offset e) (scalar_neg kOffset)) (Extra.m_SubsidyOpen e) in
      Ret (true, body', NodeProcessor.set_Extra e' p2).

(** ** The rollback journal *)

(** A 64-bit value as the 8 bytes it occupies in the journal. *)
Fixpoint le_bytes (n : nat) (x : N) : list N :=
  match n with
  | O => []
  | S n' => x mod 256 :: le_bytes n' (x / 256)
  end.

Definition le_value (l : list N) : N := foldr (fun b acc => b + 256 * acc) 0 l.

(** [sizeof(RollbackData::Utxo)] *)
Definition sizeof_Utxo : N := 8.

(** [RollbackData::Import]: the buffer after the call. *)
Definition RollbackData_Import (txv : TxVectors.t) (m_Buf : ByteBuffer) : ByteBuffer :=
  match TxVectors.m_vInputs txv with
  | [] => m_Buf ++ [0]
  | ins => flat_map (fun v => le_bytes 8 (Input.m_Maturity v)) ins
  end.

Definition journal_entry (m_Buf : ByteBuffer) (i : nat) : N :=
  le_value (take 8 (drop (8 * i) m_Buf)).

(** [RollbackData::Export]: the maturities go back into the inputs. *)
Definition RollbackData_Export (m_Buf : ByteBuffer) (txv : TxVectors.t) : Outcome TxVectors.t :=
  match TxVectors.m_vInputs txv with
  | [] => Ret txv
  | ins =>
      if negb ((sizeof_Utxo * N.of_nat (length ins)) mod HeightModulus =? N.of_nat (length m_Buf))
      then Throw NodeDataCorrupted
      else Ret (TxVectors.set_Inputs
                  (imap (fun i v => Input.mk (Input.m_Commitment v) (journal_entry m_Buf i)) ins) txv)
  end.

(** ** State commitment *)

(** [NodeProcessor::get_CurrentLive] *)
Definition get_CurrentLive (p : NodeProcessor.t) : Hash :=
  Merkle_Interpret (Utxos_get_Hash (NodeProcessor.m_Utxos p))
                   (Kernels_get_Hash (NodeProcessor.m_Kernels p)) true.

(** [NodeProcessor::get_Definition(hv, hvHist)] *)
Definition get_Definition_hist (p : NodeProcessor.t) (hvHist : Hash) : Hash :=
  Merkle_Interpret (get_CurrentLive p) hvHist false.

(** [NodeProcessor::get_Definition(hv, bForNextState)] *)
Definition get_Definition (p : NodeProcessor.t) (bForNextState : bool) : Hash :=
  get_Definition_hist p
    (if bForNextState then Cursor.m_HistoryNext (NodeProcessor.m_Cursor p)
     else Cursor.m_History (NodeProcessor.m_Cursor p)).

(** ** The cursor *)

(** [NodeProcessor::FindActiveAtStrict] *)
Definition FindActiveAtStrict (p : NodeProcessor.t) (h : Height) : Outcome RowId :=
  let db := NodeProcessor.m_DB p in
  (fix scan (l : list StateID.t) : Outcome RowId :=
     match l with
     | [] => Throw NodeDataCorrupted
     | sid :: l' =>
         fl ← NodeDB.GetStateFlags (Rules.HeightGenesis rules) db (StateID.m_Row sid);
         if NodeDB.StateFlags.Active fl then Ret (StateID.m_Row sid) else scan l'
     end) (NodeDB.EnumStatesAt db h).

(** [NodeProcessor::get_NextDifficulty] *)
Definition get_NextDifficulty (p : NodeProcessor.t) : Outcome N :=
  let cu := NodeProcessor.m_Cursor p in
  let full := Cursor.m_Full cu in
  if StateID.m_Row (Cursor.m_Sid cu) =? 0 then Ret (Rules.StartDifficulty rules)
  else
    let dh := height_sub (SystemState.Full.m_Height full) (Rules.HeightGenesis rules) in
    if (dh =? 0) || negb (dh mod Rules.DifficultyReviewCycle rules =? 0)
    then Ret (SystemState.Full.m_PoW_Difficulty full)
    else
      rowid ← FindActiveAtStrict p
                (height_sub (SystemState.Full.m_Height full) (Rules.DifficultyReviewCycle rules));
      s2 ← NodeDB.get_State (NodeProcessor.m_DB p) rowid;
      Ret (AdjustDifficulty (SystemState.Full.m_PoW_Difficulty full)
             (SystemState.Full.m_TimeStamp s2) (SystemState.Full.m_TimeStamp full)).

(** [Block::SystemState::Full::get_ID] *)
Definition get_ID (s : SystemState.Full.t) : SystemState.ID.t :=
  SystemState.ID.mk (SystemState.Full.m_Height s) (State_get_Hash s).

Definition ZeroFull : SystemState.Full.t := SystemState.Full.mk 0 0 0 0 0 0.

(** [ZeroObject(m_Cursor)] *)
Definition ZeroCursor : Cursor.t :=
  Cursor.mk (StateID.mk 0 0) ZeroFull (SystemState.ID.mk 0 0) 0 0 0 0.

Definition set_DifficultyNext (d : N) (c : Cursor.t) : Cursor.t :=
  Cursor.mk (Cursor.m_Sid c) (Cursor.m_Full c) (Cursor.m_ID c) (Cursor.m_History c)
            (Cursor.m_HistoryNext c) (Cursor.m_LoHorizon c) d.

Definition set_LoHorizon (h : Height) (c : Cursor.t) : Cursor.t :=
  Cursor.mk (Cursor.m_Sid c) (Cursor.m_Full c) (Cursor.m_ID c) (Cursor.m_History c)
            (Cursor.m_HistoryNext c) h (Cursor.m_DifficultyNext c).

(** [NodeProcessor::InitCursor] *)
Definition InitCursor (p : NodeProcessor.t) : Outcome NodeProcessor.t :=
  let db := NodeProcessor.m_DB p in
  let '(found, sid) := NodeDB.get_Cursor db in
  p1 ← (if found then
          full ← NodeDB.get_State db (StateID.m_Row sid);
          '(hasPrev, sidPrev) ← NodeDB.get_Prev db sid;
          Ret (NodeProcessor.set_Cursor
                 (Cursor.mk sid full (get_ID full)
                    (if hasPrev : bool then PredictedStatesHash (NodeDB.m_States db) sidPrev else 0)
                    (PredictedStatesHash (NodeDB.m_States db) sid)
                    (NodeDB.ParamIntGetDef db NodeDB.ParamID.LoHorizon 0)
                    (Cursor.m_DifficultyNext (NodeProcessor.m_Cursor p))) p)
        else Ret (NodeProcessor.set_Cursor ZeroCursor p));
  d ← get_NextDifficulty p1;
  Ret (NodeProcessor.set_Cursor (set_DifficultyNext d (NodeProcessor.m_Cursor p1)) p1).

(** [NodeProcessor::get_MovingMedian]: the loop that gathers the
    timestamps, walking to the parent at most [n] times. *)
Fixpoint gather_timestamps (n : nat) (db : NodeDB.t) (row : RowId) (vTs : list Timestamp)
    : Outcome (list Timestamp) :=
  s ← NodeDB.get_State db row;
  let vTs' := vTs ++ [SystemState.Full.m_TimeStamp s] in
  if Rules.WindowForMedian rules <=? N.of_nat (length vTs') then Ret vTs'
  else
    match n with
    | O => OutOfFuel
    | S n' =>
        o ← NodeDB.get_PrevRow db row;
        match o with
        | None => Ret vTs'
        | Some prev => gather_timestamps n' db prev vTs'
        end
    end.

Definition get_MovingMedian (p : NodeProcessor.t) : Outcome Timestamp :=
  let row := StateID.m_Row (Cursor.m_Sid (NodeProcessor.m_Cursor p)) in
  if row =? 0 then Ret 0
  else
    vTs ← gather_timestamps (N.to_nat (Rules.WindowForMedian rules)) (NodeProcessor.m_DB p) row [];
    let sorted := merge_sort N.le vTs in
    Ret (default 0 (sorted !! (length sorted / 2)%nat)).

(** ** Interpreting a stored block *)

(** [Difficulty::Inc(res, base)]: the raw difficulty added to a chainwork. *)
Definition Difficulty_Inc (packed : N) (base : N) : N :=
  (base + Difficulty_Unpack packed) mod RawModulus.

(** [NodeProcessor::VerifyBlock] *)
Definition VerifyBlock (p : NodeProcessor.t) (block : Body.t) (hr : HeightRange.t) : bool :=
  Body_IsValid block hr (Extra.m_SubsidyOpen (NodeProcessor.m_Extra p)).

(** The checks of a header against the state that [HandleBlock] makes when
    a block is interpreted for the first time. *)
Definition first_time_checks (p : NodeProcessor.t) (s : SystemState.Full.t) (block : Body.t)
    (h : Height) : Outcome bool :=
  let cu := NodeProcessor.m_Cursor p in
  let wrk := Difficulty_Inc (SystemState.Full.m_PoW_Difficulty s)
               (SystemState.Full.m_ChainWork (Cursor.m_Full cu)) in
  if negb (wrk =? SystemState.Full.m_ChainWork s) then Ret false
  else if negb (Cursor.m_DifficultyNext cu =? SystemState.Full.m_PoW_Difficulty s) then Ret false
  else
    median ← get_MovingMedian p;
    if SystemState.Full.m_TimeStamp s <=? median then Ret false
    else if negb (VerifyBlock p block (HeightRange.mk h h)) then Ret false
    else Ret true.

(** The end of a first-time interpretation that went through: the journal
    is written and [m_LoHorizon] follows the cursor. *)
Definition commit_first_time (row : RowId) (block : Body.t) (m_Buf : ByteBuffer)
    (p : NodeProcessor.t) : Outcome NodeProcessor.t :=
  db1 ← NodeDB.SetStateRollback row (RollbackData_Import (Body.m_Txv block) m_Buf)
          (NodeProcessor.m_DB p);
  let cu := NodeProcessor.m_Cursor p in
  let hCur := StateID.m_Height (Cursor.m_Sid cu) in
  if Rules.MaxRollbackHeight rules <? height_sub hCur (Cursor.m_LoHorizon cu) then
    let lo := height_sub hCur (Rules.MaxRollbackHeight rules) in
    Ret (NodeProcessor.set_DB (NodeDB.ParamSet NodeDB.ParamID.LoHorizon lo db1)
           (NodeProcessor.set_Cursor (set_LoHorizon lo cu) p))
  else Ret (NodeProcessor.set_DB db1 p).

(** [NodeProcessor::HandleBlock] *)
Definition HandleBlock (sid : StateID.t) (bFwd : bool) (p : NodeProcessor.t)
    : Outcome (bool * NodeProcessor.t) :=
  let row := StateID.m_Row sid in
  let h := StateID.m_Height sid in
  '(bb, m_Buf) ← NodeDB.GetStateBlock (NodeProcessor.m_DB p) row;
  s ← NodeDB.get_State (NodeProcessor.m_DB p) row;
  match Deserialize bb with
  | None => Ret (false, p)
  | Some block =>
      let bFirstTime := bFwd && bool_decide (m_Buf = []) in
      '(go, block0) ←
        (if bFwd then
           if bFirstTime then ok ← first_time_checks p s block h; Ret (ok, block)
           else Ret (true, block)
         else txv ← RollbackData_Export m_Buf (Body.m_Txv block); Ret (true, Body.set_Txv txv block));
      if negb go then Ret (false, p)
      else
        '(bOk, block1, p1) ← HandleValidatedBlock block0 h bFwd bFwd None p;
        if bFirstTime && bOk then
          if negb (SystemState.Full.m_Definition s =? get_Definition p1 true) then
            '(_, _, p2) ← HandleValidatedBlock block1 h false false None p1;
            Ret (false, p2)
          else
            p2 ← commit_first_time row block1 m_Buf p1;
            Ret (true, p2)
        else Ret (bOk, p1)
  end.

(** [NodeProcessor::GoForward] *)
Definition GoForward (row : RowId) (p : NodeProcessor.t) : Outcome (bool * NodeProcessor.t) :=
  let sid := StateID.mk row
               (height_add (StateID.m_Height (Cursor.m_Sid (NodeProcessor.m_Cursor p))) 1) in
  '(ok, p1) ← HandleBlock sid true p;
  if ok : bool then
    db1 ← NodeDB.MoveFwd sid (NodeProcessor.m_DB p1);
    p2 ← InitCursor (NodeProcessor.set_DB db1 p1);
    Ret (true, p2)
  else
    db1 ← NodeDB.DelStateBlock row (NodeProcessor.m_DB p1);
    db2 ← NodeDB.SetStateNotFunctional row db1;
    peer ← NodeDB.get_Peer db2 row;
    match peer with
    | Some pr =>
        db3 ← NodeDB.set_Peer row None db2;
        Ret (false, NodeProcessor.emit (OnPeerInsane pr) (NodeProcessor.set_DB db3 p1))
    | None => Ret (false, NodeProcessor.set_DB db2 p1)
    end.

(** [NodeProcessor::Rollback] *)
Definition Rollback (p : NodeProcessor.t) : Outcome NodeProcessor.t :=
  let cu := NodeProcessor.m_Cursor p in
  let sid := Cursor.m_Sid cu in
  '(sid', db1) ← NodeDB.MoveBack sid (NodeProcessor.m_DB p);
  let cu1 := Cursor.mk sid' (Cursor.m_Full cu) (Cursor.m_ID cu) (Cursor.m_History cu)
               (Cursor.m_HistoryNext cu) (Cursor.m_LoHorizon cu) (Cursor.m_DifficultyNext cu) in
  p1 ← InitCursor (NodeProcessor.set_Cursor cu1 (NodeProcessor.set_DB db1 p));
  '(ok, p2) ← HandleBlock sid false p1;
  if negb ok then Throw NodeDataCorrupted
  else
    p3 ← InitCursor p2;
    Ret (NodeProcessor.emit OnRolledBack p3).

(** ** Pruning *)

(** [NodeProcessor::PruneAt] *)
Definition PruneAt (h : Height) (bDeleteBody : bool) (p : NodeProcessor.t) : Outcome NodeProcessor.t :=
  db' ← foldl (fun (acc : Outcome NodeDB.t) (sid : StateID.t) =>
                 db ← acc;
                 let row := StateID.m_Row sid in
                 fl ← NodeDB.GetStateFlags (Rules.HeightGenesis rules) db row;
                 db1 ← (if NodeDB.StateFlags.Active fl then Ret db
                        else NodeDB.SetStateNotFunctional row db);
                 if bDeleteBody then
                   db2 ← NodeDB.DelStateBlock row db1;
                   NodeDB.set_Peer row None db2
                 else Ret db1)
              (Ret (NodeProcessor.m_DB p))
              (NodeDB.EnumStatesAt (NodeProcessor.m_DB p) h);
  Ret (NodeProcessor.set_DB db' p).

(** The inner loop of the branch pruning: states are deleted towards the
    root until one is still referenced. *)
Fixpoint delete_chain (n : nat) (rowid : RowId) (db : NodeDB.t) : Outcome NodeDB.t :=
  match n with
  | O => OutOfFuel
  | S n' =>
      '(ok, rowPrev, db1) ← NodeDB.DeleteState rowid db;
      if negb ok then Ret db1
      else if rowPrev =? 0 then Ret db1
      else delete_chain n' rowPrev db1
  end.

(** The outer loop of the branch pruning. *)
Fixpoint prune_branches (n : nat) (h : Height) (db : NodeDB.t) : Outcome NodeDB.t :=
  match n with
  | O => OutOfFuel
  | S n' =>
      match NodeDB.EnumTips db with
      | [] => Ret db
      | sid :: _ =>
          if h <=? StateID.m_Height sid then Ret db
          else
            db1 ← delete_chain (S (size (NodeDB.m_States db))) (StateID.m_Row sid) db;
            prune_branches n' h db1
      end
  end.

(** The loop over the heights that turn fossil. *)
Fixpoint prune_fossils (n : nat) (hFossil h : Height) (p : NodeProcessor.t) : Outcome NodeProcessor.t :=
  let hFossil' := height_add hFossil 1 in
  if h <=? hFossil' then Ret p
  else
    match n with
    | O => OutOfFuel
    | S n' =>
        p1 ← PruneAt hFossil' true p;
        prune_fossils n' hFossil' h
          (NodeProcessor.set_DB
             (NodeDB.ParamSet NodeDB.ParamID.FossilHeight hFossil' (NodeProcessor.m_DB p1)) p1)
    end.

(** [NodeProcessor::PruneOld] *)
Definition PruneOld (p : NodeProcessor.t) : Outcome NodeProcessor.t :=
  let hCur := StateID.m_Height (Cursor.m_Sid (NodeProcessor.m_Cursor p)) in
  let hz := NodeProcessor.m_Horizon p in
  let HeightGenesis := Rules.HeightGenesis rules in
  p1 ← (if height_sub (height_add (Horizon.m_Branching hz) HeightGenesis) 1 <? hCur then
          let h := height_sub hCur (Horizon.m_Branching hz) in
          let db := NodeProcessor.m_DB p in
          db1 ← prune_branches (S (size (NodeDB.m_States db))) h db;
          Ret (NodeProcessor.set_DB db1 p)
        else Ret p);
  if height_sub (height_add (Horizon.m_Schwarzschild hz) HeightGenesis) 1 <? hCur then
    let h0 := height_sub hCur (Horizon.m_Schwarzschild hz) in
    let h1 := if Cursor.m_LoHorizon (NodeProcessor.m_Cursor p1) <? h0
              then Cursor.m_LoHorizon (NodeProcessor.m_Cursor p1) else h0 in
    let h := AdjustFossilEnd h1 in
    prune_fossils (N.to_nat h)
      (NodeDB.ParamIntGetDef (NodeProcessor.m_DB p1) NodeDB.ParamID.FossilHeight
         (height_sub HeightGenesis 1)) h p1
  else Ret p1.

(** ** The reorg engine *)

(** The loop of [TryGoUp] that computes the path: the cursor is rolled back
    while it is above the target, else the target steps to its parent. *)
Fixpoint TryGoUp_path (n : nat) (sidTrg : StateID.t) (wrkTrg : N) (vPath : list RowId)
    (bDirty : bool) (p : NodeProcessor.t) : Outcome (list RowId * bool * NodeProcessor.t) :=
  match n with
  | O => OutOfFuel
  | S n' =>
      let cu := NodeProcessor.m_Cursor p in
      if StateID.m_Row sidTrg =? StateID.m_Row (Cursor.m_Sid cu) then Ret (vPath, bDirty, p)
      else if wrkTrg <? SystemState.Full.m_ChainWork (Cursor.m_Full cu) then
        p1 ← Rollback p;
        TryGoUp_path n' sidTrg wrkTrg vPath true p1
      else
        let vPath' := vPath ++ [StateID.m_Row sidTrg] in
        '(ok, sidPrev) ← NodeDB.get_Prev (NodeProcessor.m_DB p) sidTrg;
        if ok : bool then
          wrk ← NodeDB.get_ChainWork (NodeProcessor.m_DB p) (StateID.m_Row sidPrev);
          TryGoUp_path n' sidPrev wrk vPath' bDirty p
        else TryGoUp_path n' (StateID.mk 0 0) 0 vPath' bDirty p
  end.

(** The loop of [TryGoUp] that walks the path, last pushed row first. *)
Fixpoint TryGoUp_forward (rows : list RowId) (bDirty : bool) (p : NodeProcessor.t)
    : Outcome (bool * bool * NodeProcessor.t) :=
  match rows with
  | [] => Ret (true, bDirty, p)
  | row :: rows' =>
      '(ok, p1) ← GoForward row p;
      if ok : bool then TryGoUp_forward rows' true p1
      else Ret (false, true, p1)
  end.

(** The outer loop of [TryGoUp]. *)
Fixpoint TryGoUp_loop (fuel n : nat) (bDirty : bool) (p : NodeProcessor.t)
    : Outcome (bool * NodeProcessor.t) :=
  match n with
  | O => OutOfFuel
  | S n' =>
      let db := NodeProcessor.m_DB p in
      match NodeDB.EnumFunctionalTips (Rules.HeightGenesis rules) db with
      | [] => Ret (bDirty, p)
      | sidTrg :: _ =>
          wrkTrg ← NodeDB.get_ChainWork db (StateID.m_Row sidTrg);
          if wrkTrg =? SystemState.Full.m_ChainWork (Cursor.m_Full (NodeProcessor.m_Cursor p))
          then Ret (bDirty, p)
          else
            '(vPath, bDirty1, p1) ← TryGoUp_path fuel sidTrg wrkTrg [] bDirty p;
            '(bPathOk, bDirty2, p2) ← TryGoUp_forward (rev vPath) bDirty1 p1;
            if bPathOk : bool then Ret (bDirty2, p2)
            else TryGoUp_loop fuel n' bDirty2 p2
      end
  end.

(** [NodeProcessor::TryGoUp]; [fuel] bounds each of its loops. *)
Definition TryGoUp (fuel : nat) (p : NodeProcessor.t) : Outcome NodeProcessor.t :=
  '(bDirty, p1) ← TryGoUp_loop fuel fuel false p;
  if bDirty : bool then
    p2 ← PruneOld p1;
    Ret (NodeProcessor.emit OnNewState p2)
  else Ret p1.

(** ** The cheap check of a transaction *)

(** [NodeProcessor::ValidateTxWrtHeight] *)
Definition ValidateTxWrtHeight (tx : Transaction.t) (h : Height) : bool :=
  forallb (fun k => IsInRange (TxKernel.m_Height k) h)
          (TxVectors.m_vKernelsOutput (Transaction.m_Txv tx)).

(** The loop of [ValidateTxContextKernels]; [odd] is [1 & i] and
    [phv0], [phv1] are the two slots of [phv]. *)
Fixpoint ValidateTxContextKernels_loop (vec : list TxKernel.t) (odd : bool) (phv0 phv1 : Hash)
    (bInp : bool) (kernels : gset N) : bool :=
  match vec with
  | [] => true
  | v :: vec' =>
      let id := TxKernel.get_ID v in
      let phv0' := if odd then phv0 else id in
      let phv1' := if odd then id else phv1 in
      if phv0' =? phv1' then false
      else
        let '(_, found, _) := Kernels_Find id false kernels in
        if negb (eqb bInp found) then false
        else ValidateTxContextKernels_loop vec' (negb odd) phv0' phv1' bInp kernels
  end.

(** [NodeProcessor::ValidateTxContextKernels]. [phv[1]] starts as [Zero];
    [phv[0]] is written by the first round before it is read. *)
Definition ValidateTxContextKernels (p : NodeProcessor.t) (vec : list TxKernel.t) (bInp : bool) : bool :=
  ValidateTxContextKernels_loop vec false ZeroHash ZeroHash bInp (NodeProcessor.m_Kernels p).

(** The traveler of [ValidateTxContext]: [m_Count] goes down by the count
    of each leaf until a leaf covers what is left. *)
Definition Traveler_OnLeaf (m_Count : N) (x : N * N * N) : bool * N :=
  if m_Count <=? x.2 then (false, m_Count) else (true, m_Count - x.2).

(** One round of the input loop of [ValidateTxContext], for a run of
    [m_Count] inputs with the commitment of [v]. *)
Definition inputs_present (utxos : gmap (N * N) N) (h : Height) (v : Input.t) (m_Count : N) : bool :=
  let c := Input.m_Commitment v in
  negb (Traverse utxos (c, 0) (c, h) Traveler_OnLeaf m_Count).1.1.

(** The input loop of [ValidateTxContext]: [v] opens the current run and
    [rest] are the inputs after those already counted. *)
Fixpoint ValidateTxContext_inputs (utxos : gmap (N * N) N) (h : Height) (v : Input.t)
    (m_Count : N) (rest : list Input.t) : bool :=
  match rest with
  | [] => inputs_present utxos h v m_Count
  | x :: rest' =>
      if Input.m_Commitment x =? Input.m_Commitment v
      then ValidateTxContext_inputs utxos h v (count_inc m_Count) rest'
      else inputs_present utxos h v m_Count && ValidateTxContext_inputs utxos h x 1 rest'
  end.

(** [NodeProcessor::ValidateTxContext] *)
Definition ValidateTxContext (p : NodeProcessor.t) (tx : Transaction.t) : bool :=
  let h := height_add (StateID.m_Height (Cursor.m_Sid (NodeProcessor.m_Cursor p))) 1 in
  let txv := Transaction.m_Txv tx in
  if negb (ValidateTxWrtHeight tx h) then false
  else
    match TxVectors.m_vInputs txv with
    | [] => true
    | v :: rest => ValidateTxContext_inputs (NodeProcessor.m_Utxos p) h v 1 rest
    end
    && ValidateTxContextKernels p (TxVectors.m_vKernelsOutput txv) false
    && ValidateTxContextKernels p (TxVectors.m_vKernelsInput txv) false.

(** ** Block templating *)

Definition push_Output (v : Output.t) (b : Body.t) : Body.t :=
  let x := Body.m_Txv b in
  Body.set_Txv (TxVectors.mk (TxVectors.m_vInputs x) (TxVectors.m_vOutputs x ++ [v])
                  (TxVectors.m_vKernelsInput x) (TxVectors.m_vKernelsOutput x)) b.

Definition push_KernelOutput (v : TxKernel.t) (b : Body.t) : Body.t :=
  let x := Body.m_Txv b in
  Body.set_Txv (TxVectors.mk (TxVectors.m_vInputs x) (TxVectors.m_vOutputs x)
                  (TxVectors.m_vKernelsInput x) (TxVectors.m_vKernelsOutput x ++ [v])) b.

(** [Block::Body::Writer(res).Dump(reader)]: the elements read are added
    to the vectors of the body. *)
Definition Dump (src : TxVectors.t) (b : Body.t) : Body.t :=
  let x := Body.m_Txv b in
  Body.set_Txv (TxVectors.mk (TxVectors.m_vInputs x ++ TxVectors.m_vInputs src)
                  (TxVectors.m_vOutputs x ++ TxVectors.m_vOutputs src)
                  (TxVectors.m_vKernelsInput x ++ TxVectors.m_vKernelsInput src)
                  (TxVectors.m_vKernelsOutput x ++ TxVectors.m_vKernelsOutput src)) b.

Definition set_Offset (k : N) (b : Body.t) : Body.t :=
  Body.mk (Body.m_Subsidy b) k (Body.m_SubsidyClosing b) (Body.m_Txv b).

Definition add_Subsidy (a : N) (b : Body.t) : Body.t :=
  Body.mk (amountbig_add (Body.m_Subsidy b) a) (Body.m_Offset b) (Body.m_SubsidyClosing b) (Body.m_Txv b).

(** The running values of the mempool loop of [GenerateNewBlock]. *)
Record PoolLoop := mkPoolLoop {
  pl_Pool : list TxPool.Element;   (* the elements kept in the pool *)
  pl_Fees : Amount;                (* bc.m_Fees *)
  pl_Size : N;                     (* ssc.m_Counter.m_Value *)
  pl_Offset : N;                   (* offset *)
  pl_TxNum : N;                    (* nTxNum *)
  pl_Res : Body.t;                 (* res *)
  pl_Proc : NodeProcessor.t
}.

(** One round of the mempool loop, on the element [x]. *)
Definition pool_step (h : Height) (st : PoolLoop) (x : TxPool.Element) : Outcome PoolLoop :=
  let keep := mkPoolLoop (pl_Pool st ++ [x]) (pl_Fees st) (pl_Size st) (pl_Offset st)
                (pl_TxNum st) (pl_Res st) (pl_Proc st) in
  let res := pl_Res st in
  if negb (TxPool.m_Fee_Hi x =? 0) then Ret st
  else
    let feesNext := (pl_Fees st + TxPool.m_Fee_Lo x) mod HeightModulus in
    if feesNext <? pl_Fees st then Ret keep
    else
      let nSize0 := (pl_Size st + TxPool.m_nSize x) mod HeightModulus in
      let nSizeNext :=
        if (pl_Fees st =? 0) && negb (feesNext =? 0)
        then (nSize0 + NodeProcessor.m_nSizeUtxoComission (pl_Proc st)) mod HeightModulus
        else nSize0 in
      if Rules.MaxBodySize rules <? nSizeNext then
        if bool_decide (TxVectors.m_vInputs (Body.m_Txv res) = [])
           && bool_decide (TxVectors.m_vKernelsInput (Body.m_Txv res) = [])
           && (length (TxVectors.m_vOutputs (Body.m_Txv res)) =? 1)%nat
           && (length (TxVectors.m_vKernelsOutput (Body.m_Txv res)) =? 1)%nat
        then Ret st
        else Ret keep
      else
        let tx := TxPool.m_pValue x in
        if ValidateTxWrtHeight tx h then
          '(ok, txv, p1) ← HandleValidatedTx (Transaction.m_Txv tx) h true true None (pl_Proc st);
          let x' := TxPool.mkElement (TxPool.m_Fee_Hi x) (TxPool.m_Fee_Lo x) (TxPool.m_nSize x)
                      (Transaction.mk (Transaction.m_Offset tx) txv) in
          if ok : bool then
            Ret (mkPoolLoop (pl_Pool st ++ [x']) feesNext nSizeNext
                   (scalar_add (pl_Offset st) (scalar_of (Transaction.m_Offset tx)))
                   (pl_TxNum st + 1) (Dump txv res) p1)
          else
            Ret (mkPoolLoop (pl_Pool st) (pl_Fees st) (pl_Size st) (pl_Offset st)
                   (pl_TxNum st) res p1)
        else Ret st.

Definition pool_loop (h : Height) (st : PoolLoop) (pool : list TxPool.Element) : Outcome PoolLoop :=
  foldl (fun acc x => st' ← acc; pool_step h st' x) (Ret st) pool.

Definition set_Hdr_Fees_Pool (hdr : SystemState.Full.t) (fees : Amount)
    (pool : list TxPool.Element) (bc : BlockContext.t) : BlockContext.t :=
  BlockContext.mk (BlockContext.m_Kdf bc) pool hdr (BlockContext.m_Body bc) fees.

(** [size_t NodeProcessor::GenerateNewBlock(BlockContext&, Block::Body&, Height)]:
    the size, with the context, the body and the processor as it leaves them.
    [now] is what [getTimestamp()] answers. *)
Definition GenerateNewBlock_at (now : Timestamp) (bc : BlockContext.t) (res : Body.t) (h : Height)
    (p : NodeProcessor.t) : Outcome (N * BlockContext.t * Body.t * NodeProcessor.t) :=
  let res1 := add_Subsidy (Rules.CoinbaseEmission rules) res in
  let res2 := if negb (Extra.m_SubsidyOpen (NodeProcessor.m_Extra p))
              then Body.set_SubsidyClosing false res1 else res1 in
  let offset0 := scalar_of (Body.m_Offset res2) in
  (* coinbase UTXO *)
  let '(outp, sk) := Output_Create (BlockContext.m_Kdf bc) true (Rules.CoinbaseEmission rules) h in
  let '(ok1, u1) := HandleBlockElement_Output outp h None true (NodeProcessor.m_Utxos p) in
  let p1 := NodeProcessor.set_Utxos u1 p in
  if negb ok1 then Ret (0, bc, res2, p1)
  else
    let res3 := push_Output outp res2 in
    let offset1 := scalar_add offset0 (scalar_neg (scalar_of sk)) in
    (* coinbase kernel *)
    let sk2 := CoinbaseKernel_Key (BlockContext.m_Kdf bc) h in
    let krn := TxKernel.mk (CoinbaseKernel_ID (BlockContext.m_Kdf bc) h)
                 (HeightRange.mk h (HeightModulus - 1)) in
    let '(ok2, k1) := HandleBlockElement_Kernel krn true false (NodeProcessor.m_Kernels p1) in
    let p2 := NodeProcessor.set_Kernels k1 p1 in
    if negb ok2 then Ret (0, bc, res3, p2)
    else
      let res4 := push_KernelOutput krn res3 in
      let offset2 := scalar_add offset1 (scalar_neg (scalar_of sk2)) in
      let nSize := SerializedSize res4 in
      let nSizeMax := Rules.MaxBodySize rules in
      if nSizeMax <? nSize then Ret (0, bc, res4, p2)
      else
        let p3 := if NodeProcessor.m_nSizeUtxoComission p2 =? 0
                  then NodeProcessor.set_nSizeUtxoComission SizeOfConfidentialOutput p2 else p2 in
        st ← pool_loop h (mkPoolLoop [] 0 nSize offset2 0 res4 p3) (BlockContext.m_TxPool bc);
        let bc1 := set_Hdr_Fees_Pool (BlockContext.m_Hdr bc) (pl_Fees st) (pl_Pool st) bc in
        (* the fees UTXO *)
        let '(okF, resF, offsetF, pF) :=
          if negb (pl_Fees st =? 0) then
            let '(outpF, skF) := Output_Create (BlockContext.m_Kdf bc) false (pl_Fees st) h in
            let '(ok, u) := HandleBlockElement_Output outpF h None true
                              (NodeProcessor.m_Utxos (pl_Proc st)) in
            if ok then (true, push_Output outpF (pl_Res st),
                        scalar_add (pl_Offset st) (scalar_neg (scalar_of skF)),
                        NodeProcessor.set_Utxos u (pl_Proc st))
            else (false, pl_Res st, pl_Offset st, NodeProcessor.set_Utxos u (pl_Proc st))
          else (true, pl_Res st, pl_Offset st, pl_Proc st) in
        if negb okF then Ret (0, bc1, resF, pF)
        else
          let cu := NodeProcessor.m_Cursor pF in
          let m_Prev := if StateID.m_Row (Cursor.m_Sid cu) =? 0 then 0
                        else SystemState.ID.m_Hash (Cursor.m_ID cu) in
          let pT := if Body.m_SubsidyClosing resF then ToggleSubsidyOpened pF else pF in
          let m_Definition := get_Definition pT true in
          let pE := if Body.m_SubsidyClosing resF then ToggleSubsidyOpened pT else pT in
          let m_ChainWork := Difficulty_Inc (Cursor.m_DifficultyNext cu)
                               (SystemState.Full.m_ChainWork (Cursor.m_Full cu)) in
          median ← get_MovingMedian pE;
          let tm := (median + 1) mod HeightModulus in
          let hdr := SystemState.Full.mk h m_Prev m_ChainWork m_Definition
                       (N.max now tm) (Cursor.m_DifficultyNext cu) in
          Ret (pl_Size st, set_Hdr_Fees_Pool hdr (pl_Fees st) (pl_Pool st) bc,
               set_Offset offsetF resF, pE).

(** [bool NodeProcessor::GenerateNewBlock(BlockContext&, Block::Body&, bool)].
    The accumulators are changed inside a store transaction that is dropped;
    the store itself is not written. *)
Definition GenerateNewBlock_from (now : Timestamp) (bc : BlockContext.t) (res : Body.t)
    (bInitiallyEmpty : bool) (p : NodeProcessor.t)
    : Outcome (bool * BlockContext.t * Body.t * NodeProcessor.t) :=
  let h := height_add (StateID.m_Height (Cursor.m_Sid (NodeProcessor.m_Cursor p))) 1 in
  if negb bInitiallyEmpty && negb (VerifyBlock p res (HeightRange.mk h h)) then Ret (false, bc, res, p)
  else
    '(ok0, res0, p0) ←
      (if bInitiallyEmpty then Ret (true, res, p)
       else '(ok, txv, p') ← HandleValidatedTx (Body.m_Txv res) h true true None p;
            Ret (ok, Body.set_Txv txv res, p'));
    if negb ok0 then Ret (false, bc, res0, p0)
    else
      '(nSizeEstimated, bc1, res1, p1) ← GenerateNewBlock_at now bc res0 h p0;
      (* undo changes *)
      '(_, txv2, p2) ← HandleValidatedTx (Body.m_Txv res1) h false false None p1;
      let res2 := Body.set_Txv txv2 res1 in
      if nSizeEstimated =? 0 then Ret (false, bc1, res2, p2)
      else
        let '(txv3, nCutThrough) := Normalize (Body.m_Txv res2) in
        let res3 := Body.set_Txv txv3 res2 in
        let m_Body := Serialize res3 in
        let bc2 := BlockContext.mk (BlockContext.m_Kdf bc1) (BlockContext.m_TxPool bc1)
                     (BlockContext.m_Hdr bc1) m_Body (BlockContext.m_Fees bc1) in
        Ret (N.of_nat (length m_Body) <=? Rules.MaxBodySize rules, bc2, res3, p2).

(** [Block::Body::ZeroInit] *)
Definition Body_ZeroInit : Body.t := Body.mk 0 0 false (TxVectors.mk [] [] [] []).

(** [bool NodeProcessor::GenerateNewBlock(BlockContext&)]: from scratch. The
    body is local to the call; it is given back next to the context so that
    what was serialized into [m_Body] can be named. *)
Definition GenerateNewBlock (now : Timestamp) (bc : BlockContext.t) (p : NodeProcessor.t)
    : Outcome (bool * BlockContext.t * Body.t * NodeProcessor.t) :=
  let block := Body.set_SubsidyClosing true Body_ZeroInit in
  GenerateNewBlock_from now bc block true p.

(** [bool NodeProcessor::GenerateNewBlock(BlockContext&, Block::Body&)]:
    from a body the caller has filled. *)
Definition GenerateNewBlock_seeded (now : Timestamp) (bc : BlockContext.t) (res : Body.t)
    (p : NodeProcessor.t) : Outcome (bool * BlockContext.t * Body.t * NodeProcessor.t) :=
  GenerateNewBlock_from now bc res false p.

End Processor.

(** ** Instances used to run the model *)

(** A small choice of collaborators: a maturity that is the height plus the
    incubation, hashes that add up, bodies of size one, a body blob
    whose bytes after the first are the commitments of its outputs. *)
Definition demo : Externals := {|
  rules := Rules.mk 1 10 3 1000 80 0 5;
  stale_count := 7;
  get_MinMaturity := fun v h => h + Output.m_Incubation v;
  IsInRange := fun r h => (HeightRange.m_Min r <=? h) && (h <=? HeightRange.m_Max r);
  ScalarOrder := 101;
  ScalarOrder_pos := eq_refl;
  Utxos_get_Hash := fun t => N.of_nat (size t);
  Kernels_get_Hash := fun k => N.of_nat (size k);
  Merkle_Interpret := fun a b _ => a + b;
  Deserialize := fun bb =>
    match bb with
    | [] => None
    | _ :: cs =>
        Some (Body.mk 0 0 false
                (TxVectors.mk [] ((fun c => Output.mk c false 0 0) <$> cs) [] []))
    end;
  Serialize := fun _ => [0];
  SerializedSize := fun _ => 1;
  SizeOfConfidentialOutput := 1;
  Body_IsValid := fun _ _ _ => true;
  State_get_Hash := fun s => SystemState.Full.m_Height s;
  Difficulty_Unpack := fun x => x;
  AdjustDifficulty := fun d _ _ => d;
  PredictedStatesHash := fun _ _ => 0;
  AdjustFossilEnd := fun h => h;
  Output_Create := fun _ cb _ h => (Output.mk 900 cb 0 0, 0);
  CoinbaseKernel_Key := fun _ _ => 0;
  CoinbaseKernel_ID := fun _ h => 1000 + h;
  Normalize := fun t => (t, 0)
|}.

(** ** Notions used in the statements *)

(** Two kernels next to each other in a vector carry the same identifier. *)
Definition adjacent_duplicate (vec : list TxKernel.t) : Prop :=
  exists i k1 k2, vec !! i = Some k1 /\ vec !! S i = Some k2 /\
                  TxKernel.get_ID k1 = TxKernel.get_ID k2.

(** The UTXO tree stores no zero and every count fits 32 bits. *)
Definition Utxos_wf (utxos : gmap (N * N) N) : Prop :=
  forall k n, utxos !! k = Some n -> 1 <= n < CountModulus.

(** The count of a key, zero when the tree has no leaf for it. *)
Definition count_at (utxos : gmap (N * N) N) (k : N * N) : N := default 0 (utxos !! k).

(** How many times a key occurs in a list of keys. *)
Fixpoint occ (k : N * N) (ks : list (N * N)) : N :=
  match ks with
  | [] => 0
  | x :: ks' => (if decide (x = k) then 1 else 0) + occ k ks'
  end.

(** The key an input stands for once its maturity is written in it. *)
Definition Input_key (v : Input.t) : N * N := (Input.m_Commitment v, Input.m_Maturity v).

Definition kernel_ids (l : list TxKernel.t) : list N := TxKernel.get_ID <$> l.

(** Each vector is short enough for the 32-bit counters of
    [HandleValidatedTx]. *)
Definition TxVectors_32bit (txv : TxVectors.t) : Prop :=
  N.of_nat (length (TxVectors.m_vInputs txv)) < CountModulus /\
  N.of_nat (length (TxVectors.m_vOutputs txv)) < CountModulus /\
  N.of_nat (length (TxVectors.m_vKernelsInput txv)) < CountModulus /\
  N.of_nat (length (TxVectors.m_vKernelsOutput txv)) < CountModulus.

(** I5: the subsidy is open exactly when the kernel tree does not hold the
    zero key. *)
Definition SubsidySentinel_ok (p : NodeProcessor.t) : Prop :=
  Extra.m_SubsidyOpen (NodeProcessor.m_Extra p) = true ↔ ZeroHash ∉ NodeProcessor.m_Kernels p.

(** No kernel of the vectors has the zero hash for identifier. *)
Definition no_zero_kernel (txv : TxVectors.t) : Prop :=
  (ZeroHash ∉ kernel_ids (TxVectors.m_vKernelsInput txv)) /\
  (ZeroHash ∉ kernel_ids (TxVectors.m_vKernelsOutput txv)).

(** [ZeroObject(m_Extra); m_Extra.m_SubsidyOpen = true] of [Initialize]. *)
Definition Initialize_Extra : Extra.t := Extra.mk 0 0 true.

(** The two moves of a leaf: one more, one less. *)
Definition one_more (k : N * N) (t t' : gmap (N * N) N) : Prop :=
  Utxos_wf t' /\ forall k', count_at t' k' = count_at t k' + (if decide (k = k') then 1 else 0).

Definition one_less (k : N * N) (t t' : gmap (N * N) N) : Prop :=
  Utxos_wf t' /\ forall k', count_at t' k' + (if decide (k = k') then 1 else 0) = count_at t k'.

(** The keys of the leaves a list of outputs goes to. *)
Definition Output_keys {E : Externals} (l : list Output.t) (h : Height) (pHMax : option Height)
    : list (N * N) :=
  omap (fun v => Output_key v h pHMax) l.

(** The fields of [m_Extra] hold values of their types: a 128-bit total
    and a scalar below the group order. *)
Definition Extra_wf {E : Externals} (e : Extra.t) : Prop :=
  Extra.m_Subsidy e < AmountBigModulus /\ Extra.m_Offset e < ScalarOrder.

(** A processor with an empty store, for running the interpreter on given
    accumulators. *)
Definition demo_processor (utxos : gmap (N * N) N) (kernels : gset N) (e : Extra.t)
    : NodeProcessor.t :=
  NodeProcessor.mk (NodeDB.mk ∅ (StateID.mk 0 0) None None None)
    (Cursor.mk (StateID.mk 0 0) (SystemState.Full.mk 0 0 0 0 0 0) (SystemState.ID.mk 0 0) 0 0 0 0)
    utxos kernels e (Horizon.mk 0 0) 0 [].

(** The timestamps of the last [n] headers of the chain that ends at [row],
    the latest first: fewer when the chain is shorter. *)
Fixpoint last_timestamps (n : nat) (db : NodeDB.t) (row : RowId) : list Timestamp :=
  match n with
  | O => []
  | S n' =>
      match NodeDB.m_States db !! row with
      | None => []
      | Some r =>
          SystemState.Full.m_TimeStamp (NodeDB.r_Hdr r)
          :: (if NodeDB.r_RowPrev r =? 0 then [] else last_timestamps n' db (NodeDB.r_RowPrev r))
      end
  end.

(** The median of a list: the element in the middle of the sorted list, the
    upper one of the two when the length is even. *)
Definition median_of (l : list Timestamp) : Timestamp :=
  default 0 (merge_sort N.le l !! (length l / 2)%nat).

(** A row as [PruneAt(h, true)] leaves it: no body, and not [Functional]
    unless it is [Active]. *)
Definition fossil_row (r : NodeDB.StateRow) : Prop :=
  NodeDB.r_Body r = [] /\ (NodeDB.r_Active r = false -> NodeDB.r_Functional r = false).

(** [r'] is the row [r] at a later moment of a pruning: same header, same
    parent, same [Active] flag, [Functional] only if it was, and still
    fossil if it was. *)
Definition row_later (r r' : NodeDB.StateRow) : Prop :=
  NodeDB.r_Hdr r' = NodeDB.r_Hdr r /\ NodeDB.r_RowPrev r' = NodeDB.r_RowPrev r /\
  NodeDB.r_Active r' = NodeDB.r_Active r /\
  (NodeDB.r_Functional r' = true -> NodeDB.r_Functional r = true) /\
  (fossil_row r -> fossil_row r').

(** Every row of [db'] is a row of [db] at a later moment (rows may have
    been deleted in between). *)
Definition db_later (db db' : NodeDB.t) : Prop :=
  forall row r', NodeDB.m_States db' !! row = Some r' ->
    exists r, NodeDB.m_States db !! row = Some r /\ row_later r r'.

(** The same store apart from the rows. *)
Definition same_params (db db' : NodeDB.t) : Prop :=
  NodeDB.m_Cursor db' = NodeDB.m_Cursor db /\
  NodeDB.p_CfgChecksum db' = NodeDB.p_CfgChecksum db /\
  NodeDB.p_LoHorizon db' = NodeDB.p_LoHorizon db /\
  NodeDB.p_FossilHeight db' = NodeDB.p_FossilHeight db.

(** The [FossilHeight] parameter, with the default [PruneOld] reads it with. *)
Definition FossilHeight_of {E : Externals} (db : NodeDB.t) : Height :=
  NodeDB.ParamIntGetDef db NodeDB.ParamID.FossilHeight (height_sub (Rules.HeightGenesis rules) 1).

(** The guard of the fossil part of [PruneOld] and the end it computes. *)
Definition fossil_guard {E : Externals} (p : NodeProcessor.t) : bool :=
  height_sub (height_add (Horizon.m_Schwarzschild (NodeProcessor.m_Horizon p))
                (Rules.HeightGenesis rules)) 1
  <? StateID.m_Height (Cursor.m_Sid (NodeProcessor.m_Cursor p)).

Definition fossil_end {E : Externals} (p : NodeProcessor.t) : Height :=
  AdjustFossilEnd
    (N.min (height_sub (StateID.m_Height (Cursor.m_Sid (NodeProcessor.m_Cursor p)))
              (Horizon.m_Schwarzschild (NodeProcessor.m_Horizon p)))
           (Cursor.m_LoHorizon (NodeProcessor.m_Cursor p))).

(** What [PruneAt(h, true)] does to one row. *)
Definition prune_row (r : NodeDB.StateRow) : NodeDB.StateRow :=
  NodeDB.set_RowPeer None
    (NodeDB.set_Body [] (if NodeDB.r_Active r then r else NodeDB.set_Functional false r)).

(** One round of the loop of [PruneAt] with [bDeleteBody] set. *)
Definition PruneAt_step {E : Externals} (acc : Outcome NodeDB.t) (sid : StateID.t) : Outcome NodeDB.t :=
  db ← acc;
  let row := StateID.m_Row sid in
  fl ← NodeDB.GetStateFlags (Rules.HeightGenesis rules) db row;
  db1 ← (if NodeDB.StateFlags.Active fl then Ret db else NodeDB.SetStateNotFunctional row db);
  db2 ← NodeDB.DelStateBlock row db1;
  NodeDB.set_Peer row None db2.

(** A small store for the pruning: the active chain of rows 1..4 at the
    heights 1..4, and row 5, a sibling of row 2 that is [Functional] and
    not [Active]. Every row has a body. *)
Definition fossil_hdr (h : Height) : SystemState.Full.t :=
  SystemState.Full.mk h 0 (10 * h) 0 (100 + h) 10.

Definition fossil_db : NodeDB.t :=
  NodeDB.mk
    {[ 1 := NodeDB.mkRow (fossil_hdr 1) 0 true true [1] [0] None;
       2 := NodeDB.mkRow (fossil_hdr 2) 1 true true [1] [0] None;
       3 := NodeDB.mkRow (fossil_hdr 3) 2 true true [1] [0] None;
       4 := NodeDB.mkRow (fossil_hdr 4) 3 true true [1] [0] None;
       5 := NodeDB.mkRow (fossil_hdr 2) 1 true false [1] [] (Some 9) ]}
    (StateID.mk 4 4) None (Some 3) None.

(** The processor on it: the cursor at height 4, [LoHorizon] 3, the
    branching horizon 10 and the Schwarzschild horizon 1. *)
Definition fossil_processor : NodeProcessor.t :=
  NodeProcessor.mk fossil_db
    (Cursor.mk (StateID.mk 4 4) (fossil_hdr 4) (SystemState.ID.mk 4 4) 0 0 3 10)
    ∅ ∅ (Extra.mk 0 0 true) (Horizon.mk 10 1) 0 [].

(** What [PruneOld] leaves of it. *)
Definition fossil_pruned : NodeProcessor.t :=
  match @PruneOld demo fossil_processor with
  | Ret p' => p'
  | _ => fossil_processor
  end.

(** The chainwork the cursor stands at. *)
Definition cursor_chainwork (p : NodeProcessor.t) : N :=
  SystemState.Full.m_ChainWork (Cursor.m_Full (NodeProcessor.m_Cursor p)).

(** "No [Functional] tip has chainwork strictly greater than the cursor":
    the states [EnumFunctionalTips] yields, with the chainwork the store
    has for them. *)
Definition best_tip_maximal {E : Externals} (p : NodeProcessor.t) : Prop :=
  forall sid w, sid ∈ NodeDB.EnumFunctionalTips (Rules.HeightGenesis rules) (NodeProcessor.m_DB p) ->
    NodeDB.get_ChainWork (NodeProcessor.m_DB p) (StateID.m_Row sid) = Ret w ->
    w <= cursor_chainwork p.

(** The header the cursor carries is the one the store has for its row. *)
Definition cursor_synced (p : NodeProcessor.t) : Prop :=
  forall r, NodeDB.m_States (NodeProcessor.m_DB p)
              !! StateID.m_Row (Cursor.m_Sid (NodeProcessor.m_Cursor p)) = Some r ->
            Cursor.m_Full (NodeProcessor.m_Cursor p) = NodeDB.r_Hdr r.

(** Row identifiers are not null. *)
Definition no_null_row (db : NodeDB.t) : Prop := NodeDB.m_States db !! 0 = None.

(** Every stored header has more chainwork than its stored parent. *)
Definition chainwork_grows (db : NodeDB.t) : Prop :=
  forall row r rp, NodeDB.m_States db !! row = Some r ->
    NodeDB.m_States db !! NodeDB.r_RowPrev r = Some rp ->
    SystemState.Full.m_ChainWork (NodeDB.r_Hdr rp) < SystemState.Full.m_ChainWork (NodeDB.r_Hdr r).

(** The header graph a reorg works on: the rows with their headers and
    parents are kept ([graph_kept]), and also their [Functional] flags
    ([graph_same]). *)
Definition kept_row (r r' : NodeDB.StateRow) : Prop :=
  NodeDB.r_Hdr r' = NodeDB.r_Hdr r /\ NodeDB.r_RowPrev r' = NodeDB.r_RowPrev r.

Definition same_row (r r' : NodeDB.StateRow) : Prop :=
  kept_row r r' /\ NodeDB.r_Functional r' = NodeDB.r_Functional r.

Definition graph_kept (db db' : NodeDB.t) : Prop :=
  forall row, option_Forall2 kept_row (NodeDB.m_States db !! row) (NodeDB.m_States db' !! row).

Definition graph_same (db db' : NodeDB.t) : Prop :=
  forall row, option_Forall2 same_row (NodeDB.m_States db !! row) (NodeDB.m_States db' !! row).

(** The row the cursor of the processor is on. *)
Definition cursor_row (p : NodeProcessor.t) : RowId :=
  StateID.m_Row (Cursor.m_Sid (NodeProcessor.m_Cursor p)).

(** A small store for the reorg engine. Rows 1..4 are the active chain at
    the heights 1..4 and the cursor is on row 4; row 5 continues it with a
    body that has not been interpreted yet. Row 6 is a sibling of row 2 with
    a body, of chainwork [wP]; row 7 builds on row 6 with a body, of
    chainwork [wX]; rows 8 and 9 are headers without bodies that build on
    row 6 and on row 8. *)
Definition reorg_hdr (h wrk def : N) : SystemState.Full.t :=
  SystemState.Full.mk h 0 wrk def (90 + 10 * h) 10.

Definition reorg_db (wP wX : N) : NodeDB.t :=
  NodeDB.mk
    {[ 1 := NodeDB.mkRow (reorg_hdr 1 10 0) 0 true true [1] [0] None;
       2 := NodeDB.mkRow (reorg_hdr 2 20 0) 1 true true [1] [0] None;
       3 := NodeDB.mkRow (reorg_hdr 3 30 0) 2 true true [1] [0] None;
       4 := NodeDB.mkRow (reorg_hdr 4 40 0) 3 true true [1] [0] None;
       5 := NodeDB.mkRow (reorg_hdr 5 50 1) 4 true false [1; 77] [] None;
       6 := NodeDB.mkRow (reorg_hdr 2 wP 0) 1 true false [1] [] None;
       7 := NodeDB.mkRow (reorg_hdr 3 wX 0) 6 true false [1] [] None;
       8 := NodeDB.mkRow (reorg_hdr 3 (wP + 10) 0) 6 false false [] [] None;
       9 := NodeDB.mkRow (reorg_hdr 4 (wP + 20) 0) 8 false false [] [] None ]}
    (StateID.mk 4 4) None None None.

(** The processor on it, with the branching horizon 1. *)
Definition reorg_processor (wP wX : N) : NodeProcessor.t :=
  NodeProcessor.mk (reorg_db wP wX)
    (Cursor.mk (StateID.mk 4 4) (reorg_hdr 4 40 0) (SystemState.ID.mk 4 4) 0 0 0 10)
    ∅ ∅ (Extra.mk 0 0 true) (Horizon.mk 1 100) 0 [].

(** What [TryGoUp] makes of it. *)
Definition reorg_result (wP wX : N) : NodeProcessor.t :=
  match @TryGoUp demo 10 (reorg_processor wP wX) with
  | Ret p' => p'
  | _ => reorg_processor wP wX
  end.

(** What [HandleBlock] makes of it for row 5. *)
Definition reorg_block5 : NodeProcessor.t :=
  match @HandleBlock demo (StateID.mk 5 5) true (reorg_processor 15 25) with
  | Ret (_, p') => p'
  | _ => reorg_processor 15 25
  end.

(** [chainwork_grows] as a check of every row. *)
Definition chainwork_grows_row (m : gmap N NodeDB.StateRow) (r : NodeDB.StateRow) : bool :=
  match m !! NodeDB.r_RowPrev r with
  | Some rp => SystemState.Full.m_ChainWork (NodeDB.r_Hdr rp)
               <? SystemState.Full.m_ChainWork (NodeDB.r_Hdr r)
  | None => true
  end.

(** The small store after one step of a reorg: [GoForward] onto row 5, the
    [Rollback] of it, a [GoForward] onto row 6 that is refused, the reorg
    loop run to its end, and the cursor read again by [InitCursor]. *)
Definition reorg_forward5 : NodeProcessor.t :=
  match @GoForward demo 5 (reorg_processor 15 25) with
  | Ret (_, p') => p'
  | _ => reorg_processor 15 25
  end.

Definition reorg_back5 : NodeProcessor.t :=
  match @Rollback demo reorg_forward5 with
  | Ret p' => p'
  | _ => reorg_forward5
  end.

Definition reorg_refused6 : NodeProcessor.t :=
  match @GoForward demo 6 (reorg_processor 1000 5) with
  | Ret (_, p') => p'
  | _ => reorg_processor 1000 5
  end.

Definition reorg_loop_end : NodeProcessor.t :=
  match @TryGoUp_loop demo 10 10 false (reorg_processor 1000 5) with
  | Ret (_, p') => p'
  | _ => reorg_processor 1000 5
  end.

Definition reorg_cursor : NodeProcessor.t :=
  match @InitCursor demo (reorg_processor 15 25) with
  | Ret p' => p'
  | _ => reorg_processor 15 25
  end.

(** [NodeProcessor::Horizon::Horizon()]: both horizons start as
    [Height(-1)]. *)
Definition Horizon_default : Horizon.t := Horizon.mk (HeightModulus - 1) (HeightModulus - 1).

(** The [Active] rows of [db] are still in [db'], with their headers,
    parents, flags and journals. *)
Definition active_kept (db db' : NodeDB.t) : Prop :=
  forall row r, NodeDB.m_States db !! row = Some r -> NodeDB.r_Active r = true ->
    exists r', NodeDB.m_States db' !! row = Some r'
      /\ NodeDB.r_Hdr r' = NodeDB.r_Hdr r /\ NodeDB.r_RowPrev r' = NodeDB.r_RowPrev r
      /\ NodeDB.r_Active r' = true /\ NodeDB.r_Functional r' = NodeDB.r_Functional r
      /\ NodeDB.r_Rollback r' = NodeDB.r_Rollback r.

(** The guard of the branch part of [PruneOld] and the height below which
    it drops tips. *)
Definition branch_guard {E : Externals} (p : NodeProcessor.t) : bool :=
  height_sub (height_add (Horizon.m_Branching (NodeProcessor.m_Horizon p))
                (Rules.HeightGenesis rules)) 1
  <? StateID.m_Height (Cursor.m_Sid (NodeProcessor.m_Cursor p)).

Definition branch_end (p : NodeProcessor.t) : Height :=
  height_sub (StateID.m_Height (Cursor.m_Sid (NodeProcessor.m_Cursor p)))
             (Horizon.m_Branching (NodeProcessor.m_Horizon p)).

(** The small store for the pruning, with the branching horizon 1: row 5
    is a tip three heights below the cursor. *)
Definition branch_processor : NodeProcessor.t :=
  NodeProcessor.mk fossil_db
    (Cursor.mk (StateID.mk 4 4) (fossil_hdr 4) (SystemState.ID.mk 4 4) 0 0 3 10)
    ∅ ∅ (Extra.mk 0 0 true) (Horizon.mk 1 100) 0 [].

Definition branch_pruned : NodeProcessor.t :=
  match @PruneOld demo branch_processor with
  | Ret p' => p'
  | _ => branch_processor
  end.

(** The coins of a commitment that have matured by the height [h]: the
    counts of the leaves the traversal of [(c, 0) .. (c, h)] meets, added
    up. *)
Definition matured (utxos : gmap (N * N) N) (c : Commitment) (h : Height) : N :=
  foldr (fun x acc => x.2 + acc) 0 (leaves_between utxos (c, 0) (c, h)).

(** A block context with two transactions in its mempool, one of them
    larger than a body, and what [GenerateNewBlock(bc, res, h)] makes of it
    on the small store at the height 5. *)
Definition template_context : BlockContext.t :=
  BlockContext.mk 9
    [ TxPool.mkElement 0 3 2
        (Transaction.mk 7 (TxVectors.mk [] [] [] [TxKernel.mk 31 (HeightRange.mk 0 100)]));
      TxPool.mkElement 0 4 5000 (Transaction.mk 0 (TxVectors.mk [] [] [] [])) ]
    (SystemState.Full.mk 0 0 0 0 0 0) [] 0.

Definition template_result : N * BlockContext.t * Body.t * NodeProcessor.t :=
  match @GenerateNewBlock_at demo 50 template_context
          (Body.set_SubsidyClosing true Body_ZeroInit) 5 (reorg_processor 15 25) with
  | Ret v => v
  | _ => (0, template_context, Body_ZeroInit, reorg_processor 15 25)
  end.

(** ** Ingress: headers and bodies from peers, and requests to them *)

Module DataStatus.
Inductive Enum := Accepted | Rejected | Invalid | Unreachable.
End DataStatus.

(** The virtual hooks [OnStateData] and [OnBlockData], as they are called. *)
Inductive Notice := OnStateData | OnBlockData.

(** A call of the virtual hook [RequestData(id, bBlock, pPreferredPeer)]. *)
Record Request := mkRequest {
  rq_ID : SystemState.ID.t;
  rq_bBlock : bool;
  rq_Peer : option PeerID
}.

(** What the admission of a header takes from outside [processor.cpp]: the
    standalone checks of a header, the bound of the rules on a timestamp
    ahead of the clock, the virtual hook [ApproveState] and the insertion of
    a header into the store, which answers the row. *)
Class Admission := {
  IsSane : SystemState.Full.t -> bool;
  IsValidPoW : SystemState.Full.t -> bool;
  TimestampAheadThreshold_s : N;
  ApproveState : SystemState.ID.t -> bool;
  InsertState : SystemState.Full.t -> NodeDB.t -> Outcome (RowId * NodeDB.t)
}.

(** [NodeProcessor::IsRemoteTipNeeded] *)
Definition IsRemoteTipNeeded (sTipRemote sTipMy : SystemState.Full.t) : bool :=
  match SystemState.Full.m_ChainWork sTipMy ?= SystemState.Full.m_ChainWork sTipRemote with
  | Gt => false
  | Lt => true
  | Eq => negb (SystemState.Full.m_Definition sTipMy =? SystemState.Full.m_Definition sTipRemote)
  end.

Section Ingress.
Context {E : Externals} {A : Admission}.

Definition ID_eqb (a b : SystemState.ID.t) : bool :=
  (SystemState.ID.m_Height a =? SystemState.ID.m_Height b)
  && (SystemState.ID.m_Hash a =? SystemState.ID.m_Hash b).

(** Modelled from the spec: the header graph is "keyed by header hash" and
    the store has the operation [state_find]. [StateFindSafe] answers the
    row of a stored header with the identifier, 0 when there is none. *)
Definition StateFindSafe (db : NodeDB.t) (id : SystemState.ID.t) : RowId :=
  match filter (fun x : N * NodeDB.StateRow => ID_eqb (get_ID (NodeDB.r_Hdr x.2)) id = true)
               (map_to_list (NodeDB.m_States db)) with
  | x :: _ => x.1
  | [] => 0
  end.

(** Modelled from the spec: the identifier the store answers for a
    [StateID], its height with the hash of the header stored in its row. *)
Definition get_StateID (db : NodeDB.t) (sid : StateID.t) : Outcome SystemState.ID.t :=
  r ← NodeDB.get_Row db (StateID.m_Row sid);
  Ret (SystemState.ID.mk (StateID.m_Height sid) (State_get_Hash (NodeDB.r_Hdr r))).

(** [NodeProcessor::OnStateInternal]: the status, and the identifier it
    computes; [now] is what [getTimestamp()] answers. *)
Definition OnStateInternal (now : Timestamp) (s : SystemState.Full.t) (p : NodeProcessor.t)
    : DataStatus.Enum * SystemState.ID.t :=
  let id := get_ID s in
  if negb (IsSane s) then (DataStatus.Invalid, id)
  else if negb (IsValidPoW s) then (DataStatus.Invalid, id)
  else if (now <? SystemState.Full.m_TimeStamp s)
          && (TimestampAheadThreshold_s <? SystemState.Full.m_TimeStamp s - now)
  then (DataStatus.Invalid, id)
  else if negb (ApproveState id) then (DataStatus.Invalid, id)
  else if SystemState.Full.m_Height s <? Cursor.m_LoHorizon (NodeProcessor.m_Cursor p)
  then (DataStatus.Unreachable, id)
  else if negb (StateFindSafe (NodeProcessor.m_DB p) id =? 0) then (DataStatus.Rejected, id)
  else (DataStatus.Accepted, id).

(** [NodeProcessor::OnState]: the status, the hooks called, the processor. *)
Definition OnState (now : Timestamp) (s : SystemState.Full.t) (peer : PeerID)
    (p : NodeProcessor.t) : Outcome (DataStatus.Enum * list Notice * NodeProcessor.t) :=
  let '(ret, id) := OnStateInternal now s p in
  p' ← match ret with
       | DataStatus.Accepted =>
           '(rowid, db1) ← InsertState s (NodeProcessor.m_DB p);
           db2 ← NodeDB.set_Peer rowid (Some peer) db1;
           Ret (NodeProcessor.set_DB db2 p)
       | _ => Ret p
       end;
  Ret (ret, [OnStateData], p').

(** [NodeProcessor::OnBlock]; [fuel] bounds the loops of [TryGoUp]. *)
Definition OnBlock (fuel : nat) (id : SystemState.ID.t) (block : ByteBuffer) (peer : PeerID)
    (p : NodeProcessor.t) : Outcome (DataStatus.Enum * list Notice * NodeProcessor.t) :=
  let db := NodeProcessor.m_DB p in
  if Rules.MaxBodySize rules <? N.of_nat (length block)
  then Ret (DataStatus.Invalid, [OnBlockData], p)
  else
    let rowid := StateFindSafe db id in
    if rowid =? 0 then Ret (DataStatus.Rejected, [OnBlockData], p)
    else
      flags ← NodeDB.GetStateFlags (Rules.HeightGenesis rules) db rowid;
      if NodeDB.StateFlags.Functional flags then Ret (DataStatus.Rejected, [OnBlockData], p)
      else if SystemState.ID.m_Height id <? Cursor.m_LoHorizon (NodeProcessor.m_Cursor p)
      then Ret (DataStatus.Unreachable, [OnBlockData], p)
      else
        db1 ← NodeDB.SetStateBlock rowid block db;
        db2 ← NodeDB.SetStateFunctional rowid db1;
        db3 ← NodeDB.set_Peer rowid (Some peer) db2;
        flags' ← NodeDB.GetStateFlags (Rules.HeightGenesis rules) db3 rowid;
        p' ← (if NodeDB.StateFlags.Reachable flags'
              then TryGoUp fuel (NodeProcessor.set_DB db3 p)
              else Ret (NodeProcessor.set_DB db3 p));
        Ret (DataStatus.Accepted, [OnBlockData], p').

(** The inner loop of [EnumCongestions], from a state that is not
    [Reachable] towards its first [Reachable] ancestor: the state it stops
    on and [bBlock]. Each step to a parent takes one of [fuel]. *)
Fixpoint congestion_walk (fuel : nat) (db : NodeDB.t) (sid : StateID.t)
    : Outcome (StateID.t * bool) :=
  if Rules.HeightGenesis rules <? StateID.m_Height sid then
    '(ok, sidPrev) ← NodeDB.get_Prev db sid;
    if negb ok then Ret (sid, false)
    else
      flags ← NodeDB.GetStateFlags (Rules.HeightGenesis rules) db (StateID.m_Row sidPrev);
      if NodeDB.StateFlags.Reachable flags then Ret (sid, true)
      else
        match fuel with
        | O => OutOfFuel
        | S fuel' => congestion_walk fuel' db sidPrev
        end
  else Ret (sid, true).

(** One round of the loop of [EnumCongestions] over the tips: the request
    made for the tip [sid], if one is made. *)
Definition congestion_of (fuel : nat) (p : NodeProcessor.t) (sid : StateID.t)
    : Outcome (option Request) :=
  let db := NodeProcessor.m_DB p in
  let cu := NodeProcessor.m_Cursor p in
  flags ← NodeDB.GetStateFlags (Rules.HeightGenesis rules) db (StateID.m_Row sid);
  if NodeDB.StateFlags.Reachable flags then Ret None
  else
    wrk ← NodeDB.get_ChainWork db (StateID.m_Row sid);
    if wrk <? SystemState.Full.m_ChainWork (Cursor.m_Full cu) then Ret None
    else
      '(sid1, bBlock) ← congestion_walk fuel db sid;
      id ← (if bBlock : bool then get_StateID db sid1
            else s ← NodeDB.get_State db (StateID.m_Row sid1);
                 Ret (SystemState.ID.mk (height_sub (SystemState.Full.m_Height s) 1)
                        (SystemState.Full.m_Prev s)));
      if Cursor.m_LoHorizon cu <=? SystemState.ID.m_Height id then
        peer ← NodeDB.get_Peer db (StateID.m_Row sid1);
        Ret (Some (mkRequest id bBlock peer))
      else Ret None.

(** [NodeProcessor::EnumCongestions]: the calls of [RequestData], in order. *)
Definition EnumCongestions (fuel : nat) (p : NodeProcessor.t) : Outcome (list Request) :=
  foldl (fun acc sid => reqs ← acc; o ← congestion_of fuel p sid;
                        Ret (reqs ++ match o with Some rq => [rq] | None => [] end))
        (Ret []) (NodeDB.EnumTips (NodeProcessor.m_DB p)).

End Ingress.

(** A choice of the collaborators of the admission: a header is sane above
    the height 0, a proof of work is valid with a difficulty that is not 0,
    two hours ahead are allowed, every state is approved, and a header is
    inserted in the next free row under the stored header it names. *)
Definition demo_admission : Admission := {|
  IsSane := fun s => 0 <? SystemState.Full.m_Height s;
  IsValidPoW := fun s => negb (SystemState.Full.m_PoW_Difficulty s =? 0);
  TimestampAheadThreshold_s := 7200;
  ApproveState := fun _ => true;
  InsertState := fun s db =>
    let row := N.of_nat (size (NodeDB.m_States db)) + 1 in
    let prev := @StateFindSafe demo db
                  (SystemState.ID.mk (SystemState.Full.m_Height s - 1)
                     (SystemState.Full.m_Prev s)) in
    Ret (row, NodeDB.set_States
                (<[row := NodeDB.mkRow s prev false false [] [] None]> (NodeDB.m_States db)) db)
|}.

(** The small store where the state of the height 5 has no body yet, with
    one more header, of the height 8, that came from the peer 9 and whose
    parent is not stored. *)
Definition ingress_processor : NodeProcessor.t :=
  let p := reorg_processor 15 25 in
  let db := NodeProcessor.m_DB p in
  NodeProcessor.set_DB
    (NodeDB.set_States
       (<[5 := NodeDB.mkRow (reorg_hdr 5 50 1) 4 false false [] [] None]>
          (<[10 := NodeDB.mkRow (SystemState.Full.mk 8 7 80 0 170 10) 0 false false [] [] (Some 9)]>
             (NodeDB.m_States db))) db) p.

(** A header for the height 6, and what [OnState] makes of it at the time
    1000 from the peer 42. *)
Definition ingress_header : SystemState.Full.t := SystemState.Full.mk 6 5 60 0 150 10.

Definition ingress_state : NodeProcessor.t :=
  match @OnState demo demo_admission 1000 ingress_header 42 ingress_processor with
  | Ret (_, _, p') => p'
  | _ => ingress_processor
  end.

(** What [OnBlock] makes of a body for the header of the height 5. *)
Definition ingress_block : NodeProcessor.t :=
  match @OnBlock demo 10 (SystemState.ID.mk 5 5) [1; 77] 42 ingress_processor with
  | Ret (_, _, p') => p'
  | _ => ingress_processor
  end.

(** The requests [EnumCongestions] makes on it. *)
Definition congestion_requests : list Request :=
  match @EnumCongestions demo 10 ingress_processor with
  | Ret l => l
  | _ => []
  end.

(** No kernel identifier of the vectors is both consumed and created. *)
Definition kernels_apart (txv : TxVectors.t) : Prop :=
  forall id, id ∈ kernel_ids (TxVectors.m_vKernelsInput txv) ->
             id ∉ kernel_ids (TxVectors.m_vKernelsOutput txv).

(** The kernel vectors of [B'] begin with those of [B]. *)
Definition kernels_prefix (B B' : TxVectors.t) : Prop :=
  TxVectors.m_vKernelsInput B `prefix_of` TxVectors.m_vKernelsInput B'
  /\ TxVectors.m_vKernelsOutput B `prefix_of` TxVectors.m_vKernelsOutput B'.

(** The processor [q] is [p0] after the elements of [B] have been
    interpreted forward at the height [h], the inputs of [B] carrying the
    maturities found: the counts of the UTXO tree and the kernel tree are
    those of [p0] with the elements of [B] accounted for, and nothing else
    differs but the cached size of a commission output. *)
Definition templated {E : Externals} (h : Height) (p0 : NodeProcessor.t) (B : TxVectors.t)
    (q : NodeProcessor.t) : Prop :=
  let K0 := NodeProcessor.m_Kernels p0 in
  let kin := kernel_ids (TxVectors.m_vKernelsInput B) in
  let kout := kernel_ids (TxVectors.m_vKernelsOutput B) in
  Utxos_wf (NodeProcessor.m_Utxos q)
  /\ Forall (fun v => is_Some (Output_key v h None)) (TxVectors.m_vOutputs B)
  /\ (forall k, count_at (NodeProcessor.m_Utxos q) k
                + occ k (Input_key <$> TxVectors.m_vInputs B)
                = count_at (NodeProcessor.m_Utxos p0) k
                  + occ k (Output_keys (TxVectors.m_vOutputs B) h None))
  /\ NodeProcessor.m_Kernels q = (K0 ∖ list_to_set kin) ∪ list_to_set kout
  /\ NoDup kin /\ (forall id, id ∈ kin -> id ∈ K0)
  /\ NoDup kout /\ (forall id, id ∈ kout -> id ∉ K0)
  /\ q = NodeProcessor.mk (NodeProcessor.m_DB p0) (NodeProcessor.m_Cursor p0)
           (NodeProcessor.m_Utxos q) (NodeProcessor.m_Kernels q) (NodeProcessor.m_Extra p0)
           (NodeProcessor.m_Horizon p0) (NodeProcessor.m_nSizeUtxoComission q)
           (NodeProcessor.m_Events p0).

(** ** UTXO recovery *)

(** The loops of [IUtxoWalker::OnBlock]: each stops at the first element
    whose handler answers [false]. *)
Fixpoint walk_elements {A S : Type} (f : A -> S -> bool * S) (l : list A) (s : S) : bool * S :=
  match l with
  | [] => (true, s)
  | x :: l' => let '(ok, s1) := f x s in if ok : bool then walk_elements f l' s1 else (false, s1)
  end.

(** [IUtxoWalker::OnBlock] over the handlers [OnInput] and [OnOutput] of the
    walker: the header of the block is fetched into [m_Hdr] (zeroed for the
    row 0), then the inputs are walked, then the outputs. *)
Definition IUtxoWalker_OnBlock {S : Type} (OnInput : Input.t -> S -> bool * S)
    (OnOutput : Output.t -> S -> bool * S) (db : NodeDB.t) (txv : TxVectors.t) (rowid : RowId)
    (w : SystemState.Full.t * S) : Outcome (bool * (SystemState.Full.t * S)) :=
  m_Hdr ← (if negb (rowid =? 0) then NodeDB.get_State db rowid else Ret ZeroFull);
  let '(ok1, s1) := walk_elements OnInput (TxVectors.m_vInputs txv) w.2 in
  if negb ok1 then Ret (false, (m_Hdr, s1))
  else
    let '(ok2, s2) := walk_elements OnOutput (TxVectors.m_vOutputs txv) s1 in
    Ret (ok2, (m_Hdr, s2)).

Section UtxoRecover.
(** What the recovery takes from outside [processor.cpp]: the key
    identifiers ([Key::IDV]), the keys of the owner with [Output::Recover],
    and the modulus of the counter of a recovered value. *)
Variables (KIDV OwnerKey : Type) (Recover : Output.t -> OwnerKey -> option KIDV)
  (RecoverModulus : N).

(** [UtxoRecoverEx::Value] *)
Record RecoverValue := mkRecoverValue { m_Kidv : KIDV; m_iKey : N; m_Count : N }.

(** [UtxoRecoverEx::OnOutput(iKey, kidv, x)]. A key that [m_Map[...]]
    creates holds the count 0, so it takes the branch of a new value. *)
Definition UtxoRecoverEx_OnOutput (iKey : N) (kidv : KIDV) (x : Output.t)
    (m_Map : gmap Commitment RecoverValue) : bool * gmap Commitment RecoverValue :=
  let c := Output.m_Commitment x in
  match m_Map !! c with
  | Some v0 =>
      if negb (m_Count v0 =? 0)
      then (true, <[c := mkRecoverValue (m_Kidv v0) (m_iKey v0)
                           ((m_Count v0 + 1) mod RecoverModulus)]> m_Map)
      else (true, <[c := mkRecoverValue kidv iKey 1]> m_Map)
  | None => (true, <[c := mkRecoverValue kidv iKey 1]> m_Map)
  end.

(** [UtxoRecoverEx::OnInput] *)
Definition UtxoRecoverEx_OnInput (x : Input.t) (m_Map : gmap Commitment RecoverValue)
    : bool * gmap Commitment RecoverValue :=
  let c := Input.m_Commitment x in
  match m_Map !! c with
  | Some v =>
      let n := (m_Count v + (RecoverModulus - 1)) mod RecoverModulus in
      if n =? 0 then (true, delete c m_Map)
      else (true, <[c := mkRecoverValue (m_Kidv v) (m_iKey v) n]> m_Map)
  | None => (true, m_Map)
  end.

(** The loop of [UtxoRecoverSimple::OnOutput(x)] from the key [iKey] on: the
    first key that recovers the output hands it to the handler
    [OnOutput(iKey, kidv, x)] of the walker; an output no key recovers is
    passed over. *)
Fixpoint UtxoRecoverSimple_OnOutput_from {S : Type}
    (OnOutput3 : N -> KIDV -> Output.t -> S -> bool * S)
    (iKey : N) (m_vKeys : list OwnerKey) (x : Output.t) (s : S) : bool * S :=
  match m_vKeys with
  | [] => (true, s)
  | key :: rest =>
      match Recover x key with
      | Some kidv => OnOutput3 iKey kidv x s
      | None => UtxoRecoverSimple_OnOutput_from OnOutput3 (iKey + 1) rest x s
      end
  end.

(** [UtxoRecoverSimple::OnOutput(x)] *)
Definition UtxoRecoverSimple_OnOutput {S : Type}
    (OnOutput3 : N -> KIDV -> Output.t -> S -> bool * S)
    (m_vKeys : list OwnerKey) (x : Output.t) (s : S) : bool * S :=
  UtxoRecoverSimple_OnOutput_from OnOutput3 0 m_vKeys x s.

(** [IUtxoWalker::OnBlock] of a [UtxoRecoverEx]. *)
Definition UtxoRecoverEx_OnBlock (m_vKeys : list OwnerKey) (db : NodeDB.t) (txv : TxVectors.t)
    (rowid : RowId) (w : SystemState.Full.t * gmap Commitment RecoverValue)
    : Outcome (bool * (SystemState.Full.t * gmap Commitment RecoverValue)) :=
  IUtxoWalker_OnBlock UtxoRecoverEx_OnInput
    (UtxoRecoverSimple_OnOutput UtxoRecoverEx_OnOutput m_vKeys) db txv rowid w.

(** The count the map holds for a commitment, zero when it has none. *)
Definition recover_count (m : gmap Commitment RecoverValue) (c : Commitment) : N :=
  match m !! c with Some v => m_Count v | None => 0 end.

(** Every value of the map counts at least one coin. *)
Definition recover_wf (m : gmap Commitment RecoverValue) : Prop :=
  forall c v, m !! c = Some v -> 1 <= m_Count v < RecoverModulus.

(** An output one of the keys recovers. *)
Definition recovered (m_vKeys : list OwnerKey) (x : Output.t) : bool :=
  existsb (fun key => bool_decide (is_Some (Recover x key))) m_vKeys.

(** The inputs on a commitment, and the recovered outputs on it. *)
Definition inputs_on (c : Commitment) (l : list Input.t) : N :=
  N.of_nat (length (filter (fun x => Input.m_Commitment x = c) l)).

Definition outputs_on (m_vKeys : list OwnerKey) (c : Commitment) (l : list Output.t) : N :=
  N.of_nat (length (filter (fun x => Output.m_Commitment x = c /\ recovered m_vKeys x = true) l)).

End UtxoRecover.

Arguments mkRecoverValue {KIDV}.
Arguments m_Kidv {KIDV}.
Arguments m_iKey {KIDV}.
Arguments m_Count {KIDV}.
Arguments UtxoRecoverEx_OnOutput {KIDV}.
Arguments UtxoRecoverEx_OnInput {KIDV}.
Arguments UtxoRecoverSimple_OnOutput_from {KIDV OwnerKey} Recover {S}.
Arguments UtxoRecoverSimple_OnOutput {KIDV OwnerKey} Recover {S}.
Arguments UtxoRecoverEx_OnBlock {KIDV OwnerKey}.
Arguments recover_count {KIDV}.
Arguments recover_wf {KIDV}.
Arguments recovered {KIDV OwnerKey}.
Arguments outputs_on {KIDV OwnerKey}.

(** A recovery with one key that recovers the outputs of an even
    commitment, on a map of two commitments, and a block that spends both
    and one more and creates three outputs. *)
Definition recovery_Recover (x : Output.t) (key : N) : option N :=
  if Output.m_Commitment x mod 2 =? key then Some (Output.m_Commitment x + 100) else None.

Definition recovery_map : gmap Commitment (RecoverValue N) :=
  {[ 4 := mkRecoverValue 104 0 1; 6 := mkRecoverValue 106 0 2 ]}.

Definition recovery_block : TxVectors.t :=
  TxVectors.mk [Input.mk 4 0; Input.mk 6 0; Input.mk 9 0]
    [Output.mk 8 false 0 0; Output.mk 7 false 0 0; Output.mk 6 false 0 0] [] [].

Definition recovery_result : gmap Commitment (RecoverValue N) :=
  match UtxoRecoverEx_OnBlock recovery_Recover (2 ^ 32) [0] (reorg_db 15 25) recovery_block 0
          (ZeroFull, recovery_map) with
  | Ret (_, (_, m')) => m'
  | _ => recovery_map
  end.

(** The rows a walk of at most [n] steps finds [Reachable]. *)
Definition reach_set (HG : Height) (m : gmap N NodeDB.StateRow) (n : nat) : gset N :=
  dom (filter (fun x : N * NodeDB.StateRow => NodeDB.reachable_in HG m n x.1 = true) m).

(** The outputs of the transactions of a mempool, counted. *)
Definition pool_outputs (pool : list TxPool.Element) : nat :=
  foldr (fun x acc => (length (TxVectors.m_vOutputs (Transaction.m_Txv (TxPool.m_pValue x)))
                       + acc)%nat) 0%nat pool.

(** A mempool [GenerateNewBlock] is sure to undo: its transactions are
    short enough for the 32-bit counters, consume no kernels and create none
    with the zero key. *)
Definition pool_plain (pool : list TxPool.Element) : Prop :=
  Forall (fun x =>
            let txv := Transaction.m_Txv (TxPool.m_pValue x) in
            TxVectors_32bit txv
            /\ TxVectors.m_vKernelsInput txv = []
            /\ (ZeroHash ∉ kernel_ids (TxVectors.m_vKernelsOutput txv))) pool.

(** What a body built from such a mempool looks like: no input kernels, no
    output kernel with the zero key, and at most [n] outputs. *)
Definition body_plain (n : nat) (b : Body.t) : Prop :=
  TxVectors.m_vKernelsInput (Body.m_Txv b) = []
  /\ (ZeroHash ∉ kernel_ids (TxVectors.m_vKernelsOutput (Body.m_Txv b)))
  /\ (length (TxVectors.m_vOutputs (Body.m_Txv b)) <= n)%nat.

(** What [GenerateNewBlock(bc)] makes of that context on the small store. *)
Definition template_built : bool * BlockContext.t * Body.t * NodeProcessor.t :=
  match @GenerateNewBlock demo 50 template_context (reorg_processor 15 25) with
  | Ret v => v
  | _ => (false, template_context, Body_ZeroInit, reorg_processor 15 25)
  end.

(** The stored headers are higher than their stored parents. *)
Definition heights_grow (db : NodeDB.t) : Prop :=
  forall row r rp, NodeDB.m_States db !! row = Some r ->
    NodeDB.m_States db !! NodeDB.r_RowPrev r = Some rp ->
    SystemState.Full.m_Height (NodeDB.r_Hdr rp) < SystemState.Full.m_Height (NodeDB.r_Hdr r).

(** Below the height [h] the active chain goes on: every [Active] state
    lower than [h] has an [Active] successor. *)
Definition active_supported (h : Height) (db : NodeDB.t) : Prop :=
  forall row r, NodeDB.m_States db !! row = Some r -> NodeDB.r_Active r = true ->
    SystemState.Full.m_Height (NodeDB.r_Hdr r) < h ->
    exists c rc, NodeDB.m_States db !! c = Some rc /\ NodeDB.r_RowPrev rc = row
                 /\ NodeDB.r_Active rc = true.

(** [heights_grow] and [active_supported] as checks of every row. *)
Definition heights_grow_row (m : gmap N NodeDB.StateRow) (r : NodeDB.StateRow) : bool :=
  match m !! NodeDB.r_RowPrev r with
  | Some rp => SystemState.Full.m_Height (NodeDB.r_Hdr rp)
               <? SystemState.Full.m_Height (NodeDB.r_Hdr r)
  | None => true
  end.

Definition active_supported_row (h : Height) (m : gmap N NodeDB.StateRow) (row : RowId)
    (r : NodeDB.StateRow) : bool :=
  negb (NodeDB.r_Active r)
  || negb (SystemState.Full.m_Height (NodeDB.r_Hdr r) <? h)
  || existsb (fun x : N * NodeDB.StateRow =>
                (NodeDB.r_RowPrev x.2 =? row) && NodeDB.r_Active x.2) (map_to_list m).

(** The collaborators of [demo] with a richer body blob: its first three
    bytes count the inputs, the outputs and the input kernels; the bytes
    after them are the commitments of the inputs, the commitments of the
    outputs, the identifiers of the input kernels and, for the rest, those
    of the output kernels. *)
Definition spending_body (bb : ByteBuffer) : option Body.t :=
  match bb with
  | nIn :: nOut :: nKin :: cs =>
      let cs1 := drop (N.to_nat nIn) cs in
      let cs2 := drop (N.to_nat nOut) cs1 in
      Some (Body.mk 0 0 false
              (TxVectors.mk
                 ((fun c => Input.mk c 0) <$> take (N.to_nat nIn) cs)
                 ((fun c => Output.mk c false 0 0) <$> take (N.to_nat nOut) cs1)
                 ((fun i => TxKernel.mk i (HeightRange.mk 0 0)) <$> take (N.to_nat nKin) cs2)
                 ((fun i => TxKernel.mk i (HeightRange.mk 0 0)) <$> drop (N.to_nat nKin) cs2)))
  | _ => None
  end.

Definition demo_spending : Externals := {|
  rules := @rules demo;
  stale_count := @stale_count demo;
  get_MinMaturity := @get_MinMaturity demo;
  IsInRange := @IsInRange demo;
  ScalarOrder := @ScalarOrder demo;
  ScalarOrder_pos := @ScalarOrder_pos demo;
  Utxos_get_Hash := @Utxos_get_Hash demo;
  Kernels_get_Hash := @Kernels_get_Hash demo;
  Merkle_Interpret := @Merkle_Interpret demo;
  Deserialize := spending_body;
  Serialize := @Serialize demo;
  SerializedSize := @SerializedSize demo;
  SizeOfConfidentialOutput := @SizeOfConfidentialOutput demo;
  Body_IsValid := @Body_IsValid demo;
  State_get_Hash := @State_get_Hash demo;
  Difficulty_Unpack := @Difficulty_Unpack demo;
  AdjustDifficulty := @AdjustDifficulty demo;
  PredictedStatesHash := @PredictedStatesHash demo;
  AdjustFossilEnd := @AdjustFossilEnd demo;
  Output_Create := @Output_Create demo;
  CoinbaseKernel_Key := @CoinbaseKernel_Key demo;
  CoinbaseKernel_ID := @CoinbaseKernel_ID demo;
  Normalize := @Normalize demo
|}.

(** A store of one header, row 1 at the height 5, with a body that has not
    been interpreted and the [Definition] [def] in the header; the cursor is
    before the first state, and the header passes the checks of chainwork,
    difficulty and timestamp. *)
Definition mismatch_processor (bb : ByteBuffer) (def : Hash) (utxos : gmap (N * N) N)
    (kernels : gset N) : NodeProcessor.t :=
  NodeProcessor.mk
    (NodeDB.mk {[ 1 := NodeDB.mkRow (SystemState.Full.mk 5 0 10 def 100 10) 0 true false bb [] None ]}
       (StateID.mk 0 0) None None None)
    (Cursor.mk (StateID.mk 0 0) (SystemState.Full.mk 0 0 0 0 0 0) (SystemState.ID.mk 0 0) 0 0 0 10)
    utxos kernels (Extra.mk 0 0 true) (Horizon.mk 0 0) 0 [].

(** * Properties *)

(** ** Calls that return *)

Lemma bind_Ret_inv {A B} (m : Outcome A) (f : A -> Outcome B) (b : B) :
  (m ≫= f) = Ret b -> exists a, m = Ret a /\ f a = Ret b.
Proof. destruct m; simpl; intros; [eauto | done | done]. Qed.

Lemma foldl_bind_start {A X} (g : A -> X -> Outcome A) (m : Outcome A) (l : list X) :
  foldl (fun acc x => a ← acc; g a x) m l =
  (a ← m; foldl (fun acc x => a ← acc; g a x) (Ret a) l).
Proof.
  revert m. induction l as [|x l IH]; intros m; simpl.
  - destruct m; reflexivity.
  - rewrite IH. destruct m; simpl; [|reflexivity|reflexivity].
    rewrite <- IH. reflexivity.
Qed.

Section Accumulators.
Context {E : Externals}.

Lemma key_leb_refl k : key_leb k k = true.
Proof.
  unfold key_leb. rewrite N.eqb_refl, N.leb_refl, orb_true_r. reflexivity.
Qed.

Lemma key_leb_same c m m' : key_leb (c, m) (c, m') = (m <=? m').
Proof.
  unfold key_leb; simpl. rewrite N.ltb_irrefl, N.eqb_refl. reflexivity.
Qed.

Lemma key_leb_iff a b :
  key_leb a b = true <-> a.1 < b.1 \/ (a.1 = b.1 /\ a.2 <= b.2).
Proof.
  unfold key_leb. rewrite orb_true_iff, andb_true_iff, N.ltb_lt, N.eqb_eq, N.leb_le.
  reflexivity.
Qed.

#[local] Instance leaf_le_trans : Transitive leaf_le.
Proof.
  intros x y z. unfold leaf_le. rewrite !key_leb_iff. lia.
Qed.

#[local] Instance leaf_le_total : Total leaf_le.
Proof.
  intros x y. unfold leaf_le. rewrite !key_leb_iff. lia.
Qed.

Lemma in_bounds_commitment c h x :
  in_bounds (c, 0) (c, h) x = true <-> x.1.1 = c /\ x.1.2 <= h.
Proof.
  unfold in_bounds. rewrite andb_true_iff, !key_leb_iff. simpl. lia.
Qed.

Lemma in_bounds_point k x : in_bounds k k x = true <-> x.1 = k.
Proof.
  unfold in_bounds. rewrite andb_true_iff, !key_leb_iff.
  destruct x as [[c m] n], k as [c' m']; simpl. split.
  - intros. f_equal; lia.
  - intros [= -> ->]. lia.
Qed.

Lemma elem_of_leaves_between (t : gmap (N * N) N) kMin kMax x :
  x ∈ leaves_between t kMin kMax <-> t !! x.1 = Some x.2 /\ in_bounds kMin kMax x = true.
Proof.
  unfold leaves_between. rewrite merge_sort_Permutation, list_elem_of_filter.
  destruct x as [k n]. rewrite elem_of_map_to_list. simpl. tauto.
Qed.

Lemma leaves_between_sorted (t : gmap (N * N) N) kMin kMax :
  StronglySorted leaf_le (leaves_between t kMin kMax).
Proof. apply StronglySorted_merge_sort; apply _. Qed.

(** The first leaf a traversal of the maturities of one commitment meets
    is the leaf of the smallest maturity. *)
Lemma leaves_between_head (t : gmap (N * N) N) c h :
  match leaves_between t (c, 0) (c, h) with
  | [] => forall m, m <= h -> t !! (c, m) = None
  | (k, n) :: _ =>
      k.1 = c /\ k.2 <= h /\ t !! k = Some n /\
      forall m' n', t !! (c, m') = Some n' -> m' <= h -> k.2 <= m'
  end.
Proof.
  pose proof (leaves_between_sorted t (c, 0) (c, h)) as Hs.
  pose proof (elem_of_leaves_between t (c, 0) (c, h)) as He.
  destruct (leaves_between t (c, 0) (c, h)) as [|[k n] l].
  - intros m Hm. destruct (t !! (c, m)) as [n|] eqn:Ht; [|done].
    exfalso. specialize (He ((c, m), n)). simpl in He.
    rewrite in_bounds_commitment in He. simpl in He.
    assert (Hin : ((c, m), n) ∈ @nil (N * N * N)) by (apply He; auto).
    inversion Hin.
  - destruct (proj1 (He (k, n)) ltac:(left)) as [Hk Hb].
    apply in_bounds_commitment in Hb. simpl in *. destruct Hb as [Hc Hh].
    repeat split; try done.
    intros m' n' Hm' Hle.
    assert (Hin : ((c, m'), n') ∈ (k, n) :: l).
    { apply He. simpl. rewrite in_bounds_commitment. auto. }
    apply elem_of_cons in Hin as [Heq | Hin].
    + inversion Heq; subst. simpl. lia.
    + apply StronglySorted_inv in Hs as [_ Hall].
      rewrite Forall_forall in Hall. specialize (Hall _ Hin).
      unfold leaf_le in Hall. apply key_leb_iff in Hall. simpl in Hall. lia.
Qed.

Lemma count_dec_pos n : 1 <= n < CountModulus -> count_dec n = n - 1.
Proof.
  unfold count_dec, CountModulus. intros Hn.
  replace (n + (2 ^ 32 - 1)) with ((n - 1) + 1 * 2 ^ 32) by lia.
  rewrite N.Div0.mod_add. apply N.mod_small. lia.
Qed.

Lemma count_inc_small n : n + 1 < CountModulus -> count_inc n = n + 1.
Proof. unfold count_inc. intros. apply N.mod_small. lia. Qed.

Lemma Traverse_stop_first (t : gmap (N * N) N) kMin kMax :
  Traverse t kMin kMax (fun (_ : unit) _ => (false, tt)) tt =
  match leaves_between t kMin kMax with
  | [] => (true, None, tt)
  | x :: _ => (false, Some x, tt)
  end.
Proof.
  unfold Traverse. destruct (leaves_between t kMin kMax); reflexivity.
Qed.

(** C5. With [bAdjustInputMaturity] set, the forward input handler takes
    the leaf of the smallest maturity not above [h] among the leaves of the
    input's commitment: it writes that maturity into the input, takes one off
    the count of the leaf and deletes the leaf when nothing is left. When the
    commitment has no leaf of a maturity up to [h] it answers [false] and
    changes nothing. *)
Theorem HandleBlockElement_Input_forward_adjust (v : Input.t) (h : Height) (utxos : gmap (N * N) N) :
  let c := Input.m_Commitment v in
  (forall m n,
      utxos !! (c, m) = Some n -> 1 <= n < CountModulus -> m <= h ->
      (forall m' n', utxos !! (c, m') = Some n' -> m' <= h -> m <= m') ->
      HandleBlockElement_Input v h None true true utxos =
        (true, Input.mk c m,
         if n =? 1 then delete (c, m) utxos else <[(c, m) := n - 1]> utxos))
  /\ ((forall m, m <= h -> utxos !! (c, m) = None) ->
      HandleBlockElement_Input v h None true true utxos = (false, v, utxos)).
Proof.
  intros c. unfold HandleBlockElement_Input. fold c. simpl.
  rewrite Traverse_stop_first.
  pose proof (leaves_between_head utxos c h) as Hh.
  destruct (leaves_between utxos (c, 0) (c, h)) as [|[[c' m0] n0] l].
  - split; [|done]. intros m n Hm _ Hle _. rewrite (Hh m Hle) in Hm. done.
  - simpl in Hh. destruct Hh as (-> & Hle0 & Hl0 & Hmin). split.
    + intros m n Hm Hn Hle Hmin'.
      assert (m0 = m) as ->.
      { apply N.le_antisymm; [eapply Hmin | eapply Hmin']; eauto. }
      rewrite Hl0 in Hm. injection Hm as ->.
      rewrite (count_dec_pos n Hn). simpl.
      destruct (N.eqb_spec (n - 1) 0), (N.eqb_spec n 1); try lia; reflexivity.
    + intros Hnone. rewrite (Hnone m0 Hle0) in Hl0. done.
Qed.

Lemma Find_or_create_found (utxos : gmap (N * N) N) key n :
  utxos !! key = Some n -> Find_or_create stale_count key utxos = (utxos, n, false).
Proof. unfold Find_or_create. intros ->. reflexivity. Qed.

Lemma Find_or_create_fresh (utxos : gmap (N * N) N) key :
  utxos !! key = None ->
  Find_or_create stale_count key utxos = (<[key := stale_count]> utxos, stale_count, true).
Proof. unfold Find_or_create. intros ->. reflexivity. Qed.

Lemma count_inc_zero n : n < CountModulus -> (count_inc n =? 0) = (n =? CountModulus - 1).
Proof.
  intros Hn. unfold CountModulus in *.
  destruct (N.eqb_spec n (2 ^ 32 - 1)) as [->|Hne].
  - reflexivity.
  - rewrite count_inc_small by (unfold CountModulus; lia). apply N.eqb_neq. lia.
Qed.

(** C8. On a leaf that exists, the forward output handler adds one to the
    32-bit count; when that wraps to zero (the count was 2^32 - 1) it
    answers [false] and the tree is as before. The reverse handler deletes
    the leaf when the count was one and takes one off the count otherwise. *)
Theorem HandleBlockElement_Output_existing_leaf (v : Output.t) (h : Height)
    (pHMax : option Height) (utxos : gmap (N * N) N) (key : N * N) (n : N) :
  Output_key v h pHMax = Some key ->
  utxos !! key = Some n ->
  n < CountModulus ->
  HandleBlockElement_Output v h pHMax true utxos =
    (if n =? CountModulus - 1 then (false, utxos) else (true, <[key := n + 1]> utxos))
  /\ HandleBlockElement_Output v h pHMax false utxos =
    (true, if n =? 1 then delete key utxos else <[key := count_dec n]> utxos)
  /\ (1 <= n -> count_dec n = n - 1).
Proof.
  intros Hk Hl Hn. unfold HandleBlockElement_Output.
  rewrite Hk, (Find_or_create_found _ _ _ Hl). repeat split.
  - rewrite count_inc_zero by assumption.
    destruct (N.eqb_spec n (CountModulus - 1)); [reflexivity|].
    rewrite count_inc_small by lia. reflexivity.
  - destruct (n =? 1); reflexivity.
  - intros. apply count_dec_pos. lia.
Qed.

End Accumulators.

Lemma HandleBlockElement_Output_existing_leaf_witness :
  let utxos : gmap (N * N) N := {[ (6, 12) := 4294967295; (5, 10) := 2 ]} in
  let v := Output.mk 6 false 2 0 in
  @HandleBlockElement_Output demo v 10 None true utxos = (false, utxos)
  /\ @HandleBlockElement_Output demo v 10 None false utxos =
       (true, <[(6, 12) := 4294967294]> utxos).
Proof.
  intros utxos v.
  destruct (@HandleBlockElement_Output_existing_leaf demo v 10 None utxos (6, 12) 4294967295)
    as (Hf & Hr & _); [reflexivity | reflexivity | reflexivity |].
  split; [exact Hf | exact Hr].
Defined.

Section CheapCheck.
Context {E : Externals}.

(** The slot of [phv] written by the round before holds the identifier of
    the kernel before. *)
Lemma ValidateTxContextKernels_loop_adjacent vec (odd : bool) phv0 phv1 bInp kernels k0 :
  (if odd then phv0 else phv1) = TxKernel.get_ID k0 ->
  adjacent_duplicate (k0 :: vec) ->
  ValidateTxContextKernels_loop vec odd phv0 phv1 bInp kernels = false.
Proof.
  revert odd phv0 phv1 k0. induction vec as [|v vec IH]; intros odd phv0 phv1 k0 Hprev Hdup.
  - destruct Hdup as (i & k1 & k2 & H1 & H2 & _). destruct i; simpl in *; done.
  - simpl. destruct Hdup as (i & k1 & k2 & H1 & H2 & Hid).
    destruct i as [|i].
    + simpl in H1, H2. injection H1 as <-. injection H2 as <-.
      assert (((if odd then phv0 else TxKernel.get_ID v) =? (if odd then TxKernel.get_ID v else phv1)) = true) as ->.
      { apply N.eqb_eq. destruct odd; congruence. }
      reflexivity.
    + destruct (_ =? _); [reflexivity|].
      destruct (Kernels_Find _ _ _) as [[? found] ?].
      destruct (negb _); [reflexivity|].
      apply (IH _ _ _ v).
      * destruct odd; reflexivity.
      * exists i, k1, k2. auto.
Qed.

Lemma ValidateTxContextKernels_adjacent p vec bInp :
  adjacent_duplicate vec -> ValidateTxContextKernels p vec bInp = false.
Proof.
  unfold ValidateTxContextKernels. intros Hdup.
  destruct vec as [|v vec].
  - destruct Hdup as (i & k1 & k2 & H1 & _). destruct i; done.
  - simpl. destruct (_ =? _); [reflexivity|].
    destruct (Kernels_Find _ _ _) as [[? found] ?].
    destruct (negb _); [reflexivity|].
    apply (ValidateTxContextKernels_loop_adjacent _ _ _ _ _ _ v); [reflexivity | assumption].
Qed.

(** C9. [ValidateTxContext] refuses every transaction in which two kernels
    next to each other in one kernel vector carry the same identifier; yet it
    accepts a transaction whose kernel vector holds the same identifier at
    positions 0 and 2, with every identifier absent from the kernel set and
    its input present in the UTXO tree. *)
Theorem ValidateTxContext_duplicates_adjacent_only :
  (forall p tx,
      adjacent_duplicate (TxVectors.m_vKernelsOutput (Transaction.m_Txv tx)) \/
      adjacent_duplicate (TxVectors.m_vKernelsInput (Transaction.m_Txv tx)) ->
      ValidateTxContext p tx = false)
  /\ (exists p tx i j k1 k2,
        let vec : list TxKernel.t := TxVectors.m_vKernelsInput (Transaction.m_Txv tx) in
        (S i < j)%nat /\ vec !! i = Some k1 /\ vec !! j = Some k2 /\
        TxKernel.get_ID k1 = TxKernel.get_ID k2 /\
        (forall k, k ∈ vec -> TxKernel.get_ID k ∉ NodeProcessor.m_Kernels p) /\
        (forall v, v ∈ TxVectors.m_vInputs (Transaction.m_Txv tx) ->
                   exists m n, m <= 1 /\ NodeProcessor.m_Utxos p !! (Input.m_Commitment v, m) = Some n /\ 1 <= n) /\
        ValidateTxContext p tx = true).
Proof.
  split.
  - intros p tx Hdup. unfold ValidateTxContext.
    destruct (negb _); [reflexivity|].
    destruct Hdup as [Hdup | Hdup];
      rewrite (ValidateTxContextKernels_adjacent _ _ _ Hdup);
      rewrite ?andb_false_r; reflexivity.
  - pose (hr := HeightRange.mk 0 0).
    pose (ka := TxKernel.mk 11 hr). pose (kb := TxKernel.mk 12 hr).
    exists (NodeProcessor.mk (NodeDB.mk ∅ (StateID.mk 0 0) None None None) ZeroCursor
              {[ (5, 0) := 1 ]} ∅ (Extra.mk 0 0 true) (Horizon.mk 0 0) 0 []).
    exists (Transaction.mk 0 (TxVectors.mk [Input.mk 5 0] [] [ka; kb; ka] [])).
    exists 0%nat, 2%nat, ka, ka. simpl.
    split; [lia|]. split; [reflexivity|]. split; [reflexivity|]. split; [reflexivity|].
    split; [intros k _; apply not_elem_of_empty|].
    split.
    + intros v Hv. apply list_elem_of_singleton in Hv as ->.
      exists 0, 1. simpl. split; [lia|]. split; [reflexivity | lia].
    + vm_compute. reflexivity.
Qed.

End CheapCheck.

Section Templating.
Context {E : Externals}.

Lemma pool_loop_cons h st x pool :
  pool_loop h st (x :: pool) = (st' ← pool_step h st x; pool_loop h st' pool).
Proof.
  unfold pool_loop. simpl. rewrite foldl_bind_start. reflexivity.
Qed.

Lemma HandleValidatedTx_Extra txv h bFwd bAdj pHMax p ok txv' p' :
  HandleValidatedTx txv h bFwd bAdj pHMax p = Ret (ok, txv', p') ->
  NodeProcessor.m_Extra p' = NodeProcessor.m_Extra p.
Proof.
  unfold HandleValidatedTx.
  destruct (loop_UtxoIn _ _ _ _ _ _ _) as [[[ok1 nInp] ins] u1].
  destruct (if ok1 then _ else _) as [[ok2 nOut] u2].
  destruct (if ok2 then _ else _) as [[ok3 nKrnInp] k1].
  destruct (if ok3 then _ else _) as [[ok4 nKrnOut] k2].
  destruct ok4; [|destruct (negb bFwd)]; intros [= <- <- <-]; reflexivity.
Qed.

Lemma pool_step_flag h st x st' :
  pool_step h st x = Ret st' ->
  Body.m_SubsidyClosing (pl_Res st') = Body.m_SubsidyClosing (pl_Res st)
  /\ NodeProcessor.m_Extra (pl_Proc st') = NodeProcessor.m_Extra (pl_Proc st).
Proof.
  unfold pool_step.
  repeat match goal with
         | |- context [if ?b then _ else _] => destruct b
         end;
    try (intros [= <-]; split; reflexivity).
  all: intros Hb; apply bind_Ret_inv in Hb as ([[ok txv] p1] & Htx & Hr).
  all: apply HandleValidatedTx_Extra in Htx.
  all: destruct ok; injection Hr as <-; simpl; split; assumption || reflexivity.
Qed.

Lemma pool_loop_flag h pool st st' :
  pool_loop h st pool = Ret st' ->
  Body.m_SubsidyClosing (pl_Res st') = Body.m_SubsidyClosing (pl_Res st)
  /\ NodeProcessor.m_Extra (pl_Proc st') = NodeProcessor.m_Extra (pl_Proc st).
Proof.
  revert st. induction pool as [|x pool IH]; intros st.
  - intros [= <-]. split; reflexivity.
  - rewrite pool_loop_cons. intros Hb.
    apply bind_Ret_inv in Hb as (st1 & H1 & H2).
    apply pool_step_flag in H1 as [Ha Hb]. apply IH in H2 as [Hc Hd].
    split; congruence.
Qed.

Lemma ToggleSubsidyOpened_Utxos p :
  NodeProcessor.m_Utxos (ToggleSubsidyOpened p) = NodeProcessor.m_Utxos p.
Proof.
  unfold ToggleSubsidyOpened. destruct (Kernels_Find _ _ _) as [[? ?] ?]. reflexivity.
Qed.

(** What [GenerateNewBlock(bc, res, h)] leaves in the subsidy-closing flag
    of the body: the flag it found, cleared when the subsidy is closed. *)
Lemma GenerateNewBlock_at_flag now bc res h p n bc' res' p' :
  GenerateNewBlock_at now bc res h p = Ret (n, bc', res', p') ->
  Body.m_SubsidyClosing res' =
    Body.m_SubsidyClosing res && Extra.m_SubsidyOpen (NodeProcessor.m_Extra p).
Proof.
  unfold GenerateNewBlock_at.
  destruct (Output_Create _ true _ _) as [outp sk].
  destruct (HandleBlockElement_Output outp _ _ _ _) as [ok1 u1].
  assert (Hres2 : Body.m_SubsidyClosing
            (if negb (Extra.m_SubsidyOpen (NodeProcessor.m_Extra p))
             then Body.set_SubsidyClosing false (add_Subsidy (Rules.CoinbaseEmission rules) res)
             else add_Subsidy (Rules.CoinbaseEmission rules) res) =
          Body.m_SubsidyClosing res && Extra.m_SubsidyOpen (NodeProcessor.m_Extra p)).
  { destruct (Extra.m_SubsidyOpen _); simpl; [rewrite andb_true_r | rewrite andb_false_r]; reflexivity. }
  destruct ok1; simpl; [|intros [= <- <- <- <-]; exact Hres2].
  destruct (HandleBlockElement_Kernel _ _ _ _) as [ok2 k1].
  destruct ok2; simpl; [|intros [= <- <- <- <-]; exact Hres2].
  destruct (_ <? _); [intros [= <- <- <- <-]; exact Hres2|].
  intros Hb. apply bind_Ret_inv in Hb as (st & Hloop & Hr).
  apply pool_loop_flag in Hloop as [Hflag _]. simpl in Hflag.
  destruct (negb (pl_Fees st =? 0)).
  - destruct (Output_Create _ false _ _) as [outpF skF].
    destruct (HandleBlockElement_Output outpF _ _ _ _) as [okF uF].
    destruct okF; simpl in Hr.
    + apply bind_Ret_inv in Hr as (median & _ & Hr).
      injection Hr as <- <- <- <-. simpl. rewrite Hflag. exact Hres2.
    + injection Hr as <- <- <- <-. rewrite Hflag. exact Hres2.
  - simpl in Hr. apply bind_Ret_inv in Hr as (median & _ & Hr).
    injection Hr as <- <- <- <-. simpl. rewrite Hflag. exact Hres2.
Qed.

Lemma GenerateNewBlock_from_flag now bc res bInitiallyEmpty p ok bc' res' p' :
  GenerateNewBlock_from now bc res bInitiallyEmpty p = Ret (ok, bc', res', p') ->
  (ok = true \/ bInitiallyEmpty = true ->
   Body.m_SubsidyClosing res' =
     Body.m_SubsidyClosing res && Extra.m_SubsidyOpen (NodeProcessor.m_Extra p))
  /\ (ok = true -> BlockContext.m_Body bc' = Serialize res').
Proof.
  unfold GenerateNewBlock_from.
  destruct (negb bInitiallyEmpty && _) eqn:Hv.
  { intros [= <- <- <- <-]. apply andb_true_iff in Hv as [Hv _].
    split; [intros [|]; [done | subst; done] | done]. }
  intros Hb. apply bind_Ret_inv in Hb as ([[ok0 res0] p0] & H0 & Hr).
  assert (Hpre : Body.m_SubsidyClosing res0 = Body.m_SubsidyClosing res
                 /\ NodeProcessor.m_Extra p0 = NodeProcessor.m_Extra p
                 /\ (bInitiallyEmpty = true -> ok0 = true)).
  { destruct bInitiallyEmpty.
    - injection H0 as <- <- <-. auto.
    - apply bind_Ret_inv in H0 as ([[ok1 txv] p1] & Htx & H0).
      injection H0 as <- <- <-. apply HandleValidatedTx_Extra in Htx.
      repeat split; [assumption | discriminate]. }
  destruct Hpre as (Hf0 & He0 & Hok0).
  destruct ok0; simpl in Hr.
  2: { injection Hr as <- <- <- <-. split; [intros [|Hie]; [done | by apply Hok0 in Hie] | done]. }
  apply bind_Ret_inv in Hr as ([[[n bc1] res1] p1] & Hat & Hr).
  apply GenerateNewBlock_at_flag in Hat. rewrite Hf0, He0 in Hat.
  apply bind_Ret_inv in Hr as ([[ok2 txv2] p2] & _ & Hr).
  destruct (n =? 0).
  - injection Hr as <- <- <- <-. split; [intros _; exact Hat | done].
  - destruct (Normalize _) as [txv3 nCut]. injection Hr as <- <- <- <-.
    split; [intros _; exact Hat | reflexivity].
Qed.

(** C10. The overload of [GenerateNewBlock] that starts from scratch sets
    the subsidy-closing flag of the body it builds, and the flag is cleared
    during the generation exactly when the subsidy is closed: the body it
    serializes carries the flag if and only if the subsidy is open. A block
    templated from a body of the caller never carries the flag while the
    subsidy is closed. *)
Theorem GenerateNewBlock_SubsidyClosing :
  (forall now bc p,
      GenerateNewBlock now bc p =
        GenerateNewBlock_from now bc (Body.set_SubsidyClosing true Body_ZeroInit) true p)
  /\ Body.m_SubsidyClosing (Body.set_SubsidyClosing true Body_ZeroInit) = true
  /\ (forall now bc p ok bc' res p',
        GenerateNewBlock now bc p = Ret (ok, bc', res, p') ->
        Body.m_SubsidyClosing res = Extra.m_SubsidyOpen (NodeProcessor.m_Extra p)
        /\ (ok = true -> BlockContext.m_Body bc' = Serialize res))
  /\ (forall now bc seed p bc' res p',
        GenerateNewBlock_seeded now bc seed p = Ret (true, bc', res, p') ->
        BlockContext.m_Body bc' = Serialize res
        /\ (Extra.m_SubsidyOpen (NodeProcessor.m_Extra p) = false ->
            Body.m_SubsidyClosing res = false)).
Proof.
  split; [reflexivity|]. split; [reflexivity|]. split.
  - intros now bc p ok bc' res p' Hg. unfold GenerateNewBlock in Hg.
    apply GenerateNewBlock_from_flag in Hg as [Hf Hb].
    split; [|exact Hb]. rewrite Hf by auto. reflexivity.
  - intros now bc seed p bc' res p' Hg. unfold GenerateNewBlock_seeded in Hg.
    apply GenerateNewBlock_from_flag in Hg as [Hf Hb].
    split; [auto|]. intros Hc. rewrite Hf by auto. rewrite Hc. apply andb_false_r.
Qed.

End Templating.

Section UtxoCounts.
Context {E : Externals}.

Lemma count_at_insert (t : gmap (N * N) N) k n k' :
  count_at (<[k := n]> t) k' = if decide (k' = k) then n else count_at t k'.
Proof.
  unfold count_at. rewrite lookup_insert.
  destruct (decide (k = k')), (decide (k' = k)); subst; simpl; congruence.
Qed.

Lemma count_at_delete (t : gmap (N * N) N) k k' :
  count_at (delete k t) k' = if decide (k' = k) then 0 else count_at t k'.
Proof.
  unfold count_at. rewrite lookup_delete.
  destruct (decide (k = k')), (decide (k' = k)); subst; simpl; congruence.
Qed.

Lemma Utxos_wf_insert (t : gmap (N * N) N) k n :
  Utxos_wf t -> 1 <= n < CountModulus -> Utxos_wf (<[k := n]> t).
Proof.
  intros Hwf Hn k' n'. rewrite lookup_insert. destruct (decide (k = k')).
  - intros [= <-]. exact Hn.
  - apply Hwf.
Qed.

Lemma Utxos_wf_delete (t : gmap (N * N) N) k : Utxos_wf t -> Utxos_wf (delete k t).
Proof.
  intros Hwf k' n'. rewrite lookup_delete. destruct (decide (k = k')); [done | apply Hwf].
Qed.

Lemma Utxos_wf_count (t : gmap (N * N) N) k : Utxos_wf t -> count_at t k < CountModulus.
Proof.
  intros Hwf. unfold count_at. destruct (t !! k) as [n|] eqn:Hk; simpl.
  - apply (Hwf _ _ Hk).
  - unfold CountModulus. lia.
Qed.

Lemma count_at_Some (t : gmap (N * N) N) k n : t !! k = Some n -> count_at t k = n.
Proof. unfold count_at. intros ->. reflexivity. Qed.

Lemma count_at_pos_Some (t : gmap (N * N) N) k :
  Utxos_wf t -> 1 <= count_at t k -> t !! k = Some (count_at t k).
Proof.
  unfold count_at. destruct (t !! k); simpl; [reflexivity | lia].
Qed.

(** A well-formed tree is determined by its counts. *)
Lemma Utxos_wf_ext (t1 t2 : gmap (N * N) N) :
  Utxos_wf t1 -> Utxos_wf t2 -> (forall k, count_at t1 k = count_at t2 k) -> t1 = t2.
Proof.
  intros H1 H2 Hc. apply map_eq. intros k. specialize (Hc k). unfold count_at in Hc.
  destruct (t1 !! k) as [n1|] eqn:E1, (t2 !! k) as [n2|] eqn:E2; simpl in Hc.
  - congruence.
  - apply H1 in E1. lia.
  - apply H2 in E2. lia.
  - reflexivity.
Qed.

Lemma insert_one_more (t : gmap (N * N) N) k :
  Utxos_wf t -> count_at t k + 1 < CountModulus ->
  one_more k t (<[k := count_at t k + 1]> t).
Proof.
  intros Hwf Hc. split.
  - apply Utxos_wf_insert; [assumption | lia].
  - intros k'. rewrite count_at_insert.
    destruct (decide (k' = k)), (decide (k = k')); subst; try congruence; lia.
Qed.

Lemma remove_one_less (t : gmap (N * N) N) k n :
  Utxos_wf t -> t !! k = Some n ->
  one_less k t (if n =? 1 then delete k t else <[k := n - 1]> t).
Proof.
  intros Hwf Hk. pose proof (Hwf _ _ Hk) as Hn. pose proof (count_at_Some _ _ _ Hk) as Hc.
  destruct (N.eqb_spec n 1) as [->|Hne]; split.
  - apply Utxos_wf_delete, Hwf.
  - intros k'. rewrite count_at_delete.
    destruct (decide (k' = k)), (decide (k = k')); subst; try congruence; lia.
  - apply Utxos_wf_insert; [assumption | lia].
  - intros k'. rewrite count_at_insert.
    destruct (decide (k' = k)), (decide (k = k')); subst; try congruence; lia.
Qed.

(** *** One element *)

Lemma Input_forward_step (v : Input.t) (h : N) (pHMax : option N) (bAdj : bool)
    (t : gmap (N * N) N) (ok : bool) (v' : Input.t) (t' : gmap (N * N) N) :
  Utxos_wf t ->
  HandleBlockElement_Input v h pHMax true bAdj t = (ok, v', t') ->
  if ok then one_less (Input_key v') t t' else t' = t.
Proof.
  intros Hwf. unfold HandleBlockElement_Input.
  set (bounds := if bAdj then _ else _).
  assert (Hb : forall kMin kMax x, bounds = Some (kMin, kMax) -> in_bounds kMin kMax x = true ->
               x.1.1 = Input.m_Commitment v /\ (bAdj = false -> x.1.2 = Input.m_Maturity v)).
  { intros kMin kMax x. unfold bounds. destruct bAdj.
    - intros [= <- <-] Hin. apply in_bounds_commitment in Hin. split; [tauto | done].
    - destruct pHMax as [hMax|]; [|done]. destruct (_ <? _); [done|].
      intros [= <- <-] Hin. apply in_bounds_point in Hin. rewrite Hin. auto. }
  destruct bounds as [[kMin kMax]|]; [|intros [= <- <- <-]; reflexivity].
  rewrite Traverse_stop_first.
  pose proof (elem_of_leaves_between t kMin kMax) as He.
  destruct (leaves_between t kMin kMax) as [|[d n] l]; [intros [= <- <- <-]; reflexivity|].
  destruct (proj1 (He (d, n)) ltac:(left)) as [Hl Hin]. simpl in Hl.
  destruct (Hb _ _ _ eq_refl Hin) as [Hc Hm]. simpl in Hc, Hm.
  pose proof (Hwf _ _ Hl) as Hn. rewrite (count_dec_pos n Hn).
  intros [= <- <- <-].
  assert (Hkey : Input_key (if bAdj then Input.mk (Input.m_Commitment v) d.2 else v) = d).
  { destruct d as [c m]. simpl in *. subst c. destruct bAdj; unfold Input_key; simpl.
    - reflexivity.
    - rewrite Hm by reflexivity. reflexivity. }
  rewrite Hkey.
  pose proof (remove_one_less t d n Hwf Hl) as Hless.
  destruct (N.eqb_spec (n - 1) 0), (N.eqb_spec n 1); try lia; exact Hless.
Qed.

Lemma Input_forward_commitment (v : Input.t) (h : N) (pHMax : option N) (bAdj : bool)
    (t : gmap (N * N) N) (ok : bool) (v' : Input.t) (t' : gmap (N * N) N) :
  HandleBlockElement_Input v h pHMax true bAdj t = (ok, v', t') ->
  Input.m_Commitment v' = Input.m_Commitment v.
Proof.
  unfold HandleBlockElement_Input.
  destruct (if bAdj then _ else _) as [[kMin kMax]|]; [|intros [= <- <- <-]; reflexivity].
  destruct (Traverse _ _ _ _ _) as [[[] [[d n]|]] ?]; try (intros [= <- <- <-]; reflexivity).
  destruct bAdj; intros [= <- <- <-]; reflexivity.
Qed.

Lemma Input_reverse_step (v : Input.t) (h : N) (pHMax : option N) (bAdj : bool)
    (t : gmap (N * N) N) :
  Utxos_wf t -> count_at t (Input_key v) + 1 < CountModulus ->
  exists t', HandleBlockElement_Input v h pHMax false bAdj t = (true, v, t')
             /\ one_more (Input_key v) t t'.
Proof.
  intros Hwf Hc. unfold HandleBlockElement_Input. fold (Input_key v).
  destruct (t !! Input_key v) as [n|] eqn:Hk.
  - rewrite (Find_or_create_found _ _ _ Hk). eexists; split; [reflexivity|].
    rewrite (count_at_Some _ _ _ Hk) in Hc. rewrite count_inc_small by assumption.
    rewrite <- (count_at_Some _ _ _ Hk) at 1. apply insert_one_more; [assumption|].
    rewrite (count_at_Some _ _ _ Hk). assumption.
  - rewrite (Find_or_create_fresh _ _ Hk). eexists; split; [reflexivity|].
    rewrite insert_insert_eq.
    assert (Hz : count_at t (Input_key v) = 0) by (unfold count_at; rewrite Hk; reflexivity).
    pose proof (insert_one_more t (Input_key v) Hwf Hc) as Hm. rewrite Hz in Hm. exact Hm.
Qed.

Lemma Output_forward_step (v : Output.t) (h : N) (pHMax : option N)
    (t : gmap (N * N) N) (ok : bool) (t' : gmap (N * N) N) :
  Utxos_wf t ->
  HandleBlockElement_Output v h pHMax true t = (ok, t') ->
  if ok then exists key, Output_key v h pHMax = Some key /\ one_more key t t' else t' = t.
Proof.
  intros Hwf. unfold HandleBlockElement_Output.
  destruct (Output_key v h pHMax) as [key|]; [|intros [= <- <-]; reflexivity].
  destruct (t !! key) as [n|] eqn:Hk.
  - rewrite (Find_or_create_found _ _ _ Hk). pose proof (Hwf _ _ Hk) as Hn.
    rewrite count_inc_zero by lia.
    destruct (N.eqb_spec n (CountModulus - 1)); intros [= <- <-]; [reflexivity|].
    exists key. split; [reflexivity|]. rewrite count_inc_small by lia.
    rewrite <- (count_at_Some _ _ _ Hk) at 1. apply insert_one_more; [assumption|].
    rewrite (count_at_Some _ _ _ Hk). lia.
  - rewrite (Find_or_create_fresh _ _ Hk). intros [= <- <-].
    exists key. split; [reflexivity|]. rewrite insert_insert_eq.
    assert (Hz : count_at t key = 0) by (unfold count_at; rewrite Hk; reflexivity).
    assert (Hc : count_at t key + 1 < CountModulus) by (rewrite Hz; unfold CountModulus; lia).
    pose proof (insert_one_more t key Hwf Hc) as Hm. rewrite Hz in Hm. exact Hm.
Qed.

Lemma Output_reverse_step (v : Output.t) (h : N) (pHMax : option N)
    (t : gmap (N * N) N) (key : N * N) :
  Utxos_wf t -> Output_key v h pHMax = Some key -> 1 <= count_at t key ->
  exists t', HandleBlockElement_Output v h pHMax false t = (true, t') /\ one_less key t t'.
Proof.
  intros Hwf Hkey Hc. unfold HandleBlockElement_Output. rewrite Hkey.
  pose proof (count_at_pos_Some t key Hwf Hc) as Hk.
  rewrite (Find_or_create_found _ _ _ Hk).
  pose proof (Hwf _ _ Hk) as Hn. rewrite (count_dec_pos _ Hn).
  pose proof (remove_one_less t key _ Hwf Hk) as Hless.
  destruct (count_at t key =? 1); eexists; split; try reflexivity; exact Hless.
Qed.

(** *** The loops over the UTXOs *)

Lemma occ_app k l1 l2 : occ k (l1 ++ l2) = occ k l1 + occ k l2.
Proof. induction l1 as [|x l1 IH]; simpl; [reflexivity | rewrite IH; lia]. Qed.

Lemma iter_count_inc (m : nat) :
  N.of_nat m < CountModulus -> Nat.iter m count_inc 0 = N.of_nat m.
Proof.
  induction m as [|m IH]; intros Hm; [reflexivity|].
  simpl. rewrite IH by lia. rewrite count_inc_small by lia. lia.
Qed.

Lemma loop_UtxoIn_forward (l : list Input.t) (h : N) (pHMax : option N) (bAdj : bool) (n : N)
    (t : gmap (N * N) N) (ok : bool) (n' : N) (l' : list Input.t) (t' : gmap (N * N) N) :
  Utxos_wf t ->
  loop_UtxoIn l h pHMax true bAdj n t = (ok, n', l', t') ->
  exists m : nat,
    (m <= length l)%nat /\ n' = Nat.iter m count_inc n /\ (ok = true -> m = length l) /\
    length l' = length l /\ Utxos_wf t' /\
    (forall k, count_at t' k + occ k (Input_key <$> take m l') = count_at t k).
Proof.
  revert n t ok n' l' t'. induction l as [|v l IH]; intros n t ok n' l' t' Hwf; cbn [loop_UtxoIn].
  - intros [= <- <- <- <-]. exists 0%nat. simpl. split_and!; auto; intros; lia.
  - destruct (HandleBlockElement_Input v h pHMax true bAdj t) as [[ok1 v1] t1] eqn:Hstep.
    pose proof (Input_forward_step _ _ _ _ _ _ _ _ Hwf Hstep) as Hs.
    destruct ok1.
    + destruct Hs as [Hwf1 Hc1].
      destruct (loop_UtxoIn l h pHMax true bAdj (count_inc n) t1) as [[[ok2 n2] l2] t2] eqn:Hrest.
      intros [= <- <- <- <-].
      destruct (IH _ _ _ _ _ _ Hwf1 Hrest) as (m & Hm & Hn & Hok & Hlen & Hwf2 & Hc2).
      exists (S m). split_and!.
      * simpl; lia.
      * rewrite Hn. symmetry. apply (Nat.iter_succ_r m count_inc n).
      * intros Ho. simpl. f_equal. auto.
      * simpl. lia.
      * assumption.
      * intros k. specialize (Hc1 k). specialize (Hc2 k).
        rewrite firstn_cons, fmap_cons. cbn [occ].
        destruct (decide (Input_key v1 = k)); lia.
    + subst t1. intros [= <- <- <- <-]. exists 0%nat. simpl.
      split_and!; try lia; auto.
Qed.

Lemma loop_UtxoOut_forward (l : list Output.t) (h : N) (pHMax : option N) (n : N)
    (t : gmap (N * N) N) (ok : bool) (n' : N) (t' : gmap (N * N) N) :
  Utxos_wf t ->
  loop_UtxoOut l h pHMax true n t = (ok, n', t') ->
  exists m : nat,
    (m <= length l)%nat /\ n' = Nat.iter m count_inc n /\ (ok = true -> m = length l) /\
    Utxos_wf t' /\
    Forall (fun v => is_Some (Output_key v h pHMax)) (take m l) /\
    (forall k, count_at t' k = count_at t k + occ k (Output_keys (take m l) h pHMax)).
Proof.
  revert n t ok n' t'. induction l as [|v l IH]; intros n t ok n' t' Hwf; cbn [loop_UtxoOut].
  - intros [= <- <- <-]. exists 0%nat. simpl. split_and!; auto; intros; unfold Output_keys; simpl; lia.
  - destruct (HandleBlockElement_Output v h pHMax true t) as [ok1 t1] eqn:Hstep.
    pose proof (Output_forward_step _ _ _ _ _ _ Hwf Hstep) as Hs.
    destruct ok1.
    + destruct Hs as (key & Hkey & Hwf1 & Hc1). intros Hrest.
      destruct (IH _ _ _ _ _ Hwf1 Hrest) as (m & Hm & Hn & Hok & Hwf2 & Hall & Hc2).
      exists (S m). split_and!.
      * simpl; lia.
      * rewrite Hn. symmetry. apply (Nat.iter_succ_r m count_inc n).
      * intros Ho. simpl. f_equal. auto.
      * assumption.
      * rewrite firstn_cons. constructor; [rewrite Hkey; eauto | assumption].
      * intros k. specialize (Hc1 k). specialize (Hc2 k).
        rewrite firstn_cons. unfold Output_keys in *. cbn [omap list_omap]. rewrite Hkey.
        cbn [occ]. destruct (decide (key = k)); lia.
    + subst t1. intros [= <- <- <-]. exists 0%nat. simpl.
      split_and!; try lia; auto; intros; unfold Output_keys; simpl; lia.
Qed.

Lemma undo_inputs_counts (l : list Input.t) (h : N) (pHMax : option N) (t : gmap (N * N) N) :
  Utxos_wf t ->
  (forall k, count_at t k + occ k (Input_key <$> l) < CountModulus) ->
  let t' := foldl (fun u v => (HandleBlockElement_Input v h pHMax false false u).2) t l in
  Utxos_wf t' /\ forall k, count_at t' k = count_at t k + occ k (Input_key <$> l).
Proof.
  revert t. induction l as [|v l IH]; intros t Hwf Hc.
  - simpl. split; [assumption | intros; lia].
  - rewrite fmap_cons in Hc. cbn [occ] in Hc.
    assert (H1 : count_at t (Input_key v) + 1 < CountModulus).
    { specialize (Hc (Input_key v)). rewrite decide_True in Hc by reflexivity. lia. }
    destruct (Input_reverse_step v h pHMax false t Hwf H1) as (t1 & Hstep & Hwf1 & Hc1).
    cbn [foldl]. rewrite Hstep. cbn [snd].
    destruct (IH t1 Hwf1) as [Hwf2 Hc2].
    { intros k. specialize (Hc k). specialize (Hc1 k). rewrite Hc1.
      destruct (decide (Input_key v = k)); lia. }
    split; [assumption|]. intros k. rewrite fmap_cons. cbn [occ]. rewrite Hc2, Hc1.
    destruct (decide (Input_key v = k)); lia.
Qed.

Lemma undo_outputs_counts (l : list Output.t) (h : N) (pHMax : option N) (t : gmap (N * N) N) :
  Utxos_wf t ->
  Forall (fun v => is_Some (Output_key v h pHMax)) l ->
  (forall k, occ k (Output_keys l h pHMax) <= count_at t k) ->
  let t' := foldl (fun u v => (HandleBlockElement_Output v h pHMax false u).2) t l in
  Utxos_wf t' /\ forall k, count_at t' k + occ k (Output_keys l h pHMax) = count_at t k.
Proof.
  revert t. induction l as [|v l IH]; intros t Hwf Hall Hc.
  - simpl. split; [assumption | intros; unfold Output_keys; simpl; lia].
  - apply Forall_cons in Hall as [[key Hkey] Hall].
    assert (Hk : Output_keys (v :: l) h pHMax = key :: Output_keys l h pHMax).
    { unfold Output_keys. cbn [omap list_omap]. rewrite Hkey. reflexivity. }
    rewrite Hk in Hc. cbn [occ] in Hc.
    assert (H1 : 1 <= count_at t key).
    { specialize (Hc key). rewrite decide_True in Hc by reflexivity. lia. }
    destruct (Output_reverse_step v h pHMax t key Hwf Hkey H1) as (t1 & Hstep & Hwf1 & Hc1).
    cbn [foldl]. rewrite Hstep. cbn [snd].
    destruct (IH t1 Hwf1 Hall) as [Hwf2 Hc2].
    { intros k. specialize (Hc k). specialize (Hc1 k).
      destruct (decide (key = k)); lia. }
    split; [assumption|]. intros k. rewrite Hk. cbn [occ].
    specialize (Hc1 k). specialize (Hc2 k). destruct (decide (key = k)); lia.
Qed.

Lemma loop_UtxoIn_reverse (l : list Input.t) (h : N) (pHMax : option N) (bAdj : bool) (n : N)
    (t : gmap (N * N) N) :
  loop_UtxoIn l h pHMax false bAdj n t =
    (true, Nat.iter (length l) count_inc n, l,
     foldl (fun u v => (HandleBlockElement_Input v h pHMax false false u).2) t l).
Proof.
  revert n t. induction l as [|v l IH]; intros n t; cbn [loop_UtxoIn foldl length]; [reflexivity|].
  unfold HandleBlockElement_Input at 1 3.
  destruct (Find_or_create _ _ _) as [[u1 c] bCreate]. simpl.
  rewrite IH. rewrite <- (Nat.iter_succ_r (length l) count_inc n). reflexivity.
Qed.

Lemma loop_UtxoOut_reverse (l : list Output.t) (h : N) (pHMax : option N) (n : N)
    (t : gmap (N * N) N) :
  Forall (fun v => is_Some (Output_key v h pHMax)) l ->
  loop_UtxoOut l h pHMax false n t =
    (true, Nat.iter (length l) count_inc n,
     foldl (fun u v => (HandleBlockElement_Output v h pHMax false u).2) t l).
Proof.
  revert n t. induction l as [|v l IH]; intros n t Hall; cbn [loop_UtxoOut foldl length]; [reflexivity|].
  apply Forall_cons in Hall as [[key Hkey] Hall].
  assert (Hok : (HandleBlockElement_Output v h pHMax false t).1 = true).
  { unfold HandleBlockElement_Output. rewrite Hkey.
    destruct (Find_or_create _ _ _) as [[u1 c] bCreate]. destruct (c =? 1); reflexivity. }
  destruct (HandleBlockElement_Output v h pHMax false t) as [ok1 t1]. simpl in *. subst ok1.
  rewrite IH by assumption. rewrite <- (Nat.iter_succ_r (length l) count_inc n). reflexivity.
Qed.

End UtxoCounts.

Section KernelSets.
Context {E : Externals}.

Lemma Kernel_add_step (v : TxKernel.t) (bFwd bIsInput : bool) (K : gset N) :
  xorb bFwd bIsInput = true ->
  HandleBlockElement_Kernel v bFwd bIsInput K =
    if decide (TxKernel.get_ID v ∈ K) then (false, K) else (true, {[TxKernel.get_ID v]} ∪ K).
Proof.
  intros Hx. unfold HandleBlockElement_Kernel, Kernels_Find. rewrite Hx.
  destruct (decide (TxKernel.get_ID v ∈ K)); reflexivity.
Qed.

Lemma Kernel_del_step (v : TxKernel.t) (bFwd bIsInput : bool) (K : gset N) :
  xorb bFwd bIsInput = false ->
  HandleBlockElement_Kernel v bFwd bIsInput K =
    if decide (TxKernel.get_ID v ∈ K) then (true, K ∖ {[TxKernel.get_ID v]}) else (false, K).
Proof.
  intros Hx. unfold HandleBlockElement_Kernel, Kernels_Find. rewrite Hx.
  destruct (decide (TxKernel.get_ID v ∈ K)); reflexivity.
Qed.

Lemma loop_Kernel_add (l : list TxKernel.t) (bFwd bIsInput : bool) (n : N) (K : gset N)
    (ok : bool) (n' : N) (K' : gset N) :
  xorb bFwd bIsInput = true ->
  loop_Kernel l bFwd bIsInput n K = (ok, n', K') ->
  exists m : nat,
    (m <= length l)%nat /\ n' = Nat.iter m count_inc n /\ (ok = true -> m = length l) /\
    K' = K ∪ list_to_set (kernel_ids (take m l)) /\
    NoDup (kernel_ids (take m l)) /\
    (forall id, id ∈ kernel_ids (take m l) -> id ∉ K).
Proof.
  intros Hx. revert n K ok n' K'. induction l as [|v l IH]; intros n K ok n' K'; cbn [loop_Kernel].
  - intros [= <- <- <-]. exists 0%nat. split_and!; try done.
    + simpl. set_solver.
    + constructor.
    + simpl. set_solver.
  - rewrite (Kernel_add_step _ _ _ _ Hx).
    destruct (decide (TxKernel.get_ID v ∈ K)) as [Hin|Hnin].
    + intros [= <- <- <-]. exists 0%nat. split_and!; try done.
      * lia.
      * simpl. set_solver.
      * constructor.
      * simpl. set_solver.
    + intros Hrest. destruct (IH _ _ _ _ _ Hrest) as (m & Hm & Hn & Hok & HK & Hnd & Hfresh).
      exists (S m). rewrite firstn_cons. unfold kernel_ids in *. rewrite fmap_cons.
      split_and!.
      * simpl; lia.
      * rewrite Hn. symmetry. apply (Nat.iter_succ_r m count_inc n).
      * intros Ho. simpl. f_equal. auto.
      * rewrite HK. set_solver.
      * constructor; [|assumption]. intros Hid. apply Hfresh in Hid. set_solver.
      * intros id Hid. apply elem_of_cons in Hid as [->|Hid]; [assumption|].
        apply Hfresh in Hid. set_solver.
Qed.

Lemma loop_Kernel_del (l : list TxKernel.t) (bFwd bIsInput : bool) (n : N) (K : gset N)
    (ok : bool) (n' : N) (K' : gset N) :
  xorb bFwd bIsInput = false ->
  loop_Kernel l bFwd bIsInput n K = (ok, n', K') ->
  exists m : nat,
    (m <= length l)%nat /\ n' = Nat.iter m count_inc n /\ (ok = true -> m = length l) /\
    K' = K ∖ list_to_set (kernel_ids (take m l)) /\
    NoDup (kernel_ids (take m l)) /\
    (forall id, id ∈ kernel_ids (take m l) -> id ∈ K).
Proof.
  intros Hx. revert n K ok n' K'. induction l as [|v l IH]; intros n K ok n' K'; cbn [loop_Kernel].
  - intros [= <- <- <-]. exists 0%nat. split_and!; try done.
    + simpl. set_solver.
    + constructor.
    + simpl. set_solver.
  - rewrite (Kernel_del_step _ _ _ _ Hx).
    destruct (decide (TxKernel.get_ID v ∈ K)) as [Hin|Hnin].
    + intros Hrest. destruct (IH _ _ _ _ _ Hrest) as (m & Hm & Hn & Hok & HK & Hnd & Hold).
      exists (S m). rewrite firstn_cons. unfold kernel_ids in *. rewrite fmap_cons.
      split_and!.
      * simpl; lia.
      * rewrite Hn. symmetry. apply (Nat.iter_succ_r m count_inc n).
      * intros Ho. simpl. f_equal. auto.
      * rewrite HK. set_solver.
      * constructor; [|assumption]. intros Hid. apply Hold in Hid. set_solver.
      * intros id Hid. apply elem_of_cons in Hid as [->|Hid]; [assumption|].
        apply Hold in Hid. set_solver.
    + intros [= <- <- <-]. exists 0%nat. split_and!; try done.
      * lia.
      * simpl. set_solver.
      * constructor.
      * simpl. set_solver.
Qed.

Lemma loop_Kernel_add_ok (l : list TxKernel.t) (bFwd bIsInput : bool) (n : N) (K : gset N) :
  xorb bFwd bIsInput = true ->
  NoDup (kernel_ids l) ->
  (forall id, id ∈ kernel_ids l -> id ∉ K) ->
  loop_Kernel l bFwd bIsInput n K =
    (true, Nat.iter (length l) count_inc n, K ∪ list_to_set (kernel_ids l)).
Proof.
  intros Hx. revert n K. induction l as [|v l IH]; intros n K Hnd Hfresh; cbn [loop_Kernel].
  - simpl. f_equal. set_solver.
  - rewrite (Kernel_add_step _ _ _ _ Hx). unfold kernel_ids in *. rewrite fmap_cons in *.
    apply NoDup_cons in Hnd as [Hv Hnd].
    rewrite decide_False by (apply Hfresh; left).
    rewrite IH; [| assumption |].
    + rewrite <- (Nat.iter_succ_r (length l) count_inc n). f_equal. set_solver.
    + intros id Hid. specialize (Hfresh id). set_solver.
Qed.

Lemma loop_Kernel_del_ok (l : list TxKernel.t) (bFwd bIsInput : bool) (n : N) (K : gset N) :
  xorb bFwd bIsInput = false ->
  NoDup (kernel_ids l) ->
  (forall id, id ∈ kernel_ids l -> id ∈ K) ->
  loop_Kernel l bFwd bIsInput n K =
    (true, Nat.iter (length l) count_inc n, K ∖ list_to_set (kernel_ids l)).
Proof.
  intros Hx. revert n K. induction l as [|v l IH]; intros n K Hnd Hold; cbn [loop_Kernel].
  - simpl. f_equal. set_solver.
  - rewrite (Kernel_del_step _ _ _ _ Hx). unfold kernel_ids in *. rewrite fmap_cons in *.
    apply NoDup_cons in Hnd as [Hv Hnd].
    rewrite decide_True by (apply Hold; left).
    rewrite IH; [| assumption |].
    + rewrite <- (Nat.iter_succ_r (length l) count_inc n). f_equal. set_solver.
    + intros id Hid. specialize (Hold id). set_solver.
Qed.

Lemma undo_Kernel_del (l : list TxKernel.t) (K : gset N) :
  foldl (fun k v => (HandleBlockElement_Kernel v false false k).2) K l =
    K ∖ list_to_set (kernel_ids l).
Proof.
  revert K. induction l as [|v l IH]; intros K.
  - simpl. set_solver.
  - cbn [foldl]. rewrite IH. rewrite Kernel_del_step by reflexivity.
    unfold kernel_ids. rewrite fmap_cons.
    destruct (decide (TxKernel.get_ID v ∈ K)); simpl; set_solver.
Qed.

Lemma undo_Kernel_add (l : list TxKernel.t) (K : gset N) :
  foldl (fun k v => (HandleBlockElement_Kernel v false true k).2) K l =
    K ∪ list_to_set (kernel_ids l).
Proof.
  revert K. induction l as [|v l IH]; intros K.
  - simpl. set_solver.
  - cbn [foldl]. rewrite IH. rewrite Kernel_add_step by reflexivity.
    unfold kernel_ids. rewrite fmap_cons.
    destruct (decide (TxKernel.get_ID v ∈ K)); simpl; set_solver.
Qed.

End KernelSets.

Section Interpreter.
Context {E : Externals}.

Lemma counter_exact (m : nat) (len : nat) :
  (m <= len)%nat -> N.of_nat len < CountModulus ->
  N.to_nat (Nat.iter m count_inc 0) = m.
Proof. intros Hm Hlen. rewrite iter_count_inc by lia. lia. Qed.

Lemma set_trees_same (p : NodeProcessor.t) :
  NodeProcessor.set_Kernels (NodeProcessor.m_Kernels p)
    (NodeProcessor.set_Utxos (NodeProcessor.m_Utxos p) p) = p.
Proof. destruct p. reflexivity. Qed.

(** The rollback of the UTXO part of a failed forward pass. *)
Lemma rollback_Utxos (ins : list Input.t) (outs : list Output.t) (h : N) (pHMax : option N)
    (bAdj : bool) (u : gmap (N * N) N) ok1 nInp ins' u1 ok2 nOut u2 :
  Utxos_wf u ->
  N.of_nat (length ins) < CountModulus ->
  N.of_nat (length outs) < CountModulus ->
  loop_UtxoIn ins h pHMax true bAdj 0 u = (ok1, nInp, ins', u1) ->
  (if ok1 : bool then loop_UtxoOut outs h pHMax true 0 u1 else (false, 0, u1)) = (ok2, nOut, u2) ->
  undo_UtxoIn ins' h pHMax nInp (undo_UtxoOut outs h pHMax nOut u2) = u.
Proof.
  intros Hwf Hli Hlo Hin Hout.
  destruct (loop_UtxoIn_forward _ _ _ _ _ _ _ _ _ _ Hwf Hin)
    as (m1 & Hm1 & Hn1 & _ & Hlen1 & Hwf1 & Hc1).
  assert (Hphase2 : exists m2 : nat,
             (m2 <= length outs)%nat /\ nOut = Nat.iter m2 count_inc 0 /\ Utxos_wf u2 /\
             Forall (fun v => is_Some (Output_key v h pHMax)) (take m2 outs) /\
             forall k, count_at u2 k = count_at u1 k + occ k (Output_keys (take m2 outs) h pHMax)).
  { destruct ok1.
    - destruct (loop_UtxoOut_forward _ _ _ _ _ _ _ _ Hwf1 Hout) as (m2 & ? & ? & _ & ? & ? & ?).
      exists m2. auto.
    - injection Hout as <- <- <-. exists 0%nat. split_and!; auto; try lia.
      intros k. unfold Output_keys. simpl. lia. }
  destruct Hphase2 as (m2 & Hm2 & Hn2 & Hwf2 & Hall2 & Hc2).
  unfold undo_UtxoIn, undo_UtxoOut. subst nInp nOut.
  rewrite (counter_exact m2 (length outs)) by assumption.
  rewrite (counter_exact m1 (length ins)) by assumption.
  destruct (undo_outputs_counts (take m2 outs) h pHMax u2 Hwf2 Hall2) as [Hwf3 Hc3].
  { intros k. rewrite Hc2. lia. }
  set (u3 := foldl _ u2 (take m2 outs)) in *.
  assert (Hu31 : forall k, count_at u3 k = count_at u1 k).
  { intros k. specialize (Hc2 k). specialize (Hc3 k). lia. }
  destruct (undo_inputs_counts (take m1 ins') h pHMax u3 Hwf3) as [Hwf4 Hc4].
  { intros k. rewrite Hu31. rewrite Hc1. apply Utxos_wf_count, Hwf. }
  apply Utxos_wf_ext; [assumption | assumption |].
  intros k. rewrite Hc4, Hu31. apply Hc1.
Qed.

(** The rollback of the kernel part of a failed forward pass. *)
Lemma rollback_Kernels (kin kout : list TxKernel.t) (K : gset N) (ok2 : bool)
    ok3 nKrnInp k1 ok4 nKrnOut k2 :
  N.of_nat (length kin) < CountModulus ->
  N.of_nat (length kout) < CountModulus ->
  (if ok2 then loop_Kernel kin true true 0 K else (false, 0, K)) = (ok3, nKrnInp, k1) ->
  (if ok3 : bool then loop_Kernel kout true false 0 k1 else (false, 0, k1)) = (ok4, nKrnOut, k2) ->
  undo_Kernel kin true nKrnInp (undo_Kernel kout false nKrnOut k2) = K.
Proof.
  intros Hli Hlo Hin Hout.
  assert (Hphase1 : exists m1 : nat,
             (m1 <= length kin)%nat /\ nKrnInp = Nat.iter m1 count_inc 0 /\
             k1 = K ∖ list_to_set (kernel_ids (take m1 kin)) /\
             forall id, id ∈ kernel_ids (take m1 kin) -> id ∈ K).
  { destruct ok2.
    - destruct (loop_Kernel_del kin true true 0 K _ _ _ eq_refl Hin) as (m & ? & ? & _ & ? & _ & ?).
      exists m. auto.
    - injection Hin as <- <- <-. exists 0%nat. split_and!; auto; try lia; simpl; set_solver. }
  destruct Hphase1 as (m1 & Hm1 & Hn1 & Hk1 & Hold).
  assert (Hphase2 : exists m2 : nat,
             (m2 <= length kout)%nat /\ nKrnOut = Nat.iter m2 count_inc 0 /\
             k2 = k1 ∪ list_to_set (kernel_ids (take m2 kout)) /\
             forall id, id ∈ kernel_ids (take m2 kout) -> id ∉ k1).
  { destruct ok3.
    - destruct (loop_Kernel_add kout true false 0 k1 _ _ _ eq_refl Hout) as (m & ? & ? & _ & ? & _ & ?).
      exists m. auto.
    - injection Hout as <- <- <-. exists 0%nat. split_and!; auto; try lia; simpl; set_solver. }
  destruct Hphase2 as (m2 & Hm2 & Hn2 & Hk2 & Hfresh).
  unfold undo_Kernel. subst nKrnInp nKrnOut.
  rewrite (counter_exact m2 (length kout)) by assumption.
  rewrite (counter_exact m1 (length kin)) by assumption.
  rewrite undo_Kernel_del, undo_Kernel_add. subst k2 k1.
  apply set_eq. intros x.
  destruct (decide (x ∈ kernel_ids (take m1 kin))) as [Hx|Hx];
    [pose proof (Hold x Hx) | ];
    destruct (decide (x ∈ kernel_ids (take m2 kout))) as [Hy|Hy];
    try (pose proof (Hfresh x Hy)); set_solver.
Qed.

End Interpreter.

Section Subsidy.
Context {E : Externals}.

Lemma Kernel_step_other (v : TxKernel.t) (bFwd bIsInput : bool) (K : gset N) (x : N) :
  TxKernel.get_ID v <> x ->
  x ∈ (HandleBlockElement_Kernel v bFwd bIsInput K).2 <-> x ∈ K.
Proof.
  intros Hne. destruct (xorb bFwd bIsInput) eqn:Hx.
  - rewrite Kernel_add_step by assumption. destruct (decide _); simpl; set_solver.
  - rewrite Kernel_del_step by assumption. destruct (decide _); simpl; set_solver.
Qed.

Lemma loop_Kernel_other (l : list TxKernel.t) (bFwd bIsInput : bool) (n : N) (K : gset N) (x : N) :
  x ∉ kernel_ids l ->
  x ∈ (loop_Kernel l bFwd bIsInput n K).2 <-> x ∈ K.
Proof.
  revert n K. induction l as [|v l IH]; intros n K Hx; cbn [loop_Kernel]; [reflexivity|].
  unfold kernel_ids in Hx. rewrite fmap_cons in Hx. apply not_elem_of_cons in Hx as [Hv Hl].
  pose proof (Kernel_step_other v bFwd bIsInput K x (not_eq_sym Hv)) as Hs.
  destruct (HandleBlockElement_Kernel v bFwd bIsInput K) as [ok K1]. simpl in Hs.
  destruct ok; [|exact Hs]. rewrite IH by assumption. exact Hs.
Qed.

Lemma undo_Kernel_other (l : list TxKernel.t) (bIsInput : bool) (n : N) (K : gset N) (x : N) :
  x ∉ kernel_ids l ->
  x ∈ undo_Kernel l bIsInput n K <-> x ∈ K.
Proof.
  intros Hx. unfold undo_Kernel.
  assert (Hx' : x ∉ kernel_ids (take (N.to_nat n) l)).
  { intros Hin. apply Hx. unfold kernel_ids in *.
    apply list_elem_of_fmap in Hin as (v & -> & Hv). apply list_elem_of_fmap.
    exists v. split; [reflexivity|]. eapply subseteq_take; eauto. }
  clear Hx. revert K. induction (take (N.to_nat n) l) as [|v l' IH]; intros K; [reflexivity|].
  unfold kernel_ids in Hx'. rewrite fmap_cons in Hx'. apply not_elem_of_cons in Hx' as [Hv Hl].
  cbn [foldl]. rewrite IH by assumption.
  apply Kernel_step_other. auto.
Qed.

Lemma HandleValidatedTx_other (txv : TxVectors.t) (h : N) (bFwd bAdj : bool) (pHMax : option N)
    (p : NodeProcessor.t) (ok : bool) (txv' : TxVectors.t) (p' : NodeProcessor.t) (x : N) :
  x ∉ kernel_ids (TxVectors.m_vKernelsInput txv) ->
  x ∉ kernel_ids (TxVectors.m_vKernelsOutput txv) ->
  HandleValidatedTx txv h bFwd bAdj pHMax p = Ret (ok, txv', p') ->
  x ∈ NodeProcessor.m_Kernels p' <-> x ∈ NodeProcessor.m_Kernels p.
Proof.
  intros Hi Ho. unfold HandleValidatedTx.
  destruct (loop_UtxoIn _ _ _ _ _ _ _) as [[[ok1 nInp] ins] u1].
  destruct (if ok1 then _ else _) as [[ok2 nOut] u2].
  pose proof (loop_Kernel_other (TxVectors.m_vKernelsInput txv) bFwd true 0
                (NodeProcessor.m_Kernels p) x Hi) as H3.
  destruct (if ok2 then _ else _) as [[ok3 nKrnInp] k1] eqn:E3.
  assert (Hk1 : x ∈ k1 <-> x ∈ NodeProcessor.m_Kernels p).
  { destruct ok2; [rewrite E3 in H3; exact H3 | injection E3 as <- <- <-; reflexivity]. }
  pose proof (loop_Kernel_other (TxVectors.m_vKernelsOutput txv) bFwd false 0 k1 x Ho) as H4.
  destruct (if ok3 then _ else _) as [[ok4 nKrnOut] k2] eqn:E4.
  assert (Hk2 : x ∈ k2 <-> x ∈ NodeProcessor.m_Kernels p).
  { destruct ok3; [rewrite E4 in H4; simpl in H4; tauto | injection E4 as <- <- <-; exact Hk1]. }
  destruct ok4; [|destruct (negb bFwd)]; intros [= <- <- <-]; simpl; try exact Hk2.
  rewrite (undo_Kernel_other _ _ _ _ _ Hi), (undo_Kernel_other _ _ _ _ _ Ho). exact Hk2.
Qed.

Lemma ToggleSubsidyOpened_spec (p : NodeProcessor.t) :
  SubsidySentinel_ok p ->
  SubsidySentinel_ok (ToggleSubsidyOpened p)
  /\ Extra.m_SubsidyOpen (NodeProcessor.m_Extra (ToggleSubsidyOpened p)) =
       negb (Extra.m_SubsidyOpen (NodeProcessor.m_Extra p))
  /\ NodeProcessor.m_Kernels (ToggleSubsidyOpened p) =
       (if Extra.m_SubsidyOpen (NodeProcessor.m_Extra p)
        then {[ZeroHash]} ∪ NodeProcessor.m_Kernels p
        else NodeProcessor.m_Kernels p ∖ {[ZeroHash]}).
Proof.
  unfold SubsidySentinel_ok, ToggleSubsidyOpened, Kernels_Find. intros Hok.
  destruct (decide (ZeroHash ∈ NodeProcessor.m_Kernels p)) as [Hin|Hnin]; simpl.
  - destruct (Extra.m_SubsidyOpen (NodeProcessor.m_Extra p)) eqn:Ho.
    + exfalso. apply Hok; auto.
    + split_and!; [|reflexivity|reflexivity]. split; [set_solver | reflexivity].
  - destruct (Extra.m_SubsidyOpen (NodeProcessor.m_Extra p)) eqn:Ho.
    + split_and!; [|reflexivity|reflexivity]. split; [discriminate | set_solver].
    + exfalso. apply Hok in Hnin. discriminate.
Qed.

(** C6, as the code has it. As long as no kernel of an interpreted body
    has the zero hash for identifier, [m_SubsidyOpen] mirrors the absence of
    the zero key from the kernel tree: it does so after [Initialize] has set
    it over an empty tree, and [ToggleSubsidyOpened] and every return of
    [HandleValidatedBlock] keep it so. A body that closes the subsidy is
    refused, with nothing changed, when the flag differs from the direction.
    When the flag equals the direction and the elements of the body go
    through, the body is applied: the call answers [true], the flag is the
    opposite of the direction after it, and the zero key is in the kernel tree
    exactly after a forward call. *)
Theorem SubsidyOpen_mirrors_sentinel (body : Body.t) (h : Height) (bFwd bAdjustInputMaturity : bool)
    (pHMax : option Height) (p : NodeProcessor.t) :
  SubsidySentinel_ok p ->
  no_zero_kernel (Body.m_Txv body) ->
  (Body.m_SubsidyClosing body = true ->
   Extra.m_SubsidyOpen (NodeProcessor.m_Extra p) <> bFwd ->
   HandleValidatedBlock body h bFwd bAdjustInputMaturity pHMax p = Ret (false, body, p))
  /\ (forall ok body' p',
        HandleValidatedBlock body h bFwd bAdjustInputMaturity pHMax p = Ret (ok, body', p') ->
        SubsidySentinel_ok p'
        /\ (Extra.m_SubsidyOpen (NodeProcessor.m_Extra p') =
            if ok && Body.m_SubsidyClosing body
            then negb (Extra.m_SubsidyOpen (NodeProcessor.m_Extra p))
            else Extra.m_SubsidyOpen (NodeProcessor.m_Extra p))
        /\ (ok = true -> Body.m_SubsidyClosing body = true ->
            Extra.m_SubsidyOpen (NodeProcessor.m_Extra p) = bFwd
            /\ Extra.m_SubsidyOpen (NodeProcessor.m_Extra p') = negb bFwd))
  /\ (SubsidySentinel_ok (ToggleSubsidyOpened p)
      /\ Extra.m_SubsidyOpen (NodeProcessor.m_Extra (ToggleSubsidyOpened p)) =
           negb (Extra.m_SubsidyOpen (NodeProcessor.m_Extra p)))
  /\ (forall p0, NodeProcessor.m_Kernels p0 = ∅ ->
                 NodeProcessor.m_Extra p0 = Initialize_Extra -> SubsidySentinel_ok p0)
  /\ (Body.m_SubsidyClosing body = true ->
      Extra.m_SubsidyOpen (NodeProcessor.m_Extra p) = bFwd ->
      forall txv' p1,
        HandleValidatedTx (Body.m_Txv body) h bFwd bAdjustInputMaturity pHMax p
          = Ret (true, txv', p1) ->
        exists p',
          HandleValidatedBlock body h bFwd bAdjustInputMaturity pHMax p
            = Ret (true, Body.set_Txv txv' body, p')
          /\ Extra.m_SubsidyOpen (NodeProcessor.m_Extra p') = negb bFwd
          /\ (ZeroHash ∈ NodeProcessor.m_Kernels p' <-> bFwd = true)
          /\ NodeProcessor.m_Kernels p' =
               (if bFwd then {[ZeroHash]} ∪ NodeProcessor.m_Kernels p1
                else NodeProcessor.m_Kernels p1 ∖ {[ZeroHash]})).
Proof.
  intros Hinv [Hzi Hzo].
  assert (Hret : forall ok body' p',
             HandleValidatedBlock body h bFwd bAdjustInputMaturity pHMax p = Ret (ok, body', p') ->
             SubsidySentinel_ok p'
             /\ (Extra.m_SubsidyOpen (NodeProcessor.m_Extra p') =
                 if ok && Body.m_SubsidyClosing body
                 then negb (Extra.m_SubsidyOpen (NodeProcessor.m_Extra p))
                 else Extra.m_SubsidyOpen (NodeProcessor.m_Extra p))
             /\ (ok = true -> Body.m_SubsidyClosing body = true ->
                 Extra.m_SubsidyOpen (NodeProcessor.m_Extra p) = bFwd
                 /\ Extra.m_SubsidyOpen (NodeProcessor.m_Extra p') = negb bFwd)).
  { intros ok body' p'. unfold HandleValidatedBlock.
    destruct (Body.m_SubsidyClosing body && _) eqn:Hchk.
    { intros [= <- <- <-]. simpl. split_and!; [assumption | reflexivity | discriminate]. }
    intros Hr. apply bind_Ret_inv in Hr as ([[ok1 txv] p1] & Hcall & Hr).
    pose proof (HandleValidatedTx_Extra _ _ _ _ _ _ _ _ _ Hcall) as He.
    pose proof (HandleValidatedTx_other _ _ _ _ _ _ _ _ _ ZeroHash Hzi Hzo Hcall) as Hk.
    assert (Hinv1 : SubsidySentinel_ok p1).
    { unfold SubsidySentinel_ok in *. rewrite He, Hk. exact Hinv. }
    destruct ok1; simpl in Hr.
    2: { injection Hr as <- <- <-. simpl. rewrite He.
         split_and!; [assumption | reflexivity | discriminate]. }
    destruct (Body.m_SubsidyClosing body) eqn:Hc.
    + destruct (ToggleSubsidyOpened_spec p1 Hinv1) as (Hinv2 & Ho2 & _).
      assert (Hdir : Extra.m_SubsidyOpen (NodeProcessor.m_Extra p) = bFwd).
      { simpl in Hchk. destruct (Extra.m_SubsidyOpen _), bFwd; simpl in Hchk; congruence. }
      assert (ok = true) as -> by (injection Hr; auto).
      assert (Hres : SubsidySentinel_ok p' /\
                     Extra.m_SubsidyOpen (NodeProcessor.m_Extra p') =
                       negb (Extra.m_SubsidyOpen (NodeProcessor.m_Extra p))).
      { destruct bFwd; injection Hr as <- <-; unfold SubsidySentinel_ok in *; simpl;
          rewrite <- He, <- Ho2; split; [exact Hinv2 | reflexivity | exact Hinv2 | reflexivity]. }
      destruct Hres as [Hi' Ho']. simpl. split_and!; [assumption | assumption |].
      intros _ _. split; [assumption|]. rewrite Ho', Hdir. reflexivity.
    + assert (ok = true) as -> by (injection Hr; auto).
      assert (Hres : SubsidySentinel_ok p' /\
                     Extra.m_SubsidyOpen (NodeProcessor.m_Extra p') =
                       Extra.m_SubsidyOpen (NodeProcessor.m_Extra p)).
      { destruct bFwd; injection Hr as <- <-; unfold SubsidySentinel_ok in *; simpl;
          rewrite <- He; split; [exact Hinv1 | reflexivity | exact Hinv1 | reflexivity]. }
      destruct Hres as [Hi' Ho']. simpl. split_and!; [assumption | assumption | discriminate]. }
  split; [|split; [exact Hret|split; [|split]]].
  - intros Hc Hne. unfold HandleValidatedBlock. rewrite Hc.
    destruct (Extra.m_SubsidyOpen _), bFwd; simpl; try reflexivity; contradiction.
  - split; apply ToggleSubsidyOpened_spec, Hinv.
  - intros p0 Hk He. unfold SubsidySentinel_ok. rewrite Hk, He. simpl.
    split; [intros _; apply not_elem_of_empty | reflexivity].
  - intros Hc Hdir txv' p1 Hcall.
    pose proof (HandleValidatedTx_Extra _ _ _ _ _ _ _ _ _ Hcall) as He.
    pose proof (HandleValidatedTx_other _ _ _ _ _ _ _ _ _ ZeroHash Hzi Hzo Hcall) as Hk.
    assert (Hinv1 : SubsidySentinel_ok p1).
    { unfold SubsidySentinel_ok in *. rewrite He, Hk. exact Hinv. }
    destruct (ToggleSubsidyOpened_spec p1 Hinv1) as (_ & _ & Hkt).
    rewrite He, Hdir in Hkt.
    assert (Hex : exists p',
               HandleValidatedBlock body h bFwd bAdjustInputMaturity pHMax p
                 = Ret (true, Body.set_Txv txv' body, p')
               /\ NodeProcessor.m_Kernels p' = NodeProcessor.m_Kernels (ToggleSubsidyOpened p1)).
    { unfold HandleValidatedBlock. rewrite Hc, Hdir, Hcall.
      destruct bFwd; cbn; eexists; split; reflexivity. }
    destruct Hex as (p' & Hr & Hkp). exists p'.
    destruct (Hret _ _ _ Hr) as (Hs' & _ & Hflip).
    destruct (Hflip eq_refl Hc) as [_ Ho'].
    split; [exact Hr|]. split; [exact Ho'|]. split; [|rewrite Hkp; exact Hkt].
    unfold SubsidySentinel_ok in Hs'. rewrite Ho' in Hs'.
    destruct bFwd; cbn [negb] in Hs'.
    + split; [reflexivity|]. intros _.
      destruct (decide (ZeroHash ∈ NodeProcessor.m_Kernels p')) as [Hin|Hnin]; [exact Hin|].
      apply Hs' in Hnin. discriminate.
    + split; [|discriminate]. intros Hin. exfalso. exact (proj1 Hs' eq_refl Hin).
Qed.

End Subsidy.

Section ApplyUnapply.
Context {E : Externals}.

Lemma mod_add_sub (a b M : N) :
  0 < M -> a < M -> ((a + b) mod M + (M - b mod M)) mod M = a.
Proof.
  intros HM Ha. rewrite N.Div0.add_mod_idemp_l.
  pose proof (N.div_mod' b M) as Hb. pose proof (N.mod_lt b M ltac:(lia)) as Hr.
  replace (a + b + (M - b mod M)) with (a + (b / M + 1) * M) by lia.
  rewrite N.Div0.mod_add. apply N.mod_small, Ha.
Qed.

Lemma amountbig_add_sub (a b : N) :
  a < AmountBigModulus -> amountbig_sub (amountbig_add a b) b = a.
Proof.
  intros Ha. unfold amountbig_sub, amountbig_add. apply mod_add_sub; [|assumption].
  unfold AmountBigModulus. lia.
Qed.

Lemma scalar_add_neg (a k : N) :
  a < ScalarOrder -> scalar_add (scalar_add a (scalar_of k)) (scalar_neg (scalar_of k)) = a.
Proof.
  intros Ha. unfold scalar_add, scalar_neg, scalar_of.
  rewrite N.Div0.add_mod_idemp_r. rewrite N.Div0.mod_mod.
  rewrite <- (N.Div0.mod_mod k ScalarOrder) at 2.
  apply mod_add_sub; [apply ScalarOrder_pos | assumption].
Qed.

Lemma set_Inputs_same (txv : TxVectors.t) :
  TxVectors.set_Inputs (TxVectors.m_vInputs txv) txv = txv.
Proof. destruct txv. reflexivity. Qed.

(** What a forward pass that went through has done to the two trees. *)
Lemma HandleValidatedTx_forward_ok (txv : TxVectors.t) (h : N) (bAdj : bool) (pHMax : option N)
    (p : NodeProcessor.t) (txv' : TxVectors.t) (p' : NodeProcessor.t) :
  Utxos_wf (NodeProcessor.m_Utxos p) ->
  HandleValidatedTx txv h true bAdj pHMax p = Ret (true, txv', p') ->
  let K := NodeProcessor.m_Kernels p in
  let kin := kernel_ids (TxVectors.m_vKernelsInput txv) in
  let kout := kernel_ids (TxVectors.m_vKernelsOutput txv) in
  exists ins' u2,
    txv' = TxVectors.set_Inputs ins' txv /\
    p' = NodeProcessor.set_Kernels ((K ∖ list_to_set kin) ∪ list_to_set kout)
           (NodeProcessor.set_Utxos u2 p) /\
    Utxos_wf u2 /\
    Forall (fun v => is_Some (Output_key v h pHMax)) (TxVectors.m_vOutputs txv) /\
    (forall k, count_at u2 k + occ k (Input_key <$> ins') =
               count_at (NodeProcessor.m_Utxos p) k
               + occ k (Output_keys (TxVectors.m_vOutputs txv) h pHMax)) /\
    NoDup kin /\ (forall id, id ∈ kin -> id ∈ K) /\
    NoDup kout /\ (forall id, id ∈ kout -> id ∉ K ∖ list_to_set kin).
Proof.
  intros Hwf. unfold HandleValidatedTx.
  destruct (loop_UtxoIn _ _ _ _ _ _ _) as [[[ok1 nInp] ins] u1] eqn:H1.
  destruct (loop_UtxoIn_forward _ _ _ _ _ _ _ _ _ _ Hwf H1)
    as (m1 & Hm1 & _ & Hok1 & Hlen1 & Hwf1 & Hc1).
  destruct ok1.
  2: { simpl. intros [= ]. }
  destruct (loop_UtxoOut _ _ _ _ _ _) as [[ok2 nOut] u2] eqn:H2.
  destruct (loop_UtxoOut_forward _ _ _ _ _ _ _ _ Hwf1 H2) as (m2 & Hm2 & _ & Hok2 & Hwf2 & Hall2 & Hc2).
  destruct ok2.
  2: { simpl. intros [= ]. }
  destruct (loop_Kernel (TxVectors.m_vKernelsInput txv) true true 0 _) as [[ok3 nKrnInp] k1] eqn:H3.
  destruct (loop_Kernel_del _ true true 0 _ _ _ _ eq_refl H3) as (m3 & Hm3 & _ & Hok3 & Hk1 & Hnd3 & Hold3).
  destruct ok3.
  2: { simpl. intros [= ]. }
  destruct (loop_Kernel (TxVectors.m_vKernelsOutput txv) true false 0 k1) as [[ok4 nKrnOut] k2] eqn:H4.
  destruct (loop_Kernel_add _ true false 0 _ _ _ _ eq_refl H4) as (m4 & Hm4 & _ & Hok4 & Hk2 & Hnd4 & Hfresh4).
  destruct ok4.
  2: { simpl. intros [= ]. }
  intros [= <- <-].
  rewrite (Hok1 eq_refl) in Hc1. rewrite <- Hlen1 in Hc1. rewrite firstn_all in Hc1.
  rewrite (Hok2 eq_refl), firstn_all in Hall2, Hc2.
  rewrite (Hok3 eq_refl), firstn_all in Hk1, Hnd3, Hold3.
  rewrite (Hok4 eq_refl), firstn_all in Hk2, Hnd4, Hfresh4.
  exists ins, u2. subst k2 k1. split_and!; try done.
  intros k. specialize (Hc1 k). specialize (Hc2 k). lia.
Qed.

(** A reverse pass goes through when the kernels it puts back are absent
    and those it takes away are present. *)
Lemma HandleValidatedTx_reverse_ok (txv : TxVectors.t) (h : N) (bAdj : bool) (pHMax : option N)
    (p : NodeProcessor.t) :
  let K := NodeProcessor.m_Kernels p in
  let kin := kernel_ids (TxVectors.m_vKernelsInput txv) in
  let kout := kernel_ids (TxVectors.m_vKernelsOutput txv) in
  Forall (fun v => is_Some (Output_key v h pHMax)) (TxVectors.m_vOutputs txv) ->
  NoDup kin -> (forall id, id ∈ kin -> id ∉ K) ->
  NoDup kout -> (forall id, id ∈ kout -> id ∈ K ∪ list_to_set kin) ->
  HandleValidatedTx txv h false bAdj pHMax p =
    Ret (true, txv,
         NodeProcessor.set_Kernels ((K ∪ list_to_set kin) ∖ list_to_set kout)
           (NodeProcessor.set_Utxos
              (foldl (fun u v => (HandleBlockElement_Output v h pHMax false u).2)
                 (foldl (fun u v => (HandleBlockElement_Input v h pHMax false false u).2)
                    (NodeProcessor.m_Utxos p) (TxVectors.m_vInputs txv))
                 (TxVectors.m_vOutputs txv)) p)).
Proof.
  intros K kin kout. subst K kin kout. intros Hall Hnd1 Hfresh Hnd2 Hold.
  unfold HandleValidatedTx.
  rewrite loop_UtxoIn_reverse. rewrite loop_UtxoOut_reverse by assumption.
  rewrite (loop_Kernel_add_ok _ false true 0 _ eq_refl Hnd1 Hfresh).
  rewrite (loop_Kernel_del_ok _ false false 0 _ eq_refl Hnd2 Hold).
  rewrite set_Inputs_same. reflexivity.
Qed.

(** The UTXO tree after the two reverse loops that follow a forward pass. *)
Lemma reverse_Utxos_restore (ins' : list Input.t) (outs : list Output.t) (h : N)
    (pHMax : option N) (u u2 : gmap (N * N) N) :
  Utxos_wf u -> Utxos_wf u2 ->
  Forall (fun v => is_Some (Output_key v h pHMax)) outs ->
  (forall k, count_at u2 k + occ k (Input_key <$> ins') =
             count_at u k + occ k (Output_keys outs h pHMax)) ->
  (forall k, count_at u k + occ k (Output_keys outs h pHMax) < CountModulus) ->
  foldl (fun t v => (HandleBlockElement_Output v h pHMax false t).2)
    (foldl (fun t v => (HandleBlockElement_Input v h pHMax false false t).2) u2 ins') outs = u.
Proof.
  intros Hwf Hwf2 Hall Hc Hnw.
  destruct (undo_inputs_counts ins' h pHMax u2 Hwf2) as [Hwf3 Hc3].
  { intros k. rewrite Hc. apply Hnw. }
  set (u3 := foldl _ u2 ins') in *.
  destruct (undo_outputs_counts outs h pHMax u3 Hwf3 Hall) as [Hwf4 Hc4].
  { intros k. rewrite Hc3. specialize (Hc k). lia. }
  apply Utxos_wf_ext; [assumption | assumption |].
  intros k. specialize (Hc k). specialize (Hc3 k). specialize (Hc4 k). lia.
Qed.

(** C1, as the code has it. A forward [HandleValidatedBlock] that went
    through is undone by the reverse call on the body it left (the inputs
    carry the maturities found): the reverse call answers [true] and the
    processor is as before the forward call, hence the UTXO tree and its
    root, the kernel tree and its root, the subsidy flag, the subsidy total
    and the offset. This holds for a body none of whose kernel identifiers is
    both consumed and created, on a state whose counts do not wrap when the
    inputs are put back before the outputs are taken away. *)
Theorem HandleValidatedBlock_apply_unapply (body : Body.t) (h : Height)
    (bAdjustInputMaturity bAdj' : bool) (pHMax : option Height)
    (p : NodeProcessor.t) (body' : Body.t) (p' : NodeProcessor.t) :
  Utxos_wf (NodeProcessor.m_Utxos p) ->
  Extra_wf (NodeProcessor.m_Extra p) ->
  (Body.m_SubsidyClosing body = true ->
   SubsidySentinel_ok p /\ no_zero_kernel (Body.m_Txv body)) ->
  (forall id, id ∈ kernel_ids (TxVectors.m_vKernelsInput (Body.m_Txv body)) ->
              id ∉ kernel_ids (TxVectors.m_vKernelsOutput (Body.m_Txv body))) ->
  (forall k, count_at (NodeProcessor.m_Utxos p) k
             + occ k (Output_keys (TxVectors.m_vOutputs (Body.m_Txv body)) h pHMax)
             < CountModulus) ->
  HandleValidatedBlock body h true bAdjustInputMaturity pHMax p = Ret (true, body', p') ->
  HandleValidatedBlock body' h false bAdj' pHMax p' = Ret (true, body', p).
Proof.
  intros Hwf [Hsub Hoff] Hclose Hdisj Hnw Hfwd.
  unfold HandleValidatedBlock in Hfwd.
  destruct (Body.m_SubsidyClosing body && _) eqn:Hchk; [discriminate|].
  apply bind_Ret_inv in Hfwd as ([[ok txv'] p1] & Hcall & Hr).
  destruct ok; simpl in Hr; [|discriminate].
  destruct (HandleValidatedTx_forward_ok _ _ _ _ _ _ _ Hwf Hcall)
    as (ins' & u2 & -> & -> & Hwf2 & Hall & Hc & Hnd1 & Hold & Hnd2 & Hfresh).
  injection Hr as <- <-.
  destruct body as [sub off closing [ins outs kin kout]].
  destruct p as [db cu u K [esub eoff eopen] hz sz ev].
  unfold NodeProcessor.set_Kernels, NodeProcessor.set_Utxos, NodeProcessor.set_Extra,
    Body.set_Txv, TxVectors.set_Inputs in *.
  simpl in *.
  pose proof (reverse_Utxos_restore ins' outs h pHMax u u2 Hwf Hwf2 Hall Hc Hnw) as Hu.
  set (K2 := K ∖ list_to_set (kernel_ids kin) ∪ list_to_set (kernel_ids kout)) in *.
  assert (Hback : forall (Z : gset N) (fl : bool),
             (Z = ∅ \/ (Z = {[ZeroHash]} /\ (ZeroHash ∉ K) /\
                        (ZeroHash ∉ kernel_ids kin) /\ (ZeroHash ∉ kernel_ids kout))) ->
             HandleValidatedTx (TxVectors.mk ins' outs kin kout) h false bAdj' pHMax
               (NodeProcessor.mk db cu u2 (Z ∪ K2)
                  (Extra.mk (amountbig_add esub sub) (scalar_add eoff (scalar_of off))
                     fl) hz sz ev) =
             Ret (true, TxVectors.mk ins' outs kin kout,
                  NodeProcessor.mk db cu u (Z ∪ K)
                    (Extra.mk (amountbig_add esub sub) (scalar_add eoff (scalar_of off))
                       fl) hz sz ev)).
  { intros Z fl HZ.
    rewrite HandleValidatedTx_reverse_ok;
      cbn [TxVectors.m_vInputs TxVectors.m_vOutputs TxVectors.m_vKernelsInput
           TxVectors.m_vKernelsOutput NodeProcessor.m_Kernels NodeProcessor.m_Utxos];
      try assumption.
    - rewrite Hu. unfold NodeProcessor.set_Kernels, NodeProcessor.set_Utxos.
      cbn [NodeProcessor.m_DB NodeProcessor.m_Cursor NodeProcessor.m_Utxos
           NodeProcessor.m_Kernels NodeProcessor.m_Extra NodeProcessor.m_Horizon
           NodeProcessor.m_nSizeUtxoComission NodeProcessor.m_Events].
      do 3 f_equal. apply set_eq. intros x. subst K2.
      destruct (decide (x ∈ kernel_ids kin)) as [Hx|Hx];
        [pose proof (Hold x Hx); pose proof (Hdisj x Hx)|];
        destruct (decide (x ∈ kernel_ids kout)) as [Hy|Hy]; try (pose proof (Hfresh x Hy));
        destruct HZ as [->|(-> & ? & ? & ?)];
        try (destruct (decide (x = ZeroHash)) as [->|Hxz]); set_solver.
    - intros id Hid. pose proof (Hold id Hid). pose proof (Hdisj id Hid). subst K2.
      destruct HZ as [->|(-> & ? & ? & ?)]; [set_solver|].
      assert (id <> ZeroHash) by (intros ->; contradiction). set_solver.
    - intros id Hid. subst K2. set_solver. }
  unfold HandleValidatedBlock. simpl.
  destruct closing; simpl in *.
  - destruct (Hclose eq_refl) as [Hinv [Hz1 Hz2]].
    unfold SubsidySentinel_ok, no_zero_kernel in *. simpl in *.
    assert (eopen = true) as -> by (destruct eopen; simpl in Hchk; congruence).
    assert (HzK : ZeroHash ∉ K) by (apply Hinv; reflexivity).
    assert (HzK2 : ZeroHash ∉ K2) by (subst K2; set_solver).
    assert (Htog : forall e1 e2,
               ToggleSubsidyOpened (NodeProcessor.mk db cu u2 K2 (Extra.mk e1 e2 true) hz sz ev) =
               NodeProcessor.mk db cu u2 ({[ZeroHash]} ∪ K2) (Extra.mk e1 e2 false) hz sz ev).
    { intros e1 e2. unfold ToggleSubsidyOpened, Kernels_Find. simpl.
      rewrite decide_False by assumption. reflexivity. }
    assert (Htog' : forall e1 e2,
               ToggleSubsidyOpened
                 (NodeProcessor.mk db cu u ({[ZeroHash]} ∪ K) (Extra.mk e1 e2 false) hz sz ev) =
               NodeProcessor.mk db cu u K (Extra.mk e1 e2 true) hz sz ev).
    { intros e1 e2. unfold ToggleSubsidyOpened, Kernels_Find. simpl.
      rewrite decide_True by set_solver. simpl.
      unfold NodeProcessor.set_Kernels, NodeProcessor.set_Extra. simpl.
      do 2 f_equal. set_solver. }
    rewrite !Htog. simpl.
    specialize (Hback {[ZeroHash]} false). simpl in Hback.
    rewrite Hback by (right; auto). simpl.
    rewrite !Htog'. unfold NodeProcessor.set_Extra. simpl.
    rewrite amountbig_add_sub, scalar_add_neg by assumption. reflexivity.
  - specialize (Hback ∅ eopen). rewrite !union_empty_l_L in Hback.
    unfold NodeProcessor.set_Extra. simpl.
    rewrite Hback by (left; reflexivity). simpl.
    unfold NodeProcessor.set_Extra. simpl.
    rewrite amountbig_add_sub, scalar_add_neg by assumption. reflexivity.
Qed.

End ApplyUnapply.

(** ** The interpreter run on small states *)

Lemma Utxos_wf_check (u : gmap (N * N) N) :
  map_Forall (fun _ n => 1 <= n < CountModulus) u -> Utxos_wf u.
Proof. intros Hall k n Hk. exact (Hall k n Hk). Qed.

Lemma occ_le_length (k : N * N) (ks : list (N * N)) : occ k ks <= N.of_nat (length ks).
Proof.
  induction ks as [|x ks IH]; simpl; [lia|]. destruct (decide (x = k)); lia.
Qed.

Lemma no_wrap_check {E : Externals} (u : gmap (N * N) N) (outs : list Output.t) (h : N)
    (pHMax : option N) :
  N.of_nat (length outs) < CountModulus ->
  map_Forall (fun _ n => n + N.of_nat (length outs) < CountModulus) u ->
  forall k, count_at u k + occ k (Output_keys outs h pHMax) < CountModulus.
Proof.
  intros Hlen Hall k. pose proof (occ_le_length k (Output_keys outs h pHMax)) as Hocc.
  assert (Hl : (length (Output_keys outs h pHMax) <= length outs)%nat).
  { unfold Output_keys. clear. induction outs as [|v outs IH]; cbn [omap list_omap length]; [lia|].
    destruct (Output_key v h pHMax); cbn [length]; lia. }
  unfold count_at. destruct (u !! k) as [n|] eqn:Hk; simpl.
  - specialize (Hall k n Hk). simpl in Hall. lia.
  - lia.
Qed.

(** C1, the claim as written, fails: a kernel that a body both consumes
    and creates is taken out and put back by the forward pass; the reverse
    pass, which handles the kernel inputs before the kernel outputs, finds
    it present when it wants to put it back, and raises. *)
Lemma HandleValidatedBlock_unapply_raises :
  let k := TxKernel.mk 11 (HeightRange.mk 0 0) in
  let body := Body.mk 0 0 false (TxVectors.mk [] [] [k] [k]) in
  let p := demo_processor ∅ {[11]} (Extra.mk 0 0 true) in
  @HandleValidatedBlock demo body 1 true true None p = Ret (true, body, p)
  /\ @HandleValidatedBlock demo body 1 false false None p = Throw NodeDataCorrupted.
Proof. vm_compute. split; reflexivity. Qed.

(** The second condition of the amended C1 cannot be dropped either: with
    a leaf at 2^32 - 1 that a body spends twice and creates twice, the reverse
    pass wraps the count to zero, deletes the leaf at one and goes on from the
    count a fresh leaf happens to hold. *)
Lemma HandleValidatedBlock_unapply_wraps :
  let body := Body.mk 0 0 false
                (TxVectors.mk [Input.mk 6 0; Input.mk 6 0]
                   [Output.mk 6 false 0 0; Output.mk 6 false 0 0] [] []) in
  let body' := Body.mk 0 0 false
                (TxVectors.mk [Input.mk 6 10; Input.mk 6 10]
                   [Output.mk 6 false 0 0; Output.mk 6 false 0 0] [] []) in
  let p := demo_processor {[ (6, 10) := 4294967295 ]} ∅ (Extra.mk 0 0 true) in
  @HandleValidatedBlock demo body 10 true true None p = Ret (true, body', p)
  /\ @HandleValidatedBlock demo body' 10 false false None p =
       Ret (true, body', demo_processor {[ (6, 10) := 6 ]} ∅ (Extra.mk 0 0 true)).
Proof. vm_compute. split; reflexivity. Qed.

Lemma HandleValidatedBlock_apply_unapply_witness :
  let k20 := TxKernel.mk 20 (HeightRange.mk 0 0) in
  let k21 := TxKernel.mk 21 (HeightRange.mk 0 0) in
  let body := Body.mk 80 7 true
                (TxVectors.mk [Input.mk 5 0] [Output.mk 6 false 0 0] [k20] [k21]) in
  let body' := Body.mk 80 7 true
                (TxVectors.mk [Input.mk 5 1] [Output.mk 6 false 0 0] [k20] [k21]) in
  let p := demo_processor {[ (5, 1) := 1 ]} {[20]} (Extra.mk 3 4 true) in
  let p' := demo_processor {[ (6, 10) := 1 ]} {[0; 21]} (Extra.mk 83 11 false) in
  @HandleValidatedBlock demo body 10 true true None p = Ret (true, body', p')
  /\ @HandleValidatedBlock demo body' 10 false false None p' = Ret (true, body', p).
Proof.
  intros k20 k21 body body' p p'.
  assert (Hfwd : @HandleValidatedBlock demo body 10 true true None p = Ret (true, body', p'))
    by (vm_compute; reflexivity).
  split; [exact Hfwd|].
  apply (@HandleValidatedBlock_apply_unapply demo body 10 true false None p body' p').
  - apply Utxos_wf_check. apply (bool_decide_unpack _). vm_compute. exact I.
  - split; vm_compute; reflexivity.
  - intros _. split.
    + split; [intros _; vm_compute; set_solver | reflexivity].
    + split; vm_compute; set_solver.
  - vm_compute. set_solver.
  - apply no_wrap_check; [vm_compute; reflexivity|].
    apply (bool_decide_unpack _). vm_compute. exact I.
  - exact Hfwd.
Defined.


(** C6, the claim as written, fails: nothing in the kernel handler keeps
    the zero hash for the sentinel. A body that does not close the subsidy
    but carries an output kernel whose identifier is the zero hash is
    applied, and leaves the zero key in the tree with the flag still set. *)
Lemma SubsidyOpen_zero_kernel_breaks :
  let k0 := TxKernel.mk ZeroHash (HeightRange.mk 0 0) in
  let body := Body.mk 80 7 false (TxVectors.mk [] [] [] [k0]) in
  let p := demo_processor ∅ ∅ (Extra.mk 3 4 true) in
  let p' := demo_processor ∅ {[ZeroHash]} (Extra.mk 83 11 true) in
  SubsidySentinel_ok p
  /\ @HandleValidatedBlock demo body 10 true true None p = Ret (true, body, p')
  /\ Extra.m_SubsidyOpen (NodeProcessor.m_Extra p') = true
  /\ ZeroHash ∈ NodeProcessor.m_Kernels p'
  /\ ~ SubsidySentinel_ok p'.
Proof.
  intros k0 body p p'.
  assert (Hin : ZeroHash ∈ NodeProcessor.m_Kernels p') by (vm_compute; reflexivity).
  split; [split; [intros _; apply not_elem_of_empty | reflexivity]|].
  split; [vm_compute; reflexivity|]. split; [reflexivity|]. split; [exact Hin|].
  intros Hok. exact (proj1 Hok eq_refl Hin).
Qed.

Lemma SubsidyOpen_mirrors_sentinel_witness :
  let k20 := TxKernel.mk 20 (HeightRange.mk 0 0) in
  let k21 := TxKernel.mk 21 (HeightRange.mk 0 0) in
  let body := Body.mk 80 7 true
                (TxVectors.mk [Input.mk 5 0] [Output.mk 6 false 0 0] [k20] [k21]) in
  let body' := Body.mk 80 7 true
                (TxVectors.mk [Input.mk 5 1] [Output.mk 6 false 0 0] [k20] [k21]) in
  let p := demo_processor {[ (5, 1) := 1 ]} {[20]} (Extra.mk 3 4 true) in
  let p' := demo_processor {[ (6, 10) := 1 ]} {[0; 21]} (Extra.mk 83 11 false) in
  (exists q, @HandleValidatedBlock demo body 10 true true None p = Ret (true, body', q)
             /\ Extra.m_SubsidyOpen (NodeProcessor.m_Extra q) = false
             /\ (ZeroHash ∈ NodeProcessor.m_Kernels q <-> true = true))
  /\ (exists q, @HandleValidatedBlock demo body' 10 false false None p' = Ret (true, body', q)
                /\ Extra.m_SubsidyOpen (NodeProcessor.m_Extra q) = true
                /\ (ZeroHash ∈ NodeProcessor.m_Kernels q <-> false = true))
  /\ @HandleValidatedBlock demo body 10 false false None p = Ret (false, body, p)
  /\ SubsidySentinel_ok (@ToggleSubsidyOpened p).
Proof.
  intros k20 k21 body body' p p'.
  destruct (@SubsidyOpen_mirrors_sentinel demo body 10 true true None p)
    as (_ & _ & [Htog _] & _ & Hfwd).
  { split; [intros _; vm_compute; set_solver | reflexivity]. }
  { split; vm_compute; set_solver. }
  destruct (@SubsidyOpen_mirrors_sentinel demo body' 10 false false None p')
    as (_ & _ & _ & _ & Hrev).
  { split; [discriminate | intros Hn; exfalso; apply Hn; vm_compute; set_solver]. }
  { split; vm_compute; set_solver. }
  destruct (@SubsidyOpen_mirrors_sentinel demo body 10 false false None p)
    as (Hrefuse & _).
  { split; [intros _; vm_compute; set_solver | reflexivity]. }
  { split; vm_compute; set_solver. }
  split; [|split; [|split; [apply Hrefuse; [reflexivity | discriminate] | exact Htog]]].
  - destruct (Hfwd eq_refl eq_refl (Body.m_Txv body')
                (demo_processor {[ (6, 10) := 1 ]} {[21]} (Extra.mk 3 4 true)))
      as (q & Hq & Ho & Hz & _); [vm_compute; reflexivity|].
    exists q. split; [exact Hq|]. split; [exact Ho | exact Hz].
  - destruct (Hrev eq_refl eq_refl (Body.m_Txv body')
                (demo_processor {[ (5, 1) := 1 ]} {[0; 20]} (Extra.mk 83 11 false)))
      as (q & Hq & Ho & Hz & _); [vm_compute; reflexivity|].
    exists q. split; [exact Hq|]. split; [exact Ho | exact Hz].
Defined.

Section HeaderChecks.
Context {E : Externals}.

Lemma gather_timestamps_spec (n : nat) (db : NodeDB.t) (row : RowId) (vTs l : list Timestamp) :
  (1 <= n)%nat ->
  Rules.WindowForMedian rules = N.of_nat (length vTs + n) ->
  gather_timestamps n db row vTs = Ret l ->
  l = vTs ++ last_timestamps n db row.
Proof.
  revert row vTs. induction n as [|n IH]; intros row vTs Hn HW; [lia|].
  cbn [gather_timestamps last_timestamps]. unfold NodeDB.get_State, NodeDB.get_Row.
  destruct (NodeDB.m_States db !! row) as [r|] eqn:Hr; [|discriminate].
  cbn [mbind Outcome_bind].
  rewrite length_app. cbn [length].
  destruct (N.leb_spec (Rules.WindowForMedian rules) (N.of_nat (length vTs + 1))) as [Hle|Hgt].
  - intros [= <-]. assert (n = 0)%nat as -> by lia.
    cbn [last_timestamps]. destruct (_ =? 0); reflexivity.
  - destruct n as [|n']; [lia|].
    unfold NodeDB.get_PrevRow, NodeDB.get_Row. rewrite Hr. cbn [mbind Outcome_bind].
    destruct (NodeDB.r_RowPrev r =? 0); [intros [= <-]; reflexivity|].
    intros Hrec. apply IH in Hrec; [| lia | rewrite length_app; cbn [length]; lia].
    rewrite Hrec, <- app_assoc. reflexivity.
Qed.

(** [get_MovingMedian] is the median of the timestamps of the last
    [WindowForMedian] headers that end at the cursor. *)
Lemma get_MovingMedian_spec (p : NodeProcessor.t) (m : Timestamp) :
  let row := StateID.m_Row (Cursor.m_Sid (NodeProcessor.m_Cursor p)) in
  1 <= Rules.WindowForMedian rules ->
  get_MovingMedian p = Ret m ->
  m = if row =? 0 then 0
      else median_of (last_timestamps (N.to_nat (Rules.WindowForMedian rules))
                        (NodeProcessor.m_DB p) row).
Proof.
  intros row HW. unfold get_MovingMedian. fold row.
  destruct (row =? 0); [intros [= <-]; reflexivity|].
  intros Hb. apply bind_Ret_inv in Hb as (vTs & Hg & Hr). injection Hr as <-.
  apply gather_timestamps_spec in Hg; [| lia | simpl; lia].
  simpl in Hg. subst vTs. unfold median_of.
  rewrite (Permutation_length (merge_sort_Permutation N.le _)). reflexivity.
Qed.

(** C4. A block is interpreted for the first time when its journal is
    empty. [HandleBlock] then answers [true] only if the difficulty of the
    header added to the chainwork of the cursor is the chainwork of the
    header, the packed difficulty is [m_DifficultyNext] of the cursor, and the
    timestamp is above the median of the timestamps of the last
    [WindowForMedian] headers of the active chain (all of them when there
    are fewer; zero when there is none). With a journal, the answer is the one
    of [HandleValidatedBlock] and the header is not looked at. *)
Theorem HandleBlock_header_checks (sid : StateID.t) (p : NodeProcessor.t)
    (bb m_Buf : ByteBuffer) (s : SystemState.Full.t) (block : Body.t) :
  let cu := NodeProcessor.m_Cursor p in
  NodeDB.GetStateBlock (NodeProcessor.m_DB p) (StateID.m_Row sid) = Ret (bb, m_Buf) ->
  NodeDB.get_State (NodeProcessor.m_DB p) (StateID.m_Row sid) = Ret s ->
  Deserialize bb = Some block ->
  1 <= Rules.WindowForMedian rules ->
  (m_Buf = [] ->
   forall p', HandleBlock sid true p = Ret (true, p') ->
     Difficulty_Inc (SystemState.Full.m_PoW_Difficulty s)
       (SystemState.Full.m_ChainWork (Cursor.m_Full cu)) = SystemState.Full.m_ChainWork s
     /\ SystemState.Full.m_PoW_Difficulty s = Cursor.m_DifficultyNext cu
     /\ (if StateID.m_Row (Cursor.m_Sid cu) =? 0 then 0
         else median_of (last_timestamps (N.to_nat (Rules.WindowForMedian rules))
                           (NodeProcessor.m_DB p) (StateID.m_Row (Cursor.m_Sid cu))))
        < SystemState.Full.m_TimeStamp s)
  /\ (m_Buf <> [] ->
      HandleBlock sid true p =
        ('(bOk, _, p1) ← HandleValidatedBlock block (StateID.m_Height sid) true true None p;
         Ret (bOk, p1))).
Proof.
  intros cu Hblk Hst Hde HW. unfold HandleBlock. rewrite Hblk. cbn [mbind Outcome_bind].
  rewrite Hst. cbn [mbind Outcome_bind]. rewrite Hde. split.
  - intros -> p'. rewrite bool_decide_eq_true_2 by reflexivity. cbn [andb].
    intros Hr. apply bind_Ret_inv in Hr as ([go block0] & Hchk & Hr).
    apply bind_Ret_inv in Hchk as (ok & Hchk & Hgo). injection Hgo as <- <-.
    destruct ok; [|simpl in Hr; discriminate].
    unfold first_time_checks in Hchk. fold cu in Hchk.
    destruct (N.eqb_spec (Difficulty_Inc (SystemState.Full.m_PoW_Difficulty s)
                            (SystemState.Full.m_ChainWork (Cursor.m_Full cu)))
                         (SystemState.Full.m_ChainWork s)) as [Hw|]; [|discriminate].
    destruct (N.eqb_spec (Cursor.m_DifficultyNext cu) (SystemState.Full.m_PoW_Difficulty s))
      as [Hd|]; [|discriminate].
    simpl in Hchk. apply bind_Ret_inv in Hchk as (median & Hmed & Hchk).
    apply get_MovingMedian_spec in Hmed; [|assumption]. fold cu in Hmed.
    destruct (N.leb_spec (SystemState.Full.m_TimeStamp s) median) as [|Hts]; [discriminate|].
    split_and!; [assumption | congruence | rewrite <- Hmed; exact Hts].
  - intros Hne. rewrite bool_decide_eq_false_2 by assumption. cbn [andb mbind Outcome_bind negb].
    destruct (HandleValidatedBlock block (StateID.m_Height sid) true true None p)
      as [[[bOk block1] p1]| |]; reflexivity.
Qed.

End HeaderChecks.

(** ** Pruning *)

Section Pruning.
Context {E : Externals}.

Lemma row_later_refl r : row_later r r.
Proof. unfold row_later. auto. Qed.

Lemma row_later_trans r1 r2 r3 : row_later r1 r2 -> row_later r2 r3 -> row_later r1 r3.
Proof.
  unfold row_later. intros (? & ? & ? & ? & ?) (? & ? & ? & ? & ?).
  split_and!; try congruence; auto.
Qed.

Lemma db_later_refl db : db_later db db.
Proof. intros row r' Hr. exists r'. split; [done | apply row_later_refl]. Qed.

Lemma db_later_trans db1 db2 db3 : db_later db1 db2 -> db_later db2 db3 -> db_later db1 db3.
Proof.
  intros H12 H23 row r3 Hr3. destruct (H23 _ _ Hr3) as (r2 & Hr2 & Hl2).
  destruct (H12 _ _ Hr2) as (r1 & Hr1 & Hl1). exists r1. split; [done|].
  eapply row_later_trans; eauto.
Qed.

Lemma same_params_refl db : same_params db db.
Proof. repeat split. Qed.

Lemma same_params_trans db1 db2 db3 :
  same_params db1 db2 -> same_params db2 db3 -> same_params db1 db3.
Proof. unfold same_params. intros (? & ? & ? & ?) (? & ? & ? & ?). split_and!; congruence. Qed.

Lemma prune_row_fossil r : fossil_row (prune_row r) /\ row_later r (prune_row r).
Proof.
  unfold fossil_row, row_later, prune_row. destruct r as [hdr prev f a b rb pe].
  destruct a; simpl; split_and!; auto; try discriminate. all: intros [? Hf]; split; auto.
Qed.

Lemma PruneAt_step_spec (db db' : NodeDB.t) (sid : StateID.t) :
  PruneAt_step (Ret db) sid = Ret db' ->
  exists r, NodeDB.m_States db !! StateID.m_Row sid = Some r /\
            db' = NodeDB.set_States (<[StateID.m_Row sid := prune_row r]> (NodeDB.m_States db)) db.
Proof.
  unfold PruneAt_step, NodeDB.GetStateFlags, NodeDB.SetStateNotFunctional, NodeDB.DelStateBlock,
    NodeDB.set_Peer, NodeDB.upd_Row, NodeDB.get_Row. cbn [mbind Outcome_bind].
  destruct (NodeDB.m_States db !! StateID.m_Row sid) as [r|] eqn:Hr; [|discriminate].
  cbn [mbind Outcome_bind NodeDB.StateFlags.Active].
  intros Hres. exists r. split; [reflexivity|].
  destruct db as [m c p1 p2 p3]. unfold prune_row.
  destruct (NodeDB.r_Active r) eqn:Ha; unfold NodeDB.set_States in *; simpl in *;
    repeat (rewrite ?Hr, ?lookup_insert_eq in Hres; simpl in Hres);
    injection Hres as <-; rewrite ?insert_insert_eq; reflexivity.
Qed.

Lemma PruneAt_unfold (h : Height) (p : NodeProcessor.t) :
  PruneAt h true p =
    (db' ← foldl PruneAt_step (Ret (NodeProcessor.m_DB p)) (NodeDB.EnumStatesAt (NodeProcessor.m_DB p) h);
     Ret (NodeProcessor.set_DB db' p)).
Proof. reflexivity. Qed.

Lemma PruneAt_fold_start (acc : Outcome NodeDB.t) (l : list StateID.t) :
  foldl PruneAt_step acc l = (db ← acc; foldl PruneAt_step (Ret db) l).
Proof.
  revert acc. induction l as [|sid l IH]; intros acc; cbn [foldl].
  - destruct acc; reflexivity.
  - rewrite IH. destruct acc; cbn [mbind Outcome_bind]; [|reflexivity|reflexivity].
    rewrite <- IH. reflexivity.
Qed.


Lemma PruneAt_fold_spec (l : list StateID.t) (db db' : NodeDB.t) :
  foldl PruneAt_step (Ret db) l = Ret db' ->
  db_later db db' /\ same_params db db' /\
  forall sid r', sid ∈ l -> NodeDB.m_States db' !! StateID.m_Row sid = Some r' -> fossil_row r'.
Proof.
  revert db. induction l as [|sid l IH]; intros db; cbn [foldl].
  - intros [= <-]. split_and!; [apply db_later_refl | apply same_params_refl |].
    intros sid r' Hin. inversion Hin.
  - rewrite PruneAt_fold_start. intros Hb.
    apply bind_Ret_inv in Hb as (db1 & Hstep & Hrest).
    apply PruneAt_step_spec in Hstep as (r & Hr & ->).
    apply IH in Hrest as (Hlater & Hpar & Hfos).
    assert (Hl1 : db_later db
              (NodeDB.set_States (<[StateID.m_Row sid := prune_row r]> (NodeDB.m_States db)) db)).
    { intros row r1. destruct db as [m c p1 p2 p3]. simpl in *. rewrite lookup_insert.
      destruct (decide (StateID.m_Row sid = row)) as [<-|Hne]; simpl.
      - intros [= <-]. exists r. split; [done | apply (proj2 (prune_row_fossil r))].
      - intros Hr1. exists r1. split; [done | apply row_later_refl]. }
    split_and!.
    + eapply db_later_trans; eauto.
    + destruct db as [m c p1 p2 p3]. unfold same_params in *. simpl in *. exact Hpar.
    + intros sid' r' Hin Hr'. apply elem_of_cons in Hin as [->|Hin]; [|exact (Hfos _ _ Hin Hr')].
      destruct (Hlater _ _ Hr') as (r1 & Hr1 & Hl).
      destruct db as [m c p1 p2 p3]. simpl in Hr1. rewrite lookup_insert_eq in Hr1.
      injection Hr1 as <-. destruct Hl as (_ & _ & _ & _ & Hf). apply Hf.
      apply (proj1 (prune_row_fossil r)).
Qed.

Lemma elem_of_EnumStatesAt (db : NodeDB.t) (h : Height) (row : RowId) (r : NodeDB.StateRow) :
  NodeDB.m_States db !! row = Some r ->
  SystemState.Full.m_Height (NodeDB.r_Hdr r) = h ->
  StateID.mk row h ∈ NodeDB.EnumStatesAt db h.
Proof.
  intros Hr Hh. unfold NodeDB.EnumStatesAt. apply list_elem_of_fmap.
  exists (row, r). split; [unfold NodeDB.row_sid; simpl; congruence|].
  apply list_elem_of_filter. split; [exact Hh | apply elem_of_map_to_list; exact Hr].
Qed.

Lemma PruneAt_spec (h : Height) (p p' : NodeProcessor.t) :
  PruneAt h true p = Ret p' ->
  exists db', p' = NodeProcessor.set_DB db' p /\
    db_later (NodeProcessor.m_DB p) db' /\ same_params (NodeProcessor.m_DB p) db' /\
    forall row r', NodeDB.m_States db' !! row = Some r' ->
                   SystemState.Full.m_Height (NodeDB.r_Hdr r') = h -> fossil_row r'.
Proof.
  rewrite PruneAt_unfold. intros Hb. apply bind_Ret_inv in Hb as (db' & Hfold & Hr).
  injection Hr as <-. exists db'. split; [reflexivity|].
  apply PruneAt_fold_spec in Hfold as (Hlater & Hpar & Hfos). split_and!; try assumption.
  intros row r' Hr' Hh. destruct (Hlater _ _ Hr') as (r0 & Hr0 & Hl).
  apply (Hfos (StateID.mk row h) r'); [|exact Hr'].
  eapply elem_of_EnumStatesAt; [exact Hr0|]. destruct Hl as (Hhdr & _). congruence.
Qed.



Lemma DeleteState_spec (row : RowId) (db db' : NodeDB.t) (ok : bool) (prev : RowId) :
  NodeDB.DeleteState row db = Ret (ok, prev, db') ->
  db_later db db' /\ same_params db db' /\
  (size (NodeDB.m_States db') <= size (NodeDB.m_States db))%nat /\
  (ok = true -> (size (NodeDB.m_States db') < size (NodeDB.m_States db))%nat) /\
  (NodeDB.has_child (NodeDB.m_States db) row = false -> ok = true).
Proof.
  unfold NodeDB.DeleteState, NodeDB.get_Row.
  destruct (NodeDB.m_States db !! row) as [r|] eqn:Hr; [|discriminate].
  cbn [mbind Outcome_bind].
  destruct (NodeDB.has_child (NodeDB.m_States db) row) eqn:Hc.
  - intros [= <- <- <-].
    split_and!; [apply db_later_refl | apply same_params_refl | lia | discriminate | discriminate].
  - intros [= <- <- <-].
    destruct db as [m c p1 p2 p3]; simpl in *.
    assert (Hsz : size m <> 0%nat) by (apply (map_size_ne_0_lookup_2 m row); eauto).
    split_and!.
    + intros row0 r0 H0. simpl in H0. apply lookup_delete_Some in H0 as [_ H0].
      exists r0; split; [done | apply row_later_refl].
    + repeat split.
    + rewrite map_size_delete, Hr. simpl. lia.
    + intros _. rewrite map_size_delete, Hr. simpl. lia.
    + done.
Qed.

Lemma DeleteState_returns (row : RowId) (db : NodeDB.t) :
  NodeDB.DeleteState row db <> OutOfFuel.
Proof.
  unfold NodeDB.DeleteState, NodeDB.get_Row.
  destruct (NodeDB.m_States db !! row) as [r|]; [|discriminate].
  cbn [mbind Outcome_bind].
  destruct (NodeDB.has_child (NodeDB.m_States db) row); discriminate.
Qed.

Lemma delete_chain_spec (n : nat) : forall (row : RowId) (db db' : NodeDB.t),
  delete_chain n row db = Ret db' ->
  db_later db db' /\ same_params db db' /\
  (size (NodeDB.m_States db') <= size (NodeDB.m_States db))%nat /\
  (NodeDB.has_child (NodeDB.m_States db) row = false ->
   (size (NodeDB.m_States db') < size (NodeDB.m_States db))%nat).
Proof.
  induction n as [|n IH]; intros row db db'; cbn [delete_chain]; [discriminate|].
  intros Hb. apply bind_Ret_inv in Hb as ([[ok prev] db1] & Hdel & Hrest).
  apply DeleteState_spec in Hdel as (Hl & Hp & Hle & Hlt & Htip).
  destruct ok; cbn [negb] in Hrest.
  - specialize (Hlt eq_refl). destruct (prev =? 0).
    + injection Hrest as <-. split_and!; auto; lia.
    + apply IH in Hrest as (Hl' & Hp' & Hle' & _). split_and!.
      * eapply db_later_trans; eauto.
      * eapply same_params_trans; eauto.
      * lia.
      * intros _. lia.
  - injection Hrest as <-. split_and!; auto; intros Hc; specialize (Htip Hc); discriminate.
Qed.

Lemma delete_chain_returns (n : nat) : forall (row : RowId) (db : NodeDB.t),
  (size (NodeDB.m_States db) < n)%nat -> delete_chain n row db <> OutOfFuel.
Proof.
  induction n as [|n IH]; intros row db Hsz; [lia|]. cbn [delete_chain].
  destruct (NodeDB.DeleteState row db) as [[[ok prev] db1]| |] eqn:Hdel;
    cbn [mbind Outcome_bind]; [|discriminate|].
  - apply DeleteState_spec in Hdel as (_ & _ & Hle & Hlt & _).
    destruct ok; cbn [negb]; [|discriminate].
    destruct (prev =? 0); [discriminate|]. apply IH. specialize (Hlt eq_refl). lia.
  - exfalso. exact (DeleteState_returns _ _ Hdel).
Qed.

Lemma elem_of_EnumTips (db : NodeDB.t) (sid : StateID.t) :
  sid ∈ NodeDB.EnumTips db -> NodeDB.has_child (NodeDB.m_States db) (StateID.m_Row sid) = false.
Proof.
  unfold NodeDB.EnumTips. intros Hin. apply list_elem_of_fmap in Hin as (x & -> & Hx).
  rewrite merge_sort_Permutation in Hx. apply list_elem_of_filter in Hx as [Hx _]. exact Hx.
Qed.

Lemma prune_branches_spec (n : nat) : forall (h : Height) (db db' : NodeDB.t),
  prune_branches n h db = Ret db' -> db_later db db' /\ same_params db db'.
Proof.
  induction n as [|n IH]; intros h db db'; cbn [prune_branches]; [discriminate|].
  destruct (NodeDB.EnumTips db) as [|sid tips].
  - intros [= <-]. split; [apply db_later_refl | apply same_params_refl].
  - destruct (h <=? StateID.m_Height sid).
    + intros [= <-]. split; [apply db_later_refl | apply same_params_refl].
    + intros Hb. apply bind_Ret_inv in Hb as (db1 & Hdel & Hrest).
      apply delete_chain_spec in Hdel as (Hl & Hp & _). apply IH in Hrest as (Hl' & Hp').
      split; [eapply db_later_trans | eapply same_params_trans]; eauto.
Qed.

Lemma prune_branches_returns (n : nat) : forall (h : Height) (db : NodeDB.t),
  (size (NodeDB.m_States db) < n)%nat -> prune_branches n h db <> OutOfFuel.
Proof.
  induction n as [|n IH]; intros h db Hsz; [lia|]. cbn [prune_branches].
  destruct (NodeDB.EnumTips db) as [|sid tips] eqn:Htips; [discriminate|].
  destruct (h <=? StateID.m_Height sid); [discriminate|].
  destruct (delete_chain (S (size (NodeDB.m_States db))) (StateID.m_Row sid) db) as [db1| |] eqn:Hdel;
    cbn [mbind Outcome_bind]; [|discriminate|].
  - apply delete_chain_spec in Hdel as (_ & _ & _ & Hlt). apply IH.
    assert (Htip : NodeDB.has_child (NodeDB.m_States db) (StateID.m_Row sid) = false).
    { apply elem_of_EnumTips. rewrite Htips. left. }
    specialize (Hlt Htip). lia.
  - exfalso. apply (delete_chain_returns _ _ _ (Nat.lt_succ_diag_r _) Hdel).
Qed.

Lemma height_add_small (a b : Height) : a + b < HeightModulus -> height_add a b = a + b.
Proof. intros Hs. unfold height_add. apply N.mod_small. exact Hs. Qed.

Lemma prune_fossils_spec (n : nat) : forall (hF h : Height) (p p' : NodeProcessor.t),
  hF + 1 < HeightModulus -> h < HeightModulus ->
  prune_fossils n hF h p = Ret p' ->
  exists db', p' = NodeProcessor.set_DB db' p /\
    db_later (NodeProcessor.m_DB p) db' /\
    NodeDB.p_FossilHeight db' =
      (if hF + 1 <? h then Some (h - 1) else NodeDB.p_FossilHeight (NodeProcessor.m_DB p)) /\
    forall row r', NodeDB.m_States db' !! row = Some r' ->
      hF < SystemState.Full.m_Height (NodeDB.r_Hdr r') < h -> fossil_row r'.
Proof.
  induction n as [|n IH]; intros hF h p p' HhF Hh; cbn [prune_fossils];
    rewrite (height_add_small hF 1 HhF).
  - destruct (h <=? hF + 1) eqn:Hle; [|discriminate]. intros [= <-].
    apply N.leb_le in Hle. exists (NodeProcessor.m_DB p).
    split_and!; [destruct p; reflexivity | apply db_later_refl | |].
    + destruct (hF + 1 <? h) eqn:Hlt; [apply N.ltb_lt in Hlt; lia | reflexivity].
    + intros row r' _ Hr. lia.
  - destruct (h <=? hF + 1) eqn:Hle.
    + intros [= <-]. apply N.leb_le in Hle. exists (NodeProcessor.m_DB p).
      split_and!; [destruct p; reflexivity | apply db_later_refl | |].
      * destruct (hF + 1 <? h) eqn:Hlt; [apply N.ltb_lt in Hlt; lia | reflexivity].
      * intros row r' _ Hr. lia.
    + apply N.leb_gt in Hle. intros Hb. apply bind_Ret_inv in Hb as (p1 & Hat & Hrest).
      apply PruneAt_spec in Hat as (db1 & -> & Hl1 & Hp1 & Hf1).
      apply IH in Hrest as (db' & -> & Hl' & HF' & Hf'); [|lia|lia].
      exists db'. cbn [NodeProcessor.set_DB NodeProcessor.m_DB] in *.
      assert (Hl2 : db_later db1 db').
      { intros row r' Hr'. destruct (Hl' _ _ Hr') as (r1 & Hr1 & Hrl). exists r1. split; [|done].
        destruct db1; exact Hr1. }
      split_and!.
      * destruct p; reflexivity.
      * eapply db_later_trans; eauto.
      * replace (hF + 1 <? h) with true by (symmetry; apply N.ltb_lt; lia).
        rewrite HF'. destruct (hF + 1 + 1 <? h) eqn:Hlt; [reflexivity|].
        apply N.ltb_ge in Hlt. destruct db1; simpl. f_equal. lia.
      * intros row r' Hr' Hrange.
        destruct (N.eq_dec (SystemState.Full.m_Height (NodeDB.r_Hdr r')) (hF + 1)) as [Heq|Hne].
        -- destruct (Hl2 _ _ Hr') as (r1 & Hr1 & Hrl).
           destruct Hrl as (Hhdr & _ & _ & _ & Hfos). apply Hfos.
           apply (Hf1 row r1 Hr1). congruence.
        -- apply (Hf' row r' Hr'). lia.
Qed.

Lemma PruneAt_returns (h : Height) (p : NodeProcessor.t) : PruneAt h true p <> OutOfFuel.
Proof.
  rewrite PruneAt_unfold.
  assert (Hfold : forall l db, foldl PruneAt_step (Ret db) l <> OutOfFuel).
  { induction l as [|sid l IH]; intros db; cbn [foldl]; [discriminate|].
    rewrite PruneAt_fold_start.
    destruct (PruneAt_step (Ret db) sid) as [db1| |] eqn:Hs; cbn [mbind Outcome_bind];
      [apply IH | discriminate |].
    exfalso. revert Hs.
    unfold PruneAt_step, NodeDB.GetStateFlags, NodeDB.SetStateNotFunctional, NodeDB.DelStateBlock,
      NodeDB.set_Peer, NodeDB.upd_Row, NodeDB.get_Row. cbn [mbind Outcome_bind].
    destruct (NodeDB.m_States db !! StateID.m_Row sid) as [r|] eqn:Hr; [|discriminate].
    cbn [mbind Outcome_bind NodeDB.StateFlags.Active].
    destruct db as [m c p1 p2 p3].
    destruct (NodeDB.r_Active r); unfold NodeDB.set_States in *; simpl in *;
      repeat (rewrite ?Hr, ?lookup_insert_eq; simpl); discriminate. }
  destruct (foldl PruneAt_step _ _) eqn:Hf; cbn [mbind Outcome_bind]; try discriminate.
  exfalso. exact (Hfold _ _ Hf).
Qed.

Lemma prune_fossils_returns (n : nat) : forall (hF h : Height) (p : NodeProcessor.t),
  hF + 1 < HeightModulus -> h < HeightModulus -> (N.to_nat h <= n + N.to_nat (hF + 1))%nat ->
  prune_fossils n hF h p <> OutOfFuel.
Proof.
  induction n as [|n IH]; intros hF h p HhF Hh Hn; cbn [prune_fossils];
    rewrite (height_add_small hF 1 HhF).
  - destruct (h <=? hF + 1) eqn:Hle; [discriminate|]. apply N.leb_gt in Hle. lia.
  - destruct (h <=? hF + 1) eqn:Hle; [discriminate|]. apply N.leb_gt in Hle.
    destruct (PruneAt (hF + 1) true p) as [p1| |] eqn:Hat; cbn [mbind Outcome_bind];
      [|discriminate|].
    + apply IH; lia.
    + exfalso. exact (PruneAt_returns _ _ Hat).
Qed.



Lemma PruneOld_branches_spec (b : bool) (h : Height) (p : NodeProcessor.t) :
  let m := (if b then
              db1 ← prune_branches (S (size (NodeDB.m_States (NodeProcessor.m_DB p)))) h
                     (NodeProcessor.m_DB p);
              Ret (NodeProcessor.set_DB db1 p)
            else Ret p) in
  m <> OutOfFuel /\
  forall p1, m = Ret p1 ->
    exists db1, p1 = NodeProcessor.set_DB db1 p /\
      db_later (NodeProcessor.m_DB p) db1 /\ same_params (NodeProcessor.m_DB p) db1.
Proof.
  destruct b; cbv zeta.
  - destruct (prune_branches _ h (NodeProcessor.m_DB p)) as [db1| |] eqn:Hpb;
      cbn [mbind Outcome_bind].
    + split; [discriminate|]. intros p1 [= <-]. exists db1.
      apply prune_branches_spec in Hpb as [Hl Hp]. auto.
    + split; [discriminate | discriminate].
    + exfalso. apply (prune_branches_returns _ _ _ (Nat.lt_succ_diag_r _) Hpb).
  - split; [discriminate|]. intros p1 [= <-]. exists (NodeProcessor.m_DB p).
    split_and!; [destruct p; reflexivity | apply db_later_refl | apply same_params_refl].
Qed.

Lemma min_as_code (h0 lo : N) : (if lo <? h0 then lo else h0) = N.min h0 lo.
Proof. destruct (lo <? h0) eqn:Hlt; [apply N.ltb_lt in Hlt | apply N.ltb_ge in Hlt]; lia. Qed.

(** C7, as the code has it: [PruneOld] returns (or raises a store error),
    and when it returns the [FossilHeight] parameter has not decreased; it
    is the greater of its old value and ONE LESS than the end
    min(cursor height - Schwarzschild horizon, LoHorizon) when the horizon
    guard holds, and its old value otherwise. Every state that is left
    with a height above the old and at or below the new fossil height has
    no body and is not [Functional] unless [Active]; if that held at or
    below the old fossil height it holds at or below the new one. *)
Theorem PruneOld_fossil_height (p : NodeProcessor.t) :
  let F0 := FossilHeight_of (NodeProcessor.m_DB p) in
  F0 + 1 < HeightModulus ->
  fossil_end p < HeightModulus ->
  PruneOld p <> OutOfFuel /\
  forall p', PruneOld p = Ret p' ->
    let F' := FossilHeight_of (NodeProcessor.m_DB p') in
    F' = (if fossil_guard p then N.max F0 (fossil_end p - 1) else F0) /\
    F0 <= F' /\
    (forall row r', NodeDB.m_States (NodeProcessor.m_DB p') !! row = Some r' ->
       F0 < SystemState.Full.m_Height (NodeDB.r_Hdr r') <= F' -> fossil_row r') /\
    ((forall row r, NodeDB.m_States (NodeProcessor.m_DB p) !! row = Some r ->
        SystemState.Full.m_Height (NodeDB.r_Hdr r) <= F0 -> fossil_row r) ->
     forall row r', NodeDB.m_States (NodeProcessor.m_DB p') !! row = Some r' ->
        SystemState.Full.m_Height (NodeDB.r_Hdr r') <= F' -> fossil_row r').
Proof.
  intros F0 HF0 Hend. unfold PruneOld. cbv zeta.
  match goal with
  | |- context [if ?b then (_ ← prune_branches _ ?h _; _) else _] =>
      destruct (PruneOld_branches_spec b h p) as [Hne Hsp]; cbv zeta in Hne, Hsp;
      destruct (if b then (db1 ← prune_branches (S (size (NodeDB.m_States (NodeProcessor.m_DB p)))) h
                                  (NodeProcessor.m_DB p);
                           Ret (NodeProcessor.set_DB db1 p)) else Ret p) as [p1| |] eqn:Hbr
  end; cbn [mbind Outcome_bind]; [|split; discriminate|congruence].
  clear Hne. destruct (Hsp p1 eq_refl) as (db1 & -> & Hl1 & Hp1). clear Hsp Hbr.
  cbn [NodeProcessor.set_DB NodeProcessor.m_Cursor NodeProcessor.m_DB NodeProcessor.m_Horizon].
  rewrite min_as_code.
  fold (fossil_guard p). fold (fossil_end p).
  assert (HF1 : NodeDB.ParamIntGetDef db1 NodeDB.ParamID.FossilHeight
                 (height_sub (Rules.HeightGenesis rules) 1) = F0).
  { unfold F0, FossilHeight_of, NodeDB.ParamIntGetDef, NodeDB.ParamGet.
    destruct Hp1 as (_ & _ & _ & ->). reflexivity. }
  rewrite HF1.
  assert (Hold : forall db', db_later db1 db' ->
            (forall row r, NodeDB.m_States (NodeProcessor.m_DB p) !! row = Some r ->
               SystemState.Full.m_Height (NodeDB.r_Hdr r) <= F0 -> fossil_row r) ->
            forall row r', NodeDB.m_States db' !! row = Some r' ->
               SystemState.Full.m_Height (NodeDB.r_Hdr r') <= F0 -> fossil_row r').
  { intros db' Hl' Hinv row r' Hr' Hh.
    destruct (db_later_trans _ _ _ Hl1 Hl' _ _ Hr') as (r & Hr & Hhdr & _ & _ & _ & Hf).
    apply Hf. apply (Hinv row r Hr). rewrite <- Hhdr. exact Hh. }
  destruct (fossil_guard p).
  - split.
    + apply prune_fossils_returns; [exact HF0 | exact Hend | lia].
    + intros p' Hpf.
      apply prune_fossils_spec in Hpf as (db' & -> & Hl' & HF' & Hf'); [|exact HF0|exact Hend].
      cbn [NodeProcessor.set_DB NodeProcessor.m_DB] in *.
      assert (HFv : FossilHeight_of db' = N.max F0 (fossil_end p - 1)).
      { unfold FossilHeight_of, NodeDB.ParamIntGetDef, NodeDB.ParamGet. rewrite HF'.
        destruct (F0 + 1 <? fossil_end p) eqn:Hlt.
        - apply N.ltb_lt in Hlt. simpl. lia.
        - apply N.ltb_ge in Hlt. destruct Hp1 as (_ & _ & _ & ->).
          change (F0 = N.max F0 (fossil_end p - 1)). lia. }
      rewrite HFv. split_and!; [reflexivity | lia | |].
      * intros row r' Hr' Hrange. apply (Hf' row r' Hr'). lia.
      * intros Hinv row r' Hr' Hh.
        destruct (N.le_gt_cases (SystemState.Full.m_Height (NodeDB.r_Hdr r')) F0) as [Hle|Hgt].
        -- exact (Hold db' Hl' Hinv row r' Hr' Hle).
        -- apply (Hf' row r' Hr'). lia.
  - split; [discriminate|]. intros p' [= <-].
    cbn [NodeProcessor.set_DB NodeProcessor.m_DB].
    assert (HFv : FossilHeight_of db1 = F0) by exact HF1.
    rewrite HFv. split_and!; [reflexivity | lia | |].
    + intros row r' _ Hrange. lia.
    + intros Hinv row r' Hr' Hh. exact (Hold db1 (db_later_refl db1) Hinv row r' Hr' Hh).
Qed.
End Pruning.

(** ** The pruning run on a small store *)

Lemma fossil_pruned_run : @PruneOld demo fossil_processor = Ret fossil_pruned.
Proof. vm_compute. reflexivity. Qed.

(** C7, the claim as worded: the cursor is at height 4, the Schwarzschild
    horizon is 1 and [LoHorizon] is 3, so that min(cursor height -
    horizon, LoHorizon) = 3; [PruneOld] leaves the fossil height at 2, and
    the state at height 3 keeps its body. *)
Lemma PruneOld_stops_one_short :
  @PruneOld demo fossil_processor = Ret fossil_pruned
  /\ @fossil_guard demo fossil_processor = true
  /\ N.min (StateID.m_Height (Cursor.m_Sid (NodeProcessor.m_Cursor fossil_processor))
            - Horizon.m_Schwarzschild (NodeProcessor.m_Horizon fossil_processor))
           (Cursor.m_LoHorizon (NodeProcessor.m_Cursor fossil_processor)) = 3
  /\ @FossilHeight_of demo (NodeProcessor.m_DB fossil_pruned) = 2
  /\ (NodeDB.r_Body <$> NodeDB.m_States (NodeProcessor.m_DB fossil_pruned) !! 3) = Some [1]
  /\ (SystemState.Full.m_Height <$>
        (NodeDB.r_Hdr <$> NodeDB.m_States (NodeProcessor.m_DB fossil_pruned) !! 3)) = Some 3.
Proof. split; [exact fossil_pruned_run|]. vm_compute. repeat split; reflexivity. Qed.

Lemma PruneOld_fossil_height_witness :
  let p := fossil_processor in
  let p' := fossil_pruned in
  @PruneOld demo p = Ret p'
  /\ @FossilHeight_of demo (NodeProcessor.m_DB p') =
       (if @fossil_guard demo p
        then N.max (@FossilHeight_of demo (NodeProcessor.m_DB p)) (@fossil_end demo p - 1)
        else @FossilHeight_of demo (NodeProcessor.m_DB p))
  /\ @FossilHeight_of demo (NodeProcessor.m_DB p) <= @FossilHeight_of demo (NodeProcessor.m_DB p').
Proof.
  intros p p'.
  assert (HF0 : @FossilHeight_of demo (NodeProcessor.m_DB p) + 1 < HeightModulus)
    by (vm_compute; reflexivity).
  assert (Hend : @fossil_end demo p < HeightModulus) by (vm_compute; reflexivity).
  destruct (@PruneOld_fossil_height demo p HF0 Hend) as [_ Hspec].
  destruct (Hspec p' fossil_pruned_run) as (HF & Hmono & _).
  split; [exact fossil_pruned_run|]. split; [exact HF | exact Hmono].
Defined.

(** ** The reorg engine *)

Section Reorg.
Context {E : Externals}.

Lemma graph_same_refl db : graph_same db db.
Proof. intros row. destruct (NodeDB.m_States db !! row); constructor. repeat split. Qed.

Lemma graph_same_trans db1 db2 db3 : graph_same db1 db2 -> graph_same db2 db3 -> graph_same db1 db3.
Proof.
  intros H12 H23 row. specialize (H12 row). specialize (H23 row).
  destruct H12 as [r1 r2 [[? ?] ?]|]; inversion H23 as [? r3 [[? ?] ?]|]; subst; constructor.
  repeat split; congruence.
Qed.

Lemma graph_kept_refl db : graph_kept db db.
Proof. intros row. destruct (NodeDB.m_States db !! row); constructor. repeat split. Qed.

Lemma graph_kept_trans db1 db2 db3 : graph_kept db1 db2 -> graph_kept db2 db3 -> graph_kept db1 db3.
Proof.
  intros H12 H23 row. specialize (H12 row). specialize (H23 row).
  destruct H12 as [r1 r2 [? ?]|]; inversion H23 as [? r3 [? ?]|]; subst; constructor.
  split; congruence.
Qed.

Lemma graph_same_kept db db' : graph_same db db' -> graph_kept db db'.
Proof. intros H row. destruct (H row) as [r r' [? _]|]; constructor. assumption. Qed.

Lemma graph_kept_no_null db db' : graph_kept db db' -> no_null_row db -> no_null_row db'.
Proof. unfold no_null_row. intros H H0. specialize (H 0). rewrite H0 in H. inversion H. reflexivity. Qed.

Lemma graph_kept_grows db db' : graph_kept db db' -> chainwork_grows db -> chainwork_grows db'.
Proof.
  intros H Hg row r' rp' Hr' Hrp'.
  pose proof (H row) as H1. rewrite Hr' in H1. inversion H1 as [r ? [Hh Hp] Heq|]; subst.
  pose proof (H (NodeDB.r_RowPrev r')) as H2. rewrite Hrp' in H2.
  inversion H2 as [rp ? [Hh2 Hp2] Heq2|]; subst.
  rewrite Hh, Hh2. apply (Hg row r rp); [congruence|]. rewrite <- Hp. congruence.
Qed.

(** Rewriting one row. *)
Lemma upd_Row_spec (f : NodeDB.StateRow -> NodeDB.StateRow) (row : RowId) (db db' : NodeDB.t) :
  NodeDB.upd_Row f row db = Ret db' ->
  exists r, NodeDB.m_States db !! row = Some r /\
            db' = NodeDB.set_States (<[row := f r]> (NodeDB.m_States db)) db.
Proof.
  unfold NodeDB.upd_Row, NodeDB.get_Row.
  destruct (NodeDB.m_States db !! row) as [r|]; [|discriminate].
  cbn [mbind Outcome_bind]. intros [= <-]. eauto.
Qed.

Lemma upd_Row_same (f : NodeDB.StateRow -> NodeDB.StateRow) (row : RowId) (db db' : NodeDB.t) :
  (forall r, same_row r (f r)) ->
  NodeDB.upd_Row f row db = Ret db' ->
  graph_same db db' /\ NodeDB.m_Cursor db' = NodeDB.m_Cursor db.
Proof.
  intros Hf Hu. apply upd_Row_spec in Hu as (r & Hr & ->). split; [|destruct db; reflexivity].
  intros row0. destruct db as [m c p1 p2 p3]. simpl in *. rewrite lookup_insert.
  destruct (decide (row = row0)) as [<-|Hne]; simpl.
  - rewrite Hr. constructor. apply Hf.
  - destruct (m !! row0); constructor. repeat split.
Qed.

Lemma upd_Row_kept (f : NodeDB.StateRow -> NodeDB.StateRow) (row : RowId) (db db' : NodeDB.t) :
  (forall r, kept_row r (f r)) ->
  NodeDB.upd_Row f row db = Ret db' ->
  graph_kept db db' /\ NodeDB.m_Cursor db' = NodeDB.m_Cursor db.
Proof.
  intros Hf Hu. apply upd_Row_spec in Hu as (r & Hr & ->). split; [|destruct db; reflexivity].
  intros row0. destruct db as [m c p1 p2 p3]. simpl in *. rewrite lookup_insert.
  destruct (decide (row = row0)) as [<-|Hne]; simpl.
  - rewrite Hr. constructor. apply Hf.
  - destruct (m !! row0); constructor. repeat split.
Qed.

(** The block interpreter leaves the store and the cursor alone. *)
Lemma HandleValidatedTx_frame txv h bFwd bAdj pHMax p ok txv' p' :
  HandleValidatedTx txv h bFwd bAdj pHMax p = Ret (ok, txv', p') ->
  NodeProcessor.m_DB p' = NodeProcessor.m_DB p /\
  NodeProcessor.m_Cursor p' = NodeProcessor.m_Cursor p.
Proof.
  unfold HandleValidatedTx.
  destruct (loop_UtxoIn _ _ _ _ _ _ _) as [[[ok1 nInp] ins] u1].
  destruct (if ok1 then _ else _) as [[ok2 nOut] u2].
  destruct (if ok2 then _ else _) as [[ok3 nKrnInp] k1].
  destruct (if ok3 then _ else _) as [[ok4 nKrnOut] k2].
  destruct ok4; [|destruct (negb bFwd)]; intros [= <- <- <-]; split; reflexivity.
Qed.

Lemma HandleValidatedBlock_frame body h bFwd bAdj pHMax p ok body' p' :
  HandleValidatedBlock body h bFwd bAdj pHMax p = Ret (ok, body', p') ->
  NodeProcessor.m_DB p' = NodeProcessor.m_DB p /\
  NodeProcessor.m_Cursor p' = NodeProcessor.m_Cursor p.
Proof.
  unfold HandleValidatedBlock.
  destruct (Body.m_SubsidyClosing body && _); [intros [= <- <- <-]; split; reflexivity|].
  intros Hb. apply bind_Ret_inv in Hb as ([[ok1 txv] p1] & Htx & Hr).
  apply HandleValidatedTx_frame in Htx as [Hdb Hcu].
  destruct ok1; cbn [negb] in Hr; injection Hr as <- <- <-; [|split; assumption].
  destruct (Body.m_SubsidyClosing body); destruct bFwd; unfold ToggleSubsidyOpened;
    try destruct (Kernels_Find _ _ _) as [[? ?] ?]; simpl; split; assumption.
Qed.



Lemma InitCursor_spec (p p' : NodeProcessor.t) :
  no_null_row (NodeProcessor.m_DB p) ->
  InitCursor p = Ret p' ->
  NodeProcessor.m_DB p' = NodeProcessor.m_DB p /\ cursor_synced p' /\
  StateID.m_Row (Cursor.m_Sid (NodeProcessor.m_Cursor p')) =
    StateID.m_Row (NodeDB.m_Cursor (NodeProcessor.m_DB p)).
Proof.
  intros H0. unfold InitCursor, NodeDB.get_Cursor. intros Hb.
  apply bind_Ret_inv in Hb as (p1 & Hp1 & Hb).
  apply bind_Ret_inv in Hb as (d & _ & Hr). injection Hr as <-.
  destruct (StateID.m_Row (NodeDB.m_Cursor (NodeProcessor.m_DB p)) =? 0) eqn:Hz;
    cbn [negb] in Hp1.
  - injection Hp1 as <-. apply N.eqb_eq in Hz.
    split_and!; [reflexivity | | simpl; congruence].
    intros r. simpl. rewrite H0. discriminate.
  - apply bind_Ret_inv in Hp1 as (full & Hfull & Hp1).
    apply bind_Ret_inv in Hp1 as ([hasPrev sidPrev] & _ & Hp1). injection Hp1 as <-.
    split_and!; [reflexivity | | reflexivity].
    intros r. simpl. intros Hr. unfold NodeDB.get_State, NodeDB.get_Row in Hfull.
    rewrite Hr in Hfull. cbn [mbind Outcome_bind] in Hfull. congruence.
Qed.

Lemma commit_first_time_frame row block m_Buf p p' :
  commit_first_time row block m_Buf p = Ret p' ->
  graph_same (NodeProcessor.m_DB p) (NodeProcessor.m_DB p') /\
  NodeDB.m_Cursor (NodeProcessor.m_DB p') = NodeDB.m_Cursor (NodeProcessor.m_DB p) /\
  Cursor.m_Sid (NodeProcessor.m_Cursor p') = Cursor.m_Sid (NodeProcessor.m_Cursor p) /\
  Cursor.m_Full (NodeProcessor.m_Cursor p') = Cursor.m_Full (NodeProcessor.m_Cursor p).
Proof.
  unfold commit_first_time. intros Hb. apply bind_Ret_inv in Hb as (db1 & Hset & Hr).
  apply upd_Row_same in Hset as [Hg Hc]; [|intros r; repeat split].
  destruct (_ <? _); injection Hr as <-; simpl.
  - split_and!; try reflexivity; [|destruct db1; exact Hc].
    intros row0. specialize (Hg row0). destruct db1; exact Hg.
  - auto.
Qed.

Lemma HandleBlock_frame sid bFwd p ok p' :
  HandleBlock sid bFwd p = Ret (ok, p') ->
  graph_same (NodeProcessor.m_DB p) (NodeProcessor.m_DB p') /\
  NodeDB.m_Cursor (NodeProcessor.m_DB p') = NodeDB.m_Cursor (NodeProcessor.m_DB p) /\
  Cursor.m_Sid (NodeProcessor.m_Cursor p') = Cursor.m_Sid (NodeProcessor.m_Cursor p) /\
  Cursor.m_Full (NodeProcessor.m_Cursor p') = Cursor.m_Full (NodeProcessor.m_Cursor p).
Proof.
  assert (Hsame : forall q, NodeProcessor.m_DB q = NodeProcessor.m_DB p ->
            NodeProcessor.m_Cursor q = NodeProcessor.m_Cursor p ->
            graph_same (NodeProcessor.m_DB p) (NodeProcessor.m_DB q) /\
            NodeDB.m_Cursor (NodeProcessor.m_DB q) = NodeDB.m_Cursor (NodeProcessor.m_DB p) /\
            Cursor.m_Sid (NodeProcessor.m_Cursor q) = Cursor.m_Sid (NodeProcessor.m_Cursor p) /\
            Cursor.m_Full (NodeProcessor.m_Cursor q) = Cursor.m_Full (NodeProcessor.m_Cursor p)).
  { intros q -> ->. split_and!; try reflexivity. apply graph_same_refl. }
  unfold HandleBlock. intros Hb.
  apply bind_Ret_inv in Hb as ([bb m_Buf] & _ & Hb).
  apply bind_Ret_inv in Hb as (s & _ & Hb).
  destruct (Deserialize bb) as [block|]; [|injection Hb as <- <-; apply Hsame; reflexivity].
  apply bind_Ret_inv in Hb as ([go block0] & _ & Hb).
  destruct go; cbn [negb] in Hb; [|injection Hb as <- <-; apply Hsame; reflexivity].
  apply bind_Ret_inv in Hb as ([[bOk block1] p1] & Hv & Hb).
  apply HandleValidatedBlock_frame in Hv as [Hdb1 Hcu1].
  destruct (bFwd && bool_decide (m_Buf = []) && bOk).
  - destruct (negb _).
    + apply bind_Ret_inv in Hb as ([[b2 block2] p2] & Hv2 & Hb). injection Hb as <- <-.
      apply HandleValidatedBlock_frame in Hv2 as [Hdb2 Hcu2]. apply Hsame; congruence.
    + apply bind_Ret_inv in Hb as (p2 & Hc & Hb). injection Hb as <- <-.
      apply commit_first_time_frame in Hc. rewrite Hdb1, Hcu1 in Hc. exact Hc.
  - injection Hb as <- <-. apply Hsame; assumption.
Qed.



Lemma synced_kept (p p' : NodeProcessor.t) :
  graph_kept (NodeProcessor.m_DB p) (NodeProcessor.m_DB p') ->
  Cursor.m_Sid (NodeProcessor.m_Cursor p') = Cursor.m_Sid (NodeProcessor.m_Cursor p) ->
  Cursor.m_Full (NodeProcessor.m_Cursor p') = Cursor.m_Full (NodeProcessor.m_Cursor p) ->
  cursor_synced p -> cursor_synced p'.
Proof.
  intros Hg Hs Hf Hsy r' Hr'. rewrite Hs in Hr'.
  specialize (Hg (StateID.m_Row (Cursor.m_Sid (NodeProcessor.m_Cursor p)))).
  rewrite Hr' in Hg. inversion Hg as [r ? [Hh _] Heq|]; subst.
  rewrite Hf, Hh. apply Hsy. congruence.
Qed.

Lemma GoForward_spec (row : RowId) (p : NodeProcessor.t) (ok : bool) (p' : NodeProcessor.t) :
  no_null_row (NodeProcessor.m_DB p) -> cursor_synced p ->
  GoForward row p = Ret (ok, p') ->
  graph_kept (NodeProcessor.m_DB p) (NodeProcessor.m_DB p') /\ cursor_synced p' /\
  (ok = true -> graph_same (NodeProcessor.m_DB p) (NodeProcessor.m_DB p') /\
                StateID.m_Row (Cursor.m_Sid (NodeProcessor.m_Cursor p')) = row).
Proof.
  intros H0 Hsy. unfold GoForward. intros Hb.
  apply bind_Ret_inv in Hb as ([ok1 p1] & Hhb & Hb).
  apply HandleBlock_frame in Hhb as (Hg1 & Hc1 & Hs1 & Hf1).
  destruct ok1.
  - apply bind_Ret_inv in Hb as (db1 & Hmv & Hb).
    apply bind_Ret_inv in Hb as (p2 & Hic & Hb). injection Hb as <- <-.
    unfold NodeDB.MoveFwd in Hmv. apply bind_Ret_inv in Hmv as (db0 & Hup & Hmv).
    injection Hmv as <-.
    apply upd_Row_same in Hup as [Hg2 _]; [|intros r; repeat split].
    assert (Hg : graph_same (NodeProcessor.m_DB p)
                   (NodeDB.set_Cursor (StateID.mk row
                      (height_add (StateID.m_Height (Cursor.m_Sid (NodeProcessor.m_Cursor p))) 1)) db0)).
    { intros k. exact (graph_same_trans _ _ _ Hg1 Hg2 k). }
    apply InitCursor_spec in Hic as (Hdb & Hsy2 & Hrow).
    2:{ simpl. eapply graph_kept_no_null; [|exact H0]. apply graph_same_kept. exact Hg. }
    simpl in Hdb, Hrow. rewrite Hdb.
    split_and!; [apply graph_same_kept; exact Hg | exact Hsy2 |].
    intros _. split; [exact Hg | exact Hrow].
  - assert (Hk1 : graph_kept (NodeProcessor.m_DB p) (NodeProcessor.m_DB p1))
      by (apply graph_same_kept; exact Hg1).
    apply bind_Ret_inv in Hb as (db1 & Hd1 & Hb).
    apply bind_Ret_inv in Hb as (db2 & Hd2 & Hb).
    apply bind_Ret_inv in Hb as (peer & _ & Hb).
    apply upd_Row_kept in Hd1 as [Hk2 _]; [|intros r; repeat split].
    apply upd_Row_kept in Hd2 as [Hk3 _]; [|intros r; repeat split].
    pose proof (graph_kept_trans _ _ _ Hk1 (graph_kept_trans _ _ _ Hk2 Hk3)) as Hk.
    destruct peer as [pr|].
    + apply bind_Ret_inv in Hb as (db3 & Hd3 & Hb). injection Hb as <- <-.
      apply upd_Row_kept in Hd3 as [Hk4 _]; [|intros r; repeat split].
      pose proof (graph_kept_trans _ _ _ Hk Hk4) as Hk'.
      split_and!; [exact Hk' | | discriminate].
      apply (synced_kept p); [exact Hk' | exact Hs1 | exact Hf1 | exact Hsy].
    + injection Hb as <- <-.
      split_and!; [exact Hk | | discriminate].
      apply (synced_kept p); [exact Hk | exact Hs1 | exact Hf1 | exact Hsy].
Qed.

Lemma Rollback_spec (p p' : NodeProcessor.t) :
  no_null_row (NodeProcessor.m_DB p) ->
  Rollback p = Ret p' ->
  graph_same (NodeProcessor.m_DB p) (NodeProcessor.m_DB p') /\ cursor_synced p'.
Proof.
  intros H0. unfold Rollback. intros Hb.
  apply bind_Ret_inv in Hb as ([sid' db1] & Hmb & Hb).
  apply bind_Ret_inv in Hb as (p1 & Hic1 & Hb).
  apply bind_Ret_inv in Hb as ([ok p2] & Hhb & Hb).
  destruct ok; cbn [negb] in Hb; [|discriminate].
  apply bind_Ret_inv in Hb as (p3 & Hic2 & Hb). injection Hb as <-.
  unfold NodeDB.MoveBack in Hmb. apply bind_Ret_inv in Hmb as (db0 & Hup & Hmb).
  apply bind_Ret_inv in Hmb as ([okp sidp] & _ & Hmb). injection Hmb as <- <-.
  apply upd_Row_same in Hup as [Hg1 _]; [|intros r; repeat split].
  assert (Hg1' : graph_same (NodeProcessor.m_DB p)
                   (NodeDB.set_Cursor (if okp then sidp else StateID.mk 0 0) db0))
    by (intros k; exact (Hg1 k)).
  apply InitCursor_spec in Hic1 as (Hdb1 & _ & _).
  2:{ simpl. eapply graph_kept_no_null; [|exact H0]. apply graph_same_kept. exact Hg1'. }
  simpl in Hdb1.
  apply HandleBlock_frame in Hhb as (Hg2 & _). rewrite Hdb1 in Hg2.
  pose proof (graph_same_trans _ _ _ Hg1' Hg2) as Hg.
  apply InitCursor_spec in Hic2 as (Hdb3 & Hsy3 & _).
  2:{ eapply graph_kept_no_null; [|exact H0]. apply graph_same_kept. exact Hg. }
  split.
  - simpl. rewrite Hdb3. exact Hg.
  - intros r Hr. exact (Hsy3 r Hr).
Qed.




Lemma TryGoUp_path_spec (n : nat) : forall (sidTrg : StateID.t) (wrkTrg : N) (vPath : list RowId)
    (bDirty : bool) (p : NodeProcessor.t) (vPath' : list RowId) (bDirty' : bool)
    (p' : NodeProcessor.t),
  no_null_row (NodeProcessor.m_DB p) -> cursor_synced p ->
  TryGoUp_path n sidTrg wrkTrg vPath bDirty p = Ret (vPath', bDirty', p') ->
  graph_same (NodeProcessor.m_DB p) (NodeProcessor.m_DB p') /\ cursor_synced p' /\
  ((vPath' = vPath /\ StateID.m_Row sidTrg = cursor_row p') \/
   exists ext, vPath' = vPath ++ StateID.m_Row sidTrg :: ext).
Proof.
  induction n as [|n IH]; intros sidTrg wrkTrg vPath bDirty p vPath' bDirty' p' H0 Hsy;
    cbn [TryGoUp_path]; [discriminate|].
  destruct (StateID.m_Row sidTrg =? StateID.m_Row (Cursor.m_Sid (NodeProcessor.m_Cursor p))) eqn:Heq.
  - intros [= <- <- <-]. apply N.eqb_eq in Heq.
    split_and!; [apply graph_same_refl | exact Hsy | left; split; [reflexivity | exact Heq]].
  - destruct (wrkTrg <? _).
    + intros Hb. apply bind_Ret_inv in Hb as (p1 & Hrb & Hb).
      apply Rollback_spec in Hrb as [Hg1 Hsy1]; [|exact H0].
      apply IH in Hb as (Hg2 & Hsy2 & Hp); [|eapply graph_kept_no_null;
        [apply graph_same_kept; exact Hg1 | exact H0] | exact Hsy1].
      split_and!; [eapply graph_same_trans; eauto | exact Hsy2 | exact Hp].
    + intros Hb. apply bind_Ret_inv in Hb as ([ok sidPrev] & _ & Hb).
      assert (Hgen : forall sid' wrk',
                TryGoUp_path n sid' wrk' (vPath ++ [StateID.m_Row sidTrg]) bDirty p
                  = Ret (vPath', bDirty', p') ->
                graph_same (NodeProcessor.m_DB p) (NodeProcessor.m_DB p') /\ cursor_synced p' /\
                ((vPath' = vPath /\ StateID.m_Row sidTrg = cursor_row p') \/
                 exists ext, vPath' = vPath ++ StateID.m_Row sidTrg :: ext)).
      { intros sid' wrk' Hr. apply IH in Hr as (Hg & Hsy' & Hp); [|exact H0|exact Hsy].
        split_and!; [exact Hg | exact Hsy' | right].
        destruct Hp as [[-> _]|[ext ->]].
        - exists []. reflexivity.
        - exists (StateID.m_Row sid' :: ext). rewrite <- app_assoc. reflexivity. }
      destruct ok.
      * apply bind_Ret_inv in Hb as (wrk & _ & Hb). exact (Hgen _ _ Hb).
      * exact (Hgen _ _ Hb).
Qed.

Lemma TryGoUp_forward_spec (rows : list RowId) : forall (bDirty : bool) (p : NodeProcessor.t)
    (ok bDirty' : bool) (p' : NodeProcessor.t),
  no_null_row (NodeProcessor.m_DB p) -> cursor_synced p ->
  TryGoUp_forward rows bDirty p = Ret (ok, bDirty', p') ->
  graph_kept (NodeProcessor.m_DB p) (NodeProcessor.m_DB p') /\ cursor_synced p' /\
  (ok = true -> graph_same (NodeProcessor.m_DB p) (NodeProcessor.m_DB p') /\
                (rows = [] -> p' = p) /\
                (forall x, last rows = Some x -> cursor_row p' = x)).
Proof.
  induction rows as [|row rows IH]; intros bDirty p ok bDirty' p' H0 Hsy; cbn [TryGoUp_forward].
  - intros [= <- <- <-].
    split_and!; [apply graph_kept_refl | exact Hsy |].
    intros _. split_and!; [apply graph_same_refl | reflexivity | discriminate].
  - intros Hb. apply bind_Ret_inv in Hb as ([ok1 p1] & Hgf & Hb).
    apply GoForward_spec in Hgf as (Hk1 & Hsy1 & Hok1); [|exact H0|exact Hsy].
    destruct ok1.
    + destruct (Hok1 eq_refl) as [Hg1 Hrow1].
      apply IH in Hb as (Hk2 & Hsy2 & Hok2);
        [|eapply graph_kept_no_null; [exact Hk1 | exact H0] | exact Hsy1].
      split_and!; [eapply graph_kept_trans; eauto | exact Hsy2 |].
      intros ->. destruct (Hok2 eq_refl) as (Hg2 & Hnil & Hlast).
      split_and!; [eapply graph_same_trans; eauto | discriminate |].
      intros x Hx. destruct rows as [|row2 rows].
      * injection Hx as <-. rewrite (Hnil eq_refl). exact Hrow1.
      * apply Hlast. rewrite last_cons_cons in Hx. exact Hx.
    + injection Hb as <- <- <-. split_and!; [exact Hk1 | exact Hsy1 | discriminate].
Qed.



(** *** The tips [EnumFunctionalTips] yields *)

Lemma reachable_in_same (db db' : NodeDB.t) (HG : Height) (n : nat) : forall row,
  graph_same db db' ->
  NodeDB.reachable_in HG (NodeDB.m_States db) n row =
  NodeDB.reachable_in HG (NodeDB.m_States db') n row.
Proof.
  induction n as [|n IH]; intros row Hg; [reflexivity|]. cbn [NodeDB.reachable_in].
  destruct (Hg row) as [r r' [[Hh Hp] Hf]|]; [|reflexivity].
  rewrite Hh, Hp, Hf, (IH _ Hg). reflexivity.
Qed.

Lemma graph_kept_size (db db' : NodeDB.t) :
  graph_kept db db' -> size (NodeDB.m_States db) = size (NodeDB.m_States db').
Proof.
  intros Hg. rewrite <- !size_dom. f_equal. apply set_eq. intros k.
  rewrite !elem_of_dom. destruct (Hg k); split; intros [? ?]; try discriminate; eauto.
Qed.

Lemma IsReachable_same (db db' : NodeDB.t) (HG : Height) (row : RowId) :
  graph_same db db' -> NodeDB.IsReachable HG db row = NodeDB.IsReachable HG db' row.
Proof.
  intros Hg. unfold NodeDB.IsReachable.
  rewrite (graph_kept_size db db' (graph_same_kept _ _ Hg)). apply reachable_in_same. exact Hg.
Qed.

Lemma has_reachable_child_spec (HG : Height) (db : NodeDB.t) (row : RowId) :
  NodeDB.has_reachable_child HG db row = true <->
  exists k rc, NodeDB.m_States db !! k = Some rc /\ NodeDB.r_RowPrev rc = row /\
               NodeDB.IsReachable HG db k = true.
Proof.
  unfold NodeDB.has_reachable_child. rewrite existsb_exists. split.
  - intros ([k rc] & Hin & Hb). apply andb_true_iff in Hb as [Hp Hr]. apply N.eqb_eq in Hp.
    apply list_elem_of_In, elem_of_map_to_list in Hin. exists k, rc. auto.
  - intros (k & rc & Hl & Hp & Hr). exists (k, rc). split.
    + apply list_elem_of_In, elem_of_map_to_list. exact Hl.
    + simpl. rewrite Hr, andb_true_r. apply N.eqb_eq. exact Hp.
Qed.

Lemma has_reachable_child_same (db db' : NodeDB.t) (HG : Height) (row : RowId) :
  graph_same db db' ->
  NodeDB.has_reachable_child HG db row = NodeDB.has_reachable_child HG db' row.
Proof.
  intros Hg.
  assert (Hiff : NodeDB.has_reachable_child HG db row = true <->
                 NodeDB.has_reachable_child HG db' row = true).
  { rewrite !has_reachable_child_spec. split; intros (k & rc & Hl & Hp & Hr).
    - pose proof (Hg k) as Hk. rewrite Hl in Hk. inversion Hk as [? rc' [[_ Hp'] _] Heq1 Heq2|].
      exists k, rc'. rewrite <- (IsReachable_same db db' HG k Hg). split_and!; congruence.
    - pose proof (Hg k) as Hk. rewrite Hl in Hk. inversion Hk as [rc0 ? [[_ Hp'] _] Heq1 Heq2|].
      exists k, rc0. rewrite (IsReachable_same db db' HG k Hg). subst. split_and!; congruence. }
  destruct (NodeDB.has_reachable_child HG db row), (NodeDB.has_reachable_child HG db' row);
    try reflexivity.
  - symmetry. apply Hiff. reflexivity.
  - apply Hiff. reflexivity.
Qed.

Lemma elem_of_EnumFunctionalTips (HG : Height) (db : NodeDB.t) (sid : StateID.t) :
  sid ∈ NodeDB.EnumFunctionalTips HG db <->
  exists r, NodeDB.m_States db !! StateID.m_Row sid = Some r /\
            NodeDB.is_functional_tip HG db (StateID.m_Row sid, r) = true /\
            StateID.m_Height sid = SystemState.Full.m_Height (NodeDB.r_Hdr r).
Proof.
  unfold NodeDB.EnumFunctionalTips. rewrite list_elem_of_fmap. split.
  - intros ([k r] & -> & Hin). rewrite merge_sort_Permutation in Hin.
    apply list_elem_of_filter in Hin as [Ht Hin]. apply elem_of_map_to_list in Hin.
    exists r. simpl. auto.
  - intros (r & Hl & Ht & Hh). exists (StateID.m_Row sid, r). split.
    + destruct sid as [k h]. unfold NodeDB.row_sid. simpl in *. congruence.
    + rewrite merge_sort_Permutation. apply list_elem_of_filter. split; [exact Ht|].
      apply elem_of_map_to_list. exact Hl.
Qed.

Lemma is_functional_tip_same (db db' : NodeDB.t) (HG : Height) (row : RowId)
    (r r' : NodeDB.StateRow) :
  graph_same db db' ->
  NodeDB.is_functional_tip HG db (row, r) = NodeDB.is_functional_tip HG db' (row, r').
Proof.
  intros Hg. unfold NodeDB.is_functional_tip. simpl.
  rewrite (IsReachable_same db db' HG row Hg), (has_reachable_child_same db db' HG row Hg).
  reflexivity.
Qed.

Lemma EnumFunctionalTips_same (db db' : NodeDB.t) (HG : Height) (sid : StateID.t) :
  graph_same db db' ->
  sid ∈ NodeDB.EnumFunctionalTips HG db' -> sid ∈ NodeDB.EnumFunctionalTips HG db.
Proof.
  intros Hg. rewrite !elem_of_EnumFunctionalTips. intros (r' & Hl & Ht & Hh).
  pose proof (Hg (StateID.m_Row sid)) as Hk. rewrite Hl in Hk.
  inversion Hk as [r ? [[Hhdr _] _] Heq1 Heq2|]. subst. exists r. split_and!.
  - congruence.
  - rewrite (is_functional_tip_same db db' HG _ r r' Hg). exact Ht.
  - congruence.
Qed.

Lemma get_ChainWork_same (db db' : NodeDB.t) (row : RowId) (w : N) :
  graph_kept db db' ->
  NodeDB.get_ChainWork db' row = Ret w -> NodeDB.get_ChainWork db row = Ret w.
Proof.
  intros Hg. unfold NodeDB.get_ChainWork, NodeDB.get_Row.
  destruct (Hg row) as [r r' [Hh _]|]; [|discriminate]. cbn [mbind Outcome_bind]. congruence.
Qed.

#[local] Instance work_ge_trans : Transitive NodeDB.work_ge.
Proof. intros x y z. unfold NodeDB.work_ge. lia. Qed.

#[local] Instance work_ge_total : Total NodeDB.work_ge.
Proof. intros x y. unfold NodeDB.work_ge. lia. Qed.

(** The first of the tips has the greatest chainwork. *)
Lemma EnumFunctionalTips_head (HG : Height) (db : NodeDB.t) (sidTrg : StateID.t)
    (rest : list StateID.t) (wrkTrg : N) :
  NodeDB.EnumFunctionalTips HG db = sidTrg :: rest ->
  NodeDB.get_ChainWork db (StateID.m_Row sidTrg) = Ret wrkTrg ->
  forall sid w, sid ∈ NodeDB.EnumFunctionalTips HG db ->
    NodeDB.get_ChainWork db (StateID.m_Row sid) = Ret w -> w <= wrkTrg.
Proof.
  unfold NodeDB.EnumFunctionalTips. intros Hhd Hw sid w Hin Hws.
  pose proof (StronglySorted_merge_sort NodeDB.work_ge
                (filter (fun x => NodeDB.is_functional_tip HG db x = true)
                        (map_to_list (NodeDB.m_States db)))) as Hsorted.
  assert (Hall : forall x, x ∈ merge_sort NodeDB.work_ge
                   (filter (fun x => NodeDB.is_functional_tip HG db x = true)
                           (map_to_list (NodeDB.m_States db))) ->
                 NodeDB.m_States db !! x.1 = Some x.2).
  { intros [k r] Hx. rewrite merge_sort_Permutation in Hx.
    apply list_elem_of_filter in Hx as [_ Hx]. apply elem_of_map_to_list in Hx. exact Hx. }
  destruct (merge_sort NodeDB.work_ge _) as [|x0 L]; [discriminate|].
  rewrite fmap_cons in Hhd. injection Hhd as Hx0 _.
  assert (Hw0 : SystemState.Full.m_ChainWork (NodeDB.r_Hdr x0.2) = wrkTrg).
  { pose proof (Hall x0 (list_elem_of_here _ _)) as Hl0.
    unfold NodeDB.get_ChainWork, NodeDB.get_Row in Hw. rewrite <- Hx0 in Hw. simpl in Hw.
    rewrite Hl0 in Hw. cbn [mbind Outcome_bind] in Hw. congruence. }
  apply list_elem_of_fmap in Hin as (x & -> & Hx).
  assert (Hwx : SystemState.Full.m_ChainWork (NodeDB.r_Hdr x.2) = w).
  { pose proof (Hall x Hx) as Hl.
    unfold NodeDB.get_ChainWork, NodeDB.get_Row in Hws. simpl in Hws.
    rewrite Hl in Hws. cbn [mbind Outcome_bind] in Hws. congruence. }
  apply elem_of_cons in Hx as [->|Hx]; [lia|].
  apply StronglySorted_inv in Hsorted as [_ Hfa].
  rewrite Forall_forall in Hfa. specialize (Hfa x Hx). unfold NodeDB.work_ge in Hfa. lia.
Qed.



Lemma synced_chainwork (db : NodeDB.t) (q : NodeProcessor.t) (w : N) :
  cursor_synced q -> graph_kept db (NodeProcessor.m_DB q) ->
  NodeDB.get_ChainWork db (cursor_row q) = Ret w -> cursor_chainwork q = w.
Proof.
  intros Hsy Hg. unfold NodeDB.get_ChainWork, NodeDB.get_Row, cursor_chainwork.
  pose proof (Hg (cursor_row q)) as Hk.
  destruct (NodeDB.m_States db !! cursor_row q) as [r|]; [|discriminate].
  cbn [mbind Outcome_bind]. intros [= <-].
  inversion Hk as [? r' [Hh _] Heq1 Heq2|]. subst.
  rewrite (Hsy r' (eq_sym Heq2)), Hh. reflexivity.
Qed.

(** The reorg loop of [TryGoUp] ends with the cursor on a best tip. *)
Lemma TryGoUp_loop_spec (fuel n : nat) : forall (bDirty : bool) (p : NodeProcessor.t)
    (bDirty' : bool) (p' : NodeProcessor.t),
  no_null_row (NodeProcessor.m_DB p) -> cursor_synced p ->
  TryGoUp_loop fuel n bDirty p = Ret (bDirty', p') ->
  graph_kept (NodeProcessor.m_DB p) (NodeProcessor.m_DB p') /\ best_tip_maximal p'.
Proof.
  induction n as [|n IH]; intros bDirty p bDirty' p' H0 Hsy; cbn [TryGoUp_loop]; [discriminate|].
  destruct (NodeDB.EnumFunctionalTips (Rules.HeightGenesis rules) (NodeProcessor.m_DB p))
    as [|sidTrg rest] eqn:Htips.
  - intros [= <- <-]. split; [apply graph_kept_refl|].
    intros sid w Hin. rewrite Htips in Hin. inversion Hin.
  - intros Hb. apply bind_Ret_inv in Hb as (wrkTrg & Hw & Hb).
    pose proof (EnumFunctionalTips_head _ _ _ _ _ Htips Hw) as Hmax.
    destruct (wrkTrg =? _) eqn:Heq.
    + injection Hb as <- <-. apply N.eqb_eq in Heq. split; [apply graph_kept_refl|].
      intros sid w Hin Hws. unfold cursor_chainwork. rewrite <- Heq. exact (Hmax sid w Hin Hws).
    + apply bind_Ret_inv in Hb as ([[vPath bDirty1] p1] & Hpath & Hb).
      apply bind_Ret_inv in Hb as ([[bPathOk bDirty2] p2] & Hfwd & Hb).
      apply TryGoUp_path_spec in Hpath as (Hg1 & Hsy1 & Hp); [|exact H0|exact Hsy].
      assert (H01 : no_null_row (NodeProcessor.m_DB p1))
        by (eapply graph_kept_no_null; [apply graph_same_kept; exact Hg1 | exact H0]).
      apply TryGoUp_forward_spec in Hfwd as (Hk2 & Hsy2 & Hok); [|exact H01|exact Hsy1].
      pose proof (graph_kept_trans _ _ _ (graph_same_kept _ _ Hg1) Hk2) as Hk.
      destruct bPathOk.
      * injection Hb as <- <-. split; [exact Hk|].
        destruct (Hok eq_refl) as (Hg2 & Hnil & Hlast).
        pose proof (graph_same_trans _ _ _ Hg1 Hg2) as Hg.
        assert (Hrow : cursor_row p2 = StateID.m_Row sidTrg).
        { destruct Hp as [[-> Hrow]|[ext ->]].
          - rewrite (Hnil eq_refl). symmetry. exact Hrow.
          - apply Hlast. simpl. rewrite last_snoc. reflexivity. }
        assert (Hcw : cursor_chainwork p2 = wrkTrg).
        { apply (synced_chainwork (NodeProcessor.m_DB p)); [exact Hsy2 | exact Hk|].
          rewrite Hrow. exact Hw. }
        intros sid w Hin Hws. rewrite Hcw. apply (Hmax sid w).
        -- eapply EnumFunctionalTips_same; eauto.
        -- eapply get_ChainWork_same; eauto.
      * apply IH in Hb as [Hk3 Hbest];
          [|eapply graph_kept_no_null; [exact Hk | exact H0] | exact Hsy2].
        split; [eapply graph_kept_trans; eauto | exact Hbest].
Qed.

(** *** Pruning after the loop *)

Lemma chainwork_bound (m : gmap N NodeDB.StateRow) :
  exists B, forall row r, m !! row = Some r ->
    SystemState.Full.m_ChainWork (NodeDB.r_Hdr r) <= B.
Proof.
  induction m as [|k x m Hk IH] using map_ind.
  - exists 0. intros row r Hl. rewrite lookup_empty in Hl. discriminate.
  - destruct IH as [B HB].
    exists (N.max B (SystemState.Full.m_ChainWork (NodeDB.r_Hdr x))).
    intros row r. rewrite lookup_insert. destruct (decide (k = row)) as [->|Hne]; simpl.
    + intros [= <-]. lia.
    + intros Hl. specialize (HB row r Hl). lia.
Qed.

(** With chainwork growing along the parent links, a best tip bounds every
    [Reachable] state. *)
Lemma reachable_le_best (p : NodeProcessor.t) :
  chainwork_grows (NodeProcessor.m_DB p) -> best_tip_maximal p ->
  forall row r, NodeDB.m_States (NodeProcessor.m_DB p) !! row = Some r ->
    NodeDB.IsReachable (Rules.HeightGenesis rules) (NodeProcessor.m_DB p) row = true ->
    SystemState.Full.m_ChainWork (NodeDB.r_Hdr r) <= cursor_chainwork p.
Proof.
  intros Hgrow Hbest.
  destruct (chainwork_bound (NodeDB.m_States (NodeProcessor.m_DB p))) as [B HB].
  assert (Hind : forall (k : nat) row r,
            NodeDB.m_States (NodeProcessor.m_DB p) !! row = Some r ->
            NodeDB.IsReachable (Rules.HeightGenesis rules) (NodeProcessor.m_DB p) row = true ->
            (N.to_nat (B - SystemState.Full.m_ChainWork (NodeDB.r_Hdr r)) <= k)%nat ->
            SystemState.Full.m_ChainWork (NodeDB.r_Hdr r) <= cursor_chainwork p).
  { induction k as [|k IHk]; intros row r Hl Hreach Hk.
    all: destruct (NodeDB.has_reachable_child (Rules.HeightGenesis rules)
                     (NodeProcessor.m_DB p) row) eqn:Hc.
    all: try (apply (Hbest (StateID.mk row (SystemState.Full.m_Height (NodeDB.r_Hdr r))));
              [apply elem_of_EnumFunctionalTips; exists r; simpl; split_and!;
                 [exact Hl | unfold NodeDB.is_functional_tip; simpl; rewrite Hreach, Hc; reflexivity
                 | reflexivity]
              | unfold NodeDB.get_ChainWork, NodeDB.get_Row; simpl; rewrite Hl; reflexivity]).
    all: apply has_reachable_child_spec in Hc as (kc & rc & Hlc & Hprev & Hrc).
    all: assert (Hlt : SystemState.Full.m_ChainWork (NodeDB.r_Hdr r) <
                       SystemState.Full.m_ChainWork (NodeDB.r_Hdr rc))
           by (apply (Hgrow kc rc r Hlc); rewrite Hprev; exact Hl).
    all: pose proof (HB kc rc Hlc) as Hle.
    - lia.
    - assert (SystemState.Full.m_ChainWork (NodeDB.r_Hdr rc) <= cursor_chainwork p)
        by (apply (IHk kc rc Hlc Hrc); lia).
      lia. }
  intros row r Hl Hreach. exact (Hind _ row r Hl Hreach (Nat.le_refl _)).
Qed.

Lemma reachable_in_later (db db' : NodeDB.t) (HG : Height) (n : nat) : forall row,
  db_later db db' ->
  NodeDB.reachable_in HG (NodeDB.m_States db') n row = true ->
  NodeDB.reachable_in HG (NodeDB.m_States db) n row = true.
Proof.
  induction n as [|n IH]; intros row Hl; [discriminate|]. cbn [NodeDB.reachable_in].
  destruct (NodeDB.m_States db' !! row) as [r'|] eqn:Hr'; [|discriminate].
  destruct (Hl row r' Hr') as (r & -> & Hh & Hp & _ & Hf & _).
  intros Hb. apply andb_true_iff in Hb as [Hfun Hrest]. rewrite (Hf Hfun). cbn [andb].
  rewrite <- Hh, <- Hp. apply orb_true_iff in Hrest as [Hg|Hrec].
  - rewrite Hg. reflexivity.
  - rewrite (IH _ Hl Hrec). apply orb_true_r.
Qed.

Lemma reachable_in_mono (HG : Height) (m : gmap N NodeDB.StateRow) (n : nat) : forall n' row,
  (n <= n')%nat ->
  NodeDB.reachable_in HG m n row = true -> NodeDB.reachable_in HG m n' row = true.
Proof.
  induction n as [|n IH]; intros n' row Hle; [discriminate|].
  destruct n' as [|n']; [lia|]. cbn [NodeDB.reachable_in].
  destruct (m !! row) as [r|]; [|discriminate].
  intros Hb. apply andb_true_iff in Hb as [Hfun Hrest]. rewrite Hfun. cbn [andb].
  apply orb_true_iff in Hrest as [Hg|Hrec].
  - rewrite Hg. reflexivity.
  - rewrite (IH n' _ ltac:(lia) Hrec). apply orb_true_r.
Qed.

Lemma db_later_size (db db' : NodeDB.t) :
  db_later db db' -> (size (NodeDB.m_States db') <= size (NodeDB.m_States db))%nat.
Proof.
  intros Hl. rewrite <- !size_dom. apply subseteq_size. intros k.
  rewrite !elem_of_dom. intros [r' Hr']. destruct (Hl k r' Hr') as (r & Hr & _). eauto.
Qed.

Lemma IsReachable_later (db db' : NodeDB.t) (HG : Height) (row : RowId) :
  db_later db db' ->
  NodeDB.IsReachable HG db' row = true -> NodeDB.IsReachable HG db row = true.
Proof.
  intros Hl Hr. unfold NodeDB.IsReachable in *.
  apply (reachable_in_mono HG _ _ _ row (db_later_size db db' Hl)).
  apply (reachable_in_later db db' HG _ row Hl Hr).
Qed.

Lemma prune_fossils_later (n : nat) : forall (hF h : Height) (p p' : NodeProcessor.t),
  prune_fossils n hF h p = Ret p' ->
  exists db', p' = NodeProcessor.set_DB db' p /\ db_later (NodeProcessor.m_DB p) db'.
Proof.
  induction n as [|n IH]; intros hF h p p'; cbn [prune_fossils].
  - destruct (h <=? _); [|discriminate]. intros [= <-]. exists (NodeProcessor.m_DB p).
    split; [destruct p; reflexivity | apply db_later_refl].
  - destruct (h <=? _).
    + intros [= <-]. exists (NodeProcessor.m_DB p).
      split; [destruct p; reflexivity | apply db_later_refl].
    + intros Hb. apply bind_Ret_inv in Hb as (p1 & Hat & Hrest).
      apply PruneAt_spec in Hat as (db1 & -> & Hl1 & _).
      apply IH in Hrest as (db' & -> & Hl'). exists db'. split; [destruct p; reflexivity|].
      eapply db_later_trans; [exact Hl1|].
      intros row r' Hr'. destruct (Hl' row r' Hr') as (r1 & Hr1 & Hrl). exists r1.
      split; [destruct db1; exact Hr1 | exact Hrl].
Qed.

Lemma PruneOld_later (p p' : NodeProcessor.t) :
  PruneOld p = Ret p' ->
  db_later (NodeProcessor.m_DB p) (NodeProcessor.m_DB p') /\
  NodeProcessor.m_Cursor p' = NodeProcessor.m_Cursor p.
Proof.
  unfold PruneOld. cbv zeta. intros Hb. apply bind_Ret_inv in Hb as (p1 & Hbr & Hb).
  match type of Hbr with
  | (if ?b then (_ ← prune_branches _ ?h _; _) else _) = _ =>
      destruct (PruneOld_branches_spec b h p) as [_ Hsp]; cbv zeta in Hsp
  end.
  destruct (Hsp p1 Hbr) as (db1 & -> & Hl1 & _). clear Hsp Hbr.
  destruct (_ <? _).
  - apply prune_fossils_later in Hb as (db' & -> & Hl'). simpl in *.
    split; [eapply db_later_trans; eauto | reflexivity].
  - injection Hb as <-. simpl. auto.
Qed.



(** C3, with what the code needs for it. If the store has no null row, the
    cursor carries the header the store has for its row, and every stored
    header has more chainwork than its stored parent, then after [TryGoUp]
    returns no state that [EnumFunctionalTips] yields has more chainwork
    than the cursor. *)
Theorem TryGoUp_best_tip (fuel : nat) (p p' : NodeProcessor.t) :
  no_null_row (NodeProcessor.m_DB p) ->
  cursor_synced p ->
  chainwork_grows (NodeProcessor.m_DB p) ->
  TryGoUp fuel p = Ret p' ->
  best_tip_maximal p'.
Proof.
  intros H0 Hsy Hgrow. unfold TryGoUp. intros Hb.
  apply bind_Ret_inv in Hb as ([bDirty p1] & Hloop & Hb).
  apply TryGoUp_loop_spec in Hloop as [Hk Hbest]; [|exact H0|exact Hsy].
  destruct bDirty; [|injection Hb as <-; exact Hbest].
  apply bind_Ret_inv in Hb as (p2 & Hprune & Hb). injection Hb as <-.
  apply PruneOld_later in Hprune as [Hl Hcu].
  pose proof (graph_kept_grows _ _ Hk Hgrow) as Hgrow1.
  intros sid w Hin Hw. simpl in Hin, Hw.
  apply elem_of_EnumFunctionalTips in Hin as (r2 & Hr2 & Htip & _).
  unfold NodeDB.is_functional_tip in Htip. apply andb_true_iff in Htip as [Hreach _].
  simpl in Hreach. apply (IsReachable_later _ _ _ _ Hl) in Hreach.
  destruct (Hl _ _ Hr2) as (r1 & Hr1 & Hhdr & _).
  unfold NodeDB.get_ChainWork, NodeDB.get_Row in Hw. rewrite Hr2 in Hw.
  cbn [mbind Outcome_bind] in Hw. injection Hw as <-.
  unfold cursor_chainwork. simpl. rewrite Hcu, Hhdr.
  exact (reachable_le_best p1 Hgrow1 Hbest _ r1 Hr1 Hreach).
Qed.

End Reorg.

(** ** The reorg engine run on a small store *)

Lemma chainwork_grows_check (db : NodeDB.t) :
  map_Forall (fun _ r => chainwork_grows_row (NodeDB.m_States db) r = true) (NodeDB.m_States db) ->
  chainwork_grows db.
Proof.
  intros Hall row r rp Hr Hrp. specialize (Hall row r Hr). unfold chainwork_grows_row in Hall.
  rewrite Hrp in Hall. apply N.ltb_lt. exact Hall.
Qed.

Lemma reorg_result_run (wP wX : N) :
  wP = 1000 /\ wX = 5 \/ wP = 15 /\ wX = 25 ->
  @TryGoUp demo 10 (reorg_processor wP wX) = Ret (reorg_result wP wX).
Proof. intros [[-> ->]|[-> ->]]; vm_compute; reflexivity. Qed.

(** C3, the claim as worded: row 6 carries the chainwork 1000 in its
    header and row 7, which builds on it, the chainwork 5. [TryGoUp] moves
    the cursor to row 5 (chainwork 50), the best of the tips; the pruning
    that follows deletes row 7, and row 6 is left as a [Functional] tip of
    chainwork 1000. *)
Lemma TryGoUp_pruning_exposes_tip :
  let p := reorg_processor 1000 5 in
  let p' := reorg_result 1000 5 in
  no_null_row (NodeProcessor.m_DB p) /\ cursor_synced p
  /\ @TryGoUp demo 10 p = Ret p'
  /\ NodeDB.EnumFunctionalTips 1 (NodeProcessor.m_DB p) = [StateID.mk 5 5; StateID.mk 7 3]
  /\ NodeDB.EnumFunctionalTips 1 (NodeProcessor.m_DB p') = [StateID.mk 6 2; StateID.mk 5 5]
  /\ NodeDB.get_ChainWork (NodeProcessor.m_DB p') 6 = Ret 1000
  /\ cursor_row p' = 5 /\ cursor_chainwork p' = 50
  /\ ~ @best_tip_maximal demo p'.
Proof.
  intros p p'.
  assert (Htips : NodeDB.EnumFunctionalTips 1 (NodeProcessor.m_DB p')
                  = [StateID.mk 6 2; StateID.mk 5 5]) by (vm_compute; reflexivity).
  assert (Hw : NodeDB.get_ChainWork (NodeProcessor.m_DB p') 6 = Ret 1000)
    by (vm_compute; reflexivity).
  assert (Hc : cursor_chainwork p' = 50) by (vm_compute; reflexivity).
  assert (Hsy : cursor_synced p) by (intros r; vm_compute; intros [= <-]; reflexivity).
  assert (Hrun : @TryGoUp demo 10 p = Ret p') by (apply reorg_result_run; auto).
  assert (Hnot : ~ @best_tip_maximal demo p').
  { intros Hbest. specialize (Hbest (StateID.mk 6 2) 1000).
    change (Rules.HeightGenesis (@rules demo)) with 1 in Hbest. rewrite Htips, Hc in Hbest.
    specialize (Hbest (list_elem_of_here _ _) Hw). lia. }
  split_and!; try assumption; vm_compute; reflexivity.
Qed.

Lemma TryGoUp_best_tip_witness :
  let p := reorg_processor 15 25 in
  let p' := reorg_result 15 25 in
  @TryGoUp demo 10 p = Ret p'
  /\ NodeDB.EnumFunctionalTips 1 (NodeProcessor.m_DB p') = [StateID.mk 5 5; StateID.mk 6 2]
  /\ @best_tip_maximal demo p'.
Proof.
  intros p p'.
  assert (Hrun : @TryGoUp demo 10 p = Ret p') by (apply reorg_result_run; auto).
  split_and!; [exact Hrun | vm_compute; reflexivity |].
  apply (@TryGoUp_best_tip demo 10 p p').
  - vm_compute. reflexivity.
  - intros r. vm_compute. intros [= <-]. reflexivity.
  - apply chainwork_grows_check. apply (bool_decide_unpack _). vm_compute. exact I.
  - exact Hrun.
Defined.

(** ** A first-time block on the small store *)

Lemma HandleBlock_header_checks_witness :
  let p := reorg_processor 15 25 in
  let cu := NodeProcessor.m_Cursor p in
  let s := reorg_hdr 5 50 1 in
  @HandleBlock demo (StateID.mk 5 5) true p = Ret (true, reorg_block5)
  /\ @Difficulty_Inc demo (SystemState.Full.m_PoW_Difficulty s)
       (SystemState.Full.m_ChainWork (Cursor.m_Full cu)) = SystemState.Full.m_ChainWork s
  /\ SystemState.Full.m_PoW_Difficulty s = Cursor.m_DifficultyNext cu
  /\ median_of (last_timestamps 3 (NodeProcessor.m_DB p) 4) = 120
  /\ median_of (last_timestamps 3 (NodeProcessor.m_DB p) 4) < SystemState.Full.m_TimeStamp s.
Proof.
  intros p cu s.
  assert (Hrun : @HandleBlock demo (StateID.mk 5 5) true p = Ret (true, reorg_block5))
    by (vm_compute; reflexivity).
  split; [exact Hrun|].
  destruct (@HandleBlock_header_checks demo (StateID.mk 5 5) p [1; 77] [] s
              (Body.mk 0 0 false (TxVectors.mk [] [Output.mk 77 false 0 0] [] [])))
    as [Hfirst _].
  - vm_compute. reflexivity.
  - vm_compute. reflexivity.
  - reflexivity.
  - vm_compute. discriminate.
  - destruct (Hfirst eq_refl reorg_block5 Hrun) as (Hw & Hd & Hm).
    split_and!; [exact Hw | exact Hd | vm_compute; reflexivity | exact Hm].
Defined.

(** ** The handlers and the templating run on small inputs *)

Lemma HandleBlockElement_Input_forward_adjust_witness :
  let utxos : gmap (N * N) N := {[ (5, 3) := 2; (5, 7) := 1; (6, 1) := 1 ]} in
  @HandleBlockElement_Input demo (Input.mk 5 0) 10 None true true utxos
    = (true, Input.mk 5 3, <[(5, 3) := 1]> utxos)
  /\ @HandleBlockElement_Input demo (Input.mk 5 0) 2 None true true utxos
    = (false, Input.mk 5 0, utxos).
Proof.
  intros utxos.
  destruct (@HandleBlockElement_Input_forward_adjust demo (Input.mk 5 0) 10 utxos) as [Hsome _].
  destruct (@HandleBlockElement_Input_forward_adjust demo (Input.mk 5 0) 2 utxos) as [_ Hnone].
  assert (Hkeys : forall m n, utxos !! (5, m) = Some n -> m = 3 \/ m = 7).
  { intros m n. unfold utxos. rewrite !lookup_insert_Some, lookup_singleton_Some.
    intros [[[= <-] _]|[_ [[[= <-] _]|[_ [[=] _]]]]]; auto. }
  split.
  - simpl in Hsome. refine (Hsome 3 2 _ _ _ _).
    + reflexivity.
    + unfold CountModulus. lia.
    + lia.
    + intros m' n' Hl _. destruct (Hkeys m' n' Hl); lia.
  - apply Hnone. intros m Hm. simpl. destruct (utxos !! (5, m)) as [n|] eqn:Hl; [|reflexivity].
    destruct (Hkeys m n Hl); lia.
Defined.

Lemma ValidateTxContext_duplicates_adjacent_only_witness :
  let k := TxKernel.mk 20 (HeightRange.mk 0 9) in
  let tx := Transaction.mk 0 (TxVectors.mk [] [] [] [k; k]) in
  @ValidateTxContext demo (demo_processor ∅ ∅ (Extra.mk 0 0 true)) tx = false.
Proof.
  intros k tx. destruct (@ValidateTxContext_duplicates_adjacent_only demo) as [Hadj _].
  apply Hadj. left. exists 0%nat, k, k. repeat split.
Defined.

Lemma GenerateNewBlock_SubsidyClosing_witness :
  let bc := BlockContext.mk 0 [] (SystemState.Full.mk 0 0 0 0 0 0) [] 0 in
  match @GenerateNewBlock demo 1000 bc (demo_processor ∅ ∅ (Extra.mk 0 0 true)) with
  | Ret (ok, bc', res, _) =>
      ok = true /\ Body.m_SubsidyClosing res = true
      /\ BlockContext.m_Body bc' = @Serialize demo res
  | _ => False
  end
  /\ match @GenerateNewBlock demo 1000 bc (demo_processor ∅ {[ZeroHash]} (Extra.mk 80 0 false)) with
     | Ret (ok, bc', res, _) =>
         ok = true /\ Body.m_SubsidyClosing res = false
         /\ BlockContext.m_Body bc' = @Serialize demo res
     | _ => False
     end.
Proof.
  intros bc.
  destruct (@GenerateNewBlock_SubsidyClosing demo) as (_ & _ & Hscratch & _).
  split.
  - destruct (@GenerateNewBlock demo 1000 bc (demo_processor ∅ ∅ (Extra.mk 0 0 true)))
      as [[[[ok bc'] res] p']| |] eqn:Hr; try (vm_compute in Hr; discriminate).
    assert (Hok : ok = true) by (vm_compute in Hr; injection Hr as <- _ _ _; reflexivity).
    destruct (Hscratch _ _ _ _ _ _ _ Hr) as [Hflag Hbody].
    split_and!; [exact Hok | exact Hflag | exact (Hbody Hok)].
  - destruct (@GenerateNewBlock demo 1000 bc (demo_processor ∅ {[ZeroHash]} (Extra.mk 80 0 false)))
      as [[[[ok bc'] res] p']| |] eqn:Hr; try (vm_compute in Hr; discriminate).
    assert (Hok : ok = true) by (vm_compute in Hr; injection Hr as <- _ _ _; reflexivity).
    destruct (Hscratch _ _ _ _ _ _ _ Hr) as [Hflag Hbody].
    split_and!; [exact Hok | exact Hflag | exact (Hbody Hok)].
Defined.

(** * Further properties of the processor *)

(** ** The handlers of one element *)

Section Handlers.
Context {E : Externals}.

(** X1. The kernel handler, whatever the direction: when it answers [true]
    the opposite direction on the same kernel answers [true] and gives the
    kernel tree back, and the same direction again is refused; when it
    answers [false] the tree is as it was. *)
Theorem HandleBlockElement_Kernel_round_trip (v : TxKernel.t) (bFwd bIsInput : bool) (K : gset N) :
  let r := HandleBlockElement_Kernel v bFwd bIsInput K in
  if r.1 then
    HandleBlockElement_Kernel v (negb bFwd) bIsInput r.2 = (true, K)
    /\ HandleBlockElement_Kernel v bFwd bIsInput r.2 = (false, r.2)
  else r.2 = K.
Proof.
  destruct (xorb bFwd bIsInput) eqn:Hx; cbv zeta.
  - rewrite (Kernel_add_step v bFwd bIsInput K Hx).
    destruct (decide (TxKernel.get_ID v ∈ K)) as [Hin|Hnin]; simpl; [reflexivity|].
    rewrite (Kernel_del_step v (negb bFwd) bIsInput) by (destruct bFwd, bIsInput; done).
    rewrite (Kernel_add_step v bFwd bIsInput _ Hx).
    rewrite !decide_True by set_solver. split; [|reflexivity]. f_equal. set_solver.
  - rewrite (Kernel_del_step v bFwd bIsInput K Hx).
    destruct (decide (TxKernel.get_ID v ∈ K)) as [Hin|Hnin]; simpl; [|reflexivity].
    rewrite (Kernel_add_step v (negb bFwd) bIsInput) by (destruct bFwd, bIsInput; done).
    rewrite (Kernel_del_step v bFwd bIsInput _ Hx).
    rewrite !decide_False by set_solver. split; [|reflexivity]. f_equal.
    apply set_eq. intros x. destruct (decide (x = TxKernel.get_ID v)); set_solver.
Qed.

(** X2. An input spent forward on a tree whose counts are in 1..2^32-1 is
    given back by the reverse handler: called on the input as the forward
    handler left it (with the maturity it found), it answers [true] and the
    tree is the one before the spend. *)
Theorem HandleBlockElement_Input_round_trip (v v' : Input.t) (h h' : Height)
    (pHMax pHMax' : option Height) (bAdj bAdj' : bool) (t t' : gmap (N * N) N) :
  Utxos_wf t ->
  HandleBlockElement_Input v h pHMax true bAdj t = (true, v', t') ->
  HandleBlockElement_Input v' h' pHMax' false bAdj' t' = (true, v', t).
Proof.
  intros Hwf Hfwd.
  pose proof (Input_forward_step _ _ _ _ _ _ _ _ Hwf Hfwd) as [Hwf' Hc]. simpl in Hc.
  assert (Hroom : count_at t' (Input_key v') + 1 < CountModulus).
  { specialize (Hc (Input_key v')). rewrite decide_True in Hc by reflexivity.
    destruct (t !! Input_key v') as [n|] eqn:Hk.
    - rewrite (count_at_Some _ _ _ Hk) in Hc. apply Hwf in Hk. lia.
    - unfold count_at in Hc at 2. rewrite Hk in Hc. simpl in Hc. lia. }
  destruct (Input_reverse_step v' h' pHMax' bAdj' t' Hwf' Hroom) as (t'' & -> & Hwf'' & Hc'').
  f_equal. apply Utxos_wf_ext; [assumption | assumption |].
  intros k. rewrite Hc''. specialize (Hc k). lia.
Qed.

(** X3. An output created forward on a tree whose counts are in
    1..2^32-1 is taken back by the reverse handler with the same height and
    mode: it answers [true] and the tree is the one before. *)
Theorem HandleBlockElement_Output_round_trip (v : Output.t) (h : Height)
    (pHMax : option Height) (t t' : gmap (N * N) N) :
  Utxos_wf t ->
  HandleBlockElement_Output v h pHMax true t = (true, t') ->
  HandleBlockElement_Output v h pHMax false t' = (true, t).
Proof.
  intros Hwf Hfwd.
  pose proof (Output_forward_step _ _ _ _ _ _ Hwf Hfwd) as (key & Hkey & Hwf' & Hc).
  assert (Hpos : 1 <= count_at t' key).
  { rewrite Hc, decide_True by reflexivity. lia. }
  destruct (Output_reverse_step v h pHMax t' key Hwf' Hkey Hpos) as (t'' & -> & Hwf'' & Hc'').
  f_equal. apply Utxos_wf_ext; [assumption | assumption |].
  intros k. specialize (Hc k). specialize (Hc'' k). lia.
Qed.

End Handlers.

Lemma HandleBlockElement_Input_round_trip_witness :
  let t : gmap (N * N) N := {[ (5, 3) := 2; (5, 7) := 1 ]} in
  let t' : gmap (N * N) N := {[ (5, 3) := 1; (5, 7) := 1 ]} in
  @HandleBlockElement_Input demo (Input.mk 5 0) 10 None true true t = (true, Input.mk 5 3, t')
  /\ @HandleBlockElement_Input demo (Input.mk 5 3) 10 None false false t' = (true, Input.mk 5 3, t).
Proof.
  intros t t'.
  assert (Hfwd : @HandleBlockElement_Input demo (Input.mk 5 0) 10 None true true t
                 = (true, Input.mk 5 3, t')) by (vm_compute; reflexivity).
  split; [exact Hfwd|].
  apply (@HandleBlockElement_Input_round_trip demo (Input.mk 5 0) (Input.mk 5 3) 10 10
           None None true false t t'); [|exact Hfwd].
  apply Utxos_wf_check. apply (bool_decide_unpack _). vm_compute. exact I.
Defined.

Lemma HandleBlockElement_Output_round_trip_witness :
  let t : gmap (N * N) N := {[ (5, 3) := 2 ]} in
  let t' : gmap (N * N) N := {[ (5, 3) := 2; (6, 12) := 1 ]} in
  let v := Output.mk 6 false 2 0 in
  @HandleBlockElement_Output demo v 10 None true t = (true, t')
  /\ @HandleBlockElement_Output demo v 10 None false t' = (true, t).
Proof.
  intros t t' v.
  assert (Hfwd : @HandleBlockElement_Output demo v 10 None true t = (true, t'))
    by (vm_compute; reflexivity).
  split; [exact Hfwd|].
  apply (@HandleBlockElement_Output_round_trip demo v 10 None t t'); [|exact Hfwd].
  apply Utxos_wf_check. apply (bool_decide_unpack _). vm_compute. exact I.
Defined.

(** ** The interpreter of a transaction or block *)

Section Interpreting.
Context {E : Externals}.

(** X4. A forward [HandleValidatedTx] keeps every count of the UTXO tree in
    1..2^32-1, whatever it answers. When it answers [true] the books
    balance on each key: the count left plus the inputs spent on the key
    (as recorded in the returned inputs) is the count before plus the outputs
    created on it; and the kernel tree is the one before, less the input
    kernels, plus the output kernels. *)
Theorem HandleValidatedTx_forward_accounts (txv : TxVectors.t) (h : Height)
    (bAdjustInputMaturity : bool) (pHMax : option Height) (p : NodeProcessor.t)
    (ok : bool) (txv' : TxVectors.t) (p' : NodeProcessor.t) :
  Utxos_wf (NodeProcessor.m_Utxos p) ->
  TxVectors_32bit txv ->
  HandleValidatedTx txv h true bAdjustInputMaturity pHMax p = Ret (ok, txv', p') ->
  Utxos_wf (NodeProcessor.m_Utxos p')
  /\ (ok = true ->
      (forall k, count_at (NodeProcessor.m_Utxos p') k
                 + occ k (Input_key <$> TxVectors.m_vInputs txv')
                 = count_at (NodeProcessor.m_Utxos p) k
                   + occ k (Output_keys (TxVectors.m_vOutputs txv) h pHMax))
      /\ NodeProcessor.m_Kernels p' =
           (NodeProcessor.m_Kernels p ∖ list_to_set (kernel_ids (TxVectors.m_vKernelsInput txv)))
           ∪ list_to_set (kernel_ids (TxVectors.m_vKernelsOutput txv))).
Proof.
  intros Hwf (Hl1 & Hl2 & Hl3 & Hl4) Hr. destruct ok.
  - destruct (HandleValidatedTx_forward_ok _ _ _ _ _ _ _ Hwf Hr)
      as (ins' & u2 & -> & -> & Hwf2 & _ & Hc & _).
    simpl. split; [exact Hwf2|]. intros _. split; [exact Hc | reflexivity].
  - assert (p' = p) as ->; [|split; [exact Hwf | discriminate]].
    revert Hr. unfold HandleValidatedTx.
    destruct (loop_UtxoIn _ _ _ _ _ _ _) as [[[ok1 nInp] ins] u1] eqn:H1.
    destruct (if ok1 then _ else _) as [[ok2 nOut] u2] eqn:H2.
    destruct (if ok2 then _ else _) as [[ok3 nKrnInp] k1] eqn:H3.
    destruct (if ok3 then _ else _) as [[ok4 nKrnOut] k2] eqn:H4.
    destruct ok4; [intros [= _ _]; discriminate|]. cbn [negb].
    intros [= <- <-].
    rewrite (rollback_Utxos _ _ _ _ _ _ _ _ _ _ _ _ _ Hwf Hl1 Hl2 H1 H2).
    rewrite (rollback_Kernels _ _ _ _ _ _ _ _ _ _ Hl3 Hl4 H3 H4).
    apply set_trees_same.
Qed.

(** X5. In reverse mode the interpreter does not answer [false] for an
    element that cannot be undone: [HandleValidatedTx] answers [true] or
    raises. [HandleValidatedBlock] answers [false] in reverse mode only for a
    body that closes the subsidy while the subsidy is open, and then nothing
    has changed. *)
Theorem HandleValidatedBlock_reverse_refusal (body : Body.t) (h : Height)
    (bAdjustInputMaturity : bool) (pHMax : option Height) (p : NodeProcessor.t)
    (body' : Body.t) (p' : NodeProcessor.t) :
  HandleValidatedBlock body h false bAdjustInputMaturity pHMax p = Ret (false, body', p') ->
  Body.m_SubsidyClosing body = true
  /\ Extra.m_SubsidyOpen (NodeProcessor.m_Extra p) = true
  /\ body' = body /\ p' = p
  /\ forall txv'' p'',
       HandleValidatedTx (Body.m_Txv body) h false bAdjustInputMaturity pHMax p
         <> Ret (false, txv'', p'').
Proof.
  assert (Htx : forall txv'' p'',
             HandleValidatedTx (Body.m_Txv body) h false bAdjustInputMaturity pHMax p
               <> Ret (false, txv'', p'')).
  { intros txv'' p''. unfold HandleValidatedTx.
    destruct (loop_UtxoIn _ _ _ _ _ _ _) as [[[ok1 nInp] ins] u1].
    destruct (if ok1 then _ else _) as [[ok2 nOut] u2].
    destruct (if ok2 then _ else _) as [[ok3 nKrnInp] k1].
    destruct (if ok3 then _ else _) as [[ok4 nKrnOut] k2].
    destruct ok4; cbn [negb]; discriminate. }
  unfold HandleValidatedBlock.
  destruct (Body.m_SubsidyClosing body) eqn:Hc;
    destruct (Extra.m_SubsidyOpen (NodeProcessor.m_Extra p)) eqn:Ho; cbn [andb negb eqb].
  - intros [= <- <-]. auto.
  - intros Hr. exfalso. apply bind_Ret_inv in Hr as ([[ok1 txv] p1] & Hcall & Hr).
    destruct ok1; cbn [negb] in Hr; [discriminate|]. exact (Htx _ _ Hcall).
  - intros Hr. exfalso. apply bind_Ret_inv in Hr as ([[ok1 txv] p1] & Hcall & Hr).
    destruct ok1; cbn [negb] in Hr; [discriminate|]. exact (Htx _ _ Hcall).
  - intros Hr. exfalso. apply bind_Ret_inv in Hr as ([[ok1 txv] p1] & Hcall & Hr).
    destruct ok1; cbn [negb] in Hr; [discriminate|]. exact (Htx _ _ Hcall).
Qed.

(** X6. While [m_SubsidyOpen] mirrors the absence of the zero key,
    [ToggleSubsidyOpened] twice is no change: the second call restores the
    kernel tree and the flag. *)
Theorem ToggleSubsidyOpened_twice (p : NodeProcessor.t) :
  SubsidySentinel_ok p -> ToggleSubsidyOpened (ToggleSubsidyOpened p) = p.
Proof.
  unfold SubsidySentinel_ok, ToggleSubsidyOpened, Kernels_Find. intros Hok.
  destruct p as [db cu utxos K [sub off open] hz sz ev]. simpl in *.
  destruct (decide (ZeroHash ∈ K)) as [Hin|Hnin]; simpl.
  - rewrite decide_False by set_solver. simpl.
    assert (open = false) as -> by (destruct open; [exfalso; apply Hok; auto | reflexivity]).
    unfold NodeProcessor.set_Kernels, NodeProcessor.set_Extra. simpl. f_equal. apply set_eq. intros x. destruct (decide (x = ZeroHash)); set_solver.
  - rewrite decide_True by set_solver. simpl.
    assert (open = true) as -> by (apply Hok; exact Hnin).
    unfold NodeProcessor.set_Kernels, NodeProcessor.set_Extra. simpl. f_equal. set_solver.
Qed.

End Interpreting.

Lemma HandleValidatedTx_forward_accounts_witness :
  let k20 := TxKernel.mk 20 (HeightRange.mk 0 0) in
  let k21 := TxKernel.mk 21 (HeightRange.mk 0 0) in
  let txv := TxVectors.mk [Input.mk 5 0] [Output.mk 6 false 0 0] [k20] [k21] in
  let p := demo_processor {[ (5, 1) := 1 ]} {[20]} (Extra.mk 3 4 true) in
  match @HandleValidatedTx demo txv 10 true true None p with
  | Ret (ok, txv', p') =>
      ok = true /\ Utxos_wf (NodeProcessor.m_Utxos p')
      /\ NodeProcessor.m_Kernels p' = ({[20]} ∖ list_to_set [20]) ∪ list_to_set [21]
  | _ => False
  end.
Proof.
  intros k20 k21 txv p.
  destruct (@HandleValidatedTx demo txv 10 true true None p) as [[[ok txv'] p']| |] eqn:Hr;
    try (vm_compute in Hr; discriminate).
  assert (Hok : ok = true) by (vm_compute in Hr; injection Hr as <- _ _; reflexivity).
  destruct (@HandleValidatedTx_forward_accounts demo txv 10 true None p ok txv' p')
    as [Hwf Hacc].
  - apply Utxos_wf_check. apply (bool_decide_unpack _). vm_compute. exact I.
  - repeat split; vm_compute; reflexivity.
  - exact Hr.
  - destruct (Hacc Hok) as [_ HK]. split_and!; [exact Hok | exact Hwf | exact HK].
Defined.

Lemma HandleValidatedBlock_reverse_refusal_witness :
  let body := Body.mk 80 7 true (TxVectors.mk [] [] [] []) in
  let p := demo_processor ∅ ∅ (Extra.mk 3 4 true) in
  @HandleValidatedBlock demo body 10 false false None p = Ret (false, body, p)
  /\ Extra.m_SubsidyOpen (NodeProcessor.m_Extra p) = true.
Proof.
  intros body p.
  assert (Hr : @HandleValidatedBlock demo body 10 false false None p = Ret (false, body, p))
    by reflexivity.
  split; [exact Hr|].
  destruct (@HandleValidatedBlock_reverse_refusal demo body 10 false None p body p Hr)
    as (_ & Ho & _). exact Ho.
Defined.

Lemma ToggleSubsidyOpened_twice_witness :
  let p := demo_processor ∅ {[20]} (Extra.mk 3 4 true) in
  ToggleSubsidyOpened (ToggleSubsidyOpened p) = p
  /\ NodeProcessor.m_Kernels (ToggleSubsidyOpened p) = {[ZeroHash]} ∪ {[20]}.
Proof.
  intros p. split; [|reflexivity].
  apply ToggleSubsidyOpened_twice. unfold SubsidySentinel_ok. simpl.
  split; [intros _; set_solver | reflexivity].
Defined.

(** ** The rollback journal *)

Lemma length_le_bytes (n : nat) (x : N) : length (le_bytes n x) = n.
Proof. revert x. induction n as [|n IH]; intros x; simpl; [reflexivity | rewrite IH; reflexivity]. Qed.

Lemma le_value_le_bytes (n : nat) (x : N) : le_value (le_bytes n x) = x mod 256 ^ N.of_nat n.
Proof.
  revert x. induction n as [|n IH]; intros x.
  - simpl. rewrite N.mod_1_r. reflexivity.
  - cbn [le_bytes le_value foldr]. fold (le_value (le_bytes n (x / 256))). rewrite IH.
    rewrite Nat2N.inj_succ, N.pow_succ_r'. symmetry. apply N.Div0.mod_mul_r.
Qed.

Lemma journal_entry_flat_map (ins : list Input.t) : forall (i : nat) (v : Input.t),
  ins !! i = Some v -> Input.m_Maturity v < HeightModulus ->
  journal_entry (flat_map (fun v => le_bytes 8 (Input.m_Maturity v)) ins) i = Input.m_Maturity v.
Proof.
  induction ins as [|x ins IH]; intros i v Hi Hm; [discriminate|].
  unfold journal_entry. cbn [flat_map]. destruct i as [|i].
  - injection Hi as ->. rewrite Nat.mul_0_r, drop_0.
    rewrite take_app_length' by (rewrite length_le_bytes; reflexivity).
    rewrite le_value_le_bytes. apply N.mod_small.
    replace (256 ^ N.of_nat 8) with HeightModulus by reflexivity. exact Hm.
  - replace (8 * S i)%nat with (length (le_bytes 8 (Input.m_Maturity x)) + 8 * i)%nat
      by (rewrite length_le_bytes; lia).
    rewrite drop_app_add. exact (IH i v Hi Hm).
Qed.

Section Journal.
Context {E : Externals}.

(** X7. The journal round trip: what [RollbackData::Import] writes for the
    inputs of a block is never empty, and [RollbackData::Export] of it into
    a copy of the block whose inputs have lost their maturities puts every
    maturity back. With a journal of another length [Export] raises. *)
Theorem RollbackData_round_trip (txv : TxVectors.t) (ins0 : list Input.t) (m_Buf : ByteBuffer) :
  Forall (fun v => Input.m_Maturity v < HeightModulus) (TxVectors.m_vInputs txv) ->
  sizeof_Utxo * N.of_nat (length (TxVectors.m_vInputs txv)) < HeightModulus ->
  Input.m_Commitment <$> ins0 = Input.m_Commitment <$> TxVectors.m_vInputs txv ->
  RollbackData_Import txv [] <> []
  /\ RollbackData_Export (RollbackData_Import txv []) (TxVectors.set_Inputs ins0 txv) = Ret txv
  /\ (ins0 <> [] ->
      N.of_nat (length m_Buf) <> sizeof_Utxo * N.of_nat (length ins0) ->
      RollbackData_Export m_Buf (TxVectors.set_Inputs ins0 txv) = Throw NodeDataCorrupted).
Proof.
  intros Hmat Hsize Hcom. destruct txv as [ins outs kin kout]. cbn [TxVectors.m_vInputs] in *.
  assert (Hlen : length ins0 = length ins).
  { rewrite <- (length_fmap Input.m_Commitment ins0), Hcom. apply length_fmap. }
  split_and!.
  - unfold RollbackData_Import. cbn [TxVectors.m_vInputs].
    destruct ins as [|x ins]; [discriminate|]. cbn [flat_map le_bytes]. discriminate.
  - unfold RollbackData_Import, RollbackData_Export, TxVectors.set_Inputs.
    cbn [TxVectors.m_vInputs TxVectors.m_vOutputs TxVectors.m_vKernelsInput
         TxVectors.m_vKernelsOutput].
    destruct ins0 as [|y ins0].
    { destruct ins; [reflexivity | discriminate]. }
    destruct ins as [|x ins]; [discriminate|].
    set (buf := flat_map _ (x :: ins)).
    assert (Hbuf : N.of_nat (length buf) = sizeof_Utxo * N.of_nat (length (x :: ins))).
    { unfold buf. clear. induction (x :: ins) as [|z l IH]; [reflexivity|].
      cbn [flat_map]. rewrite length_app, length_le_bytes. cbn [length].
      rewrite Nat2N.inj_add, IH. unfold sizeof_Utxo. lia. }
    rewrite Hlen, N.mod_small by exact Hsize. rewrite Hbuf, N.eqb_refl. cbn [negb].
    do 2 f_equal. apply list_eq. intros i. rewrite list_lookup_imap.
    assert (Hci : (Input.m_Commitment <$> (y :: ins0)) !! i
                  = (Input.m_Commitment <$> (x :: ins)) !! i) by (rewrite Hcom; reflexivity).
    rewrite !list_lookup_fmap in Hci.
    destruct ((y :: ins0) !! i) as [v0|] eqn:H0; destruct ((x :: ins) !! i) as [v|] eqn:H1;
      simpl in Hci; try discriminate; [|reflexivity].
    injection Hci as Hci. simpl. f_equal. unfold buf.
    rewrite (journal_entry_flat_map (x :: ins) i v H1).
    + destruct v. simpl in *. congruence.
    + rewrite Forall_forall in Hmat. apply Hmat. eapply list_elem_of_lookup_2. exact H1.
  - intros Hne Hbad. unfold RollbackData_Export, TxVectors.set_Inputs.
    cbn [TxVectors.m_vInputs]. destruct ins0 as [|y ins0]; [done|].
    rewrite Hlen, N.mod_small by exact Hsize. rewrite <- Hlen.
    destruct (N.eqb_spec (sizeof_Utxo * N.of_nat (length (y :: ins0))) (N.of_nat (length m_Buf)))
      as [Heq|_]; [exfalso; apply Hbad; symmetry; exact Heq | reflexivity].
Qed.

End Journal.

Lemma RollbackData_round_trip_witness :
  let txv := TxVectors.mk [Input.mk 5 3; Input.mk 6 70000] [Output.mk 9 false 0 0] [] [] in
  RollbackData_Import txv [] = [3; 0; 0; 0; 0; 0; 0; 0; 112; 17; 1; 0; 0; 0; 0; 0]
  /\ RollbackData_Export (RollbackData_Import txv [])
       (TxVectors.set_Inputs [Input.mk 5 0; Input.mk 6 0] txv) = Ret txv.
Proof.
  intros txv. split; [vm_compute; reflexivity|].
  destruct (RollbackData_round_trip txv [Input.mk 5 0; Input.mk 6 0] []) as (_ & Hrt & _).
  - repeat constructor.
  - vm_compute. reflexivity.
  - reflexivity.
  - exact Hrt.
Defined.

(** ** Interpreting a stored block *)

Lemma RollbackData_Import_nonempty (txv : TxVectors.t) (m_Buf : ByteBuffer) :
  RollbackData_Import txv m_Buf <> [].
Proof.
  unfold RollbackData_Import. destruct (TxVectors.m_vInputs txv) as [|x ins].
  - destruct m_Buf; discriminate.
  - cbn [flat_map le_bytes]. discriminate.
Qed.

Section StoredBlock.
Context {E : Externals}.

(** The rows of the store before and after [HandleBlock]. *)
Lemma HandleBlock_rows (sid : StateID.t) (bFwd : bool) (p : NodeProcessor.t)
    (ok : bool) (p' : NodeProcessor.t) :
  HandleBlock sid bFwd p = Ret (ok, p') ->
  exists r buf,
    NodeDB.m_States (NodeProcessor.m_DB p) !! StateID.m_Row sid = Some r
    /\ NodeDB.m_States (NodeProcessor.m_DB p') =
         <[StateID.m_Row sid := NodeDB.set_Rollback buf r]> (NodeDB.m_States (NodeProcessor.m_DB p))
    /\ NodeDB.m_Cursor (NodeProcessor.m_DB p') = NodeDB.m_Cursor (NodeProcessor.m_DB p)
    /\ (bFwd = true -> ok = true -> buf <> [])
    /\ (ok = false \/ bFwd = false -> buf = NodeDB.r_Rollback r).
Proof.
  unfold HandleBlock. intros Hb.
  apply bind_Ret_inv in Hb as ([bb m_Buf] & Hblk & Hb).
  apply bind_Ret_inv in Hb as (s & _ & Hb).
  unfold NodeDB.GetStateBlock, NodeDB.get_Row in Hblk.
  destruct (NodeDB.m_States (NodeProcessor.m_DB p) !! StateID.m_Row sid) as [r|] eqn:Hr;
    [|discriminate].
  cbn [mbind Outcome_bind] in Hblk. injection Hblk as <- <-.
  assert (Hsame : forall q, NodeProcessor.m_DB q = NodeProcessor.m_DB p ->
            forall o, (bFwd = true -> o = true -> NodeDB.r_Rollback r <> []) ->
            exists r0 buf,
              Some r = Some r0
              /\ NodeDB.m_States (NodeProcessor.m_DB q) =
                   <[StateID.m_Row sid := NodeDB.set_Rollback buf r0]>
                     (NodeDB.m_States (NodeProcessor.m_DB p))
              /\ NodeDB.m_Cursor (NodeProcessor.m_DB q) = NodeDB.m_Cursor (NodeProcessor.m_DB p)
              /\ (bFwd = true -> o = true -> buf <> [])
              /\ (o = false \/ bFwd = false -> buf = NodeDB.r_Rollback r0)).
  { intros q -> o Ho. exists r, (NodeDB.r_Rollback r). split_and!; auto.
    symmetry. apply insert_id. rewrite Hr. destruct r; reflexivity. }
  destruct (Deserialize (NodeDB.r_Body r)) as [block|];
    [|injection Hb as <- <-; apply Hsame; [reflexivity | discriminate]].
  apply bind_Ret_inv in Hb as ([go block0] & _ & Hb).
  destruct go; cbn [negb] in Hb;
    [|injection Hb as <- <-; apply Hsame; [reflexivity | discriminate]].
  apply bind_Ret_inv in Hb as ([[bOk block1] p1] & Hv & Hb).
  apply HandleValidatedBlock_frame in Hv as [Hdb1 Hcu1].
  destruct bFwd; cbn [andb] in Hb.
  - destruct (bool_decide (NodeDB.r_Rollback r = [])) eqn:Hfirst; cbn [andb] in Hb.
    + destruct bOk.
      * destruct (negb _).
        -- apply bind_Ret_inv in Hb as ([[b2 block2] p2] & Hv2 & Hb). injection Hb as <- <-.
           apply HandleValidatedBlock_frame in Hv2 as [Hdb2 _].
           apply Hsame; [congruence | discriminate].
        -- apply bind_Ret_inv in Hb as (p2 & Hc & Hb). injection Hb as <- <-.
           unfold commit_first_time in Hc. apply bind_Ret_inv in Hc as (db1 & Hset & Hc).
           unfold NodeDB.SetStateRollback in Hset. apply upd_Row_spec in Hset as (r1 & Hr1 & ->).
           rewrite Hdb1, Hr in Hr1. injection Hr1 as <-.
           exists r, (RollbackData_Import (Body.m_Txv block1) (NodeDB.r_Rollback r)).
           rewrite Hdb1 in Hc.
           split_and!; [reflexivity | | | intros _ _; apply RollbackData_Import_nonempty
                       | intros [?|?]; discriminate].
           ++ destruct (_ <? _); injection Hc as <-; destruct (NodeProcessor.m_DB p); reflexivity.
           ++ destruct (_ <? _); injection Hc as <-; destruct (NodeProcessor.m_DB p); reflexivity.
      * injection Hb as <- <-. apply Hsame; [exact Hdb1 | discriminate].
    + injection Hb as <- <-. apply Hsame; [exact Hdb1|].
      intros _ _. apply bool_decide_eq_false in Hfirst. exact Hfirst.
  - injection Hb as <- <-. apply Hsame; [exact Hdb1 | discriminate].
Qed.

(** X8. What [HandleBlock] does to the store: the only row it can write is
    the one it interprets, and there only the journal; the headers, the
    flags, the bodies and the cursor of the store stay. After a forward call
    that answered [true] the journal of the row is not empty, so that the
    next forward call on the row is a replay; a call that answered [false]
    and a reverse call leave the journal as it was. *)
Theorem HandleBlock_store_effect (sid : StateID.t) (bFwd : bool) (p : NodeProcessor.t)
    (ok : bool) (p' : NodeProcessor.t) :
  HandleBlock sid bFwd p = Ret (ok, p') ->
  exists r buf,
    NodeDB.m_States (NodeProcessor.m_DB p) !! StateID.m_Row sid = Some r
    /\ NodeDB.m_States (NodeProcessor.m_DB p') =
         <[StateID.m_Row sid := NodeDB.set_Rollback buf r]> (NodeDB.m_States (NodeProcessor.m_DB p))
    /\ NodeDB.m_Cursor (NodeProcessor.m_DB p') = NodeDB.m_Cursor (NodeProcessor.m_DB p)
    /\ (bFwd = true -> ok = true -> buf <> [])
    /\ (ok = false \/ bFwd = false -> buf = NodeDB.r_Rollback r).
Proof. apply HandleBlock_rows. Qed.

End StoredBlock.

Lemma HandleBlock_store_effect_witness :
  let p := reorg_processor 15 25 in
  @HandleBlock demo (StateID.mk 5 5) true p = Ret (true, reorg_block5)
  /\ (NodeDB.r_Rollback <$> NodeDB.m_States (NodeProcessor.m_DB p) !! 5) = Some []
  /\ (NodeDB.r_Rollback <$> NodeDB.m_States (NodeProcessor.m_DB reorg_block5) !! 5) = Some [0]
  /\ NodeDB.m_Cursor (NodeProcessor.m_DB reorg_block5) = StateID.mk 4 4.
Proof.
  intros p.
  assert (Hrun : @HandleBlock demo (StateID.mk 5 5) true p = Ret (true, reorg_block5))
    by (vm_compute; reflexivity).
  destruct (@HandleBlock_store_effect demo (StateID.mk 5 5) true p true reorg_block5 Hrun)
    as (r & buf & _ & _ & Hcur & _).
  split_and!; [exact Hrun | vm_compute; reflexivity | vm_compute; reflexivity | exact Hcur].
Defined.

(** ** One step of a reorg *)

Section ReorgSteps.
Context {E : Externals}.

Lemma HandleValidatedBlock_events body h bFwd bAdj pHMax p ok body' p' :
  HandleValidatedBlock body h bFwd bAdj pHMax p = Ret (ok, body', p') ->
  NodeProcessor.m_Events p' = NodeProcessor.m_Events p.
Proof.
  unfold HandleValidatedBlock.
  destruct (Body.m_SubsidyClosing body && _); [intros [= <- <- <-]; reflexivity|].
  intros Hb. apply bind_Ret_inv in Hb as ([[ok1 txv] p1] & Htx & Hr).
  assert (He : NodeProcessor.m_Events p1 = NodeProcessor.m_Events p).
  { revert Htx. unfold HandleValidatedTx.
    destruct (loop_UtxoIn _ _ _ _ _ _ _) as [[[o1 nInp] ins] u1].
    destruct (if o1 then _ else _) as [[o2 nOut] u2].
    destruct (if o2 then _ else _) as [[o3 nKrnInp] k1].
    destruct (if o3 then _ else _) as [[o4 nKrnOut] k2].
    destruct o4; [|destruct (negb bFwd)]; intros [= <- <- <-]; reflexivity. }
  destruct ok1; cbn [negb] in Hr; injection Hr as <- <- <-; [|exact He].
  destruct (Body.m_SubsidyClosing body); destruct bFwd; unfold ToggleSubsidyOpened;
    try destruct (Kernels_Find _ _ _) as [[? ?] ?]; simpl; exact He.
Qed.

Lemma HandleBlock_events sid bFwd p ok p' :
  HandleBlock sid bFwd p = Ret (ok, p') -> NodeProcessor.m_Events p' = NodeProcessor.m_Events p.
Proof.
  unfold HandleBlock. intros Hb.
  apply bind_Ret_inv in Hb as ([bb m_Buf] & _ & Hb).
  apply bind_Ret_inv in Hb as (s & _ & Hb).
  destruct (Deserialize bb) as [block|]; [|injection Hb as <- <-; reflexivity].
  apply bind_Ret_inv in Hb as ([go block0] & _ & Hb).
  destruct go; cbn [negb] in Hb; [|injection Hb as <- <-; reflexivity].
  apply bind_Ret_inv in Hb as ([[bOk block1] p1] & Hv & Hb).
  apply HandleValidatedBlock_events in Hv.
  destruct (bFwd && bool_decide (m_Buf = []) && bOk).
  - destruct (negb _).
    + apply bind_Ret_inv in Hb as ([[b2 block2] p2] & Hv2 & Hb). injection Hb as <- <-.
      apply HandleValidatedBlock_events in Hv2. congruence.
    + apply bind_Ret_inv in Hb as (p2 & Hc & Hb). injection Hb as <- <-.
      unfold commit_first_time in Hc. apply bind_Ret_inv in Hc as (db1 & _ & Hc).
      destruct (_ <? _); injection Hc as <-; exact Hv.
  - injection Hb as <- <-. exact Hv.
Qed.

Lemma InitCursor_events (p p' : NodeProcessor.t) :
  InitCursor p = Ret p' -> NodeProcessor.m_Events p' = NodeProcessor.m_Events p.
Proof.
  unfold InitCursor. destruct (NodeDB.get_Cursor _) as [found sid]. intros Hb.
  apply bind_Ret_inv in Hb as (p1 & Hp1 & Hb).
  apply bind_Ret_inv in Hb as (d & _ & Hr). injection Hr as <-. simpl.
  destruct found.
  - apply bind_Ret_inv in Hp1 as (full & _ & Hp1).
    apply bind_Ret_inv in Hp1 as ([hasPrev sidPrev] & _ & Hp1). injection Hp1 as <-. reflexivity.
  - injection Hp1 as <-. reflexivity.
Qed.

Lemma InitCursor_DB (p p' : NodeProcessor.t) :
  InitCursor p = Ret p' -> NodeProcessor.m_DB p' = NodeProcessor.m_DB p.
Proof.
  unfold InitCursor. destruct (NodeDB.get_Cursor _) as [found sid]. intros Hb.
  apply bind_Ret_inv in Hb as (p1 & Hp1 & Hb).
  apply bind_Ret_inv in Hb as (d & _ & Hr). injection Hr as <-. simpl.
  destruct found.
  - apply bind_Ret_inv in Hp1 as (full & _ & Hp1).
    apply bind_Ret_inv in Hp1 as ([hasPrev sidPrev] & _ & Hp1). injection Hp1 as <-. reflexivity.
  - injection Hp1 as <-. reflexivity.
Qed.

(** X9. What [GoForward] leaves behind. It writes no row but the one it is
    given, and never its header or parent. When it answers [true] the row is
    [Active], its body is kept, its journal is not empty and the cursor of the
    store is on the row, one above the height the processor stood at. When
    it answers [false] the row has lost its body, its [Functional] flag and
    its peer, which is reported ([OnPeerInsane]) if there was one; the journal,
    the [Active] flag and both cursors are as before. *)
Theorem GoForward_effect (row : RowId) (p : NodeProcessor.t) (ok : bool) (p' : NodeProcessor.t) :
  GoForward row p = Ret (ok, p') ->
  exists r r',
    NodeDB.m_States (NodeProcessor.m_DB p) !! row = Some r
    /\ NodeDB.m_States (NodeProcessor.m_DB p') = <[row := r']> (NodeDB.m_States (NodeProcessor.m_DB p))
    /\ NodeDB.r_Hdr r' = NodeDB.r_Hdr r /\ NodeDB.r_RowPrev r' = NodeDB.r_RowPrev r
    /\ if ok then
         NodeDB.r_Active r' = true /\ NodeDB.r_Functional r' = NodeDB.r_Functional r
         /\ NodeDB.r_Body r' = NodeDB.r_Body r /\ NodeDB.r_Rollback r' <> []
         /\ NodeDB.m_Cursor (NodeProcessor.m_DB p') =
              StateID.mk row (height_add (StateID.m_Height
                                            (Cursor.m_Sid (NodeProcessor.m_Cursor p))) 1)
         /\ NodeProcessor.m_Events p' = NodeProcessor.m_Events p
       else
         NodeDB.r_Functional r' = false /\ NodeDB.r_Body r' = [] /\ NodeDB.r_Peer r' = None
         /\ NodeDB.r_Active r' = NodeDB.r_Active r /\ NodeDB.r_Rollback r' = NodeDB.r_Rollback r
         /\ NodeDB.m_Cursor (NodeProcessor.m_DB p') = NodeDB.m_Cursor (NodeProcessor.m_DB p)
         /\ Cursor.m_Sid (NodeProcessor.m_Cursor p') = Cursor.m_Sid (NodeProcessor.m_Cursor p)
         /\ NodeProcessor.m_Events p' =
              NodeProcessor.m_Events p
              ++ match NodeDB.r_Peer r with Some pr => [OnPeerInsane pr] | None => [] end.
Proof.
  unfold GoForward. intros Hb.
  apply bind_Ret_inv in Hb as ([ok1 p1] & Hhb & Hb).
  pose proof (HandleBlock_events _ _ _ _ _ Hhb) as Hev.
  pose proof (HandleBlock_frame _ _ _ _ _ Hhb) as (_ & Hc1 & Hs1 & _).
  apply HandleBlock_rows in Hhb as (r & buf & Hr & Hst & _ & Hne & Hsame).
  cbn [StateID.m_Row] in *. exists r.
  destruct (NodeProcessor.m_DB p) as [m c q1 q2 q3] eqn:Hdb.
  destruct (NodeProcessor.m_DB p1) as [m1 c1 q1' q2' q3'] eqn:Hdb1.
  cbn [NodeDB.m_States NodeDB.m_Cursor] in *. subst m1 c1.
  destruct ok1.
  - apply bind_Ret_inv in Hb as (db1 & Hmv & Hb).
    apply bind_Ret_inv in Hb as (p2 & Hic & Hb). injection Hb as <- <-.
    unfold NodeDB.MoveFwd in Hmv. apply bind_Ret_inv in Hmv as (db0 & Hup & Hmv).
    injection Hmv as <-. apply upd_Row_spec in Hup as (r1 & Hr1 & ->).
    cbn [NodeDB.m_States] in Hr1. rewrite lookup_insert_eq in Hr1. injection Hr1 as <-.
    pose proof (InitCursor_events _ _ Hic) as Hev2.
    apply InitCursor_DB in Hic. cbn in Hic, Hev2.
    exists (NodeDB.set_Active true (NodeDB.set_Rollback buf r)).
    rewrite Hic. cbn. rewrite insert_insert_eq.
    split_and!; try reflexivity; try exact Hr.
    + apply Hne; reflexivity.
    + congruence.
  - assert (buf = NodeDB.r_Rollback r) as -> by (apply Hsame; auto).
    assert (Hid : <[row := NodeDB.set_Rollback (NodeDB.r_Rollback r) r]> m = m).
    { apply insert_id. rewrite Hr. destruct r; reflexivity. }
    rewrite Hid in *. clear Hid.
    apply bind_Ret_inv in Hb as (db1 & Hd1 & Hb).
    apply bind_Ret_inv in Hb as (db2 & Hd2 & Hb).
    apply bind_Ret_inv in Hb as (peer & Hpeer & Hb).
    apply upd_Row_spec in Hd1 as (r1 & Hr1 & ->). cbn [NodeDB.m_States] in Hr1.
    rewrite Hr in Hr1. injection Hr1 as <-.
    apply upd_Row_spec in Hd2 as (r2 & Hr2 & ->). cbn in Hr2.
    rewrite lookup_insert_eq in Hr2. injection Hr2 as <-.
    unfold NodeDB.get_Peer, NodeDB.get_Row in Hpeer. cbn in Hpeer.
    rewrite lookup_insert_eq in Hpeer. cbn in Hpeer. injection Hpeer as <-.
    destruct r as [hdr prev fn ac body rb pe]. cbn in *.
    destruct pe as [pr|].
    + apply bind_Ret_inv in Hb as (db3 & Hd3 & Hb). injection Hb as <- <-.
      apply upd_Row_spec in Hd3 as (r3 & Hr3 & ->). cbn in Hr3.
      rewrite lookup_insert_eq in Hr3. injection Hr3 as <-.
      eexists. cbn. rewrite !insert_insert_eq.
      split_and!; try reflexivity; try exact Hr; [exact Hs1 | rewrite Hev; reflexivity].
    + injection Hb as <- <-. eexists. cbn. rewrite !insert_insert_eq.
      split_and!; try reflexivity; try exact Hr;
        [exact Hs1 | rewrite Hev, app_nil_r; reflexivity].
Qed.



(** X10. What [Rollback] leaves behind: the row the cursor was on is no
    longer [Active] and is otherwise as it was, no other row is written, the
    cursor of the store is on the parent of the row one height below (or
    null when the row has no parent), the cursor of the processor carries the
    header the store has for it, and [OnRolledBack] has been fired. *)
Theorem Rollback_effect (p p' : NodeProcessor.t) :
  no_null_row (NodeProcessor.m_DB p) ->
  Rollback p = Ret p' ->
  let sid := Cursor.m_Sid (NodeProcessor.m_Cursor p) in
  exists r,
    NodeDB.m_States (NodeProcessor.m_DB p) !! StateID.m_Row sid = Some r
    /\ NodeDB.m_States (NodeProcessor.m_DB p') =
         <[StateID.m_Row sid := NodeDB.set_Active false r]> (NodeDB.m_States (NodeProcessor.m_DB p))
    /\ NodeDB.m_Cursor (NodeProcessor.m_DB p') =
         (if NodeDB.r_RowPrev r =? 0 then StateID.mk 0 0
          else StateID.mk (NodeDB.r_RowPrev r) (height_sub (StateID.m_Height sid) 1))
    /\ cursor_row p' = StateID.m_Row (NodeDB.m_Cursor (NodeProcessor.m_DB p'))
    /\ cursor_synced p'
    /\ NodeProcessor.m_Events p' = NodeProcessor.m_Events p ++ [OnRolledBack].
Proof.
  intros H0. unfold Rollback. intros Hb. cbv zeta.
  set (sid := Cursor.m_Sid (NodeProcessor.m_Cursor p)) in *.
  apply bind_Ret_inv in Hb as ([sid' db1] & Hmb & Hb).
  apply bind_Ret_inv in Hb as (p1 & Hic1 & Hb).
  apply bind_Ret_inv in Hb as ([ok p2] & Hhb & Hb).
  destruct ok; cbn [negb] in Hb; [|discriminate].
  apply bind_Ret_inv in Hb as (p3 & Hic2 & Hb). injection Hb as <-.
  unfold NodeDB.MoveBack in Hmb. apply bind_Ret_inv in Hmb as (db0 & Hup & Hmb).
  apply bind_Ret_inv in Hmb as ([okp sidp] & Hprev & Hmb). injection Hmb as <- <-.
  apply upd_Row_spec in Hup as (r & Hr & ->). exists r.
  assert (Hrow0 : StateID.m_Row sid <> 0).
  { intros Hz. rewrite Hz in Hr. unfold no_null_row in H0. congruence. }
  unfold NodeDB.get_Prev, NodeDB.get_PrevRow, NodeDB.get_Row in Hprev. cbn in Hprev.
  rewrite lookup_insert_eq in Hprev. cbn in Hprev.
  assert (Hnew : (if okp then sidp else StateID.mk 0 0) =
                 (if NodeDB.r_RowPrev r =? 0 then StateID.mk 0 0
                  else StateID.mk (NodeDB.r_RowPrev r) (height_sub (StateID.m_Height sid) 1))).
  { destruct (NodeDB.r_RowPrev r =? 0); injection Hprev as <- <-; reflexivity. }
  clear Hprev.
  pose proof (InitCursor_events _ _ Hic1) as Hev1. apply InitCursor_DB in Hic1.
  cbn in Hic1, Hev1.
  pose proof (HandleBlock_events _ _ _ _ _ Hhb) as Hev2.
  apply HandleBlock_rows in Hhb as (r0 & buf & Hr0 & Hst & Hcur & _ & Hsame).
  rewrite Hic1 in Hr0, Hst, Hcur. cbn in Hr0, Hst, Hcur.
  rewrite lookup_insert_eq in Hr0. injection Hr0 as <-.
  rewrite (Hsame (or_intror eq_refl)) in Hst. rewrite insert_insert_eq in Hst.
  assert (Hst' : NodeDB.m_States (NodeProcessor.m_DB p2) =
                 <[StateID.m_Row sid := NodeDB.set_Active false r]>
                   (NodeDB.m_States (NodeProcessor.m_DB p))).
  { rewrite Hst. destruct r; reflexivity. }
  clear Hst.
  pose proof (InitCursor_events _ _ Hic2) as Hev3.
  apply InitCursor_spec in Hic2 as (Hdb3 & Hsy3 & Hrow3).
  2:{ unfold no_null_row. rewrite Hst', lookup_insert_ne by exact Hrow0. exact H0. }
  cbn [NodeProcessor.emit NodeProcessor.m_DB NodeProcessor.m_Events NodeProcessor.m_Cursor
       cursor_row]. unfold cursor_row. cbn [NodeProcessor.emit NodeProcessor.m_Cursor].
  rewrite Hdb3, Hst', Hcur.
  split_and!; try reflexivity; try exact Hr.
  - exact Hnew.
  - rewrite Hrow3, Hcur. reflexivity.
  - intros r1 Hr1. apply Hsy3. exact Hr1.
  - congruence.
Qed.



(** X11. [InitCursor] reads the cursor from the store and writes nothing
    to it. With no cursor in the store the cursor of the processor is zeroed
    and the next difficulty is [StartDifficulty]; otherwise it is on the row
    of the store's cursor with the header stored for that row, the identifier
    of that header, and [LoHorizon] as the store has it (0 when unset). *)
Theorem InitCursor_effect (p p' : NodeProcessor.t) :
  no_null_row (NodeProcessor.m_DB p) ->
  InitCursor p = Ret p' ->
  let db := NodeProcessor.m_DB p in
  NodeProcessor.m_DB p' = db
  /\ NodeProcessor.m_Utxos p' = NodeProcessor.m_Utxos p
  /\ NodeProcessor.m_Kernels p' = NodeProcessor.m_Kernels p
  /\ NodeProcessor.m_Extra p' = NodeProcessor.m_Extra p
  /\ cursor_synced p'
  /\ if StateID.m_Row (NodeDB.m_Cursor db) =? 0
     then NodeProcessor.m_Cursor p' = set_DifficultyNext (Rules.StartDifficulty rules) ZeroCursor
     else Cursor.m_Sid (NodeProcessor.m_Cursor p') = NodeDB.m_Cursor db
          /\ NodeDB.get_State db (StateID.m_Row (NodeDB.m_Cursor db))
               = Ret (Cursor.m_Full (NodeProcessor.m_Cursor p'))
          /\ Cursor.m_ID (NodeProcessor.m_Cursor p') = get_ID (Cursor.m_Full (NodeProcessor.m_Cursor p'))
          /\ Cursor.m_LoHorizon (NodeProcessor.m_Cursor p') =
               NodeDB.ParamIntGetDef db NodeDB.ParamID.LoHorizon 0.
Proof.
  intros H0 Hic. cbv zeta.
  pose proof (InitCursor_spec _ _ H0 Hic) as (Hdb & Hsy & _).
  split; [exact Hdb|]. revert Hic. unfold InitCursor, NodeDB.get_Cursor. intros Hb.
  apply bind_Ret_inv in Hb as (p1 & Hp1 & Hb).
  apply bind_Ret_inv in Hb as (d & Hd & Hr). injection Hr as <-.
  destruct (StateID.m_Row (NodeDB.m_Cursor (NodeProcessor.m_DB p)) =? 0) eqn:Hz;
    cbn [negb] in Hp1.
  - injection Hp1 as <-. unfold get_NextDifficulty in Hd. cbn in Hd. injection Hd as <-.
    split_and!; try reflexivity. exact Hsy.
  - apply bind_Ret_inv in Hp1 as (full & Hfull & Hp1).
    apply bind_Ret_inv in Hp1 as ([hasPrev sidPrev] & _ & Hp1). injection Hp1 as <-.
    cbn. split_and!; try reflexivity; [exact Hsy | exact Hfull].
Qed.

Lemma TryGoUp_loop_synced (fuel n : nat) : forall (bDirty : bool) (p : NodeProcessor.t)
    (bDirty' : bool) (p' : NodeProcessor.t),
  no_null_row (NodeProcessor.m_DB p) -> cursor_synced p ->
  TryGoUp_loop fuel n bDirty p = Ret (bDirty', p') -> cursor_synced p'.
Proof.
  induction n as [|n IH]; intros bDirty p bDirty' p' H0 Hsy; cbn [TryGoUp_loop]; [discriminate|].
  destruct (NodeDB.EnumFunctionalTips (Rules.HeightGenesis rules) (NodeProcessor.m_DB p))
    as [|sidTrg rest]; [intros [= <- <-]; exact Hsy|].
  intros Hb. apply bind_Ret_inv in Hb as (wrkTrg & Hw & Hb).
  destruct (wrkTrg =? _); [injection Hb as <- <-; exact Hsy|].
  apply bind_Ret_inv in Hb as ([[vPath bDirty1] p1] & Hpath & Hb).
  apply bind_Ret_inv in Hb as ([[bPathOk bDirty2] p2] & Hfwd & Hb).
  apply TryGoUp_path_spec in Hpath as (Hg1 & Hsy1 & _); [|exact H0|exact Hsy].
  assert (H01 : no_null_row (NodeProcessor.m_DB p1))
    by (eapply graph_kept_no_null; [apply graph_same_kept; exact Hg1 | exact H0]).
  apply TryGoUp_forward_spec in Hfwd as (Hk2 & Hsy2 & _); [|exact H01|exact Hsy1].
  destruct bPathOk; [injection Hb as <- <-; exact Hsy2|].
  apply (IH _ _ _ _ (graph_kept_no_null _ _ Hk2 H01) Hsy2 Hb).
Qed.

(** X12. When the reorg loop of [TryGoUp] ends (no tip, a tip of the
    chainwork of the cursor, or a path walked to its end), no state that
    [EnumFunctionalTips] yields has more chainwork than the cursor, provided
    the cursor carried the header of its row when the loop began. The loop
    adds no row and changes no header or parent. *)
Theorem TryGoUp_loop_exit (fuel n : nat) (bDirty : bool) (p : NodeProcessor.t)
    (bDirty' : bool) (p' : NodeProcessor.t) :
  no_null_row (NodeProcessor.m_DB p) -> cursor_synced p ->
  TryGoUp_loop fuel n bDirty p = Ret (bDirty', p') ->
  best_tip_maximal p' /\ cursor_synced p'
  /\ graph_kept (NodeProcessor.m_DB p) (NodeProcessor.m_DB p').
Proof.
  intros H0 Hsy Hr. destruct (TryGoUp_loop_spec _ _ _ _ _ _ H0 Hsy Hr) as [Hk Hbest].
  split_and!; [exact Hbest | exact (TryGoUp_loop_synced _ _ _ _ _ _ H0 Hsy Hr) | exact Hk].
Qed.

(** The rows and the cursor after [TryGoUp]. *)
Lemma TryGoUp_rows (fuel : nat) (p p' : NodeProcessor.t) :
  no_null_row (NodeProcessor.m_DB p) -> cursor_synced p ->
  TryGoUp fuel p = Ret p' ->
  cursor_synced p' /\ no_null_row (NodeProcessor.m_DB p')
  /\ forall row r', NodeDB.m_States (NodeProcessor.m_DB p') !! row = Some r' ->
       exists r, NodeDB.m_States (NodeProcessor.m_DB p) !! row = Some r
                 /\ NodeDB.r_Hdr r' = NodeDB.r_Hdr r /\ NodeDB.r_RowPrev r' = NodeDB.r_RowPrev r.
Proof.
  intros H0 Hsy. unfold TryGoUp. intros Hb.
  apply bind_Ret_inv in Hb as ([bDirty p1] & Hloop & Hb).
  pose proof (TryGoUp_loop_synced _ _ _ _ _ _ H0 Hsy Hloop) as Hsy1.
  apply TryGoUp_loop_spec in Hloop as [Hk _]; [|exact H0|exact Hsy].
  assert (Hrows1 : forall row r', NodeDB.m_States (NodeProcessor.m_DB p1) !! row = Some r' ->
            exists r, NodeDB.m_States (NodeProcessor.m_DB p) !! row = Some r
                      /\ NodeDB.r_Hdr r' = NodeDB.r_Hdr r
                      /\ NodeDB.r_RowPrev r' = NodeDB.r_RowPrev r).
  { intros row r' Hr'. pose proof (Hk row) as Hrow. rewrite Hr' in Hrow.
    inversion Hrow as [r ? [Hh Hp] Heq1 Heq2|]. exists r. auto. }
  destruct bDirty.
  - apply bind_Ret_inv in Hb as (p2 & Hprune & Hb). injection Hb as <-.
    apply PruneOld_later in Hprune as [Hl Hcu]. cbn.
    split_and!.
    + unfold cursor_synced.
      cbn [NodeProcessor.emit NodeProcessor.m_DB NodeProcessor.m_Cursor]. rewrite Hcu.
      intros r2 Hr2. destruct (Hl _ _ Hr2) as (r1 & Hr1 & Hh & _). rewrite Hh.
      exact (Hsy1 r1 Hr1).
    + unfold no_null_row.
      destruct (NodeDB.m_States (NodeProcessor.m_DB p2) !! 0) as [r2|] eqn:Hr2; [|reflexivity].
      destruct (Hl _ _ Hr2) as (r1 & Hr1 & _). destruct (Hrows1 _ _ Hr1) as (r & Hr & _).
      unfold no_null_row in H0. congruence.
    + intros row r2 Hr2. destruct (Hl _ _ Hr2) as (r1 & Hr1 & Hh & Hp & _).
      destruct (Hrows1 _ _ Hr1) as (r & Hr & Hh1 & Hp1). exists r. split_and!; congruence.
  - injection Hb as <-.
    split_and!; [exact Hsy1 | exact (graph_kept_no_null _ _ Hk H0) | exact Hrows1].
Qed.

(** X13. [TryGoUp] keeps the cursor in step with the store and makes up
    no state: after it returns, the cursor still carries the header the store
    has for its row, and every row of the store was there before with the
    same header and the same parent. *)
Theorem TryGoUp_keeps_graph (fuel : nat) (p p' : NodeProcessor.t) :
  no_null_row (NodeProcessor.m_DB p) -> cursor_synced p ->
  TryGoUp fuel p = Ret p' ->
  cursor_synced p' /\ no_null_row (NodeProcessor.m_DB p')
  /\ forall row r', NodeDB.m_States (NodeProcessor.m_DB p') !! row = Some r' ->
       exists r, NodeDB.m_States (NodeProcessor.m_DB p) !! row = Some r
                 /\ NodeDB.r_Hdr r' = NodeDB.r_Hdr r /\ NodeDB.r_RowPrev r' = NodeDB.r_RowPrev r.
Proof. exact (TryGoUp_rows fuel p p'). Qed.

End ReorgSteps.

Lemma GoForward_effect_witness :
  @GoForward demo 5 (reorg_processor 15 25) = Ret (true, reorg_forward5)
  /\ NodeDB.m_Cursor (NodeProcessor.m_DB reorg_forward5) = StateID.mk 5 5
  /\ @GoForward demo 6 (reorg_processor 1000 5) = Ret (false, reorg_refused6)
  /\ (NodeDB.r_Functional <$> NodeDB.m_States (NodeProcessor.m_DB reorg_refused6) !! 6) = Some false.
Proof.
  assert (Hrun : @GoForward demo 5 (reorg_processor 15 25) = Ret (true, reorg_forward5))
    by (vm_compute; reflexivity).
  assert (Hrun6 : @GoForward demo 6 (reorg_processor 1000 5) = Ret (false, reorg_refused6))
    by (vm_compute; reflexivity).
  destruct (@GoForward_effect demo 5 _ _ _ Hrun) as (r & r' & _ & _ & _ & _ & _ & _ & _ & _ & Hcur & _).
  destruct (@GoForward_effect demo 6 _ _ _ Hrun6) as (r6 & r6' & _ & Hst & _ & _ & Hfn & _).
  split_and!; [exact Hrun | exact Hcur | exact Hrun6 |].
  rewrite Hst, lookup_insert_eq. simpl. rewrite Hfn. reflexivity.
Defined.

Lemma Rollback_effect_witness :
  @Rollback demo reorg_forward5 = Ret reorg_back5
  /\ NodeDB.m_Cursor (NodeProcessor.m_DB reorg_back5) = StateID.mk 4 4
  /\ cursor_row reorg_back5 = 4
  /\ NodeProcessor.m_Utxos reorg_back5 = ∅.
Proof.
  assert (Hrun : @Rollback demo reorg_forward5 = Ret reorg_back5) by (vm_compute; reflexivity).
  destruct (@Rollback_effect demo reorg_forward5 reorg_back5) as (r & Hr & _ & Hcur & Hrow & _).
  - vm_compute. reflexivity.
  - exact Hrun.
  - assert (Hprev : NodeDB.r_RowPrev r = 4) by (vm_compute in Hr; injection Hr as <-; reflexivity).
    rewrite Hprev in Hcur. split_and!; [exact Hrun | exact Hcur | | vm_compute; reflexivity].
    rewrite Hrow, Hcur. reflexivity.
Defined.

Lemma InitCursor_effect_witness :
  @InitCursor demo (reorg_processor 15 25) = Ret reorg_cursor
  /\ Cursor.m_Sid (NodeProcessor.m_Cursor reorg_cursor) = StateID.mk 4 4
  /\ cursor_synced reorg_cursor.
Proof.
  assert (Hrun : @InitCursor demo (reorg_processor 15 25) = Ret reorg_cursor)
    by (vm_compute; reflexivity).
  destruct (@InitCursor_effect demo (reorg_processor 15 25) reorg_cursor)
    as (_ & _ & _ & _ & Hsy & Hcu).
  - vm_compute. reflexivity.
  - exact Hrun.
  - destruct Hcu as (Hsid & _). split_and!; [exact Hrun | exact Hsid | exact Hsy].
Defined.

Lemma TryGoUp_loop_exit_witness :
  @TryGoUp_loop demo 10 10 false (reorg_processor 1000 5) = Ret (true, reorg_loop_end)
  /\ cursor_row reorg_loop_end = 5
  /\ @best_tip_maximal demo reorg_loop_end.
Proof.
  assert (Hrun : @TryGoUp_loop demo 10 10 false (reorg_processor 1000 5)
                 = Ret (true, reorg_loop_end)) by (vm_compute; reflexivity).
  destruct (@TryGoUp_loop_exit demo 10 10 false (reorg_processor 1000 5) true reorg_loop_end)
    as (Hbest & _).
  - vm_compute. reflexivity.
  - intros r. vm_compute. intros [= <-]. reflexivity.
  - exact Hrun.
  - split_and!; [exact Hrun | vm_compute; reflexivity | exact Hbest].
Defined.

Lemma TryGoUp_keeps_graph_witness :
  @TryGoUp demo 10 (reorg_processor 1000 5) = Ret (reorg_result 1000 5)
  /\ cursor_synced (reorg_result 1000 5)
  /\ NodeDB.m_States (NodeProcessor.m_DB (reorg_result 1000 5)) !! 7 = None.
Proof.
  assert (Hrun : @TryGoUp demo 10 (reorg_processor 1000 5) = Ret (reorg_result 1000 5))
    by (apply reorg_result_run; auto).
  destruct (@TryGoUp_keeps_graph demo 10 (reorg_processor 1000 5) (reorg_result 1000 5))
    as (Hsy & _).
  - vm_compute. reflexivity.
  - intros r. vm_compute. intros [= <-]. reflexivity.
  - exact Hrun.
  - split_and!; [exact Hrun | exact Hsy | vm_compute; reflexivity].
Defined.

(** ** More on pruning *)

#[local] Instance height_le_trans : Transitive NodeDB.height_le.
Proof. intros x y z. unfold NodeDB.height_le. lia. Qed.

#[local] Instance height_le_total : Total NodeDB.height_le.
Proof. intros x y. unfold NodeDB.height_le. lia. Qed.

Lemma has_child_spec (m : gmap N NodeDB.StateRow) (row : RowId) :
  NodeDB.has_child m row = true <->
  exists k rc, m !! k = Some rc /\ NodeDB.r_RowPrev rc = row.
Proof.
  unfold NodeDB.has_child. rewrite existsb_exists. split.
  - intros ([k rc] & Hin & Hb). apply N.eqb_eq in Hb.
    apply list_elem_of_In, elem_of_map_to_list in Hin. exists k, rc. auto.
  - intros (k & rc & Hl & Hp). exists (k, rc). split.
    + apply list_elem_of_In, elem_of_map_to_list. exact Hl.
    + apply N.eqb_eq. exact Hp.
Qed.

Lemma elem_of_EnumTips_iff (db : NodeDB.t) (sid : StateID.t) :
  sid ∈ NodeDB.EnumTips db <->
  exists r, NodeDB.m_States db !! StateID.m_Row sid = Some r
            /\ NodeDB.has_child (NodeDB.m_States db) (StateID.m_Row sid) = false
            /\ StateID.m_Height sid = SystemState.Full.m_Height (NodeDB.r_Hdr r).
Proof.
  unfold NodeDB.EnumTips. rewrite list_elem_of_fmap. split.
  - intros ([k r] & -> & Hin). rewrite merge_sort_Permutation in Hin.
    apply list_elem_of_filter in Hin as [Ht Hin]. apply elem_of_map_to_list in Hin.
    exists r. simpl. auto.
  - intros (r & Hl & Ht & Hh). exists (StateID.m_Row sid, r). split.
    + destruct sid as [k h]. unfold NodeDB.row_sid. simpl in *. congruence.
    + rewrite merge_sort_Permutation. apply list_elem_of_filter. split; [exact Ht|].
      apply elem_of_map_to_list. exact Hl.
Qed.

(** The first of the tips is the lowest. *)
Lemma EnumTips_head (db : NodeDB.t) (sid0 : StateID.t) (rest : list StateID.t) :
  NodeDB.EnumTips db = sid0 :: rest ->
  forall sid, sid ∈ NodeDB.EnumTips db -> StateID.m_Height sid0 <= StateID.m_Height sid.
Proof.
  unfold NodeDB.EnumTips. intros Hhd sid Hin.
  pose proof (StronglySorted_merge_sort NodeDB.height_le
                (filter (fun x : N * NodeDB.StateRow =>
                           NodeDB.has_child (NodeDB.m_States db) x.1 = false)
                        (map_to_list (NodeDB.m_States db)))) as Hsorted.
  destruct (merge_sort NodeDB.height_le _) as [|x0 L]; [discriminate|].
  rewrite fmap_cons in Hhd. injection Hhd as <- _.
  apply list_elem_of_fmap in Hin as (x & -> & Hx).
  apply elem_of_cons in Hx as [->|Hx]; [lia|].
  apply StronglySorted_inv in Hsorted as [_ Hfa].
  rewrite Forall_forall in Hfa. exact (Hfa x Hx).
Qed.

Lemma EnumTips_kept (db db' : NodeDB.t) (sid : StateID.t) :
  graph_kept db db' -> sid ∈ NodeDB.EnumTips db' -> sid ∈ NodeDB.EnumTips db.
Proof.
  intros Hk. rewrite !elem_of_EnumTips_iff. intros (r' & Hr' & Hc & Hh).
  pose proof (Hk (StateID.m_Row sid)) as Hrow. rewrite Hr' in Hrow.
  inversion Hrow as [r ? [Hhdr _] Heq1 Heq2|]. exists r. split_and!; [reflexivity | | congruence].
  destruct (NodeDB.has_child (NodeDB.m_States db) (StateID.m_Row sid)) eqn:Hc0; [|reflexivity].
  apply has_child_spec in Hc0 as (k & rc & Hl & Hp).
  pose proof (Hk k) as Hrk. rewrite Hl in Hrk. inversion Hrk as [? rc' [_ Hp'] Heq3 Heq4|].
  rewrite <- Hc. symmetry. apply has_child_spec. exists k, rc'. split; congruence.
Qed.

Section Pruning2.
Context {E : Externals}.

Lemma prune_branches_tips (n : nat) : forall (h : Height) (db db' : NodeDB.t),
  prune_branches n h db = Ret db' ->
  forall sid, sid ∈ NodeDB.EnumTips db' -> h <= StateID.m_Height sid.
Proof.
  induction n as [|n IH]; intros h db db'; cbn [prune_branches]; [discriminate|].
  destruct (NodeDB.EnumTips db) as [|sid0 tips] eqn:Htips.
  - intros [= <-] sid Hin. rewrite Htips in Hin. inversion Hin.
  - destruct (h <=? StateID.m_Height sid0) eqn:Hle.
    + intros [= <-] sid Hin. apply N.leb_le in Hle.
      pose proof (EnumTips_head _ _ _ Htips sid Hin). lia.
    + intros Hb. apply bind_Ret_inv in Hb as (db1 & _ & Hrest). exact (IH _ _ _ Hrest).
Qed.

Lemma PruneAt_fold_kept (l : list StateID.t) : forall (db db' : NodeDB.t),
  foldl PruneAt_step (Ret db) l = Ret db' -> graph_kept db db'.
Proof.
  induction l as [|sid l IH]; intros db db'; cbn [foldl].
  - intros [= <-]. apply graph_kept_refl.
  - rewrite PruneAt_fold_start. intros Hb.
    apply bind_Ret_inv in Hb as (db1 & Hstep & Hrest).
    apply PruneAt_step_spec in Hstep as (r & Hr & ->).
    eapply graph_kept_trans; [|exact (IH _ _ Hrest)].
    intros row. destruct db as [m c p1 p2 p3]. cbn in *. rewrite lookup_insert.
    destruct (decide (StateID.m_Row sid = row)) as [<-|Hne]; simpl.
    + rewrite Hr. constructor. destruct r as [hdr prev f a b rb pe]. unfold prune_row.
      destruct a; split; reflexivity.
    + destruct (m !! row); constructor. split; reflexivity.
Qed.

Lemma prune_fossils_kept (n : nat) : forall (hF h : Height) (p p' : NodeProcessor.t),
  prune_fossils n hF h p = Ret p' ->
  graph_kept (NodeProcessor.m_DB p) (NodeProcessor.m_DB p').
Proof.
  induction n as [|n IH]; intros hF h p p'; cbn [prune_fossils].
  - destruct (h <=? _); [|discriminate]. intros [= <-]. apply graph_kept_refl.
  - destruct (h <=? _); [intros [= <-]; apply graph_kept_refl|].
    intros Hb. apply bind_Ret_inv in Hb as (p1 & Hat & Hrest).
    rewrite PruneAt_unfold in Hat. apply bind_Ret_inv in Hat as (db1 & Hfold & Hat).
    injection Hat as <-. apply PruneAt_fold_kept in Hfold. apply IH in Hrest.
    eapply graph_kept_trans; [exact Hfold|].
    intros row. specialize (Hrest row). destruct db1; exact Hrest.
Qed.

(** X14. After [PruneOld] has returned, when the cursor is above the
    branching horizon, no tip of the header graph ([EnumTips]) is lower than
    the height of the cursor less the branching horizon. *)
Theorem PruneOld_tips (p p' : NodeProcessor.t) :
  branch_guard p = true ->
  PruneOld p = Ret p' ->
  forall sid, sid ∈ NodeDB.EnumTips (NodeProcessor.m_DB p') ->
    branch_end p <= StateID.m_Height sid.
Proof.
  unfold branch_guard, branch_end, PruneOld. cbv zeta. intros Hg. rewrite Hg. intros Hb.
  apply bind_Ret_inv in Hb as (p1 & Hbr & Hb).
  apply bind_Ret_inv in Hbr as (db1 & Hpb & Hbr). injection Hbr as <-.
  pose proof (prune_branches_tips _ _ _ _ Hpb) as Htips.
  destruct (height_sub (height_add (Horizon.m_Schwarzschild (NodeProcessor.m_Horizon p))
                          (Rules.HeightGenesis rules)) 1
            <? StateID.m_Height (Cursor.m_Sid (NodeProcessor.m_Cursor p))).
  - apply prune_fossils_kept in Hb. cbn in Hb.
    intros sid Hin. apply Htips. exact (EnumTips_kept _ _ _ Hb Hin).
  - injection Hb as <-. exact Htips.
Qed.

End Pruning2.

Lemma PruneOld_tips_witness :
  @PruneOld demo branch_processor = Ret branch_pruned
  /\ NodeDB.EnumTips (NodeProcessor.m_DB branch_processor) = [StateID.mk 5 2; StateID.mk 4 4]
  /\ NodeDB.EnumTips (NodeProcessor.m_DB branch_pruned) = [StateID.mk 4 4]
  /\ (forall sid, sid ∈ NodeDB.EnumTips (NodeProcessor.m_DB branch_pruned) ->
                  3 <= StateID.m_Height sid).
Proof.
  assert (Hrun : @PruneOld demo branch_processor = Ret branch_pruned)
    by (vm_compute; reflexivity).
  split_and!; [exact Hrun | vm_compute; reflexivity | vm_compute; reflexivity |].
  apply (@PruneOld_tips demo branch_processor branch_pruned); [vm_compute; reflexivity | exact Hrun].
Defined.

Lemma active_kept_refl (db : NodeDB.t) : active_kept db db.
Proof. intros row r Hr Ha. exists r. split_and!; auto. Qed.

Lemma active_kept_trans (db1 db2 db3 : NodeDB.t) :
  active_kept db1 db2 -> active_kept db2 db3 -> active_kept db1 db3.
Proof.
  intros H12 H23 row r Hr Ha.
  destruct (H12 row r Hr Ha) as (r2 & Hr2 & Hh2 & Hp2 & Ha2 & Hf2 & Hj2).
  destruct (H23 row r2 Hr2 Ha2) as (r3 & Hr3 & Hh3 & Hp3 & Ha3 & Hf3 & Hj3).
  exists r3. split_and!; congruence.
Qed.

Section Pruning3.
Context {E : Externals}.

Lemma heights_grow_check (db : NodeDB.t) :
  map_Forall (fun _ r => heights_grow_row (NodeDB.m_States db) r = true) (NodeDB.m_States db) ->
  heights_grow db.
Proof.
  intros Hall row r rp Hr Hrp. specialize (Hall row r Hr). unfold heights_grow_row in Hall.
  rewrite Hrp in Hall. apply N.ltb_lt. exact Hall.
Qed.

Lemma active_supported_check (h : Height) (db : NodeDB.t) :
  map_Forall (fun row r => active_supported_row h (NodeDB.m_States db) row r = true)
             (NodeDB.m_States db) ->
  active_supported h db.
Proof.
  intros Hall row r Hr Ha Hh. specialize (Hall row r Hr). unfold active_supported_row in Hall.
  rewrite Ha, (proj2 (N.ltb_lt _ _) Hh) in Hall. cbn [negb orb] in Hall.
  apply existsb_exists in Hall as ([c rc] & Hin & Hb). apply andb_true_iff in Hb as [Hp Hc].
  apply N.eqb_eq in Hp. apply list_elem_of_In, elem_of_map_to_list in Hin.
  exists c, rc. done.
Qed.

(** A state that [DeleteState] takes away below [h] is not [Active] when
    the active chain goes on below [h]; the store that is left is as
    well-formed. *)
Lemma DeleteState_active (h : Height) (row : RowId) (db db' : NodeDB.t) (ok : bool)
    (prev : RowId) (r : NodeDB.StateRow) :
  heights_grow db -> active_supported h db ->
  NodeDB.m_States db !! row = Some r ->
  SystemState.Full.m_Height (NodeDB.r_Hdr r) < h ->
  NodeDB.DeleteState row db = Ret (ok, prev, db') ->
  active_kept db db' /\ heights_grow db' /\ active_supported h db'
  /\ (ok = true -> forall rp, NodeDB.m_States db' !! prev = Some rp ->
        SystemState.Full.m_Height (NodeDB.r_Hdr rp) < h).
Proof.
  intros Hg Hs Hr Hh. unfold NodeDB.DeleteState, NodeDB.get_Row. rewrite Hr.
  cbn [mbind Outcome_bind].
  destruct (NodeDB.has_child (NodeDB.m_States db) row) eqn:Hc.
  { intros [= <- <- <-]. split_and!; [apply active_kept_refl | exact Hg | exact Hs | discriminate]. }
  intros [= <- <- <-].
  assert (Hna : NodeDB.r_Active r = false).
  { destruct (NodeDB.r_Active r) eqn:Ha; [|reflexivity].
    destruct (Hs row r Hr Ha Hh) as (c & rc & Hrc & Hp & _).
    assert (Hc' : NodeDB.has_child (NodeDB.m_States db) row = true)
      by (apply has_child_spec; eauto).
    congruence. }
  destruct db as [m c0 p1 p2 p3]. cbn in *.
  split_and!.
  - intros row0 r0 Hr0 Ha0. exists r0. cbn in *.
    split_and!; try reflexivity; [|exact Ha0].
    rewrite lookup_delete_ne; [exact Hr0|]. intros <-. congruence.
  - intros row0 r0 rp. cbn. intros H0 Hp0.
    apply lookup_delete_Some in H0 as [_ H0]. apply lookup_delete_Some in Hp0 as [_ Hp0].
    exact (Hg row0 r0 rp H0 Hp0).
  - intros row0 r0. cbn. intros H0 Ha0 Hh0. apply lookup_delete_Some in H0 as [Hne H0].
    destruct (Hs row0 r0 H0 Ha0 Hh0) as (c & rc & Hrc & Hp & Hac).
    cbn in Hrc. exists c, rc. split_and!; [|exact Hp | exact Hac].
    rewrite lookup_delete_ne; [exact Hrc|]. intros <-. congruence.
  - intros _ rp. cbn. intros Hp. apply lookup_delete_Some in Hp as [_ Hp].
    pose proof (Hg row r rp Hr Hp) as Hlt. cbn in Hlt. lia.
Qed.

Lemma delete_chain_active (h : Height) (n : nat) : forall (row : RowId) (db db' : NodeDB.t),
  heights_grow db -> active_supported h db ->
  (forall r, NodeDB.m_States db !! row = Some r ->
             SystemState.Full.m_Height (NodeDB.r_Hdr r) < h) ->
  delete_chain n row db = Ret db' ->
  active_kept db db' /\ heights_grow db' /\ active_supported h db'.
Proof.
  induction n as [|n IH]; intros row db db' Hg Hs Hh; cbn [delete_chain]; [discriminate|].
  intros Hb. apply bind_Ret_inv in Hb as ([[ok prev] db1] & Hdel & Hrest).
  assert (Hrow : exists r, NodeDB.m_States db !! row = Some r).
  { revert Hdel. unfold NodeDB.DeleteState, NodeDB.get_Row.
    destruct (NodeDB.m_States db !! row) as [r|]; [eauto | discriminate]. }
  destruct Hrow as [r Hr].
  destruct (DeleteState_active h _ _ _ _ _ r Hg Hs Hr (Hh r Hr) Hdel) as (Hk & Hg1 & Hs1 & Hp).
  destruct ok; cbn [negb] in Hrest; [|injection Hrest as <-; done].
  destruct (prev =? 0); [injection Hrest as <-; done|].
  destruct (IH _ _ _ Hg1 Hs1 (Hp eq_refl) Hrest) as (Hk' & Hg' & Hs').
  split_and!; [eapply active_kept_trans; eauto | exact Hg' | exact Hs'].
Qed.

Lemma prune_branches_active (n : nat) : forall (h : Height) (db db' : NodeDB.t),
  heights_grow db -> active_supported h db ->
  prune_branches n h db = Ret db' -> active_kept db db'.
Proof.
  induction n as [|n IH]; intros h db db' Hg Hs; cbn [prune_branches]; [discriminate|].
  destruct (NodeDB.EnumTips db) as [|sid tips] eqn:Htips; [intros [= <-]; apply active_kept_refl|].
  destruct (h <=? StateID.m_Height sid) eqn:Hle; [intros [= <-]; apply active_kept_refl|].
  apply N.leb_gt in Hle.
  intros Hb. apply bind_Ret_inv in Hb as (db1 & Hdel & Hrest).
  assert (Hin : sid ∈ NodeDB.EnumTips db) by (rewrite Htips; apply list_elem_of_here).
  apply elem_of_EnumTips_iff in Hin as (r & Hr & _ & Hsid).
  assert (Hlow : forall r0, NodeDB.m_States db !! StateID.m_Row sid = Some r0 ->
                            SystemState.Full.m_Height (NodeDB.r_Hdr r0) < h).
  { intros r0 Hr0. rewrite Hr in Hr0. injection Hr0 as <-. lia. }
  destruct (delete_chain_active h _ _ _ _ Hg Hs Hlow Hdel) as (Hk & Hg1 & Hs1).
  eapply active_kept_trans; [exact Hk | exact (IH _ _ _ Hg1 Hs1 Hrest)].
Qed.

Lemma PruneAt_fold_active (l : list StateID.t) : forall (db db' : NodeDB.t),
  foldl PruneAt_step (Ret db) l = Ret db' -> active_kept db db'.
Proof.
  induction l as [|sid l IH]; intros db db'; cbn [foldl].
  - intros [= <-]. apply active_kept_refl.
  - rewrite PruneAt_fold_start. intros Hb.
    apply bind_Ret_inv in Hb as (db1 & Hstep & Hrest).
    apply PruneAt_step_spec in Hstep as (r & Hr & ->).
    eapply active_kept_trans; [|exact (IH _ _ Hrest)].
    intros row r0 Hr0 Ha0. destruct db as [m c p1 p2 p3]. cbn in *. rewrite lookup_insert.
    destruct (decide (StateID.m_Row sid = row)) as [<-|Hne]; simpl.
    + rewrite Hr in Hr0. injection Hr0 as <-. exists (prune_row r). unfold prune_row.
      rewrite Ha0. destruct r; cbn in *. split_and!; try reflexivity. exact Ha0.
    + exists r0. split_and!; auto.
Qed.

Lemma prune_fossils_active (n : nat) : forall (hF h : Height) (p p' : NodeProcessor.t),
  prune_fossils n hF h p = Ret p' ->
  exists db', p' = NodeProcessor.set_DB db' p /\ active_kept (NodeProcessor.m_DB p) db'.
Proof.
  induction n as [|n IH]; intros hF h p p'; cbn [prune_fossils].
  - destruct (h <=? _); [|discriminate]. intros [= <-]. exists (NodeProcessor.m_DB p).
    split; [destruct p; reflexivity | apply active_kept_refl].
  - destruct (h <=? _).
    + intros [= <-]. exists (NodeProcessor.m_DB p).
      split; [destruct p; reflexivity | apply active_kept_refl].
    + intros Hb. apply bind_Ret_inv in Hb as (p1 & Hat & Hrest).
      rewrite PruneAt_unfold in Hat. apply bind_Ret_inv in Hat as (db1 & Hfold & Hat).
      injection Hat as <-. apply PruneAt_fold_active in Hfold.
      apply IH in Hrest as (db' & -> & Hk). exists db'. split; [destruct p; reflexivity|].
      eapply active_kept_trans; [exact Hfold|].
      intros row r Hr Ha. apply (Hk row r); [destruct db1; exact Hr | exact Ha].
Qed.

(** X15. Pruning spares the active chain and touches nothing but the
    store: when [PruneOld] returns, the processor differs from the one before
    in its store only, and every state that was [Active] is still there,
    [Active], with its header, its parent, its [Functional] flag and its
    journal (its body may be gone). For the branch part this holds on a store
    whose headers are higher than their parents and whose active chain goes
    on below the height at which tips are dropped. *)
Theorem PruneOld_spares_active (p p' : NodeProcessor.t) :
  (branch_guard p = true ->
   heights_grow (NodeProcessor.m_DB p)
   /\ active_supported (branch_end p) (NodeProcessor.m_DB p)) ->
  PruneOld p = Ret p' ->
  p' = NodeProcessor.set_DB (NodeProcessor.m_DB p') p
  /\ active_kept (NodeProcessor.m_DB p) (NodeProcessor.m_DB p').
Proof.
  intros Hinv. unfold PruneOld. cbv zeta. intros Hb. apply bind_Ret_inv in Hb as (p1 & Hbr & Hb).
  assert (H1 : exists db1, p1 = NodeProcessor.set_DB db1 p
                           /\ active_kept (NodeProcessor.m_DB p) db1).
  { unfold branch_guard, branch_end in Hinv.
    destruct (_ <? _).
    - destruct (Hinv eq_refl) as [Hg Hs].
      apply bind_Ret_inv in Hbr as (db1 & Hpb & Hbr). injection Hbr as <-.
      exists db1. split; [reflexivity | exact (prune_branches_active _ _ _ _ Hg Hs Hpb)].
    - injection Hbr as <-. exists (NodeProcessor.m_DB p).
      split; [destruct p; reflexivity | apply active_kept_refl]. }
  destruct H1 as (db1 & -> & Hk1). clear Hbr.
  destruct (height_sub (height_add (Horizon.m_Schwarzschild (NodeProcessor.m_Horizon p))
                          (Rules.HeightGenesis rules)) 1
            <? StateID.m_Height (Cursor.m_Sid (NodeProcessor.m_Cursor p))).
  - apply prune_fossils_active in Hb as (db' & -> & Hk'). cbn in *.
    split; [reflexivity | eapply active_kept_trans; eauto].
  - injection Hb as <-. cbn. split; [reflexivity | exact Hk1].
Qed.

(** X16. With the horizons as [Horizon::Horizon()] sets them and the
    genesis height 1, [PruneOld] does nothing, wherever the cursor is. *)
Theorem PruneOld_default_horizon (p : NodeProcessor.t) :
  Rules.HeightGenesis rules = 1 ->
  StateID.m_Height (Cursor.m_Sid (NodeProcessor.m_Cursor p)) < HeightModulus ->
  NodeProcessor.m_Horizon p = Horizon_default ->
  PruneOld p = Ret p.
Proof.
  intros HG Hh Hz. unfold PruneOld. cbv zeta. rewrite Hz, HG.
  cbn [Horizon_default Horizon.m_Branching Horizon.m_Schwarzschild].
  assert (Hguard : height_sub (height_add (HeightModulus - 1) 1) 1 = HeightModulus - 1)
    by (vm_compute; reflexivity).
  rewrite Hguard.
  assert (Hlt : (HeightModulus - 1 <?
                 StateID.m_Height (Cursor.m_Sid (NodeProcessor.m_Cursor p))) = false)
    by (apply N.ltb_ge; lia).
  rewrite Hlt. reflexivity.
Qed.

(** X17. [FindActiveAtStrict] answers with an [Active] row of the height
    asked for; when the store has no [Active] state at that height it raises
    "node data corrupted". *)
Theorem FindActiveAtStrict_spec (p : NodeProcessor.t) (h : Height) :
  (forall row, FindActiveAtStrict p h = Ret row ->
     exists r, NodeDB.m_States (NodeProcessor.m_DB p) !! row = Some r
               /\ NodeDB.r_Active r = true
               /\ SystemState.Full.m_Height (NodeDB.r_Hdr r) = h)
  /\ ((forall row r, NodeDB.m_States (NodeProcessor.m_DB p) !! row = Some r ->
         SystemState.Full.m_Height (NodeDB.r_Hdr r) = h -> NodeDB.r_Active r = false) ->
      FindActiveAtStrict p h = Throw NodeDataCorrupted).
Proof.
  unfold FindActiveAtStrict.
  assert (Hmem : forall sid, sid ∈ NodeDB.EnumStatesAt (NodeProcessor.m_DB p) h ->
            exists r, NodeDB.m_States (NodeProcessor.m_DB p) !! StateID.m_Row sid = Some r
                      /\ SystemState.Full.m_Height (NodeDB.r_Hdr r) = h).
  { intros sid Hin. unfold NodeDB.EnumStatesAt in Hin.
    apply list_elem_of_fmap in Hin as ([k r] & -> & Hin).
    apply list_elem_of_filter in Hin as [Hh Hin]. apply elem_of_map_to_list in Hin.
    exists r. auto. }
  induction (NodeDB.EnumStatesAt (NodeProcessor.m_DB p) h) as [|sid l IH].
  - split; [discriminate | reflexivity].
  - destruct (Hmem sid (list_elem_of_here _ _)) as (r & Hr & Hh).
    destruct (IH (fun s Hs => Hmem s (list_elem_of_further _ _ _ Hs))) as [IH1 IH2]. clear IH.
    unfold NodeDB.GetStateFlags, NodeDB.get_Row. rewrite Hr.
    cbn [mbind Outcome_bind NodeDB.StateFlags.Active].
    destruct (NodeDB.r_Active r) eqn:Ha; split.
    + intros row [= <-]. exists r. auto.
    + intros Hnone. rewrite (Hnone _ _ Hr Hh) in Ha. discriminate.
    + exact IH1.
    + exact IH2.
Qed.

End Pruning3.

Lemma PruneOld_spares_active_witness :
  @PruneOld demo branch_processor = Ret branch_pruned
  /\ @branch_guard demo branch_processor = true
  /\ (NodeDB.r_Active <$> NodeDB.m_States (NodeProcessor.m_DB branch_processor) !! 5) = Some false
  /\ NodeDB.m_States (NodeProcessor.m_DB branch_pruned) !! 5 = None
  /\ active_kept (NodeProcessor.m_DB branch_processor) (NodeProcessor.m_DB branch_pruned)
  /\ (NodeDB.r_Active <$> NodeDB.m_States (NodeProcessor.m_DB branch_pruned) !! 2) = Some true.
Proof.
  assert (Hrun : @PruneOld demo branch_processor = Ret branch_pruned)
    by (vm_compute; reflexivity).
  destruct (@PruneOld_spares_active demo branch_processor branch_pruned) as [_ Hk].
  - intros _. split.
    + apply heights_grow_check. apply (bool_decide_unpack _). vm_compute. exact I.
    + apply active_supported_check. apply (bool_decide_unpack _). vm_compute. exact I.
  - exact Hrun.
  - split; [exact Hrun|]. do 3 (split; [vm_compute; reflexivity|]).
    split; [exact Hk | vm_compute; reflexivity].
Defined.

Lemma PruneOld_default_horizon_witness :
  let p := NodeProcessor.mk fossil_db
             (Cursor.mk (StateID.mk 4 4) (fossil_hdr 4) (SystemState.ID.mk 4 4) 0 0 3 10)
             ∅ ∅ (Extra.mk 0 0 true) Horizon_default 0 [] in
  @PruneOld demo p = Ret p.
Proof.
  intros p. apply (@PruneOld_default_horizon demo p); [reflexivity | vm_compute; reflexivity | reflexivity].
Defined.

Lemma FindActiveAtStrict_spec_witness :
  @FindActiveAtStrict demo fossil_processor 2 = Ret 2
  /\ @FindActiveAtStrict demo fossil_processor 9 = Throw NodeDataCorrupted.
Proof.
  destruct (@FindActiveAtStrict_spec demo fossil_processor 9) as [_ Hnone].
  split; [vm_compute; reflexivity|]. apply Hnone. intros row r Hr Hh. exfalso.
  assert (Hall : map_Forall (fun _ r => SystemState.Full.m_Height (NodeDB.r_Hdr r) <> 9)
                   (NodeDB.m_States (NodeProcessor.m_DB fossil_processor)))
    by (apply (bool_decide_unpack _); vm_compute; exact I).
  exact (Hall row r Hr Hh).
Defined.

(** ** The cheap check of a transaction *)

Lemma walk_Traveler (l : list (N * N * N)) : forall (k : N),
  1 <= k ->
  (walk Traveler_OnLeaf k l).1 = None <-> foldr (fun x acc => x.2 + acc) 0 l < k.
Proof.
  induction l as [|x l IH]; intros k Hk; cbn [walk foldr].
  - split; [intros _; lia | reflexivity].
  - unfold Traveler_OnLeaf at 1. destruct (N.leb_spec k x.2) as [Hle|Hgt].
    + cbn. split; [discriminate | lia].
    + cbn [fst]. rewrite IH by lia. lia.
Qed.

Section CheapCheck2.
Context {E : Externals}.

Lemma inputs_present_matured (utxos : gmap (N * N) N) (h : Height) (v : Input.t) (k : N) :
  1 <= k ->
  inputs_present utxos h v k = (k <=? matured utxos (Input.m_Commitment v) h).
Proof.
  intros Hk. unfold inputs_present, Traverse, matured.
  pose proof (walk_Traveler (leaves_between utxos (Input.m_Commitment v, 0)
                               (Input.m_Commitment v, h)) k Hk) as Hw.
  destruct (walk Traveler_OnLeaf k _) as [[x|] s]; cbn in *.
  - symmetry. apply N.leb_le. apply N.le_ngt. intros Hlt. apply Hw in Hlt. discriminate.
  - symmetry. apply N.leb_gt. apply Hw. reflexivity.
Qed.

Lemma ValidateTxContext_inputs_run (utxos : gmap (N * N) N) (h : Height) (v : Input.t)
    (rest : list Input.t) : forall (k : N),
  1 <= k -> k + N.of_nat (length rest) < CountModulus ->
  Forall (fun x => Input.m_Commitment x = Input.m_Commitment v) rest ->
  ValidateTxContext_inputs utxos h v k rest =
    (k + N.of_nat (length rest) <=? matured utxos (Input.m_Commitment v) h).
Proof.
  induction rest as [|x rest IH]; intros k Hk Hlen Hall; cbn [ValidateTxContext_inputs length].
  - rewrite N.add_0_r. apply inputs_present_matured. exact Hk.
  - apply Forall_cons in Hall as [Hx Hall]. rewrite Hx, N.eqb_refl.
    cbn [length] in Hlen. rewrite Nat2N.inj_succ in Hlen |- *.
    rewrite IH; [| rewrite count_inc_small by lia; lia | rewrite count_inc_small by lia; lia
                 | exact Hall].
    rewrite count_inc_small by lia. f_equal. lia.
Qed.

(** X18. The input check of [ValidateTxContext] counts coins: a
    transaction that spends one commitment [n] times (1 <= n < 2^32), with
    no kernels, is accepted if and only if the leaves of the commitment with
    a maturity up to the next height hold at least [n] coins between them. *)
Theorem ValidateTxContext_counts_inputs (p : NodeProcessor.t) (offset : N) (v : Input.t)
    (rest : list Input.t) (outs : list Output.t) :
  Forall (fun x => Input.m_Commitment x = Input.m_Commitment v) rest ->
  N.of_nat (length (v :: rest)) < CountModulus ->
  let h := height_add (StateID.m_Height (Cursor.m_Sid (NodeProcessor.m_Cursor p))) 1 in
  ValidateTxContext p (Transaction.mk offset (TxVectors.mk (v :: rest) outs [] [])) =
    (N.of_nat (length (v :: rest)) <=? matured (NodeProcessor.m_Utxos p) (Input.m_Commitment v) h).
Proof.
  intros Hall Hlen h. unfold ValidateTxContext, ValidateTxWrtHeight, ValidateTxContextKernels.
  cbn [Transaction.m_Txv TxVectors.m_vInputs TxVectors.m_vKernelsOutput TxVectors.m_vKernelsInput
       forallb negb ValidateTxContextKernels_loop].
  rewrite !andb_true_r. fold h. cbn [length] in Hlen |- *. rewrite Nat2N.inj_succ in Hlen |- *.
  rewrite ValidateTxContext_inputs_run; [f_equal; lia | lia | lia | exact Hall].
Qed.

Lemma ValidateTxContextKernels_loop_present (vec : list TxKernel.t) :
  forall (odd : bool) (phv0 phv1 : Hash) (kernels : gset N) (k : TxKernel.t),
  k ∈ vec -> TxKernel.get_ID k ∈ kernels ->
  ValidateTxContextKernels_loop vec odd phv0 phv1 false kernels = false.
Proof.
  induction vec as [|v vec IH]; intros odd phv0 phv1 kernels k Hin Hk; [inversion Hin|].
  cbn [ValidateTxContextKernels_loop]. destruct (_ =? _); [reflexivity|].
  unfold Kernels_Find. apply elem_of_cons in Hin as [<-|Hin].
  - rewrite decide_True by exact Hk. reflexivity.
  - destruct (decide (TxKernel.get_ID v ∈ kernels)); [reflexivity|]. cbn.
    exact (IH _ _ _ _ k Hin Hk).
Qed.

(** X19. [ValidateTxContext] wants every kernel of the transaction, the
    input kernels too, absent from the kernel tree: a transaction with a
    kernel whose identifier the tree holds is refused. The interpreter wants
    the opposite of an input kernel, so a transaction with an input kernel
    that [ValidateTxContext] accepts is refused by a forward
    [HandleValidatedTx], which leaves the kernel tree as it was. *)
Theorem ValidateTxContext_kernels_absent (p : NodeProcessor.t) (tx : Transaction.t)
    (k : TxKernel.t) :
  (k ∈ TxVectors.m_vKernelsOutput (Transaction.m_Txv tx)
   \/ k ∈ TxVectors.m_vKernelsInput (Transaction.m_Txv tx) ->
   TxKernel.get_ID k ∈ NodeProcessor.m_Kernels p ->
   ValidateTxContext p tx = false)
  /\ (k ∈ TxVectors.m_vKernelsInput (Transaction.m_Txv tx) ->
      ValidateTxContext p tx = true ->
      forall h bAdj pHMax, exists txv' p',
        HandleValidatedTx (Transaction.m_Txv tx) h true bAdj pHMax p = Ret (false, txv', p')
        /\ NodeProcessor.m_Kernels p' = NodeProcessor.m_Kernels p).
Proof.
  assert (Hrefuse : forall k' : TxKernel.t,
                    k' ∈ TxVectors.m_vKernelsOutput (Transaction.m_Txv tx)
                    \/ k' ∈ TxVectors.m_vKernelsInput (Transaction.m_Txv tx) ->
                    TxKernel.get_ID k' ∈ NodeProcessor.m_Kernels p ->
                    ValidateTxContext p tx = false).
  { intros k' Hin Hk. unfold ValidateTxContext, ValidateTxContextKernels.
    destruct (negb _); [reflexivity|].
    destruct Hin as [Hin|Hin];
      rewrite (ValidateTxContextKernels_loop_present _ _ _ _ _ k' Hin Hk);
      rewrite ?andb_false_r; reflexivity. }
  split; [exact (Hrefuse k)|].
  intros Hin Hok h bAdj pHMax.
  assert (Hfirst : exists k0 kin, TxVectors.m_vKernelsInput (Transaction.m_Txv tx) = k0 :: kin
                                  /\ TxKernel.get_ID k0 ∉ NodeProcessor.m_Kernels p).
  { destruct (TxVectors.m_vKernelsInput (Transaction.m_Txv tx)) as [|k0 kin] eqn:Hv;
      [inversion Hin|].
    exists k0, kin. split; [reflexivity|]. intros Hk0.
    rewrite (Hrefuse k0) in Hok; [discriminate | right; left | exact Hk0]. }
  destruct Hfirst as (k0 & kin & Hv & Hk0).
  unfold HandleValidatedTx. rewrite Hv.
  destruct (loop_UtxoIn _ _ _ _ _ _ _) as [[[ok1 nInp] ins] u1].
  destruct (if ok1 then _ else _) as [[ok2 nOut] u2].
  assert (H3 : (if ok2 then loop_Kernel (k0 :: kin) true true 0 (NodeProcessor.m_Kernels p)
                else (false, 0, NodeProcessor.m_Kernels p))
               = (false, 0, NodeProcessor.m_Kernels p)).
  { destruct ok2; [|reflexivity]. cbn [loop_Kernel].
    rewrite (Kernel_del_step k0 true true _ eq_refl), decide_False by exact Hk0. reflexivity. }
  rewrite H3. cbn [negb]. eexists _, _. split; [reflexivity|].
  cbn. unfold undo_Kernel. cbn. reflexivity.
Qed.

End CheapCheck2.

Lemma ValidateTxContext_counts_inputs_witness :
  let p := demo_processor {[ (5, 0) := 1; (5, 1) := 1; (5, 9) := 7 ]} ∅ (Extra.mk 0 0 true) in
  matured (NodeProcessor.m_Utxos p) 5 1 = 2
  /\ @ValidateTxContext demo p
       (Transaction.mk 0 (TxVectors.mk [Input.mk 5 0; Input.mk 5 0] [] [] [])) = true
  /\ @ValidateTxContext demo p
       (Transaction.mk 0 (TxVectors.mk [Input.mk 5 0; Input.mk 5 0; Input.mk 5 0] [] [] [])) = false.
Proof.
  intros p. split; [vm_compute; reflexivity|]. split.
  - rewrite (@ValidateTxContext_counts_inputs demo p 0 (Input.mk 5 0) [Input.mk 5 0] []);
      [vm_compute; reflexivity | repeat constructor | vm_compute; reflexivity].
  - rewrite (@ValidateTxContext_counts_inputs demo p 0 (Input.mk 5 0)
               [Input.mk 5 0; Input.mk 5 0] []);
      [vm_compute; reflexivity | repeat constructor | vm_compute; reflexivity].
Defined.

Lemma ValidateTxContext_kernels_absent_witness :
  let k := TxKernel.mk 20 (HeightRange.mk 0 9) in
  let tx := Transaction.mk 0 (TxVectors.mk [] [] [k] []) in
  @ValidateTxContext demo (demo_processor ∅ {[20]} (Extra.mk 0 0 true)) tx = false
  /\ @ValidateTxContext demo (demo_processor ∅ ∅ (Extra.mk 0 0 true)) tx = true
  /\ exists txv' p',
       @HandleValidatedTx demo (Transaction.m_Txv tx) 1 true true None
         (demo_processor ∅ ∅ (Extra.mk 0 0 true)) = Ret (false, txv', p').
Proof.
  intros k tx.
  destruct (@ValidateTxContext_kernels_absent demo (demo_processor ∅ {[20]} (Extra.mk 0 0 true))
              tx k) as [Href _].
  destruct (@ValidateTxContext_kernels_absent demo (demo_processor ∅ ∅ (Extra.mk 0 0 true))
              tx k) as [_ Hfwd].
  split_and!.
  - apply Href; [right; left | set_solver].
  - vm_compute. reflexivity.
  - destruct (Hfwd ltac:(left) ltac:(vm_compute; reflexivity) 1 true None) as (txv' & p' & Hr & _).
    exists txv', p'. exact Hr.
Defined.

(** ** The block template *)

Section Templating2.
Context `{Externals}.

(** What a round of the mempool loop keeps: the store, the cursor, and a
    size estimate within the limit of a body. *)
Lemma pool_step_keeps h st x st' :
  pool_step h st x = Ret st' ->
  NodeProcessor.m_DB (pl_Proc st') = NodeProcessor.m_DB (pl_Proc st)
  /\ NodeProcessor.m_Cursor (pl_Proc st') = NodeProcessor.m_Cursor (pl_Proc st)
  /\ (pl_Size st <= Rules.MaxBodySize rules -> pl_Size st' <= Rules.MaxBodySize rules).
Proof.
  unfold pool_step. cbv zeta.
  destruct (negb (TxPool.m_Fee_Hi x =? 0)); [intros [= <-]; done|].
  destruct (_ <? pl_Fees st); [intros [= <-]; done|].
  set (nSizeNext := if (pl_Fees st =? 0) && _ then _ else _).
  destruct (Rules.MaxBodySize rules <? nSizeNext) eqn:Hmax.
  { destruct (bool_decide _ && _ && _ && _); intros [= <-]; done. }
  apply N.ltb_ge in Hmax.
  destruct (ValidateTxWrtHeight _ _); [|intros [= <-]; done].
  intros Hb. apply bind_Ret_inv in Hb as ([[ok txv] p1] & Htx & Hr).
  apply HandleValidatedTx_frame in Htx as [Hdb Hcu].
  destruct ok; injection Hr as <-; simpl; split_and!; auto.
Qed.

Lemma pool_loop_keeps h pool st st' :
  pool_loop h st pool = Ret st' ->
  NodeProcessor.m_DB (pl_Proc st') = NodeProcessor.m_DB (pl_Proc st)
  /\ NodeProcessor.m_Cursor (pl_Proc st') = NodeProcessor.m_Cursor (pl_Proc st)
  /\ (pl_Size st <= Rules.MaxBodySize rules -> pl_Size st' <= Rules.MaxBodySize rules).
Proof.
  revert st. induction pool as [|x pool IH]; intros st.
  - intros [= <-]. done.
  - rewrite pool_loop_cons. intros Hb.
    apply bind_Ret_inv in Hb as (st1 & H1 & H2).
    apply pool_step_keeps in H1 as (Ha & Hb & Hc). apply IH in H2 as (Hd & He & Hf).
    split_and!; [congruence | congruence | auto].
Qed.

Lemma ToggleSubsidyOpened_frame p :
  NodeProcessor.m_DB (ToggleSubsidyOpened p) = NodeProcessor.m_DB p
  /\ NodeProcessor.m_Cursor (ToggleSubsidyOpened p) = NodeProcessor.m_Cursor p.
Proof.
  unfold ToggleSubsidyOpened. destruct (Kernels_Find _ _ _) as [[? ?] ?]. done.
Qed.

(** X20. The size that [GenerateNewBlock(bc, res, h)] answers never exceeds
    the largest body of the rules, whatever the mempool holds. *)
Theorem GenerateNewBlock_at_size now bc res h p n bc' res' p' :
  GenerateNewBlock_at now bc res h p = Ret (n, bc', res', p') ->
  n <= Rules.MaxBodySize rules.
Proof.
  unfold GenerateNewBlock_at.
  destruct (Output_Create _ true _ _) as [outp sk].
  destruct (HandleBlockElement_Output outp _ _ _ _) as [ok1 u1].
  destruct ok1; simpl; [|intros [= <- <- <- <-]; lia].
  destruct (HandleBlockElement_Kernel _ _ _ _) as [ok2 k1].
  destruct ok2; simpl; [|intros [= <- <- <- <-]; lia].
  destruct (_ <? _) eqn:Hmax; [intros [= <- <- <- <-]; lia|].
  apply N.ltb_ge in Hmax.
  intros Hb. apply bind_Ret_inv in Hb as (st & Hloop & Hr).
  apply pool_loop_keeps in Hloop as (_ & _ & Hsz). specialize (Hsz Hmax).
  destruct (negb (pl_Fees st =? 0)).
  - destruct (Output_Create _ false _ _) as [outpF skF].
    destruct (HandleBlockElement_Output outpF _ _ _ _) as [okF uF].
    destruct okF; simpl in Hr; [|injection Hr as <- <- <- <-; lia].
    apply bind_Ret_inv in Hr as (median & _ & Hr). injection Hr as <- <- <- <-. exact Hsz.
  - simpl in Hr. apply bind_Ret_inv in Hr as (median & _ & Hr).
    injection Hr as <- <- <- <-. exact Hsz.
Qed.

(** The header that [GenerateNewBlock(bc, res, h)] writes when it answers a
    size: its fields, over the cursor and the moving median of the
    processor it was called on. *)
Lemma GenerateNewBlock_at_header now bc res h p n bc' res' p' :
  GenerateNewBlock_at now bc res h p = Ret (n, bc', res', p') ->
  n <> 0 ->
  exists median,
    get_MovingMedian p = Ret median
    /\ NodeProcessor.m_DB p' = NodeProcessor.m_DB p
    /\ NodeProcessor.m_Cursor p' = NodeProcessor.m_Cursor p
    /\ SystemState.Full.m_Height (BlockContext.m_Hdr bc') = h
    /\ SystemState.Full.m_PoW_Difficulty (BlockContext.m_Hdr bc') =
         Cursor.m_DifficultyNext (NodeProcessor.m_Cursor p)
    /\ SystemState.Full.m_ChainWork (BlockContext.m_Hdr bc') =
         Difficulty_Inc (Cursor.m_DifficultyNext (NodeProcessor.m_Cursor p))
           (SystemState.Full.m_ChainWork (Cursor.m_Full (NodeProcessor.m_Cursor p)))
    /\ SystemState.Full.m_TimeStamp (BlockContext.m_Hdr bc') =
         N.max now ((median + 1) mod HeightModulus)
    /\ SystemState.Full.m_Prev (BlockContext.m_Hdr bc') =
         (if StateID.m_Row (Cursor.m_Sid (NodeProcessor.m_Cursor p)) =? 0 then 0
          else SystemState.ID.m_Hash (Cursor.m_ID (NodeProcessor.m_Cursor p))).
Proof.
  unfold GenerateNewBlock_at.
  destruct (Output_Create _ true _ _) as [outp sk].
  destruct (HandleBlockElement_Output outp _ _ _ _) as [ok1 u1].
  destruct ok1; simpl; [|intros [= <- <- <- <-]; done].
  destruct (HandleBlockElement_Kernel _ _ _ _) as [ok2 k1].
  destruct ok2; simpl; [|intros [= <- <- <- <-]; done].
  destruct (_ <? _) eqn:Hmax; [intros [= <- <- <- <-]; done|].
  intros Hb Hn. apply bind_Ret_inv in Hb as (st & Hloop & Hr).
  apply pool_loop_keeps in Hloop as (Hdb & Hcu & _).
  assert (Hdb0 : NodeProcessor.m_DB (pl_Proc st) = NodeProcessor.m_DB p).
  { rewrite Hdb. simpl. destruct (NodeProcessor.m_nSizeUtxoComission _ =? 0); reflexivity. }
  assert (Hcu0 : NodeProcessor.m_Cursor (pl_Proc st) = NodeProcessor.m_Cursor p).
  { rewrite Hcu. simpl. destruct (NodeProcessor.m_nSizeUtxoComission _ =? 0); reflexivity. }
  clear Hdb Hcu.
  assert (Hfin : forall (b : bool) pF,
            NodeProcessor.m_DB pF = NodeProcessor.m_DB p ->
            NodeProcessor.m_Cursor pF = NodeProcessor.m_Cursor p ->
            let pE := if b then ToggleSubsidyOpened (if b then ToggleSubsidyOpened pF else pF)
                      else (if b then ToggleSubsidyOpened pF else pF) in
            NodeProcessor.m_DB pE = NodeProcessor.m_DB p
            /\ NodeProcessor.m_Cursor pE = NodeProcessor.m_Cursor p
            /\ get_MovingMedian pE = get_MovingMedian p).
  { intros b pF Hd Hc pE.
    assert (Hdc : NodeProcessor.m_DB pE = NodeProcessor.m_DB p
                  /\ NodeProcessor.m_Cursor pE = NodeProcessor.m_Cursor p).
    { subst pE. destruct b; [|done].
      destruct (ToggleSubsidyOpened_frame (ToggleSubsidyOpened pF)) as [-> ->].
      destruct (ToggleSubsidyOpened_frame pF) as [-> ->]. done. }
    destruct Hdc as [Hd' Hc']. split_and!; [exact Hd' | exact Hc' |].
    unfold get_MovingMedian. rewrite Hd', Hc'. reflexivity. }
  assert (Hend : forall (b : bool) pF median hdr,
            NodeProcessor.m_DB pF = NodeProcessor.m_DB p ->
            NodeProcessor.m_Cursor pF = NodeProcessor.m_Cursor p ->
            let pE := if b then ToggleSubsidyOpened (if b then ToggleSubsidyOpened pF else pF)
                      else (if b then ToggleSubsidyOpened pF else pF) in
            get_MovingMedian pE = Ret median ->
            hdr = SystemState.Full.mk h
                    (if StateID.m_Row (Cursor.m_Sid (NodeProcessor.m_Cursor pF)) =? 0 then 0
                     else SystemState.ID.m_Hash (Cursor.m_ID (NodeProcessor.m_Cursor pF)))
                    (Difficulty_Inc (Cursor.m_DifficultyNext (NodeProcessor.m_Cursor pF))
                       (SystemState.Full.m_ChainWork (Cursor.m_Full (NodeProcessor.m_Cursor pF))))
                    (get_Definition (if b then ToggleSubsidyOpened pF else pF) true)
                    (N.max now ((median + 1) mod HeightModulus))
                    (Cursor.m_DifficultyNext (NodeProcessor.m_Cursor pF)) ->
            exists median,
              get_MovingMedian p = Ret median
              /\ NodeProcessor.m_DB pE = NodeProcessor.m_DB p
              /\ NodeProcessor.m_Cursor pE = NodeProcessor.m_Cursor p
              /\ SystemState.Full.m_Height hdr = h
              /\ SystemState.Full.m_PoW_Difficulty hdr =
                   Cursor.m_DifficultyNext (NodeProcessor.m_Cursor p)
              /\ SystemState.Full.m_ChainWork hdr =
                   Difficulty_Inc (Cursor.m_DifficultyNext (NodeProcessor.m_Cursor p))
                     (SystemState.Full.m_ChainWork (Cursor.m_Full (NodeProcessor.m_Cursor p)))
              /\ SystemState.Full.m_TimeStamp hdr = N.max now ((median + 1) mod HeightModulus)
              /\ SystemState.Full.m_Prev hdr =
                   (if StateID.m_Row (Cursor.m_Sid (NodeProcessor.m_Cursor p)) =? 0 then 0
                    else SystemState.ID.m_Hash (Cursor.m_ID (NodeProcessor.m_Cursor p)))).
  { intros b pF median hdr Hd Hc pE Hmed ->.
    destruct (Hfin b pF Hd Hc) as (Hd' & Hc' & Hm). fold pE in Hd', Hc', Hm.
    exists median. rewrite <- Hm, Hd', Hc', Hc. cbn. split_and!; try reflexivity. exact Hmed. }
  clear Hfin.
  destruct (negb (pl_Fees st =? 0)).
  - destruct (Output_Create _ false _ _) as [outpF skF].
    destruct (HandleBlockElement_Output outpF _ _ _ _) as [okF uF].
    destruct okF; simpl in Hr; [|injection Hr as <- <- <- <-; done].
    apply bind_Ret_inv in Hr as (median & Hmed & Hr). injection Hr as <- <- <- <-.
    eapply (Hend _ (NodeProcessor.set_Utxos uF (pl_Proc st)) median);
      [exact Hdb0 | exact Hcu0 | exact Hmed | reflexivity].
  - simpl in Hr. apply bind_Ret_inv in Hr as (median & Hmed & Hr).
    injection Hr as <- <- <- <-.
    eapply (Hend _ (pl_Proc st) median); [exact Hdb0 | exact Hcu0 | exact Hmed | reflexivity].
Qed.

(** X21. A template passes the header checks of a first interpretation. When
    [GenerateNewBlock(bc, res, h)] answers a size, and the moving median is
    not the largest timestamp, the header it wrote passes the chainwork,
    difficulty and timestamp checks that [HandleBlock] makes on the same
    processor: only the validity of the body is left to decide. *)
Theorem GenerateNewBlock_at_header_accepted now bc res h p n bc' res' p' block :
  GenerateNewBlock_at now bc res h p = Ret (n, bc', res', p') ->
  n <> 0 ->
  (forall median, get_MovingMedian p = Ret median -> median + 1 < HeightModulus) ->
  SystemState.Full.m_Height (BlockContext.m_Hdr bc') = h
  /\ first_time_checks p (BlockContext.m_Hdr bc') block h =
       Ret (VerifyBlock p block (HeightRange.mk h h)).
Proof.
  intros Hg Hn Hsmall.
  destruct (GenerateNewBlock_at_header _ _ _ _ _ _ _ _ _ Hg Hn)
    as (median & Hmed & _ & _ & Hh & Hd & Hw & Ht & _).
  split; [exact Hh|].
  specialize (Hsmall median Hmed).
  unfold first_time_checks. rewrite Hd, Hw, Ht, Hmed. simpl.
  rewrite !N.eqb_refl. simpl.
  rewrite N.mod_small by exact Hsmall.
  destruct (N.max now (median + 1) <=? median) eqn:Hle.
  { apply N.leb_le in Hle. lia. }
  destruct (VerifyBlock p block _); reflexivity.
Qed.

End Templating2.

Lemma GenerateNewBlock_at_size_witness :
  template_result.1.1.1 <= Rules.MaxBodySize (@rules demo)
  /\ BlockContext.m_Fees template_result.1.1.2 = 3.
Proof.
  split; [|vm_compute; reflexivity].
  apply (@GenerateNewBlock_at_size demo 50 template_context
           (Body.set_SubsidyClosing true Body_ZeroInit) 5 (reorg_processor 15 25)
           template_result.1.1.1 template_result.1.1.2 template_result.1.2 template_result.2).
  vm_compute. reflexivity.
Defined.

Lemma GenerateNewBlock_at_header_accepted_witness :
  let hdr := BlockContext.m_Hdr template_result.1.1.2 in
  SystemState.Full.m_Height hdr = 5
  /\ @first_time_checks demo (reorg_processor 15 25) hdr Body_ZeroInit 5 =
       Ret (@VerifyBlock demo (reorg_processor 15 25) Body_ZeroInit (HeightRange.mk 5 5)).
Proof.
  apply (@GenerateNewBlock_at_header_accepted demo 50 template_context
           (Body.set_SubsidyClosing true Body_ZeroInit) 5 (reorg_processor 15 25)
           template_result.1.1.1 template_result.1.1.2 template_result.1.2 template_result.2
           Body_ZeroInit).
  - vm_compute. reflexivity.
  - vm_compute. discriminate.
  - intros median Hm. vm_compute in Hm. injection Hm as <-. reflexivity.
Defined.

(** ** Ingress *)

(** X22. Whether a remote tip is wanted is a strict comparison of
    (chainwork, definition): a tip is never wanted against itself, of two
    tips that differ in chainwork exactly the one with more is wanted
    against the other, and two tips with the chainwork of each other want
    each other exactly when their definitions differ. *)
Theorem IsRemoteTipNeeded_order (a b : SystemState.Full.t) :
  IsRemoteTipNeeded a a = false
  /\ (SystemState.Full.m_ChainWork b < SystemState.Full.m_ChainWork a ->
      IsRemoteTipNeeded a b = true /\ IsRemoteTipNeeded b a = false)
  /\ (SystemState.Full.m_ChainWork a = SystemState.Full.m_ChainWork b ->
      IsRemoteTipNeeded a b = IsRemoteTipNeeded b a
      /\ (IsRemoteTipNeeded a b = false <->
          SystemState.Full.m_Definition a = SystemState.Full.m_Definition b)).
Proof.
  unfold IsRemoteTipNeeded. split_and!.
  - rewrite N.compare_refl, N.eqb_refl. reflexivity.
  - intros Hlt. rewrite (proj2 (N.compare_lt_iff _ _) Hlt).
    rewrite (proj2 (N.compare_gt_iff _ _) Hlt). done.
  - intros ->. rewrite N.compare_refl. split.
    + rewrite (N.eqb_sym (SystemState.Full.m_Definition b)). reflexivity.
    + rewrite negb_false_iff, N.eqb_eq. split; congruence.
Qed.

Section IngressProps.
Context {E : Externals} {A : Admission}.

Lemma ID_eqb_eq (a b : SystemState.ID.t) : ID_eqb a b = true <-> a = b.
Proof.
  unfold ID_eqb. rewrite andb_true_iff, !N.eqb_eq. destruct a, b; simpl.
  split; [intros [-> ->]; reflexivity | intros [= -> ->]; done].
Qed.

Lemma StateFindSafe_found (db : NodeDB.t) (id : SystemState.ID.t) :
  no_null_row db -> StateFindSafe db id <> 0 ->
  exists r, NodeDB.m_States db !! StateFindSafe db id = Some r
            /\ get_ID (NodeDB.r_Hdr r) = id.
Proof.
  unfold StateFindSafe. intros _.
  destruct (filter _ _) as [|[k r] l] eqn:Hf; [done|]. intros _. simpl.
  assert (Hin : (k, r) ∈ filter (fun x : N * NodeDB.StateRow =>
                   ID_eqb (get_ID (NodeDB.r_Hdr x.2)) id = true)
                   (map_to_list (NodeDB.m_States db)))
    by (rewrite Hf; apply list_elem_of_here).
  apply list_elem_of_filter in Hin as [Hid Hin]. apply elem_of_map_to_list in Hin.
  exists r. split; [exact Hin | apply ID_eqb_eq; exact Hid].
Qed.

Lemma StateFindSafe_none (db : NodeDB.t) (id : SystemState.ID.t) :
  no_null_row db ->
  (StateFindSafe db id = 0 <->
   forall row r, NodeDB.m_States db !! row = Some r -> get_ID (NodeDB.r_Hdr r) <> id).
Proof.
  intros H0. split.
  - unfold StateFindSafe.
    destruct (filter _ _) as [|[k r] l] eqn:Hf.
    + intros _ row r Hr Hid.
      assert (Hin : (row, r) ∈ filter (fun x : N * NodeDB.StateRow =>
                       ID_eqb (get_ID (NodeDB.r_Hdr x.2)) id = true)
                       (map_to_list (NodeDB.m_States db))).
      { apply list_elem_of_filter. split; [apply ID_eqb_eq; exact Hid|].
        apply elem_of_map_to_list. exact Hr. }
      rewrite Hf in Hin. inversion Hin.
    + simpl. intros ->.
      assert (Hin : (0, r) ∈ filter (fun x : N * NodeDB.StateRow =>
                       ID_eqb (get_ID (NodeDB.r_Hdr x.2)) id = true)
                       (map_to_list (NodeDB.m_States db)))
        by (rewrite Hf; apply list_elem_of_here).
      apply list_elem_of_filter in Hin as [_ Hin]. apply elem_of_map_to_list in Hin.
      unfold no_null_row in H0. congruence.
  - intros Hno. destruct (N.eq_dec (StateFindSafe db id) 0) as [Hz|Hnz]; [exact Hz|].
    destruct (StateFindSafe_found db id H0 Hnz) as (r & Hr & Hid).
    destruct (Hno _ _ Hr Hid).
Qed.

(** The status [OnStateInternal] answers, case by case. *)
Lemma OnStateInternal_status (now : Timestamp) (s : SystemState.Full.t) (p : NodeProcessor.t) :
  no_null_row (NodeProcessor.m_DB p) ->
  let standalone :=
    IsSane s && IsValidPoW s
    && (SystemState.Full.m_TimeStamp s <=? now + TimestampAheadThreshold_s)
    && ApproveState (get_ID s) in
  let stored := exists row r, NodeDB.m_States (NodeProcessor.m_DB p) !! row = Some r
                              /\ get_ID (NodeDB.r_Hdr r) = get_ID s in
  let lo := Cursor.m_LoHorizon (NodeProcessor.m_Cursor p) in
  (OnStateInternal now s p).2 = get_ID s
  /\ ((OnStateInternal now s p).1 = DataStatus.Invalid <-> standalone = false)
  /\ ((OnStateInternal now s p).1 = DataStatus.Unreachable <->
      standalone = true /\ SystemState.Full.m_Height s < lo)
  /\ ((OnStateInternal now s p).1 = DataStatus.Rejected <->
      standalone = true /\ lo <= SystemState.Full.m_Height s /\ stored)
  /\ ((OnStateInternal now s p).1 = DataStatus.Accepted <->
      standalone = true /\ lo <= SystemState.Full.m_Height s /\ ~ stored).
Proof.
  intros H0 standalone stored lo.
  assert (Hst : stored <-> StateFindSafe (NodeProcessor.m_DB p) (get_ID s) <> 0).
  { rewrite (StateFindSafe_none _ (get_ID s) H0). unfold stored. split.
    - intros (row & r & Hr & Hid) Hno. exact (Hno _ _ Hr Hid).
    - intros Hnz. destruct (N.eq_dec (StateFindSafe (NodeProcessor.m_DB p) (get_ID s)) 0) as [Hz|Hz].
      + destruct Hnz. apply (StateFindSafe_none _ _ H0). exact Hz.
      + destruct (StateFindSafe_found _ _ H0 Hz) as (r & Hr & Hid). eauto. }
  assert (Hts : (now <? SystemState.Full.m_TimeStamp s)
                && (TimestampAheadThreshold_s <? SystemState.Full.m_TimeStamp s - now)
                = negb (SystemState.Full.m_TimeStamp s <=? now + TimestampAheadThreshold_s)).
  { destruct (now <? _) eqn:H1; destruct (TimestampAheadThreshold_s <? _) eqn:H2;
      destruct (_ <=? _) eqn:H3; simpl; try reflexivity; exfalso;
      repeat match goal with
             | H : (_ <? _) = true |- _ => apply N.ltb_lt in H
             | H : (_ <? _) = false |- _ => apply N.ltb_ge in H
             | H : (_ <=? _) = true |- _ => apply N.leb_le in H
             | H : (_ <=? _) = false |- _ => apply N.leb_gt in H
             end; lia. }
  unfold OnStateInternal. rewrite Hts. subst standalone. fold lo.
  destruct (IsSane s); simpl; [|split_and!; try done; split; try done; intros []; done].
  destruct (IsValidPoW s); simpl; [|split_and!; try done; split; try done; intros []; done].
  destruct (_ <=? _); simpl; [|split_and!; try done; split; try done; intros []; done].
  destruct (ApproveState _); simpl; [|split_and!; try done; split; try done; intros []; done].
  destruct (SystemState.Full.m_Height s <? lo) eqn:Hlo.
  { apply N.ltb_lt in Hlo. simpl.
    split_and!; try done; split; try done; intros (_ & ? & _); lia. }
  apply N.ltb_ge in Hlo.
  destruct (StateFindSafe _ _ =? 0) eqn:Hz; simpl.
  - apply N.eqb_eq in Hz.
    split_and!; try done; split; try done.
    + intros (_ & ?); lia.
    + intros (_ & _ & Hs). apply Hst in Hs. done.
    + intros _. split_and!; [done | exact Hlo |]. intros Hs. apply Hst in Hs. done.
  - apply N.eqb_neq in Hz.
    split_and!; try done; split; try done.
    + intros (_ & ?); lia.
    + intros _. split_and!; [done | exact Hlo | apply Hst; exact Hz].
    + intros (_ & _ & Hs). destruct Hs. apply Hst. exact Hz.
Qed.

(** X23. The admission of a header by [OnState]. The status is [Accepted]
    exactly for a header that is sane, has a valid proof of work, is not
    ahead of the clock by more than the threshold, is approved, is not below
    [LoHorizon] and whose identifier no stored header has; a header that
    passes the first four is [Unreachable] below [LoHorizon], and otherwise
    [Rejected] when it is stored already. The store is written only for an
    accepted header: with any other status the processor is as it was, and
    for an accepted header the store is the one [InsertState] made, with the
    peer tagged on the new row, and nothing else of the processor has
    changed. [OnStateData] is called once in either case. *)
Theorem OnState_admission (now : Timestamp) (s : SystemState.Full.t) (peer : PeerID)
    (p : NodeProcessor.t) (st : DataStatus.Enum) (ns : list Notice) (p' : NodeProcessor.t) :
  no_null_row (NodeProcessor.m_DB p) ->
  OnState now s peer p = Ret (st, ns, p') ->
  let standalone :=
    IsSane s && IsValidPoW s
    && (SystemState.Full.m_TimeStamp s <=? now + TimestampAheadThreshold_s)
    && ApproveState (get_ID s) in
  let stored := exists row r, NodeDB.m_States (NodeProcessor.m_DB p) !! row = Some r
                              /\ get_ID (NodeDB.r_Hdr r) = get_ID s in
  let lo := Cursor.m_LoHorizon (NodeProcessor.m_Cursor p) in
  ns = [OnStateData]
  /\ (st = DataStatus.Invalid <-> standalone = false)
  /\ (st = DataStatus.Unreachable <-> standalone = true /\ SystemState.Full.m_Height s < lo)
  /\ (st = DataStatus.Rejected <->
      standalone = true /\ lo <= SystemState.Full.m_Height s /\ stored)
  /\ (st = DataStatus.Accepted <->
      standalone = true /\ lo <= SystemState.Full.m_Height s /\ ~ stored)
  /\ (st <> DataStatus.Accepted -> p' = p)
  /\ (st = DataStatus.Accepted ->
      exists rowid db1,
        InsertState s (NodeProcessor.m_DB p) = Ret (rowid, db1)
        /\ NodeDB.set_Peer rowid (Some peer) db1 = Ret (NodeProcessor.m_DB p')
        /\ p' = NodeProcessor.set_DB (NodeProcessor.m_DB p') p).
Proof.
  intros H0 Hrun standalone stored lo.
  destruct (OnStateInternal_status now s p H0) as (_ & Hi & Hu & Hr & Ha).
  revert Hrun. unfold OnState.
  destruct (OnStateInternal now s p) as [ret id]. simpl in Hi, Hu, Hr, Ha.
  intros Hb. apply bind_Ret_inv in Hb as (p1 & Hp1 & Hret). injection Hret as <- <- <-.
  split_and!; [reflexivity | exact Hi | exact Hu | exact Hr | exact Ha | |].
  - intros Hne. destruct ret; try done; injection Hp1 as <-; reflexivity.
  - intros ->. apply bind_Ret_inv in Hp1 as ([rowid db1] & Hins & Hp1).
    apply bind_Ret_inv in Hp1 as (db2 & Hpeer & Hp1). injection Hp1 as <-.
    exists rowid, db1. split_and!; [exact Hins | exact Hpeer | reflexivity].
Qed.

(** A stored row after [OnBlock] has put a body on it. *)
Lemma upd_Row_inv (f : NodeDB.StateRow -> NodeDB.StateRow) (row : RowId) (db db' : NodeDB.t) :
  NodeDB.upd_Row f row db = Ret db' ->
  exists r, NodeDB.m_States db !! row = Some r
            /\ db' = NodeDB.set_States (<[row := f r]> (NodeDB.m_States db)) db.
Proof.
  unfold NodeDB.upd_Row, NodeDB.get_Row.
  destruct (NodeDB.m_States db !! row) as [r|]; [|discriminate].
  intros [= <-]. exists r. done.
Qed.

(** X24. The admission of a body by [OnBlock]. It answers [Accepted] only
    for a body within the size limit, of a stored header that is not
    [Functional] and not below [LoHorizon]; with any other status the
    processor is as it was. For an accepted body the row of the header gets
    the body, the [Functional] flag and the peer; the reorg runs if that
    made the row [Reachable], and otherwise nothing else has changed. In
    either case the processor ends with its cursor carrying the header of
    its row, and no state has been made up: every row of the store was there
    before with the same header and parent. [OnBlockData] is called once. *)
Theorem OnBlock_admission (fuel : nat) (id : SystemState.ID.t) (block : ByteBuffer)
    (peer : PeerID) (p : NodeProcessor.t) (st : DataStatus.Enum) (ns : list Notice)
    (p' : NodeProcessor.t) :
  no_null_row (NodeProcessor.m_DB p) -> cursor_synced p ->
  OnBlock fuel id block peer p = Ret (st, ns, p') ->
  let db := NodeProcessor.m_DB p in
  ns = [OnBlockData]
  /\ (st <> DataStatus.Accepted -> p' = p)
  /\ (st = DataStatus.Accepted ->
      exists r,
        let row := StateFindSafe db id in
        let db3 := NodeDB.set_States
                     (<[row := NodeDB.set_RowPeer (Some peer)
                                 (NodeDB.set_Functional true (NodeDB.set_Body block r))]>
                        (NodeDB.m_States db)) db in
        NodeDB.m_States db !! row = Some r
        /\ get_ID (NodeDB.r_Hdr r) = id
        /\ NodeDB.r_Functional r = false
        /\ N.of_nat (length block) <= Rules.MaxBodySize rules
        /\ Cursor.m_LoHorizon (NodeProcessor.m_Cursor p) <= SystemState.ID.m_Height id
        /\ (if NodeDB.IsReachable (Rules.HeightGenesis rules) db3 row
            then TryGoUp fuel (NodeProcessor.set_DB db3 p) = Ret p'
            else p' = NodeProcessor.set_DB db3 p))
  /\ cursor_synced p' /\ no_null_row (NodeProcessor.m_DB p')
  /\ forall row r', NodeDB.m_States (NodeProcessor.m_DB p') !! row = Some r' ->
       exists r, NodeDB.m_States db !! row = Some r
                 /\ NodeDB.r_Hdr r' = NodeDB.r_Hdr r /\ NodeDB.r_RowPrev r' = NodeDB.r_RowPrev r.
Proof.
  intros H0 Hsy Hrun db.
  assert (Hsame : p' = p ->
            cursor_synced p' /\ no_null_row (NodeProcessor.m_DB p')
            /\ forall row r', NodeDB.m_States (NodeProcessor.m_DB p') !! row = Some r' ->
                 exists r, NodeDB.m_States db !! row = Some r
                           /\ NodeDB.r_Hdr r' = NodeDB.r_Hdr r
                           /\ NodeDB.r_RowPrev r' = NodeDB.r_RowPrev r).
  { intros ->. split_and!; [exact Hsy | exact H0 |]. intros row r' Hr'. exists r'. done. }
  unfold OnBlock in Hrun. fold db in Hrun.
  destruct (Rules.MaxBodySize rules <? N.of_nat (length block)) eqn:Hsz.
  { injection Hrun as <- <- <-. split_and!; try done; apply Hsame; reflexivity. }
  apply N.ltb_ge in Hsz.
  destruct (StateFindSafe db id =? 0) eqn:Hz.
  { injection Hrun as <- <- <-. split_and!; try done; apply Hsame; reflexivity. }
  apply N.eqb_neq in Hz.
  destruct (StateFindSafe_found db id H0 Hz) as (r & Hr & Hid).
  apply bind_Ret_inv in Hrun as (flags0 & Hfl & Hrun).
  assert (Hfl0 : NodeDB.StateFlags.Functional flags0 = NodeDB.r_Functional r).
  { revert Hfl. unfold NodeDB.GetStateFlags, NodeDB.get_Row. rewrite Hr.
    intros [= <-]. reflexivity. }
  rewrite Hfl0 in Hrun.
  destruct (NodeDB.r_Functional r) eqn:Hfn.
  { injection Hrun as <- <- <-. split_and!; try done; apply Hsame; reflexivity. }
  destruct (SystemState.ID.m_Height id <? _) eqn:Hlo.
  { injection Hrun as <- <- <-. split_and!; try done; apply Hsame; reflexivity. }
  apply N.ltb_ge in Hlo. rename Hrun into Hb.
  apply bind_Ret_inv in Hb as (db1 & H1 & Hb).
  apply bind_Ret_inv in Hb as (db2 & H2 & Hb).
  apply bind_Ret_inv in Hb as (db3 & H3 & Hb).
  apply bind_Ret_inv in Hb as (flags & H4 & Hb).
  apply bind_Ret_inv in Hb as (p1 & Hgo & Hb). injection Hb as <- <- <-.
  apply upd_Row_inv in H1 as (r1 & Hr1 & ->). rewrite Hr in Hr1. injection Hr1 as <-.
  apply upd_Row_inv in H2 as (r2 & Hr2 & ->). cbn in Hr2. rewrite lookup_insert_eq in Hr2.
  injection Hr2 as <-.
  apply upd_Row_inv in H3 as (r3 & Hr3 & ->). cbn in Hr3. rewrite lookup_insert_eq in Hr3.
  injection Hr3 as <-.
  cbn in H4, Hgo. rewrite !insert_insert_eq in H4, Hgo.
  set (db3 := NodeDB.set_States
                (<[StateFindSafe db id :=
                     NodeDB.set_RowPeer (Some peer)
                       (NodeDB.set_Functional true (NodeDB.set_Body block r))]>
                   (NodeDB.m_States db)) db) in *.
  assert (Hflags : NodeDB.StateFlags.Reachable flags =
                   NodeDB.IsReachable (Rules.HeightGenesis rules) db3 (StateFindSafe db id)).
  { revert H4. unfold NodeDB.GetStateFlags, NodeDB.get_Row. cbn.
    rewrite lookup_insert_eq. intros [= <-]. reflexivity. }
  rewrite Hflags in Hgo.
  assert (H03 : no_null_row db3).
  { unfold no_null_row, db3. cbn. rewrite lookup_insert_ne by done. exact H0. }
  assert (Hrows3 : forall row r', NodeDB.m_States db3 !! row = Some r' ->
            exists r0, NodeDB.m_States db !! row = Some r0
                       /\ NodeDB.r_Hdr r' = NodeDB.r_Hdr r0
                       /\ NodeDB.r_RowPrev r' = NodeDB.r_RowPrev r0).
  { intros row r'. unfold db3. cbn. rewrite lookup_insert.
    destruct (decide (StateFindSafe db id = row)) as [<-|Hne]; simpl.
    - intros [= <-]. exists r. done.
    - intros Hr'. exists r'. done. }
  assert (Hsy3 : cursor_synced (NodeProcessor.set_DB db3 p)).
  { unfold cursor_synced. cbn. intros r' Hr'.
    destruct (Hrows3 _ _ Hr') as (r0 & Hr0 & Hh & _). rewrite Hh. exact (Hsy r0 Hr0). }
  split_and!; [reflexivity | done | | | |].
  - intros _. exists r. cbv zeta. fold db3.
    split_and!; [exact Hr | exact Hid | exact Hfn | exact Hsz | exact Hlo |].
    destruct (NodeDB.IsReachable _ db3 _); [exact Hgo | injection Hgo as <-; reflexivity].
  - destruct (NodeDB.IsReachable _ db3 _).
    + apply TryGoUp_rows in Hgo as (? & _); [assumption | exact H03 | exact Hsy3].
    + injection Hgo as <-. exact Hsy3.
  - destruct (NodeDB.IsReachable _ db3 _).
    + apply TryGoUp_rows in Hgo as (_ & ? & _); [assumption | exact H03 | exact Hsy3].
    + injection Hgo as <-. exact H03.
  - destruct (NodeDB.IsReachable _ db3 _).
    + apply TryGoUp_rows in Hgo as (_ & _ & Hrows); [|exact H03 | exact Hsy3].
      intros row r' Hr'. destruct (Hrows _ _ Hr') as (r1 & Hr1 & Hh1 & Hp1).
      destruct (Hrows3 _ _ Hr1) as (r0 & Hr0 & Hh0 & Hp0). exists r0.
      split_and!; congruence.
    + injection Hgo as <-. exact Hrows3.
Qed.

End IngressProps.

(** *** [Reachable] is a fixed point *)

Section Saturation.
Variables (HG : Height) (m : gmap N NodeDB.StateRow).

Lemma elem_of_reach_set (n : nat) (row : RowId) :
  row ∈ reach_set HG m n <-> NodeDB.reachable_in HG m n row = true.
Proof.
  unfold reach_set. rewrite elem_of_dom. split.
  - intros [r Hr]. apply map_lookup_filter_Some in Hr as [_ Hr]. exact Hr.
  - intros Hr. destruct n as [|n]; [discriminate|]. pose proof Hr as Hr'.
    cbn [NodeDB.reachable_in] in Hr'. destruct (m !! row) as [r|] eqn:Hl; [|discriminate].
    exists r. apply map_lookup_filter_Some. split; [exact Hl | exact Hr].
Qed.

Lemma reach_set_mono (n : nat) : reach_set HG m n ⊆ reach_set HG m (S n).
Proof.
  intros row. rewrite !elem_of_reach_set. apply reachable_in_mono. lia.
Qed.

Lemma reach_set_dom (n : nat) : reach_set HG m n ⊆ dom m.
Proof. unfold reach_set. apply dom_filter_subseteq. Qed.

Lemma reach_set_stable (n : nat) :
  reach_set HG m n = reach_set HG m (S n) -> reach_set HG m (S n) = reach_set HG m (S (S n)).
Proof.
  intros Heq. apply set_eq. intros row. rewrite !elem_of_reach_set.
  cbn [NodeDB.reachable_in]. destruct (m !! row) as [r|]; [|done].
  destruct (NodeDB.r_Functional r); [|done]. simpl.
  destruct (_ =? HG); [done|]. simpl.
  destruct n as [|n].
  - assert (Hin : NodeDB.r_RowPrev r ∈ reach_set HG m 1 <-> NodeDB.r_RowPrev r ∈ reach_set HG m 0)
      by (rewrite <- Heq; done).
    rewrite !elem_of_reach_set in Hin. cbn [NodeDB.reachable_in] in Hin. symmetry. exact Hin.
  - assert (Hin : NodeDB.r_RowPrev r ∈ reach_set HG m (S n) <-> NodeDB.r_RowPrev r ∈ reach_set HG m (S (S n)))
      by (rewrite <- Heq; done).
    rewrite !elem_of_reach_set in Hin. cbn [NodeDB.reachable_in] in Hin. exact Hin.
Qed.

Lemma reach_set_grows (n : nat) :
  reach_set HG m n = reach_set HG m (S n) \/ (n <= size (reach_set HG m n))%nat.
Proof.
  induction n as [|n IH]; [right; lia|].
  destruct IH as [Heq|Hsz]; [left; apply reach_set_stable; exact Heq|].
  destruct (decide (reach_set HG m n = reach_set HG m (S n))) as [Heq|Hne];
    [left; apply reach_set_stable; exact Heq|].
  right.
  assert (Hlt : (size (reach_set HG m n) < size (reach_set HG m (S n)))%nat).
  { apply subset_size. split; [apply reach_set_mono|].
    intros Hsub. apply Hne. apply set_eq. intros row. split; [apply reach_set_mono | apply Hsub]. }
  lia.
Qed.

Lemma reachable_in_saturated (row : RowId) :
  NodeDB.reachable_in HG m (S (size m)) row = NodeDB.reachable_in HG m (size m) row.
Proof.
  assert (Heq : reach_set HG m (size m) = reach_set HG m (S (size m))).
  { destruct (reach_set_grows (size m)) as [Heq|Hsz]; [exact Heq|].
    destruct (decide (reach_set HG m (size m) = reach_set HG m (S (size m)))) as [Heq|Hne]; [exact Heq|].
    exfalso.
    assert (Hlt : (size (reach_set HG m (size m)) < size (reach_set HG m (S (size m))))%nat).
    { apply subset_size. split; [apply reach_set_mono|].
      intros Hsub. apply Hne. apply set_eq. intros k. split; [apply reach_set_mono | apply Hsub]. }
    pose proof (subseteq_size _ _ (reach_set_dom (S (size m)))) as Hle.
    rewrite size_dom in Hle. lia. }
  assert (Hin : row ∈ reach_set HG m (S (size m)) <-> row ∈ reach_set HG m (size m))
    by (rewrite <- Heq; done).
  rewrite !elem_of_reach_set in Hin.
  destruct (NodeDB.reachable_in HG m (S (size m)) row);
    destruct (NodeDB.reachable_in HG m (size m) row); try reflexivity.
  - symmetry. apply Hin. reflexivity.
  - apply Hin. reflexivity.
Qed.

End Saturation.

(** A stored state is [Reachable] exactly when it is [Functional] and
    either at the genesis height or on a [Reachable] parent: the bound of
    the walk in [IsReachable] loses nothing. *)
Lemma IsReachable_step (HG : Height) (db : NodeDB.t) (row : RowId) (r : NodeDB.StateRow) :
  NodeDB.m_States db !! row = Some r ->
  NodeDB.IsReachable HG db row =
    NodeDB.r_Functional r
    && ((SystemState.Full.m_Height (NodeDB.r_Hdr r) =? HG)
        || NodeDB.IsReachable HG db (NodeDB.r_RowPrev r)).
Proof.
  intros Hr. unfold NodeDB.IsReachable.
  rewrite <- (reachable_in_saturated HG (NodeDB.m_States db) row).
  cbn [NodeDB.reachable_in]. rewrite Hr. reflexivity.
Qed.

Section Congestions.
Context {E : Externals}.

Lemma GetStateFlags_Reachable (db : NodeDB.t) (row : RowId) (flags : NodeDB.StateFlags.t) :
  NodeDB.GetStateFlags (Rules.HeightGenesis rules) db row = Ret flags ->
  NodeDB.StateFlags.Reachable flags = NodeDB.IsReachable (Rules.HeightGenesis rules) db row
  /\ exists r, NodeDB.m_States db !! row = Some r.
Proof.
  unfold NodeDB.GetStateFlags, NodeDB.get_Row.
  destruct (NodeDB.m_States db !! row) as [r|]; [|discriminate].
  intros [= <-]. split; [reflexivity | eauto].
Qed.

(** Where the walk of [EnumCongestions] stops. *)
Lemma congestion_walk_spec (db : NodeDB.t) (fuel : nat) : forall sid sid1 bBlock,
  congestion_walk fuel db sid = Ret (sid1, bBlock) ->
  NodeDB.IsReachable (Rules.HeightGenesis rules) db (StateID.m_Row sid) = false ->
  NodeDB.IsReachable (Rules.HeightGenesis rules) db (StateID.m_Row sid1) = false
  /\ (bBlock = true -> Rules.HeightGenesis rules < StateID.m_Height sid1 ->
      exists r, NodeDB.m_States db !! StateID.m_Row sid1 = Some r
                /\ NodeDB.IsReachable (Rules.HeightGenesis rules) db (NodeDB.r_RowPrev r) = true)
  /\ (bBlock = false ->
      exists r, NodeDB.m_States db !! StateID.m_Row sid1 = Some r /\ NodeDB.r_RowPrev r = 0).
Proof.
  assert (Hstep : forall sid sid1 bBlock
            (k : StateID.t -> Outcome (StateID.t * bool)),
            (forall sidPrev,
               NodeDB.IsReachable (Rules.HeightGenesis rules) db (StateID.m_Row sidPrev) = false ->
               k sidPrev = Ret (sid1, bBlock) ->
               NodeDB.IsReachable (Rules.HeightGenesis rules) db (StateID.m_Row sid1) = false
               /\ (bBlock = true -> Rules.HeightGenesis rules < StateID.m_Height sid1 ->
                   exists r, NodeDB.m_States db !! StateID.m_Row sid1 = Some r
                             /\ NodeDB.IsReachable (Rules.HeightGenesis rules) db
                                  (NodeDB.r_RowPrev r) = true)
               /\ (bBlock = false ->
                   exists r, NodeDB.m_States db !! StateID.m_Row sid1 = Some r
                             /\ NodeDB.r_RowPrev r = 0)) ->
            (if Rules.HeightGenesis rules <? StateID.m_Height sid then
               '(ok, sidPrev) ← NodeDB.get_Prev db sid;
               if negb ok then Ret (sid, false)
               else
                 flags ← NodeDB.GetStateFlags (Rules.HeightGenesis rules) db
                           (StateID.m_Row sidPrev);
                 if NodeDB.StateFlags.Reachable flags then Ret (sid, true)
                 else k sidPrev
             else Ret (sid, true)) = Ret (sid1, bBlock) ->
            NodeDB.IsReachable (Rules.HeightGenesis rules) db (StateID.m_Row sid) = false ->
            NodeDB.IsReachable (Rules.HeightGenesis rules) db (StateID.m_Row sid1) = false
            /\ (bBlock = true -> Rules.HeightGenesis rules < StateID.m_Height sid1 ->
                exists r, NodeDB.m_States db !! StateID.m_Row sid1 = Some r
                          /\ NodeDB.IsReachable (Rules.HeightGenesis rules) db
                               (NodeDB.r_RowPrev r) = true)
            /\ (bBlock = false ->
                exists r, NodeDB.m_States db !! StateID.m_Row sid1 = Some r
                          /\ NodeDB.r_RowPrev r = 0)).
  { intros sid sid1 bBlock k Hk.
    destruct (Rules.HeightGenesis rules <? StateID.m_Height sid) eqn:Hh.
    2:{ intros [= <- <-] Hnr. apply N.ltb_ge in Hh. split_and!; [exact Hnr | lia | done]. }
    unfold NodeDB.get_Prev, NodeDB.get_PrevRow, NodeDB.get_Row.
    destruct (NodeDB.m_States db !! StateID.m_Row sid) as [r|] eqn:Hr; [|discriminate].
    cbn. destruct (NodeDB.r_RowPrev r =? 0) eqn:Hp; cbn.
    { intros [= <- <-] Hnr. apply N.eqb_eq in Hp.
      split_and!; [exact Hnr | done | intros _; eauto]. }
    intros Hb Hnr. apply bind_Ret_inv in Hb as (flags & Hfl & Hb).
    apply GetStateFlags_Reachable in Hfl as [Hfl _]. cbn in Hfl. rewrite Hfl in Hb.
    destruct (NodeDB.IsReachable _ db (NodeDB.r_RowPrev r)) eqn:Hpr.
    - injection Hb as <- <-. split_and!; [exact Hnr | intros _ _; eauto | done].
    - refine (Hk _ _ Hb). exact Hpr. }
  induction fuel as [|fuel IH]; intros sid sid1 bBlock; cbn [congestion_walk].
  - apply Hstep. intros sidPrev _ Hd. discriminate.
  - apply Hstep. intros sidPrev Hnr Hrec. exact (IH _ _ _ Hrec Hnr).
Qed.

(** What a request of [EnumCongestions] names. *)
Lemma congestion_of_spec (fuel : nat) (p : NodeProcessor.t) (sid : StateID.t) (rq : Request) :
  congestion_of fuel p sid = Ret (Some rq) ->
  let db := NodeProcessor.m_DB p in
  Cursor.m_LoHorizon (NodeProcessor.m_Cursor p) <= SystemState.ID.m_Height (rq_ID rq)
  /\ exists row r,
       NodeDB.m_States db !! row = Some r
       /\ NodeDB.IsReachable (Rules.HeightGenesis rules) db row = false
       /\ rq_Peer rq = NodeDB.r_Peer r
       /\ if rq_bBlock rq then
            SystemState.ID.m_Hash (rq_ID rq) = State_get_Hash (NodeDB.r_Hdr r)
            /\ (Rules.HeightGenesis rules < SystemState.ID.m_Height (rq_ID rq) ->
                NodeDB.IsReachable (Rules.HeightGenesis rules) db (NodeDB.r_RowPrev r) = true)
            /\ NodeDB.r_Functional r
               && ((Rules.HeightGenesis rules <? SystemState.ID.m_Height (rq_ID rq))
                   || (SystemState.Full.m_Height (NodeDB.r_Hdr r) =? Rules.HeightGenesis rules))
               = false
          else
            NodeDB.r_RowPrev r = 0
            /\ rq_ID rq = SystemState.ID.mk
                            (height_sub (SystemState.Full.m_Height (NodeDB.r_Hdr r)) 1)
                            (SystemState.Full.m_Prev (NodeDB.r_Hdr r)).
Proof.
  intros Hrun db. unfold congestion_of in Hrun. fold db in Hrun.
  apply bind_Ret_inv in Hrun as (flags & Hfl & Hrun).
  apply GetStateFlags_Reachable in Hfl as [Hfl _]. rewrite Hfl in Hrun.
  destruct (NodeDB.IsReachable _ db (StateID.m_Row sid)) eqn:Hnr; [discriminate|].
  apply bind_Ret_inv in Hrun as (wrk & _ & Hrun).
  destruct (wrk <? _); [discriminate|].
  apply bind_Ret_inv in Hrun as ([sid1 bBlock] & Hwalk & Hrun).
  apply congestion_walk_spec in Hwalk as (Hnr1 & Hblk & Hhdr); [|exact Hnr].
  apply bind_Ret_inv in Hrun as (id & Hid & Hrun).
  destruct (_ <=? SystemState.ID.m_Height id) eqn:Hlo; [|discriminate].
  apply N.leb_le in Hlo.
  apply bind_Ret_inv in Hrun as (peer & Hpeer & Hrun). injection Hrun as <-. simpl.
  split; [exact Hlo|].
  revert Hpeer. unfold NodeDB.get_Peer, NodeDB.get_Row.
  destruct (NodeDB.m_States db !! StateID.m_Row sid1) as [r|] eqn:Hr; [|discriminate].
  intros [= <-]. exists (StateID.m_Row sid1), r.
  split_and!; [exact Hr | exact Hnr1 | reflexivity |].
  pose proof (IsReachable_step (Rules.HeightGenesis rules) db _ r Hr) as Hstep.
  rewrite Hnr1 in Hstep.
  destruct bBlock.
  - revert Hid. unfold get_StateID, NodeDB.get_Row. rewrite Hr. intros [= <-]. simpl.
    assert (Hpar : Rules.HeightGenesis rules < StateID.m_Height sid1 ->
              NodeDB.IsReachable (Rules.HeightGenesis rules) db (NodeDB.r_RowPrev r) = true).
    { intros Hh. destruct (Hblk eq_refl Hh) as (r' & Hr' & Hp). congruence. }
    split_and!; [reflexivity | exact Hpar |].
    destruct (NodeDB.r_Functional r); [|reflexivity]. simpl in *.
    symmetry in Hstep. apply orb_false_iff in Hstep as [Hg Hp]. rewrite Hg, orb_false_r.
    apply N.ltb_ge. destruct (N.le_gt_cases (StateID.m_Height sid1) (Rules.HeightGenesis rules))
      as [Hle|Hgt]; [exact Hle|]. rewrite (Hpar Hgt) in Hp. discriminate.
  - destruct (Hhdr eq_refl) as (r' & Hr' & Hp). injection Hr' as <-.
    revert Hid. unfold NodeDB.get_State, NodeDB.get_Row. rewrite Hr. intros [= <-].
    split; [exact Hp | reflexivity].
Qed.

Lemma EnumCongestions_elem (fuel : nat) (p : NodeProcessor.t) (tips : list StateID.t) :
  forall reqs,
  foldl (fun acc sid => reqs ← acc; o ← congestion_of fuel p sid;
                        Ret (reqs ++ match o with Some rq => [rq] | None => [] end))
        (Ret []) tips = Ret reqs ->
  forall rq, rq ∈ reqs -> exists sid, sid ∈ tips /\ congestion_of fuel p sid = Ret (Some rq).
Proof.
  induction tips as [|sid tips IH] using rev_ind; intros reqs.
  - intros [= <-] rq Hin. inversion Hin.
  - rewrite foldl_app. cbn [foldl]. intros Hb.
    apply bind_Ret_inv in Hb as (reqs0 & H0 & Hb).
    apply bind_Ret_inv in Hb as (o & Ho & Hb). injection Hb as <-.
    intros rq Hin. apply elem_of_app in Hin as [Hin|Hin].
    + destruct (IH _ H0 _ Hin) as (sid' & Hs & Hc). exists sid'. split; [|exact Hc].
      apply elem_of_app. left. exact Hs.
    + destruct o as [rq'|]; [|inversion Hin]. apply list_elem_of_singleton in Hin as ->.
      exists sid. split; [|exact Ho]. apply elem_of_app. right. apply list_elem_of_singleton.
      reflexivity.
Qed.

(** X25. [EnumCongestions] asks only for what is missing. Every request
    names a height that is not below [LoHorizon], and comes from a stored
    state that is not [Reachable], with the peer of that state as the
    preferred one. A request for a body names that state by the hash of its
    header; above the genesis height the parent of the state is [Reachable],
    and the state is not [Functional] there or when its header is at the
    genesis height. A request for a header comes from a state whose parent
    is not stored and names the parent: the height below and [m_Prev]. *)
Theorem EnumCongestions_requests (fuel : nat) (p : NodeProcessor.t) (reqs : list Request) :
  EnumCongestions fuel p = Ret reqs ->
  let db := NodeProcessor.m_DB p in
  forall rq, rq ∈ reqs ->
    Cursor.m_LoHorizon (NodeProcessor.m_Cursor p) <= SystemState.ID.m_Height (rq_ID rq)
    /\ exists row r,
         NodeDB.m_States db !! row = Some r
         /\ NodeDB.IsReachable (Rules.HeightGenesis rules) db row = false
         /\ rq_Peer rq = NodeDB.r_Peer r
         /\ if rq_bBlock rq then
              SystemState.ID.m_Hash (rq_ID rq) = State_get_Hash (NodeDB.r_Hdr r)
              /\ (Rules.HeightGenesis rules < SystemState.ID.m_Height (rq_ID rq) ->
                  NodeDB.IsReachable (Rules.HeightGenesis rules) db (NodeDB.r_RowPrev r) = true)
              /\ NodeDB.r_Functional r
                 && ((Rules.HeightGenesis rules <? SystemState.ID.m_Height (rq_ID rq))
                     || (SystemState.Full.m_Height (NodeDB.r_Hdr r) =? Rules.HeightGenesis rules))
                 = false
            else
              NodeDB.r_RowPrev r = 0
              /\ rq_ID rq = SystemState.ID.mk
                              (height_sub (SystemState.Full.m_Height (NodeDB.r_Hdr r)) 1)
                              (SystemState.Full.m_Prev (NodeDB.r_Hdr r)).
Proof.
  intros Hrun db rq Hin. unfold EnumCongestions in Hrun.
  destruct (EnumCongestions_elem _ _ _ _ Hrun rq Hin) as (sid & _ & Hc).
  exact (congestion_of_spec fuel p sid rq Hc).
Qed.

End Congestions.

Lemma OnState_admission_witness :
  @OnState demo demo_admission 1000 ingress_header 42 ingress_processor
    = Ret (DataStatus.Accepted, [OnStateData], ingress_state)
  /\ ingress_state = NodeProcessor.set_DB (NodeProcessor.m_DB ingress_state) ingress_processor
  /\ (forall row r, NodeDB.m_States (NodeProcessor.m_DB ingress_processor) !! row = Some r ->
        @get_ID demo (NodeDB.r_Hdr r) <> @get_ID demo ingress_header).
Proof.
  assert (Hrun : @OnState demo demo_admission 1000 ingress_header 42 ingress_processor
                 = Ret (DataStatus.Accepted, [OnStateData], ingress_state))
    by (vm_compute; reflexivity).
  destruct (@OnState_admission demo demo_admission 1000 ingress_header 42 ingress_processor
              DataStatus.Accepted [OnStateData] ingress_state)
    as (_ & _ & _ & _ & Hacc & _ & Hst).
  - vm_compute. reflexivity.
  - exact Hrun.
  - destruct (Hst eq_refl) as (rowid & db1 & _ & _ & Hp).
    destruct (proj1 Hacc eq_refl) as (_ & _ & Hnew).
    split_and!; [exact Hrun | exact Hp |].
    intros row r Hr Hid. apply Hnew. exists row, r. split; assumption.
Defined.

Lemma OnBlock_admission_witness :
  @OnBlock demo 10 (SystemState.ID.mk 5 5) [1; 77] 42 ingress_processor
    = Ret (DataStatus.Accepted, [OnBlockData], ingress_block)
  /\ cursor_synced ingress_block
  /\ Cursor.m_Sid (NodeProcessor.m_Cursor ingress_block) = StateID.mk 5 5
  /\ @OnBlock demo 10 (SystemState.ID.mk 4 4) [1; 77] 42 ingress_processor
       = Ret (DataStatus.Rejected, [OnBlockData], ingress_processor).
Proof.
  assert (Hrun : @OnBlock demo 10 (SystemState.ID.mk 5 5) [1; 77] 42 ingress_processor
                 = Ret (DataStatus.Accepted, [OnBlockData], ingress_block))
    by (vm_compute; reflexivity).
  destruct (@OnBlock_admission demo 10 (SystemState.ID.mk 5 5) [1; 77] 42 ingress_processor
              DataStatus.Accepted [OnBlockData] ingress_block)
    as (_ & _ & _ & Hsy & _).
  - vm_compute. reflexivity.
  - intros r. vm_compute. intros [= <-]. reflexivity.
  - exact Hrun.
  - split_and!; [exact Hrun | exact Hsy | vm_compute; reflexivity | vm_compute; reflexivity].
Defined.

Lemma EnumCongestions_requests_witness :
  @EnumCongestions demo 10 ingress_processor = Ret congestion_requests
  /\ congestion_requests =
       [ mkRequest (SystemState.ID.mk 5 5) true None;
         mkRequest (SystemState.ID.mk 7 7) false (Some 9) ]
  /\ exists row r,
       NodeDB.m_States (NodeProcessor.m_DB ingress_processor) !! row = Some r
       /\ NodeDB.r_Functional r = false
       /\ @State_get_Hash demo (NodeDB.r_Hdr r) = 5.
Proof.
  assert (Hrun : @EnumCongestions demo 10 ingress_processor = Ret congestion_requests)
    by (vm_compute; reflexivity).
  assert (Hin : mkRequest (SystemState.ID.mk 5 5) true None ∈ congestion_requests)
    by (vm_compute; apply list_elem_of_here).
  split_and!; [exact Hrun | vm_compute; reflexivity |].
  destruct (@EnumCongestions_requests demo 10 ingress_processor congestion_requests
              Hrun _ Hin) as (_ & row & r & Hr & _ & _ & Hh & _ & Hf).
  exists row, r. simpl in Hh, Hf. rewrite andb_true_r in Hf.
  split_and!; [exact Hr | exact Hf | symmetry; exact Hh].
Defined.

(** ** The template is undone *)

Section Templating3.
Context `{Externals}.

Lemma kernels_prefix_refl (B : TxVectors.t) : kernels_prefix B B.
Proof. split; reflexivity. Qed.

Lemma kernels_prefix_trans (B1 B2 B3 : TxVectors.t) :
  kernels_prefix B1 B2 -> kernels_prefix B2 B3 -> kernels_prefix B1 B3.
Proof. intros [H1 H2] [H3 H4]. split; etrans; eassumption. Qed.

Lemma kernels_apart_prefix (B B' : TxVectors.t) :
  kernels_prefix B B' -> kernels_apart B' -> kernels_apart B.
Proof.
  intros [[k1 H1] [k2 H2]] Hap id Hin Hout. apply (Hap id).
  - rewrite H1. unfold kernel_ids in *. rewrite fmap_app. apply elem_of_app. left. exact Hin.
  - rewrite H2. unfold kernel_ids in *. rewrite fmap_app. apply elem_of_app. left. exact Hout.
Qed.

Lemma kernels_prefix_Dump (src : TxVectors.t) (b : Body.t) :
  kernels_prefix (Body.m_Txv b) (Body.m_Txv (Dump src b)).
Proof. destruct b as [? ? ? []]. split; simpl; apply prefix_app_r; reflexivity. Qed.

Lemma kernels_prefix_push_Output (v : Output.t) (b : Body.t) :
  kernels_prefix (Body.m_Txv b) (Body.m_Txv (push_Output v b)).
Proof. destruct b as [? ? ? []]. split; simpl; reflexivity. Qed.

Lemma kernels_prefix_push_KernelOutput (v : TxKernel.t) (b : Body.t) :
  kernels_prefix (Body.m_Txv b) (Body.m_Txv (push_KernelOutput v b)).
Proof. destruct b as [? ? ? []]. split; simpl; [reflexivity | apply prefix_app_r; reflexivity]. Qed.

(** A forward [HandleValidatedTx] that answers [false] has put everything
    back. *)
Lemma HandleValidatedTx_false_same (txv : TxVectors.t) (h : Height) (bAdj : bool)
    (pHMax : option Height) (p : NodeProcessor.t) (txv' : TxVectors.t) (p' : NodeProcessor.t) :
  Utxos_wf (NodeProcessor.m_Utxos p) -> TxVectors_32bit txv ->
  HandleValidatedTx txv h true bAdj pHMax p = Ret (false, txv', p') -> p' = p.
Proof.
  intros Hwf (Hl1 & Hl2 & Hl3 & Hl4). unfold HandleValidatedTx.
  destruct (loop_UtxoIn _ _ _ _ _ _ _) as [[[ok1 nInp] ins] u1] eqn:H1.
  destruct (if ok1 then _ else _) as [[ok2 nOut] u2] eqn:H2.
  destruct (if ok2 then _ else _) as [[ok3 nKrnInp] k1] eqn:H3.
  destruct (if ok3 then _ else _) as [[ok4 nKrnOut] k2] eqn:H4.
  destruct ok4; [intros [= _ _]; discriminate|]. cbn [negb].
  intros [= <- <-].
  rewrite (rollback_Utxos _ _ _ _ _ _ _ _ _ _ _ _ _ Hwf Hl1 Hl2 H1 H2).
  rewrite (rollback_Kernels _ _ _ _ _ _ _ _ _ _ Hl3 Hl4 H3 H4).
  apply set_trees_same.
Qed.

Lemma templated_start (h : Height) (p : NodeProcessor.t) :
  Utxos_wf (NodeProcessor.m_Utxos p) -> templated h p (TxVectors.mk [] [] [] []) p.
Proof.
  intros Hwf. unfold templated. simpl.
  split_and!; [exact Hwf | constructor | intros k; lia | set_solver | constructor
              | intros id Hin; inversion Hin | constructor | intros id Hin; inversion Hin
              | destruct p; reflexivity].
Qed.

(** The cached size of a commission output is not part of the relation. *)
Lemma templated_nSize (h : Height) (p0 : NodeProcessor.t) (B : TxVectors.t)
    (q : NodeProcessor.t) (n : N) :
  templated h p0 B q -> templated h p0 B (NodeProcessor.set_nSizeUtxoComission n q).
Proof.
  unfold templated. intros (H1 & H2 & H3 & H4 & H5 & H6 & H7 & H8 & H9). simpl.
  split_and!; try assumption. rewrite H9. reflexivity.
Qed.

(** A transaction interpreted forward and dumped into the body. *)
Lemma templated_tx (h : Height) (p0 : NodeProcessor.t) (res : Body.t) (q : NodeProcessor.t)
    (txv : TxVectors.t) (bAdj : bool) (txv' : TxVectors.t) (q' : NodeProcessor.t) :
  templated h p0 (Body.m_Txv res) q ->
  HandleValidatedTx txv h true bAdj None q = Ret (true, txv', q') ->
  kernels_apart (Body.m_Txv (Dump txv' res)) ->
  templated h p0 (Body.m_Txv (Dump txv' res)) q'.
Proof.
  intros (Hwf & Hsome & Hcnt & HK & Hnd1 & Hin1 & Hnd2 & Hout2 & Hfr) Hrun Hap.
  destruct (HandleValidatedTx_forward_ok _ _ _ _ _ _ _ Hwf Hrun)
    as (ins' & u2 & -> & -> & Hwf2 & Hsome2 & Hc2 & Hnd3 & Hin3 & Hnd4 & Hout4).
  destruct res as [sub off closing [insB outsB kinB koutB]].
  destruct txv as [ins outs kin kout].
  unfold kernels_apart in Hap. unfold templated.
  cbn [Dump Body.m_Txv Body.set_Txv TxVectors.m_vInputs TxVectors.m_vOutputs
       TxVectors.m_vKernelsInput TxVectors.m_vKernelsOutput TxVectors.set_Inputs
       NodeProcessor.set_Kernels NodeProcessor.set_Utxos NodeProcessor.m_Utxos
       NodeProcessor.m_Kernels NodeProcessor.m_DB NodeProcessor.m_Cursor NodeProcessor.m_Extra
       NodeProcessor.m_Horizon NodeProcessor.m_nSizeUtxoComission NodeProcessor.m_Events] in *.
  unfold kernel_ids in *. rewrite !fmap_app in Hap. rewrite !fmap_app.
  unfold Output_keys in *.
  set (a := TxKernel.get_ID <$> kinB) in *. set (b := TxKernel.get_ID <$> koutB) in *.
  set (c := TxKernel.get_ID <$> kin) in *. set (d := TxKernel.get_ID <$> kout) in *.
  assert (Hcb : forall id, id ∈ c -> id ∉ b).
  { intros id Hc Hb. apply (Hap id); apply elem_of_app; [right | left]; assumption. }
  assert (Hca : forall id, id ∈ c -> id ∈ NodeProcessor.m_Kernels p0 /\ id ∉ a).
  { intros id Hc. pose proof (Hin3 id Hc) as Hq. rewrite HK in Hq.
    apply elem_of_union in Hq as [Hq|Hq].
    - apply elem_of_difference in Hq as [Hq1 Hq2]. split; [exact Hq1|].
      intros Ha. apply Hq2. apply elem_of_list_to_set. exact Ha.
    - apply elem_of_list_to_set in Hq. destruct (Hcb id Hc Hq). }
  assert (Hbq : forall id, id ∈ b -> id ∈ NodeProcessor.m_Kernels q ∖ list_to_set c).
  { intros id Hb. apply elem_of_difference. split.
    - rewrite HK. apply elem_of_union. right. apply elem_of_list_to_set. exact Hb.
    - intros Hc. apply elem_of_list_to_set in Hc. exact (Hcb id Hc Hb). }
  split_and!.
  - exact Hwf2.
  - apply Forall_app. split; assumption.
  - intros k. specialize (Hcnt k). specialize (Hc2 k).
    rewrite ?fmap_app, ?omap_app, !occ_app. lia.
  - rewrite HK, !list_to_set_app_L. apply set_eq. intros id.
    rewrite !elem_of_union, !elem_of_difference, !elem_of_union, !elem_of_difference,
      !elem_of_list_to_set.
    split.
    + intros [[[[H0 Ha]|Hb] Hc]|Hd]; [left | right; left | right; right]; try assumption.
      split; [exact H0|]. intros [?|?]; contradiction.
    + intros [[H0 Hn]|[Hb|Hd]].
      * left. split; [left; split; [exact H0|]|]; intros ?; apply Hn; [left | right]; assumption.
      * left. split; [right; exact Hb|]. intros Hc. exact (Hcb id Hc Hb).
      * right. exact Hd.
  - apply NoDup_app. split_and!; [exact Hnd1 | | exact Hnd3].
    intros id Ha Hc. exact (proj2 (Hca id Hc) Ha).
  - intros id Hin. apply elem_of_app in Hin as [Ha|Hc]; [exact (Hin1 id Ha) | exact (proj1 (Hca id Hc))].
  - apply NoDup_app. split_and!; [exact Hnd2 | | exact Hnd4].
    intros id Hb Hd. exact (Hout4 id Hd (Hbq id Hb)).
  - intros id Hin H0. apply elem_of_app in Hin as [Hb|Hd]; [exact (Hout2 id Hb H0)|].
    destruct (decide (id ∈ a)) as [Ha|Hna].
    { apply (Hap id); apply elem_of_app; [left | right]; assumption. }
    destruct (decide (id ∈ c)) as [Hc|Hnc].
    { apply (Hap id); apply elem_of_app; [right | right]; assumption. }
    apply (Hout4 id Hd). apply elem_of_difference. split.
    + rewrite HK. apply elem_of_union. left. apply elem_of_difference. split; [exact H0|].
      intros Hx. apply elem_of_list_to_set in Hx. contradiction.
    + intros Hx. apply elem_of_list_to_set in Hx. contradiction.
  - rewrite Hfr. reflexivity.
Qed.

(** An output created forward and pushed into the body. *)
Lemma templated_output (h : Height) (p0 : NodeProcessor.t) (res : Body.t) (q : NodeProcessor.t)
    (v : Output.t) (ok : bool) (u1 : gmap (N * N) N) :
  templated h p0 (Body.m_Txv res) q ->
  HandleBlockElement_Output v h None true (NodeProcessor.m_Utxos q) = (ok, u1) ->
  if ok then templated h p0 (Body.m_Txv (push_Output v res)) (NodeProcessor.set_Utxos u1 q)
  else NodeProcessor.set_Utxos u1 q = q.
Proof.
  intros (Hwf & Hsome & Hcnt & HK & Hnd1 & Hin1 & Hnd2 & Hout2 & Hfr) Hrun.
  pose proof (Output_forward_step _ _ _ _ _ _ Hwf Hrun) as Hstep.
  destruct ok.
  - destruct Hstep as (key & Hkey & Hwf1 & Hone).
    destruct res as [sub off closing [insB outsB kinB koutB]]. unfold templated.
    cbn [push_Output Body.m_Txv Body.set_Txv TxVectors.m_vInputs TxVectors.m_vOutputs
         TxVectors.m_vKernelsInput TxVectors.m_vKernelsOutput
         NodeProcessor.set_Utxos NodeProcessor.m_Utxos
         NodeProcessor.m_Kernels NodeProcessor.m_DB NodeProcessor.m_Cursor NodeProcessor.m_Extra
         NodeProcessor.m_Horizon NodeProcessor.m_nSizeUtxoComission NodeProcessor.m_Events] in *.
    split_and!; try assumption.
    + apply Forall_app. split; [exact Hsome|]. constructor; [|constructor]. rewrite Hkey. eauto.
    + intros k. specialize (Hcnt k). specialize (Hone k).
      unfold Output_keys in *. rewrite omap_app, occ_app. cbn [omap list_omap]. rewrite Hkey.
      cbn [occ]. lia.
    + rewrite Hfr. reflexivity.
  - subst u1. destruct q. reflexivity.
Qed.

(** An output kernel added forward and pushed into the body. *)
Lemma templated_kernel (h : Height) (p0 : NodeProcessor.t) (res : Body.t) (q : NodeProcessor.t)
    (v : TxKernel.t) (ok : bool) (k1 : gset N) :
  templated h p0 (Body.m_Txv res) q ->
  HandleBlockElement_Kernel v true false (NodeProcessor.m_Kernels q) = (ok, k1) ->
  kernels_apart (Body.m_Txv (push_KernelOutput v res)) ->
  if ok then templated h p0 (Body.m_Txv (push_KernelOutput v res)) (NodeProcessor.set_Kernels k1 q)
  else NodeProcessor.set_Kernels k1 q = q.
Proof.
  intros (Hwf & Hsome & Hcnt & HK & Hnd1 & Hin1 & Hnd2 & Hout2 & Hfr) Hrun Hap.
  rewrite Kernel_add_step in Hrun by reflexivity.
  destruct (decide (TxKernel.get_ID v ∈ NodeProcessor.m_Kernels q)) as [Hin|Hnin];
    injection Hrun as <- <-; [destruct q; reflexivity|].
  destruct res as [sub off closing [insB outsB kinB koutB]]. unfold templated.
  unfold kernels_apart in Hap.
  cbn [push_KernelOutput Body.m_Txv Body.set_Txv TxVectors.m_vInputs TxVectors.m_vOutputs
       TxVectors.m_vKernelsInput TxVectors.m_vKernelsOutput
       NodeProcessor.set_Kernels NodeProcessor.m_Utxos
       NodeProcessor.m_Kernels NodeProcessor.m_DB NodeProcessor.m_Cursor NodeProcessor.m_Extra
       NodeProcessor.m_Horizon NodeProcessor.m_nSizeUtxoComission NodeProcessor.m_Events] in *.
  unfold kernel_ids in *. rewrite fmap_app in Hap. rewrite fmap_app. cbn [fmap list_fmap] in *.
  set (a := TxKernel.get_ID <$> kinB) in *. set (b := TxKernel.get_ID <$> koutB) in *.
  set (x := TxKernel.get_ID v) in *.
  assert (Hxb : x ∉ b).
  { intros Hb. apply Hnin. rewrite HK. apply elem_of_union. right.
    apply elem_of_list_to_set. exact Hb. }
  assert (Hxa : x ∉ a).
  { intros Ha. apply (Hap x Ha). apply elem_of_app. right. apply list_elem_of_singleton.
    reflexivity. }
  split_and!; try assumption.
  - rewrite HK, list_to_set_app_L. simpl. set_solver.
  - apply NoDup_app. split_and!; [exact Hnd2 | | apply NoDup_singleton].
    intros id Hb Hx. apply list_elem_of_singleton in Hx as ->. exact (Hxb Hb).
  - intros id Hin H0. apply elem_of_app in Hin as [Hb|Hx]; [exact (Hout2 id Hb H0)|].
    apply list_elem_of_singleton in Hx as ->. apply Hnin. rewrite HK.
    apply elem_of_union. left. apply elem_of_difference. split; [exact H0|].
    intros Hx. apply elem_of_list_to_set in Hx. exact (Hxa Hx).
  - rewrite Hfr. reflexivity.
Qed.

Lemma pool_step_extends (h : Height) (st : PoolLoop) (x : TxPool.Element) (st' : PoolLoop) :
  pool_step h st x = Ret st' ->
  kernels_prefix (Body.m_Txv (pl_Res st)) (Body.m_Txv (pl_Res st')).
Proof.
  unfold pool_step. cbv zeta.
  repeat match goal with
         | |- context [if ?b then _ else _] => destruct b
         end;
    try (intros [= <-]; apply kernels_prefix_refl).
  all: intros Hb; apply bind_Ret_inv in Hb as ([[ok txv] p1] & Htx & Hr).
  all: destruct ok; injection Hr as <-; simpl;
    [apply kernels_prefix_Dump | apply kernels_prefix_refl].
Qed.

Lemma pool_loop_extends (h : Height) (pool : list TxPool.Element) : forall st st',
  pool_loop h st pool = Ret st' ->
  kernels_prefix (Body.m_Txv (pl_Res st)) (Body.m_Txv (pl_Res st')).
Proof.
  induction pool as [|x pool IH]; intros st st'.
  - intros [= <-]. apply kernels_prefix_refl.
  - rewrite pool_loop_cons. intros Hb. apply bind_Ret_inv in Hb as (st1 & H1 & H2).
    eapply kernels_prefix_trans; [exact (pool_step_extends _ _ _ _ H1) | exact (IH _ _ H2)].
Qed.

Lemma pool_step_templated (h : Height) (p0 : NodeProcessor.t) (st : PoolLoop)
    (x : TxPool.Element) (st' : PoolLoop) :
  templated h p0 (Body.m_Txv (pl_Res st)) (pl_Proc st) ->
  TxVectors_32bit (Transaction.m_Txv (TxPool.m_pValue x)) ->
  pool_step h st x = Ret st' ->
  kernels_apart (Body.m_Txv (pl_Res st')) ->
  templated h p0 (Body.m_Txv (pl_Res st')) (pl_Proc st').
Proof.
  intros Ht H32. unfold pool_step. cbv zeta.
  repeat match goal with
         | |- context [if ?b then _ else _] => destruct b
         end;
    try (intros [= <-] _; exact Ht).
  all: intros Hb; apply bind_Ret_inv in Hb as ([[ok txv] p1] & Htx & Hr).
  all: destruct ok; injection Hr as <-; simpl.
  all: try (intros Hap; exact (templated_tx _ _ _ _ _ _ _ _ Ht Htx Hap)).
  all: intros _; rewrite (HandleValidatedTx_false_same _ _ _ _ _ _ _ (proj1 Ht) H32 Htx);
    exact Ht.
Qed.

Lemma pool_loop_templated (h : Height) (p0 : NodeProcessor.t) (pool : list TxPool.Element) :
  forall st st',
  templated h p0 (Body.m_Txv (pl_Res st)) (pl_Proc st) ->
  Forall (fun x => TxVectors_32bit (Transaction.m_Txv (TxPool.m_pValue x))) pool ->
  pool_loop h st pool = Ret st' ->
  kernels_apart (Body.m_Txv (pl_Res st')) ->
  templated h p0 (Body.m_Txv (pl_Res st')) (pl_Proc st').
Proof.
  induction pool as [|x pool IH]; intros st st' Ht H32.
  - intros [= <-] _. exact Ht.
  - rewrite pool_loop_cons. intros Hb Hap. apply bind_Ret_inv in Hb as (st1 & H1 & H2).
    inversion H32 as [|? ? Hx Hrest]; subst.
    apply (IH st1 st'); [|exact Hrest | exact H2 | exact Hap].
    apply (pool_step_templated _ _ _ _ _ Ht Hx H1).
    exact (kernels_apart_prefix _ _ (pool_loop_extends _ _ _ _ H2) Hap).
Qed.

(** With the subsidy open and no zero key in the kernel tree, two calls of
    [ToggleSubsidyOpened] change nothing. *)
Lemma ToggleSubsidyOpened_back (q : NodeProcessor.t) :
  Extra.m_SubsidyOpen (NodeProcessor.m_Extra q) = true ->
  ZeroHash ∉ NodeProcessor.m_Kernels q ->
  ToggleSubsidyOpened (ToggleSubsidyOpened q) = q.
Proof.
  intros Hopen Hz. destruct q as [db cu u K [sub off open] hz sz ev]. simpl in *. subst open.
  unfold ToggleSubsidyOpened, Kernels_Find. simpl.
  destruct (decide (ZeroHash ∈ K)) as [Hin|_]; [contradiction|]. simpl.
  destruct (decide (ZeroHash ∈ {[ZeroHash]} ∪ K)) as [_|Hn]; [|set_solver]. simpl.
  unfold NodeProcessor.set_Kernels, NodeProcessor.set_Extra. simpl. f_equal.
  set_solver.
Qed.

Lemma templated_Extra (h : Height) (p0 : NodeProcessor.t) (B : TxVectors.t)
    (q : NodeProcessor.t) :
  templated h p0 B q -> NodeProcessor.m_Extra q = NodeProcessor.m_Extra p0.
Proof. intros (_ & _ & _ & _ & _ & _ & _ & _ & ->). reflexivity. Qed.

(** The two calls of [ToggleSubsidyOpened] around [get_Definition]. *)
Lemma templated_toggles (h : Height) (p0 : NodeProcessor.t) (B : TxVectors.t)
    (q : NodeProcessor.t) (closing : bool) :
  templated h p0 B q ->
  (closing = true ->
   Extra.m_SubsidyOpen (NodeProcessor.m_Extra p0) = true
   /\ (ZeroHash ∉ NodeProcessor.m_Kernels p0)
   /\ (ZeroHash ∉ kernel_ids (TxVectors.m_vKernelsOutput B))) ->
  (if closing then ToggleSubsidyOpened (if closing then ToggleSubsidyOpened q else q)
   else (if closing then ToggleSubsidyOpened q else q)) = q.
Proof.
  intros Ht Hz. destruct closing; [|reflexivity].
  destruct (Hz eq_refl) as (Hopen & Hz0 & Hzk).
  apply ToggleSubsidyOpened_back.
  - rewrite (templated_Extra _ _ _ _ Ht). exact Hopen.
  - destruct Ht as (_ & _ & _ & -> & _). intros Hin.
    apply elem_of_union in Hin as [Hin|Hin].
    + apply elem_of_difference in Hin as [Hin _]. exact (Hz0 Hin).
    + apply elem_of_list_to_set in Hin. exact (Hzk Hin).
Qed.

(** What [GenerateNewBlock(bc, res, h)] has done to the processor is what
    the body it leaves says. *)
Lemma GenerateNewBlock_at_templated (now : Timestamp) (bc : BlockContext.t) (res : Body.t)
    (h : Height) (p0 p : NodeProcessor.t) (n : N) (bc' : BlockContext.t) (res' : Body.t)
    (p' : NodeProcessor.t) :
  templated h p0 (Body.m_Txv res) p ->
  Forall (fun x => TxVectors_32bit (Transaction.m_Txv (TxPool.m_pValue x)))
         (BlockContext.m_TxPool bc) ->
  GenerateNewBlock_at now bc res h p = Ret (n, bc', res', p') ->
  kernels_apart (Body.m_Txv res') ->
  (Body.m_SubsidyClosing res' = true ->
   (ZeroHash ∉ NodeProcessor.m_Kernels p0)
   /\ (ZeroHash ∉ kernel_ids (TxVectors.m_vKernelsOutput (Body.m_Txv res')))) ->
  templated h p0 (Body.m_Txv res') p'.
Proof.
  intros Ht H32 Hrun Hap Hzero.
  pose proof (GenerateNewBlock_at_flag _ _ _ _ _ _ _ _ _ Hrun) as Hflag.
  assert (Hz : Body.m_SubsidyClosing res' = true ->
               Extra.m_SubsidyOpen (NodeProcessor.m_Extra p0) = true
               /\ (ZeroHash ∉ NodeProcessor.m_Kernels p0)
               /\ (ZeroHash ∉ kernel_ids (TxVectors.m_vKernelsOutput (Body.m_Txv res')))).
  { intros Hc. rewrite Hc in Hflag. symmetry in Hflag. apply andb_true_iff in Hflag as [_ Ho].
    rewrite (templated_Extra _ _ _ _ Ht) in Ho. destruct (Hzero Hc). done. }
  clear Hflag Hzero.
  revert Hrun. unfold GenerateNewBlock_at.
  set (res2 := if negb (Extra.m_SubsidyOpen (NodeProcessor.m_Extra p))
               then Body.set_SubsidyClosing false (add_Subsidy (Rules.CoinbaseEmission rules) res)
               else add_Subsidy (Rules.CoinbaseEmission rules) res).
  assert (Hres2 : Body.m_Txv res2 = Body.m_Txv res).
  { unfold res2. destruct (negb _); reflexivity. }
  assert (Ht2 : templated h p0 (Body.m_Txv res2) p) by (rewrite Hres2; exact Ht).
  clearbody res2. clear Hres2 Ht.
  destruct (Output_Create _ true _ _) as [outp sk].
  destruct (HandleBlockElement_Output outp _ _ _ _) as [ok1 u1] eqn:Hout.
  pose proof (templated_output _ _ _ _ _ _ _ Ht2 Hout) as Ht3.
  destruct ok1; simpl; [|intros [= <- <- <- <-]; rewrite Ht3; exact Ht2].
  set (krn := TxKernel.mk (CoinbaseKernel_ID (BlockContext.m_Kdf bc) h)
                (HeightRange.mk h (HeightModulus - 1))).
  set (res3 := push_Output outp res2) in *.
  set (p1 := NodeProcessor.set_Utxos u1 p) in *.
  change (NodeProcessor.m_Kernels p) with (NodeProcessor.m_Kernels p1).
  clearbody res3 p1. clear Ht2 Hout.
  destruct (HandleBlockElement_Kernel _ _ _ _) as [ok2 k1] eqn:Hkrn.
  destruct ok2; simpl.
  2:{ assert (Hp1 : NodeProcessor.set_Kernels k1 p1 = p1).
      { rewrite Kernel_add_step in Hkrn by reflexivity.
        destruct (decide _); [|discriminate]. injection Hkrn as <-.
        destruct p1; reflexivity. }
      rewrite Hp1. intros [= <- <- <- <-]. exact Ht3. }
  pose proof (fun Hap4 => templated_kernel _ _ _ _ _ _ _ Ht3 Hkrn Hap4) as Ht4.
  cbv iota in Ht4.
  set (res4 := push_KernelOutput krn res3) in *.
  set (p2 := NodeProcessor.set_Kernels k1 p1) in *.
  clearbody res4 p2. clear Ht3 Hkrn.
  destruct (_ <? _).
  { intros [= <- <- <- <-]. exact (Ht4 Hap). }
  intros Hb. apply bind_Ret_inv in Hb as (st & Hloop & Hr).
  set (p3 := if NodeProcessor.m_nSizeUtxoComission p2 =? 0
             then NodeProcessor.set_nSizeUtxoComission SizeOfConfidentialOutput p2 else p2) in *.
  pose proof (pool_loop_extends _ _ _ _ Hloop) as Hpre. simpl in Hpre.
  assert (Hloop_t : kernels_apart (Body.m_Txv (pl_Res st)) ->
                    templated h p0 (Body.m_Txv (pl_Res st)) (pl_Proc st)).
  { intros Hap5. apply (pool_loop_templated _ _ _ _ _) with (3 := Hloop); [|exact H32|exact Hap5].
    simpl. assert (Ht4' : templated h p0 (Body.m_Txv res4) p2)
      by (apply Ht4; exact (kernels_apart_prefix _ _ Hpre Hap5)).
    unfold p3. destruct (_ =? 0); [apply templated_nSize|]; exact Ht4'. }
  clear Ht4 Hloop Hpre. revert Hr.
  destruct (negb (pl_Fees st =? 0)).
  - destruct (Output_Create _ false _ _) as [outpF skF].
    destruct (HandleBlockElement_Output outpF _ _ _ _) as [okF uF] eqn:HoutF.
    destruct okF; cbn [negb].
    + intros Hr. apply bind_Ret_inv in Hr as (median & _ & Hr). injection Hr as <- <- <- <-.
      simpl in Hap, Hz |- *.
      assert (Ht5 : templated h p0 (Body.m_Txv (pl_Res st)) (pl_Proc st)).
      { apply Hloop_t. exact (kernels_apart_prefix _ _ (kernels_prefix_push_Output _ _) Hap). }
      pose proof (templated_output _ _ _ _ _ _ _ Ht5 HoutF) as Ht6. simpl in Ht6.
      rewrite (templated_toggles _ _ _ _ _ Ht6 Hz). exact Ht6.
    + intros [= <- <- <- <-]. pose proof (Hloop_t Hap) as Ht5.
      pose proof (templated_output _ _ _ _ _ _ _ Ht5 HoutF) as Ht6. simpl in Ht6.
      rewrite Ht6. exact Ht5.
  - cbn [negb]. intros Hr. apply bind_Ret_inv in Hr as (median & _ & Hr).
    injection Hr as <- <- <- <-. simpl in Hap, Hz |- *.
    pose proof (Hloop_t Hap) as Ht5.
    rewrite (templated_toggles _ _ _ _ _ Ht5 Hz). exact Ht5.
Qed.

(** The reverse [HandleValidatedTx] on a body that was interpreted forward
    piece by piece puts the processor back. *)
Lemma templated_undone (h : Height) (p0 : NodeProcessor.t) (B : TxVectors.t)
    (q : NodeProcessor.t) (bAdj : bool) :
  Utxos_wf (NodeProcessor.m_Utxos p0) ->
  templated h p0 B q ->
  kernels_apart B ->
  (forall k, count_at (NodeProcessor.m_Utxos p0) k
             + occ k (Output_keys (TxVectors.m_vOutputs B) h None) < CountModulus) ->
  HandleValidatedTx B h false bAdj None q =
    Ret (true, B, NodeProcessor.set_nSizeUtxoComission (NodeProcessor.m_nSizeUtxoComission q) p0).
Proof.
  intros Hwf0 (Hwf & Hsome & Hcnt & HK & Hnd1 & Hin1 & Hnd2 & Hout2 & Hfr) Hap Hnw.
  rewrite HandleValidatedTx_reverse_ok.
  - rewrite (reverse_Utxos_restore _ _ _ _ _ _ Hwf0 Hwf Hsome Hcnt Hnw).
    do 2 f_equal. rewrite Hfr. destruct p0 as [db cu u0 K0 e hz sz ev]. simpl in *.
    unfold NodeProcessor.set_Kernels, NodeProcessor.set_Utxos,
      NodeProcessor.set_nSizeUtxoComission. simpl. f_equal.
    rewrite HK. apply set_eq. intros id.
    rewrite !elem_of_difference, !elem_of_union, !elem_of_difference, !elem_of_list_to_set.
    split.
    + intros [[[[H0 _]|Hb]|Ha] Hnb]; [exact H0 | contradiction | exact (Hin1 id Ha)].
    + intros H0. split; [|intros Hb; exact (Hout2 id Hb H0)].
      destruct (decide (id ∈ kernel_ids (TxVectors.m_vKernelsInput B))); [right | left; left];
        done.
  - exact Hsome.
  - exact Hnd1.
  - intros id Ha. rewrite HK. intros Hin. apply elem_of_union in Hin as [Hin|Hin].
    + apply elem_of_difference in Hin as [_ Hn]. apply Hn. apply elem_of_list_to_set. exact Ha.
    + apply elem_of_list_to_set in Hin. exact (Hap id Ha Hin).
  - exact Hnd2.
  - intros id Hb. rewrite HK. apply elem_of_union. left. apply elem_of_union. right.
    apply elem_of_list_to_set. exact Hb.
Qed.

(** X26. The template is undone. What [GenerateNewBlock(bc, res, h)] did
    to the accumulators, from a body with no elements, is undone exactly by
    the reverse [HandleValidatedTx] on the body it built, as its caller
    expects: the call answers [true], gives the body back, and the processor
    is the one before the template was built, but for the cached size of a
    commission output. This holds whatever was taken from the mempool and
    wherever the construction stopped, for a body none of whose kernel
    identifiers is both consumed and created, whose output kernels are not
    the zero key when it closes the subsidy, and whose outputs do not make a
    count of the tree wrap. *)
Theorem GenerateNewBlock_at_undone (now : Timestamp) (bc : BlockContext.t) (res : Body.t)
    (h : Height) (p : NodeProcessor.t) (n : N) (bc' : BlockContext.t) (res' : Body.t)
    (p' : NodeProcessor.t) :
  Utxos_wf (NodeProcessor.m_Utxos p) ->
  SubsidySentinel_ok p ->
  Forall (fun x => TxVectors_32bit (Transaction.m_Txv (TxPool.m_pValue x)))
         (BlockContext.m_TxPool bc) ->
  Body.m_Txv res = TxVectors.mk [] [] [] [] ->
  GenerateNewBlock_at now bc res h p = Ret (n, bc', res', p') ->
  kernels_apart (Body.m_Txv res') ->
  (Body.m_SubsidyClosing res' = true ->
   ZeroHash ∉ kernel_ids (TxVectors.m_vKernelsOutput (Body.m_Txv res'))) ->
  (forall k, count_at (NodeProcessor.m_Utxos p) k
             + occ k (Output_keys (TxVectors.m_vOutputs (Body.m_Txv res')) h None)
             < CountModulus) ->
  HandleValidatedTx (Body.m_Txv res') h false false None p' =
    Ret (true, Body.m_Txv res',
         NodeProcessor.set_nSizeUtxoComission (NodeProcessor.m_nSizeUtxoComission p') p).
Proof.
  intros Hwf Hsent H32 Hempty Hrun Hap Hzero Hnw.
  pose proof (GenerateNewBlock_at_flag _ _ _ _ _ _ _ _ _ Hrun) as Hflag.
  apply templated_undone; [exact Hwf | | exact Hap | exact Hnw].
  apply (GenerateNewBlock_at_templated now bc res h p p n bc' res' p');
    [rewrite Hempty; apply templated_start; exact Hwf | exact H32 | exact Hrun | exact Hap |].
  intros Hc. split; [|exact (Hzero Hc)].
  rewrite Hc in Hflag. symmetry in Hflag. apply andb_true_iff in Hflag as [_ Ho].
  apply Hsent. exact Ho.
Qed.

End Templating3.

Lemma GenerateNewBlock_at_undone_witness :
  length (TxVectors.m_vOutputs (Body.m_Txv template_result.1.2)) = 2%nat
  /\ NodeProcessor.m_Utxos template_result.2 <> NodeProcessor.m_Utxos (reorg_processor 15 25)
  /\ @HandleValidatedTx demo (Body.m_Txv template_result.1.2) 5 false false None
       template_result.2 =
     Ret (true, Body.m_Txv template_result.1.2,
          NodeProcessor.set_nSizeUtxoComission
            (NodeProcessor.m_nSizeUtxoComission template_result.2) (reorg_processor 15 25)).
Proof.
  split_and!; [vm_compute; reflexivity | vm_compute; discriminate |].
  apply (@GenerateNewBlock_at_undone demo 50 template_context
           (Body.set_SubsidyClosing true Body_ZeroInit) 5 (reorg_processor 15 25)
           template_result.1.1.1 template_result.1.1.2 template_result.1.2 template_result.2).
  - apply Utxos_wf_check. apply (bool_decide_unpack _). vm_compute. exact I.
  - split; [intros _; vm_compute; set_solver | reflexivity].
  - repeat constructor; vm_compute; reflexivity.
  - reflexivity.
  - vm_compute. reflexivity.
  - intros id Hin. vm_compute in Hin. inversion Hin.
  - intros _. vm_compute. set_solver.
  - apply no_wrap_check; [vm_compute; reflexivity|].
    apply (bool_decide_unpack _). vm_compute. exact I.
Defined.

(** ** UTXO recovery *)

Section Recovery.
Variables (KIDV OwnerKey : Type) (Recover : Output.t -> OwnerKey -> option KIDV) (M : N).
Hypothesis M_big : 1 < M.

Lemma inputs_on_cons (c : Commitment) (x : Input.t) (l : list Input.t) :
  inputs_on c (x :: l) = (if decide (Input.m_Commitment x = c) then 1 else 0) + inputs_on c l.
Proof.
  unfold inputs_on. rewrite filter_cons.
  destruct (decide (Input.m_Commitment x = c)); cbn [length]; lia.
Qed.

Lemma outputs_on_cons (m_vKeys : list OwnerKey) (c : Commitment) (x : Output.t)
    (l : list Output.t) :
  outputs_on Recover m_vKeys c (x :: l) =
    (if decide (Output.m_Commitment x = c) then if recovered Recover m_vKeys x then 1 else 0
     else 0)
    + outputs_on Recover m_vKeys c l.
Proof.
  unfold outputs_on. rewrite filter_cons.
  destruct (decide (Output.m_Commitment x = c /\ recovered Recover m_vKeys x = true))
    as [[Hc Hr]|Hn]; cbn [length].
  - rewrite Hr. destruct (decide _); [lia | contradiction].
  - destruct (decide _) as [Hc|]; [|lia].
    destruct (recovered Recover m_vKeys x); [destruct Hn; done | lia].
Qed.

(** One input: the count of its commitment goes down by one, a count of
    one goes with its value, and an unknown commitment is passed over. *)
Lemma UtxoRecoverEx_OnInput_step (x : Input.t) (m : gmap Commitment (RecoverValue KIDV)) :
  recover_wf M m ->
  exists m',
    UtxoRecoverEx_OnInput M x m = (true, m')
    /\ recover_wf M m'
    /\ (forall c, recover_count m' c =
                  recover_count m c - (if decide (Input.m_Commitment x = c) then 1 else 0))
    /\ (forall c v, m !! c = Some v ->
          (if decide (Input.m_Commitment x = c) then 1 else 0) < m_Count v ->
          exists v', m' !! c = Some v' /\ m_Kidv v' = m_Kidv v /\ m_iKey v' = m_iKey v).
Proof.
  intros Hwf. unfold UtxoRecoverEx_OnInput. cbv zeta.
  destruct (m !! Input.m_Commitment x) as [v|] eqn:Hv.
  2:{ exists m. split_and!; [reflexivity | exact Hwf | |].
      - intros c. destruct (decide _) as [<-|]; [|lia].
        unfold recover_count. rewrite Hv. reflexivity.
      - intros c v Hc _. eauto. }
  pose proof (Hwf _ _ Hv) as Hn.
  assert (Hdec : (m_Count v + (M - 1)) mod M = m_Count v - 1).
  { replace (m_Count v + (M - 1)) with ((m_Count v - 1) + 1 * M) by lia.
    rewrite N.Div0.mod_add. apply N.mod_small. lia. }
  rewrite Hdec. destruct (m_Count v - 1 =? 0) eqn:Hz.
  - apply N.eqb_eq in Hz. exists (delete (Input.m_Commitment x) m).
    split_and!; [reflexivity | | |].
    + intros c v' Hc. apply lookup_delete_Some in Hc as [_ Hc]. exact (Hwf _ _ Hc).
    + intros c. unfold recover_count. destruct (decide _) as [<-|Hne].
      * rewrite lookup_delete_eq, Hv. lia.
      * rewrite lookup_delete_ne by done. lia.
    + intros c v0 Hc Hlt. destruct (decide _) as [<-|Hne].
      * rewrite Hv in Hc. injection Hc as <-. lia.
      * exists v0. rewrite lookup_delete_ne by done. done.
  - apply N.eqb_neq in Hz.
    exists (<[Input.m_Commitment x := mkRecoverValue (m_Kidv v) (m_iKey v) (m_Count v - 1)]> m).
    split_and!; [reflexivity | | |].
    + intros c v'. rewrite lookup_insert. destruct (decide _) as [<-|Hne]; simpl.
      * intros [= <-]. simpl. lia.
      * intros Hc. exact (Hwf _ _ Hc).
    + intros c. unfold recover_count. rewrite lookup_insert.
      destruct (decide (Input.m_Commitment x = c)) as [<-|Hne]; simpl.
      * rewrite Hv. reflexivity.
      * lia.
    + intros c v0 Hc _. rewrite lookup_insert. destruct (decide _) as [<-|Hne]; simpl.
      * rewrite Hv in Hc. injection Hc as <-. eexists. done.
      * exists v0. done.
Qed.

(** One recovered output: the count of its commitment goes up by one, and
    a value the map holds keeps the key it was first recovered with. *)
Lemma UtxoRecoverEx_OnOutput_step (iKey : N) (kidv : KIDV) (x : Output.t)
    (m : gmap Commitment (RecoverValue KIDV)) :
  recover_wf M m ->
  recover_count m (Output.m_Commitment x) + 1 < M ->
  exists m',
    UtxoRecoverEx_OnOutput M iKey kidv x m = (true, m')
    /\ recover_wf M m'
    /\ (forall c, recover_count m' c =
                  recover_count m c + (if decide (Output.m_Commitment x = c) then 1 else 0))
    /\ (forall c v, m !! c = Some v ->
          exists v', m' !! c = Some v' /\ m_Kidv v' = m_Kidv v /\ m_iKey v' = m_iKey v).
Proof.
  intros Hwf. unfold UtxoRecoverEx_OnOutput, recover_count at 1. cbv zeta.
  destruct (m !! Output.m_Commitment x) as [v|] eqn:Hv; intros Hlt.
  - pose proof (Hwf _ _ Hv) as Hn.
    destruct (m_Count v =? 0) eqn:Hz; [apply N.eqb_eq in Hz; lia|]. cbn [negb].
    rewrite N.mod_small by exact Hlt.
    eexists. split_and!; [reflexivity | | |].
    + intros c v'. rewrite lookup_insert. destruct (decide _) as [<-|Hne]; simpl.
      * intros [= <-]. simpl. lia.
      * intros Hc. exact (Hwf _ _ Hc).
    + intros c. unfold recover_count. rewrite lookup_insert.
      destruct (decide (Output.m_Commitment x = c)) as [<-|Hne]; simpl.
      * rewrite Hv. reflexivity.
      * lia.
    + intros c v0 Hc. rewrite lookup_insert. destruct (decide _) as [<-|Hne]; simpl.
      * rewrite Hv in Hc. injection Hc as <-. eexists. done.
      * exists v0. done.
  - eexists. split_and!; [reflexivity | | |].
    + intros c v'. rewrite lookup_insert. destruct (decide _) as [<-|Hne]; simpl.
      * intros [= <-]. simpl. lia.
      * intros Hc. exact (Hwf _ _ Hc).
    + intros c. unfold recover_count. rewrite lookup_insert.
      destruct (decide (Output.m_Commitment x = c)) as [<-|Hne]; simpl.
      * rewrite Hv. reflexivity.
      * lia.
    + intros c v0 Hc. rewrite lookup_insert. destruct (decide _) as [<-|Hne]; simpl.
      * congruence.
      * exists v0. done.
Qed.

(** The keys are tried in order: an output none recovers is passed over. *)
Lemma UtxoRecoverSimple_OnOutput_spec {S : Type}
    (OnOutput3 : N -> KIDV -> Output.t -> S -> bool * S) (m_vKeys : list OwnerKey)
    (x : Output.t) (s : S) : forall iKey,
  if recovered Recover m_vKeys x
  then exists i kidv, UtxoRecoverSimple_OnOutput_from Recover OnOutput3 iKey m_vKeys x s
                      = OnOutput3 i kidv x s
  else UtxoRecoverSimple_OnOutput_from Recover OnOutput3 iKey m_vKeys x s = (true, s).
Proof.
  induction m_vKeys as [|key rest IH]; intros iKey; cbn; [reflexivity|].
  destruct (Recover x key) as [kidv|] eqn:Hr.
  - rewrite bool_decide_true by eauto. cbn. eauto.
  - rewrite bool_decide_false by (intros [? ?]; discriminate). cbn. apply IH.
Qed.

Lemma walk_inputs (l : list Input.t) : forall m : gmap Commitment (RecoverValue KIDV),
  recover_wf M m ->
  exists m',
    walk_elements (UtxoRecoverEx_OnInput M) l m = (true, m')
    /\ recover_wf M m'
    /\ (forall c, recover_count m' c = recover_count m c - inputs_on c l)
    /\ (forall c v, m !! c = Some v -> inputs_on c l < m_Count v ->
          exists v', m' !! c = Some v' /\ m_Kidv v' = m_Kidv v /\ m_iKey v' = m_iKey v).
Proof.
  induction l as [|x l IH]; intros m Hwf; cbn [walk_elements].
  - exists m. split_and!; [reflexivity | exact Hwf | |].
    + intros c. unfold inputs_on. simpl. lia.
    + intros c v Hc _. eauto.
  - destruct (UtxoRecoverEx_OnInput_step x m Hwf) as (m1 & -> & Hwf1 & Hc1 & Hk1).
    destruct (IH m1 Hwf1) as (m' & -> & Hwf' & Hc' & Hk').
    exists m'. split_and!; [reflexivity | exact Hwf' | |].
    + intros c. rewrite Hc', Hc1, inputs_on_cons. lia.
    + intros c v Hc Hlt. rewrite inputs_on_cons in Hlt.
      destruct (Hk1 c v Hc) as (v1 & Hv1 & Hi1 & Hj1); [lia|].
      assert (Hcnt : m_Count v1 = m_Count v - (if decide (Input.m_Commitment x = c) then 1 else 0)).
      { pose proof (Hc1 c) as Hcc. unfold recover_count in Hcc. rewrite Hv1, Hc in Hcc.
        exact Hcc. }
      destruct (Hk' c v1 Hv1) as (v' & Hv' & Hi' & Hj'); [lia|].
      exists v'. split_and!; congruence.
Qed.

Lemma walk_outputs (m_vKeys : list OwnerKey) (l : list Output.t) :
  forall m : gmap Commitment (RecoverValue KIDV),
  recover_wf M m ->
  (forall c, recover_count m c + outputs_on Recover m_vKeys c l < M) ->
  exists m',
    walk_elements (UtxoRecoverSimple_OnOutput Recover (UtxoRecoverEx_OnOutput M) m_vKeys) l m
      = (true, m')
    /\ recover_wf M m'
    /\ (forall c, recover_count m' c = recover_count m c + outputs_on Recover m_vKeys c l)
    /\ (forall c v, m !! c = Some v ->
          exists v', m' !! c = Some v' /\ m_Kidv v' = m_Kidv v /\ m_iKey v' = m_iKey v).
Proof.
  induction l as [|x l IH]; intros m Hwf Hnw; cbn [walk_elements].
  - exists m. split_and!; [reflexivity | exact Hwf | |].
    + intros c. unfold outputs_on. simpl. lia.
    + intros c v Hc. eauto.
  - assert (Hone : exists m1,
              UtxoRecoverSimple_OnOutput Recover (UtxoRecoverEx_OnOutput M) m_vKeys x m = (true, m1)
              /\ recover_wf M m1
              /\ (forall c, recover_count m1 c =
                    recover_count m c
                    + (if decide (Output.m_Commitment x = c)
                       then if recovered Recover m_vKeys x then 1 else 0 else 0))
              /\ (forall c v, m !! c = Some v ->
                    exists v', m1 !! c = Some v' /\ m_Kidv v' = m_Kidv v
                               /\ m_iKey v' = m_iKey v)).
    { unfold UtxoRecoverSimple_OnOutput.
      pose proof (UtxoRecoverSimple_OnOutput_spec (UtxoRecoverEx_OnOutput M) m_vKeys x m 0)
        as Hspec.
      pose proof (Hnw (Output.m_Commitment x)) as Hx. rewrite outputs_on_cons in Hx.
      destruct (decide (Output.m_Commitment x = Output.m_Commitment x)); [|done].
      destruct (recovered Recover m_vKeys x).
      - destruct Hspec as (i & kidv & ->).
        destruct (UtxoRecoverEx_OnOutput_step i kidv x m Hwf) as (m1 & -> & Hw1 & Hc1 & Hk1);
          [lia|].
        exists m1. split_and!; [reflexivity | exact Hw1 | exact Hc1 | exact Hk1].
      - rewrite Hspec. exists m. split_and!; [reflexivity | exact Hwf | |].
        + intros c. destruct (decide _); lia.
        + intros c v Hc. eauto. }
    destruct Hone as (m1 & -> & Hwf1 & Hc1 & Hk1).
    destruct (IH m1 Hwf1) as (m' & -> & Hwf' & Hc' & Hk').
    { intros c. specialize (Hnw c). rewrite outputs_on_cons in Hnw. rewrite Hc1. lia. }
    exists m'. split_and!; [reflexivity | exact Hwf' | |].
    + intros c. rewrite Hc', Hc1, outputs_on_cons. lia.
    + intros c v Hc. destruct (Hk1 c v Hc) as (v1 & Hv1 & Hi1 & Hj1).
      destruct (Hk' c v1 Hv1) as (v' & Hv' & Hi' & Hj'). exists v'. split_and!; congruence.
Qed.

Lemma recover_wf_check (m : gmap Commitment (RecoverValue KIDV)) :
  map_Forall (fun _ v => 1 <= m_Count v < M) m -> recover_wf M m.
Proof. intros Hall c v Hc. exact (Hall c v Hc). Qed.

Lemma recover_no_wrap_check (m_vKeys : list OwnerKey) (l : list Output.t)
    (m : gmap Commitment (RecoverValue KIDV)) :
  N.of_nat (length l) < M ->
  map_Forall (fun _ v => m_Count v + N.of_nat (length l) < M) m ->
  forall c, recover_count m c + outputs_on Recover m_vKeys c l < M.
Proof.
  intros Hlen Hall c.
  assert (Hle : outputs_on Recover m_vKeys c l <= N.of_nat (length l)).
  { unfold outputs_on. pose proof (length_filter
      (fun x => Output.m_Commitment x = c /\ recovered Recover m_vKeys x = true) l). lia. }
  unfold recover_count. destruct (m !! c) as [v|] eqn:Hc.
  - pose proof (Hall c v Hc) as Hv. simpl in Hv. lia.
  - lia.
Qed.

(** X27. The recovery of a block keeps the books of the owner. On a map
    whose values all count at least one coin, [IUtxoWalker::OnBlock] of a
    [UtxoRecoverEx] answers [true] and leaves, for every commitment, the
    count before less the inputs of the block on it (not below zero), plus
    the outputs on it that one of the keys recovers; a commitment whose count
    reaches zero is dropped, and one that stays keeps the key it was first
    recovered with. This holds while no count wraps. *)
Theorem UtxoRecoverEx_OnBlock_counts (m_vKeys : list OwnerKey) (db : NodeDB.t)
    (txv : TxVectors.t) (rowid : RowId) (hdr : SystemState.Full.t)
    (m : gmap Commitment (RecoverValue KIDV)) :
  recover_wf M m ->
  (forall c, recover_count m c + outputs_on Recover m_vKeys c (TxVectors.m_vOutputs txv) < M) ->
  (rowid <> 0 -> is_Some (NodeDB.m_States db !! rowid)) ->
  exists hdr' m',
    UtxoRecoverEx_OnBlock Recover M m_vKeys db txv rowid (hdr, m) = Ret (true, (hdr', m'))
    /\ recover_wf M m'
    /\ (forall c, recover_count m' c =
                  recover_count m c - inputs_on c (TxVectors.m_vInputs txv)
                  + outputs_on Recover m_vKeys c (TxVectors.m_vOutputs txv))
    /\ (forall c v, m !! c = Some v ->
          inputs_on c (TxVectors.m_vInputs txv) < m_Count v ->
          exists v', m' !! c = Some v' /\ m_Kidv v' = m_Kidv v /\ m_iKey v' = m_iKey v).
Proof.
  intros Hwf Hnw Hrow. unfold UtxoRecoverEx_OnBlock, IUtxoWalker_OnBlock.
  assert (Hhdr : exists hdr', (if negb (rowid =? 0) then NodeDB.get_State db rowid
                               else Ret ZeroFull) = Ret hdr').
  { destruct (rowid =? 0) eqn:Hz; cbn [negb]; [eauto|].
    apply N.eqb_neq in Hz. destruct (Hrow Hz) as [r Hr].
    unfold NodeDB.get_State, NodeDB.get_Row. rewrite Hr. cbn. eauto. }
  destruct Hhdr as [hdr' ->]. cbn [mbind Outcome_bind snd].
  destruct (walk_inputs (TxVectors.m_vInputs txv) m Hwf) as (m1 & -> & Hwf1 & Hc1 & Hk1).
  cbn [negb].
  destruct (walk_outputs m_vKeys (TxVectors.m_vOutputs txv) m1 Hwf1)
    as (m' & -> & Hwf' & Hc' & Hk').
  { intros c. rewrite Hc1. specialize (Hnw c). lia. }
  exists hdr', m'. split_and!; [reflexivity | exact Hwf' | |].
  - intros c. rewrite Hc', Hc1. reflexivity.
  - intros c v Hc Hlt. destruct (Hk1 c v Hc Hlt) as (v1 & Hv1 & Hi1 & Hj1).
    destruct (Hk' c v1 Hv1) as (v' & Hv' & Hi' & Hj'). exists v'. split_and!; congruence.
Qed.

End Recovery.

Lemma UtxoRecoverEx_OnBlock_counts_witness :
  UtxoRecoverEx_OnBlock recovery_Recover (2 ^ 32) [0] (reorg_db 15 25) recovery_block 0
    (ZeroFull, recovery_map) = Ret (true, (ZeroFull, recovery_result))
  /\ recovery_result !! 4 = None
  /\ recover_count recovery_result 6 = 2
  /\ recover_count recovery_result 8 = 1
  /\ recover_count recovery_result 7 = 0.
Proof.
  assert (Hrun : UtxoRecoverEx_OnBlock recovery_Recover (2 ^ 32) [0] (reorg_db 15 25)
                   recovery_block 0 (ZeroFull, recovery_map)
                 = Ret (true, (ZeroFull, recovery_result))) by (vm_compute; reflexivity).
  destruct (UtxoRecoverEx_OnBlock_counts N N recovery_Recover (2 ^ 32) eq_refl [0]
              (reorg_db 15 25) recovery_block 0 ZeroFull recovery_map)
    as (hdr' & m' & Hrun' & Hwf & Hcnt & _).
  - apply recover_wf_check. apply (bool_decide_unpack _). vm_compute. exact I.
  - apply recover_no_wrap_check;
      [reflexivity | vm_compute; reflexivity
      | apply (bool_decide_unpack _); vm_compute; exact I].
  - intros Hne. destruct Hne. reflexivity.
  - rewrite Hrun in Hrun'. injection Hrun' as <- <-.
    split; [exact Hrun|]. split; [vm_compute; reflexivity|].
    repeat split; rewrite Hcnt; vm_compute; reflexivity.
Defined.

(** ** The template leaves the processor as it was *)

Section Templating4.
Context `{Externals}.

Lemma HandleValidatedTx_txv (txv : TxVectors.t) (h : Height) (bFwd bAdj : bool)
    (pHMax : option Height) (p : NodeProcessor.t) (ok : bool) (txv' : TxVectors.t)
    (p' : NodeProcessor.t) :
  HandleValidatedTx txv h bFwd bAdj pHMax p = Ret (ok, txv', p') ->
  TxVectors.m_vOutputs txv' = TxVectors.m_vOutputs txv
  /\ TxVectors.m_vKernelsInput txv' = TxVectors.m_vKernelsInput txv
  /\ TxVectors.m_vKernelsOutput txv' = TxVectors.m_vKernelsOutput txv.
Proof.
  unfold HandleValidatedTx.
  destruct (loop_UtxoIn _ _ _ _ _ _ _) as [[[ok1 nInp] ins] u1].
  destruct (if ok1 then _ else _) as [[ok2 nOut] u2].
  destruct (if ok2 then _ else _) as [[ok3 nKrnInp] k1].
  destruct (if ok3 then _ else _) as [[ok4 nKrnOut] k2].
  destruct ok4; [|destruct (negb bFwd)]; intros [= <- <- <-]; done.
Qed.

Lemma body_plain_le (n n' : nat) (b : Body.t) :
  (n <= n')%nat -> body_plain n b -> body_plain n' b.
Proof. intros Hle (H1 & H2 & H3). split_and!; [exact H1 | exact H2 | lia]. Qed.

Lemma pool_step_plain (h : Height) (st : PoolLoop) (x : TxPool.Element) (st' : PoolLoop)
    (n : nat) :
  pool_plain [x] ->
  pool_step h st x = Ret st' ->
  body_plain n (pl_Res st) ->
  body_plain (n + pool_outputs [x]) (pl_Res st').
Proof.
  intros Hx Hrun Hb. apply Forall_inv in Hx as (_ & Hkin & Hz). cbv zeta in Hkin, Hz.
  assert (Hsame : body_plain (n + pool_outputs [x]) (pl_Res st))
    by (apply (body_plain_le n); [lia | exact Hb]).
  revert Hrun. unfold pool_step. cbv zeta.
  repeat match goal with
         | |- context [if ?b then _ else _] => destruct b
         end;
    try (intros [= <-]; exact Hsame).
  all: intros Hr; apply bind_Ret_inv in Hr as ([[ok txv] p1] & Htx & Hr).
  all: apply HandleValidatedTx_txv in Htx as (Ho & Hki & Hko).
  all: destruct ok; injection Hr as <-; cbn [pl_Res]; [|exact Hsame].
  all: destruct Hb as (H1 & H2 & H3); destruct (pl_Res st) as [sub off closing [insB outsB kinB koutB]].
  all: unfold body_plain, pool_outputs, kernel_ids in *; simpl in *.
  all: rewrite Ho, Hki, Hko, H1, Hkin, fmap_app, length_app.
  all: split_and!; [reflexivity | | lia].
  all: intros Hin; apply elem_of_app in Hin as [Hin|Hin]; contradiction.
Qed.

Lemma pool_outputs_cons (x : TxPool.Element) (pool : list TxPool.Element) :
  pool_outputs (x :: pool) = (pool_outputs [x] + pool_outputs pool)%nat.
Proof. unfold pool_outputs. simpl. lia. Qed.

Lemma pool_loop_plain (h : Height) (pool : list TxPool.Element) : forall st st' n,
  pool_plain pool ->
  pool_loop h st pool = Ret st' ->
  body_plain n (pl_Res st) ->
  body_plain (n + pool_outputs pool) (pl_Res st').
Proof.
  induction pool as [|x pool IH]; intros st st' n Hp.
  - intros [= <-] Hb. apply (body_plain_le n); [unfold pool_outputs; simpl; lia | exact Hb].
  - rewrite pool_loop_cons. intros Hr Hb. apply bind_Ret_inv in Hr as (st1 & H1 & H2).
    inversion Hp as [|? ? Hx Hrest]; subst.
    assert (Hx1 : pool_plain [x]) by (constructor; [exact Hx | constructor]).
    pose proof (pool_step_plain _ _ _ _ _ Hx1 H1 Hb) as Hb1.
    pose proof (IH _ _ _ Hrest H2 Hb1) as Hb2.
    rewrite pool_outputs_cons. apply (body_plain_le _ _ _ (Nat.eq_le_incl _ _ (eq_sym (Nat.add_assoc _ _ _)))).
    exact Hb2.
Qed.

(** The body [GenerateNewBlock(bc, res, h)] builds from a plain mempool. *)
Lemma GenerateNewBlock_at_plain (now : Timestamp) (bc : BlockContext.t) (res : Body.t)
    (h : Height) (p : NodeProcessor.t) (n : N) (bc' : BlockContext.t) (res' : Body.t)
    (p' : NodeProcessor.t) :
  pool_plain (BlockContext.m_TxPool bc) ->
  CoinbaseKernel_ID (BlockContext.m_Kdf bc) h <> ZeroHash ->
  Body.m_Txv res = TxVectors.mk [] [] [] [] ->
  GenerateNewBlock_at now bc res h p = Ret (n, bc', res', p') ->
  body_plain (2 + pool_outputs (BlockContext.m_TxPool bc)) res'.
Proof.
  intros Hpool Hcb Hempty. unfold GenerateNewBlock_at.
  set (res2 := if negb (Extra.m_SubsidyOpen (NodeProcessor.m_Extra p))
               then Body.set_SubsidyClosing false (add_Subsidy (Rules.CoinbaseEmission rules) res)
               else add_Subsidy (Rules.CoinbaseEmission rules) res).
  assert (Hb2 : body_plain 0 res2).
  { assert (Hres2 : Body.m_Txv res2 = Body.m_Txv res) by (unfold res2; destruct (negb _); reflexivity).
    unfold body_plain. rewrite Hres2, Hempty. simpl. split_and!; [reflexivity | | lia].
    intros Hin. inversion Hin. }
  clearbody res2.
  destruct (Output_Create _ true _ _) as [outp sk].
  destruct (HandleBlockElement_Output outp _ _ _ _) as [ok1 u1].
  destruct ok1; simpl;
    [|intros [= <- <- <- <-]; apply (body_plain_le 0); [lia | exact Hb2]].
  assert (Hb3 : body_plain 1 (push_Output outp res2)).
  { destruct Hb2 as (H1 & H2 & H3). destruct res2 as [? ? ? [? ? ? ?]].
    unfold body_plain in *. simpl in *. rewrite length_app. simpl. split_and!; [done | done | lia]. }
  set (res3 := push_Output outp res2) in *. clearbody res3.
  destruct (HandleBlockElement_Kernel _ _ _ _) as [ok2 k1].
  destruct ok2; simpl;
    [|intros [= <- <- <- <-]; apply (body_plain_le 1); [lia | exact Hb3]].
  set (krn := TxKernel.mk (CoinbaseKernel_ID (BlockContext.m_Kdf bc) h)
                (HeightRange.mk h (HeightModulus - 1))).
  assert (Hb4 : body_plain 1 (push_KernelOutput krn res3)).
  { destruct Hb3 as (H1 & H2 & H3). destruct res3 as [? ? ? [? ? ? ?]].
    unfold body_plain, kernel_ids in *. simpl in *. rewrite fmap_app.
    split_and!; [done | | lia].
    intros Hin. apply elem_of_app in Hin as [Hin|Hin]; [contradiction|].
    apply list_elem_of_singleton in Hin. simpl in Hin. unfold TxKernel.get_ID in Hin.
    simpl in Hin. congruence. }
  set (res4 := push_KernelOutput krn res3) in *. clearbody res4.
  destruct (_ <? _).
  { intros [= <- <- <- <-]. apply (body_plain_le 1); [lia | exact Hb4]. }
  intros Hb. apply bind_Ret_inv in Hb as (st & Hloop & Hr).
  pose proof (pool_loop_plain _ _ _ _ _ Hpool Hloop Hb4) as Hb5. clear Hloop.
  revert Hr. destruct (negb (pl_Fees st =? 0)).
  - destruct (Output_Create _ false _ _) as [outpF skF].
    destruct (HandleBlockElement_Output outpF _ _ _ _) as [okF uF].
    destruct okF; cbn [negb].
    + intros Hr. apply bind_Ret_inv in Hr as (median & _ & Hr). injection Hr as <- <- <- <-.
      destruct Hb5 as (H1 & H2 & H3). destruct (pl_Res st) as [? ? ? [? ? ? ?]].
      unfold body_plain in *. simpl in *. rewrite length_app. simpl.
      split_and!; [done | done | lia].
    + intros [= <- <- <- <-]. apply (body_plain_le _ _ _ (Nat.le_succ_diag_r _)). exact Hb5.
  - cbn [negb]. intros Hr. apply bind_Ret_inv in Hr as (median & _ & Hr).
    injection Hr as <- <- <- <-.
    destruct Hb5 as (H1 & H2 & H3). destruct (pl_Res st) as [? ? ? [? ? ? ?]].
    unfold body_plain in *. simpl in *. split_and!; [done | done | lia].
Qed.

(** X28. Building a template leaves the processor as it was. Whatever
    [GenerateNewBlock(bc)] answers, the processor it returns is the one it
    was called on, but for the cached size of a commission output: the UTXO
    tree, the kernel tree, the subsidy and the offset, the cursor and the
    store are untouched. This holds on a UTXO tree without zero counts, with
    the subsidy flag in step with the zero key, for a mempool whose
    transactions consume no kernels and create none with the zero key (nor is
    the coinbase kernel's), and while no count of the tree can wrap. *)
Theorem GenerateNewBlock_restores (now : Timestamp) (bc : BlockContext.t)
    (p : NodeProcessor.t) (ok : bool) (bc' : BlockContext.t) (res' : Body.t)
    (p' : NodeProcessor.t) :
  let h := height_add (StateID.m_Height (Cursor.m_Sid (NodeProcessor.m_Cursor p))) 1 in
  Utxos_wf (NodeProcessor.m_Utxos p) ->
  SubsidySentinel_ok p ->
  pool_plain (BlockContext.m_TxPool bc) ->
  CoinbaseKernel_ID (BlockContext.m_Kdf bc) h <> ZeroHash ->
  (forall k, count_at (NodeProcessor.m_Utxos p) k
             + N.of_nat (2 + pool_outputs (BlockContext.m_TxPool bc)) < CountModulus) ->
  GenerateNewBlock now bc p = Ret (ok, bc', res', p') ->
  p' = NodeProcessor.set_nSizeUtxoComission (NodeProcessor.m_nSizeUtxoComission p') p.
Proof.
  intros h Hwf Hsent Hpool Hcb Hnw. unfold GenerateNewBlock, GenerateNewBlock_from. fold h.
  cbn [negb andb mbind Outcome_bind].
  destruct (GenerateNewBlock_at now bc (Body.set_SubsidyClosing true Body_ZeroInit) h p)
    as [[[[n bc1] res1] p1]| |] eqn:Hat; try discriminate.
  pose proof (GenerateNewBlock_at_plain now bc (Body.set_SubsidyClosing true Body_ZeroInit)
                h p n bc1 res1 p1 Hpool Hcb eq_refl Hat) as (Hkin & Hzero & Hlen).
  assert (H32 : Forall (fun x => TxVectors_32bit (Transaction.m_Txv (TxPool.m_pValue x)))
                  (BlockContext.m_TxPool bc)).
  { eapply Forall_impl; [exact Hpool|]. intros x (Hx & _). exact Hx. }
  assert (Hap : kernels_apart (Body.m_Txv res1)).
  { intros id Hin. rewrite Hkin in Hin. inversion Hin. }
  assert (Ht : templated h p (Body.m_Txv res1) p1).
  { apply (GenerateNewBlock_at_templated now bc (Body.set_SubsidyClosing true Body_ZeroInit)
             h p p n bc1 res1 p1);
      [apply templated_start; exact Hwf | exact H32 | exact Hat | exact Hap |].
    intros Hc. split; [|exact Hzero].
    pose proof (GenerateNewBlock_at_flag _ _ _ _ _ _ _ _ _ Hat) as Hflag.
    rewrite Hc in Hflag. symmetry in Hflag. apply andb_true_iff in Hflag as [_ Ho].
    apply Hsent. exact Ho. }
  assert (Hnw1 : forall k, count_at (NodeProcessor.m_Utxos p) k
                   + occ k (Output_keys (TxVectors.m_vOutputs (Body.m_Txv res1)) h None)
                   < CountModulus).
  { intros k. specialize (Hnw k).
    pose proof (occ_le_length k (Output_keys (TxVectors.m_vOutputs (Body.m_Txv res1)) h None))
      as Hocc.
    assert (Hl : (length (Output_keys (TxVectors.m_vOutputs (Body.m_Txv res1)) h None)
                  <= length (TxVectors.m_vOutputs (Body.m_Txv res1)))%nat).
    { unfold Output_keys. generalize (TxVectors.m_vOutputs (Body.m_Txv res1)). clear.
      intros outs. induction outs as [|v outs IH]; cbn [omap list_omap length]; [lia|].
      destruct (Output_key v h None); cbn [length]; lia. }
    lia. }
  pose proof (templated_undone h p (Body.m_Txv res1) p1 false Hwf Ht Hap Hnw1) as Hundo.
  intros Hb. apply bind_Ret_inv in Hb as ([[[n' bc2] res2] p2] & Hx & Hb).
  injection Hx as <- <- <- <-.
  apply bind_Ret_inv in Hb as ([[o txv2] p3] & Hrev & Hb).
  rewrite Hundo in Hrev. injection Hrev as <- <- <-.
  destruct (n =? 0); [injection Hb as <- <- <- <-; reflexivity|].
  destruct (Normalize _) as [txv3 nCut]. injection Hb as <- <- <- <-. reflexivity.
Qed.

End Templating4.

Lemma GenerateNewBlock_restores_witness :
  @GenerateNewBlock demo 50 template_context (reorg_processor 15 25) = Ret template_built
  /\ template_built.1.1.1 = true
  /\ BlockContext.m_Fees template_built.1.1.2 = 3
  /\ template_built.2 =
       NodeProcessor.set_nSizeUtxoComission
         (NodeProcessor.m_nSizeUtxoComission template_built.2) (reorg_processor 15 25).
Proof.
  assert (Hrun : @GenerateNewBlock demo 50 template_context (reorg_processor 15 25)
                 = Ret template_built) by (vm_compute; reflexivity).
  split; [exact Hrun|]. split; [vm_compute; reflexivity|]. split; [vm_compute; reflexivity|].
  apply (@GenerateNewBlock_restores demo 50 template_context (reorg_processor 15 25)
           template_built.1.1.1 template_built.1.1.2 template_built.1.2 template_built.2).
  - apply Utxos_wf_check. apply (bool_decide_unpack _). vm_compute. exact I.
  - split; [intros _; vm_compute; set_solver | reflexivity].
  - unfold pool_plain, template_context. cbn [BlockContext.m_TxPool].
    apply Forall_cons. split; [|apply Forall_cons; split; [|apply Forall_nil; exact I]].
    + split; [repeat split; vm_compute; reflexivity|].
      split; [reflexivity|]. intros Hin. apply list_elem_of_singleton in Hin. discriminate.
    + split; [repeat split; vm_compute; reflexivity|].
      split; [reflexivity|]. intros Hin. inversion Hin.
  - vm_compute. discriminate.
  - intros k. unfold count_at. cbn. rewrite lookup_empty. vm_compute. reflexivity.
  - vm_compute. reflexivity.
Defined.

(** ** A block that fails leaves nothing behind *)

Section FailedBlock.
Context {E : Externals}.

(** A forward [HandleValidatedBlock] that answers [false] has put
    everything back. *)
Lemma HandleValidatedBlock_false_same (body : Body.t) (h : Height) (bAdj : bool)
    (pHMax : option Height) (p : NodeProcessor.t) (body' : Body.t) (p' : NodeProcessor.t) :
  Utxos_wf (NodeProcessor.m_Utxos p) -> TxVectors_32bit (Body.m_Txv body) ->
  HandleValidatedBlock body h true bAdj pHMax p = Ret (false, body', p') -> p' = p.
Proof.
  intros Hwf H32. unfold HandleValidatedBlock.
  destruct (_ && _); [intros [= <- <-]; reflexivity|].
  intros Hr. apply bind_Ret_inv in Hr as ([[ok txv'] p1] & Hcall & Hr).
  destruct ok; simpl in Hr; [discriminate|].
  injection Hr as <- <-. exact (HandleValidatedTx_false_same _ _ _ _ _ _ _ Hwf H32 Hcall).
Qed.

(** The reverse call on the body a forward call left undoes the forward
    call. *)
Lemma HandleValidatedBlock_undone (body : Body.t) (h : Height)
    (bAdjustInputMaturity bAdj' : bool) (pHMax : option Height)
    (p : NodeProcessor.t) (body' : Body.t) (p' : NodeProcessor.t) :
  Utxos_wf (NodeProcessor.m_Utxos p) ->
  Extra_wf (NodeProcessor.m_Extra p) ->
  (Body.m_SubsidyClosing body = true ->
   SubsidySentinel_ok p /\ no_zero_kernel (Body.m_Txv body)) ->
  (forall id, id ∈ kernel_ids (TxVectors.m_vKernelsInput (Body.m_Txv body)) ->
              id ∉ kernel_ids (TxVectors.m_vKernelsOutput (Body.m_Txv body))) ->
  (forall k, count_at (NodeProcessor.m_Utxos p) k
             + occ k (Output_keys (TxVectors.m_vOutputs (Body.m_Txv body)) h pHMax)
             < CountModulus) ->
  HandleValidatedBlock body h true bAdjustInputMaturity pHMax p = Ret (true, body', p') ->
  HandleValidatedBlock body' h false bAdj' pHMax p' = Ret (true, body', p).
Proof.
  intros Hwf [Hsub Hoff] Hclose Hdisj Hnw Hfwd.
  unfold HandleValidatedBlock in Hfwd.
  destruct (Body.m_SubsidyClosing body && _) eqn:Hchk; [discriminate|].
  apply bind_Ret_inv in Hfwd as ([[ok txv'] p1] & Hcall & Hr).
  destruct ok; simpl in Hr; [|discriminate].
  destruct (HandleValidatedTx_forward_ok _ _ _ _ _ _ _ Hwf Hcall)
    as (ins' & u2 & -> & -> & Hwf2 & Hall & Hc & Hnd1 & Hold & Hnd2 & Hfresh).
  injection Hr as <- <-.
  destruct body as [sub off closing [ins outs kin kout]].
  destruct p as [db cu u K [esub eoff eopen] hz sz ev].
  unfold NodeProcessor.set_Kernels, NodeProcessor.set_Utxos, NodeProcessor.set_Extra,
    Body.set_Txv, TxVectors.set_Inputs in *.
  simpl in *.
  pose proof (reverse_Utxos_restore ins' outs h pHMax u u2 Hwf Hwf2 Hall Hc Hnw) as Hu.
  set (K2 := K ∖ list_to_set (kernel_ids kin) ∪ list_to_set (kernel_ids kout)) in *.
  assert (Hback : forall (Z : gset N) (fl : bool),
             (Z = ∅ \/ (Z = {[ZeroHash]} /\ (ZeroHash ∉ K) /\
                        (ZeroHash ∉ kernel_ids kin) /\ (ZeroHash ∉ kernel_ids kout))) ->
             HandleValidatedTx (TxVectors.mk ins' outs kin kout) h false bAdj' pHMax
               (NodeProcessor.mk db cu u2 (Z ∪ K2)
                  (Extra.mk (amountbig_add esub sub) (scalar_add eoff (scalar_of off))
                     fl) hz sz ev) =
             Ret (true, TxVectors.mk ins' outs kin kout,
                  NodeProcessor.mk db cu u (Z ∪ K)
                    (Extra.mk (amountbig_add esub sub) (scalar_add eoff (scalar_of off))
                       fl) hz sz ev)).
  { intros Z fl HZ.
    rewrite HandleValidatedTx_reverse_ok;
      cbn [TxVectors.m_vInputs TxVectors.m_vOutputs TxVectors.m_vKernelsInput
           TxVectors.m_vKernelsOutput NodeProcessor.m_Kernels NodeProcessor.m_Utxos];
      try assumption.
    - rewrite Hu. unfold NodeProcessor.set_Kernels, NodeProcessor.set_Utxos.
      cbn [NodeProcessor.m_DB NodeProcessor.m_Cursor NodeProcessor.m_Utxos
           NodeProcessor.m_Kernels NodeProcessor.m_Extra NodeProcessor.m_Horizon
           NodeProcessor.m_nSizeUtxoComission NodeProcessor.m_Events].
      do 3 f_equal. apply set_eq. intros x. subst K2.
      destruct (decide (x ∈ kernel_ids kin)) as [Hx|Hx];
        [pose proof (Hold x Hx); pose proof (Hdisj x Hx)|];
        destruct (decide (x ∈ kernel_ids kout)) as [Hy|Hy]; try (pose proof (Hfresh x Hy));
        destruct HZ as [->|(-> & ? & ? & ?)];
        try (destruct (decide (x = ZeroHash)) as [->|Hxz]); set_solver.
    - intros id Hid. pose proof (Hold id Hid). pose proof (Hdisj id Hid). subst K2.
      destruct HZ as [->|(-> & ? & ? & ?)]; [set_solver|].
      assert (id <> ZeroHash) by (intros ->; contradiction). set_solver.
    - intros id Hid. subst K2. set_solver. }
  unfold HandleValidatedBlock. simpl.
  destruct closing; simpl in *.
  - destruct (Hclose eq_refl) as [Hinv [Hz1 Hz2]].
    unfold SubsidySentinel_ok, no_zero_kernel in *. simpl in *.
    assert (eopen = true) as -> by (destruct eopen; simpl in Hchk; congruence).
    assert (HzK : ZeroHash ∉ K) by (apply Hinv; reflexivity).
    assert (HzK2 : ZeroHash ∉ K2) by (subst K2; set_solver).
    assert (Htog : forall e1 e2,
               ToggleSubsidyOpened (NodeProcessor.mk db cu u2 K2 (Extra.mk e1 e2 true) hz sz ev) =
               NodeProcessor.mk db cu u2 ({[ZeroHash]} ∪ K2) (Extra.mk e1 e2 false) hz sz ev).
    { intros e1 e2. unfold ToggleSubsidyOpened, Kernels_Find. simpl.
      rewrite decide_False by assumption. reflexivity. }
    assert (Htog' : forall e1 e2,
               ToggleSubsidyOpened
                 (NodeProcessor.mk db cu u ({[ZeroHash]} ∪ K) (Extra.mk e1 e2 false) hz sz ev) =
               NodeProcessor.mk db cu u K (Extra.mk e1 e2 true) hz sz ev).
    { intros e1 e2. unfold ToggleSubsidyOpened, Kernels_Find. simpl.
      rewrite decide_True by set_solver. simpl.
      unfold NodeProcessor.set_Kernels, NodeProcessor.set_Extra. simpl.
      do 2 f_equal. set_solver. }
    rewrite !Htog. simpl.
    specialize (Hback {[ZeroHash]} false). simpl in Hback.
    rewrite Hback by (right; auto). simpl.
    rewrite !Htog'. unfold NodeProcessor.set_Extra. simpl.
    rewrite amountbig_add_sub, scalar_add_neg by assumption. reflexivity.
  - specialize (Hback ∅ eopen). rewrite !union_empty_l_L in Hback.
    unfold NodeProcessor.set_Extra. simpl.
    rewrite Hback by (left; reflexivity). simpl.
    unfold NodeProcessor.set_Extra. simpl.
    rewrite amountbig_add_sub, scalar_add_neg by assumption. reflexivity.
Qed.
(** What a first-time [HandleBlock] answers once the checks of the header
    and the forward pass went through. *)
Lemma HandleBlock_first_time (sid : StateID.t) (p : NodeProcessor.t) (bb : ByteBuffer)
    (s : SystemState.Full.t) (body body1 : Body.t) (p1 : NodeProcessor.t) :
  NodeDB.GetStateBlock (NodeProcessor.m_DB p) (StateID.m_Row sid) = Ret (bb, []) ->
  NodeDB.get_State (NodeProcessor.m_DB p) (StateID.m_Row sid) = Ret s ->
  Deserialize bb = Some body ->
  first_time_checks p s body (StateID.m_Height sid) = Ret true ->
  HandleValidatedBlock body (StateID.m_Height sid) true true None p = Ret (true, body1, p1) ->
  HandleBlock sid true p =
    (if negb (SystemState.Full.m_Definition s =? get_Definition p1 true) then
       '(_, _, p2) ← HandleValidatedBlock body1 (StateID.m_Height sid) false false None p1;
       Ret (false, p2)
     else
       p2 ← commit_first_time (StateID.m_Row sid) body1 [] p1;
       Ret (true, p2)).
Proof.
  intros Hget Hs Hdes Hchk Hfwd. unfold HandleBlock. rewrite Hget. cbn [mbind Outcome_bind].
  rewrite Hs. cbn [mbind Outcome_bind]. rewrite Hdes.
  rewrite bool_decide_eq_true_2 by reflexivity. cbn [andb].
  rewrite Hchk. cbn [mbind Outcome_bind negb]. rewrite Hfwd. cbn [mbind Outcome_bind andb].
  reflexivity.
Qed.

(** A forward [HandleBlock] that answers [false] leaves the processor as
    it found it. *)
Lemma HandleBlock_false_same (sid : StateID.t) (p : NodeProcessor.t) (bb buf : ByteBuffer)
    (body : Body.t) (p' : NodeProcessor.t) :
  Utxos_wf (NodeProcessor.m_Utxos p) ->
  NodeDB.GetStateBlock (NodeProcessor.m_DB p) (StateID.m_Row sid) = Ret (bb, buf) ->
  Deserialize bb = Some body ->
  TxVectors_32bit (Body.m_Txv body) ->
  Extra_wf (NodeProcessor.m_Extra p) ->
  (Body.m_SubsidyClosing body = true ->
   SubsidySentinel_ok p /\ no_zero_kernel (Body.m_Txv body)) ->
  kernels_apart (Body.m_Txv body) ->
  (forall k, count_at (NodeProcessor.m_Utxos p) k
             + occ k (Output_keys (TxVectors.m_vOutputs (Body.m_Txv body))
                        (StateID.m_Height sid) None)
             < CountModulus) ->
  HandleBlock sid true p = Ret (false, p') -> p' = p.
Proof.
  intros Hwf Hget Hdes H32 Hex Hcl Hap Hnw. unfold HandleBlock. rewrite Hget.
  cbn [mbind Outcome_bind]. intros Hr.
  apply bind_Ret_inv in Hr as (s & Hs & Hr). rewrite Hdes in Hr. cbn [andb] in Hr.
  destruct (bool_decide (buf = [])) eqn:Hfirst.
  - apply bind_Ret_inv in Hr as ([go block0] & Hchk & Hr).
    apply bind_Ret_inv in Hchk as (ok & Hftc & Hchk). injection Hchk as <- <-.
    destruct ok; cbn [negb] in Hr; [|injection Hr as <-; reflexivity].
    apply bind_Ret_inv in Hr as ([[bOk block1] p1] & Hfwd & Hr).
    destruct bOk; cbn [andb] in Hr.
    + destruct (negb (_ =? _)).
      * apply bind_Ret_inv in Hr as ([[ok2 b2] p2] & Hrev & Hr). injection Hr as <-.
        rewrite (HandleValidatedBlock_undone _ _ _ false _ _ _ _ Hwf Hex Hcl Hap Hnw Hfwd) in Hrev.
        injection Hrev as _ _ <-. reflexivity.
      * apply bind_Ret_inv in Hr as (p2 & _ & Hr). discriminate.
    + injection Hr as <-. exact (HandleValidatedBlock_false_same _ _ _ _ _ _ _ Hwf H32 Hfwd).
  - cbn [mbind Outcome_bind negb] in Hr.
    apply bind_Ret_inv in Hr as ([[bOk block1] p1] & Hfwd & Hr).
    cbn [andb] in Hr. injection Hr as -> <-.
    exact (HandleValidatedBlock_false_same _ _ _ _ _ _ _ Hwf H32 Hfwd).
Qed.

(** C2, as the code has it. A forward call of [HandleValidatedTx] that
    answers [false] leaves the processor, and so the UTXO tree and the kernel
    tree, exactly as it found them: the elements already handled are handled
    again in reverse mode, the kernel outputs first and the inputs last. The
    same holds for a forward call of [HandleValidatedBlock] that answers
    [false]. A forward [HandleBlock] that answers [false] leaves the
    processor as it found it when the body it read has no kernel identifier
    that is both consumed and created and the counts of the UTXO tree do not
    wrap when the inputs are put back before the outputs are taken away; in
    particular a block interpreted for the first time whose [Definition]
    does not match is unapplied, and [HandleBlock] answers [false] with the
    processor as before. *)
Theorem HandleValidatedTx_failure_restores (txv : TxVectors.t) (h : Height)
    (bAdjustInputMaturity : bool) (pHMax : option Height) (p : NodeProcessor.t) :
  Utxos_wf (NodeProcessor.m_Utxos p) ->
  TxVectors_32bit txv ->
  (forall txv' p',
      HandleValidatedTx txv h true bAdjustInputMaturity pHMax p = Ret (false, txv', p') ->
      p' = p)
  /\ (forall body body' p',
        Body.m_Txv body = txv ->
        HandleValidatedBlock body h true bAdjustInputMaturity pHMax p = Ret (false, body', p') ->
        p' = p)
  /\ (forall sid bb buf s body,
        StateID.m_Height sid = h ->
        NodeDB.GetStateBlock (NodeProcessor.m_DB p) (StateID.m_Row sid) = Ret (bb, buf) ->
        NodeDB.get_State (NodeProcessor.m_DB p) (StateID.m_Row sid) = Ret s ->
        Deserialize bb = Some body ->
        Body.m_Txv body = txv ->
        Extra_wf (NodeProcessor.m_Extra p) ->
        (Body.m_SubsidyClosing body = true -> SubsidySentinel_ok p /\ no_zero_kernel txv) ->
        kernels_apart txv ->
        (forall k, count_at (NodeProcessor.m_Utxos p) k
                   + occ k (Output_keys (TxVectors.m_vOutputs txv) h None)
                   < CountModulus) ->
        (forall p', HandleBlock sid true p = Ret (false, p') -> p' = p)
        /\ (forall body1 p1,
              buf = [] ->
              first_time_checks p s body h = Ret true ->
              HandleValidatedBlock body h true true None p = Ret (true, body1, p1) ->
              SystemState.Full.m_Definition s <> get_Definition p1 true ->
              HandleValidatedBlock body1 h false false None p1 = Ret (true, body1, p)
              /\ HandleBlock sid true p = Ret (false, p))).
Proof.
  intros Hwf H32. split; [|split].
  - intros txv' p' Hr. exact (HandleValidatedTx_false_same _ _ _ _ _ _ _ Hwf H32 Hr).
  - intros body body' p' <- Hr.
    exact (HandleValidatedBlock_false_same _ _ _ _ _ _ _ Hwf H32 Hr).
  - intros sid bb buf s body <- Hget Hs Hdes <- Hex Hcl Hap Hnw. split.
    + intros p' Hr.
      exact (HandleBlock_false_same _ _ _ _ _ _ Hwf Hget Hdes H32 Hex Hcl Hap Hnw Hr).
    + intros body1 p1 -> Hchk Hfwd Hdef.
      pose proof (HandleValidatedBlock_undone _ _ _ false _ _ _ _ Hwf Hex Hcl Hap Hnw Hfwd)
        as Hrev.
      split; [exact Hrev|].
      rewrite (HandleBlock_first_time _ _ _ _ _ _ _ Hget Hs Hdes Hchk Hfwd).
      apply N.eqb_neq in Hdef. rewrite Hdef. cbn [negb]. rewrite Hrev. reflexivity.
Qed.

End FailedBlock.

(** C2, the claim as written, fails for the reverse pass that [HandleBlock]
    forces after a [Definition] mismatch. The state holds the leaf (6, 5)
    with the count 2^32-1; the stored body spends the commitment 6 twice and
    creates it twice at the height 5. The forward pass goes through and the
    tree is as before; the header's [Definition] does not match; the reverse
    pass puts the two inputs back first, the count wraps, and [HandleBlock]
    answers [false] with the count 6 in the leaf. *)
Lemma HandleBlock_mismatch_escapes :
  let p := mismatch_processor [2; 2; 0; 6; 6; 6; 6] 99 {[ (6, 5) := 4294967295 ]} ∅ in
  let p' := mismatch_processor [2; 2; 0; 6; 6; 6; 6] 99 {[ (6, 5) := 6 ]} ∅ in
  Utxos_wf (NodeProcessor.m_Utxos p)
  /\ @HandleBlock demo_spending (StateID.mk 1 5) true p = Ret (false, p')
  /\ NodeProcessor.m_Utxos p' <> NodeProcessor.m_Utxos p.
Proof.
  intros p p'. split; [|split].
  - apply Utxos_wf_check. apply (bool_decide_unpack _). vm_compute. exact I.
  - vm_compute. reflexivity.
  - intros Heq. apply (f_equal (fun t : gmap (N * N) N => t !! (6, 5))) in Heq.
    vm_compute in Heq. discriminate.
Qed.

(** A stored body that consumes and creates the kernel 20 goes through
    forward; the reverse pass after the [Definition] mismatch finds the
    kernel in the tree when it puts it back, and [HandleBlock] raises. *)
Lemma HandleBlock_mismatch_raises :
  let p := mismatch_processor [0; 0; 1; 20; 20] 99 ∅ {[ 20 ]} in
  @HandleBlock demo_spending (StateID.mk 1 5) true p = Throw NodeDataCorrupted.
Proof. vm_compute. reflexivity. Qed.

Lemma HandleValidatedTx_failure_restores_witness :
  let k20 := TxKernel.mk 20 (HeightRange.mk 0 0) in
  let k30 := TxKernel.mk 30 (HeightRange.mk 0 0) in
  let txv := TxVectors.mk [Input.mk 5 0] [Output.mk 6 false 0 0] [k20] [k30] in
  let txv' := TxVectors.mk [Input.mk 5 1] [Output.mk 6 false 0 0] [k20] [k30] in
  let p := demo_processor {[ (5, 1) := 1 ]} {[20; 30]} (Extra.mk 3 4 true) in
  let q := mismatch_processor [1; 1; 1; 5; 6; 20; 21] 99 {[ (5, 1) := 1 ]} {[20]} in
  @HandleValidatedTx demo txv 10 true true None p = Ret (false, txv', p)
  /\ @HandleBlock demo_spending (StateID.mk 1 5) true q = Ret (false, q).
Proof.
  intros k20 k30 txv txv' p q. split.
  - destruct (@HandleValidatedTx demo txv 10 true true None p) as [[[ok t'] p'] | |] eqn:Hr;
      try (vm_compute in Hr; discriminate).
    assert (Hres : ok = false /\ t' = txv')
      by (vm_compute in Hr; injection Hr as <- <- _; split; reflexivity).
    destruct Hres as [-> ->].
    destruct (@HandleValidatedTx_failure_restores demo txv 10 true None p) as [Htx _].
    + apply Utxos_wf_check. apply (bool_decide_unpack _). vm_compute. exact I.
    + repeat split; vm_compute; reflexivity.
    + rewrite (Htx _ _ Hr). reflexivity.
  - destruct (@HandleValidatedTx_failure_restores demo_spending
                (TxVectors.mk [Input.mk 5 0] [Output.mk 6 false 0 0]
                   [TxKernel.mk 20 (HeightRange.mk 0 0)] [TxKernel.mk 21 (HeightRange.mk 0 0)])
                5 true None q) as (_ & _ & Hblk).
    + apply Utxos_wf_check. apply (bool_decide_unpack _). vm_compute. exact I.
    + repeat split; vm_compute; reflexivity.
    + destruct (Hblk (StateID.mk 1 5) [1; 1; 1; 5; 6; 20; 21] []
                  (SystemState.Full.mk 5 0 10 99 100 10)
                  (Body.mk 0 0 false
                     (TxVectors.mk [Input.mk 5 0] [Output.mk 6 false 0 0]
                        [TxKernel.mk 20 (HeightRange.mk 0 0)]
                        [TxKernel.mk 21 (HeightRange.mk 0 0)])))
        as [_ Hmis].
      * reflexivity.
      * vm_compute. reflexivity.
      * vm_compute. reflexivity.
      * vm_compute. reflexivity.
      * reflexivity.
      * split; vm_compute; reflexivity.
      * discriminate.
      * intros id Hin Hout. apply list_elem_of_singleton in Hin, Hout. subst id. discriminate.
      * apply no_wrap_check; [vm_compute; reflexivity|].
        apply (bool_decide_unpack _). vm_compute. exact I.
      * destruct (Hmis (Body.mk 0 0 false
                          (TxVectors.mk [Input.mk 5 1] [Output.mk 6 false 0 0]
                             [TxKernel.mk 20 (HeightRange.mk 0 0)]
                             [TxKernel.mk 21 (HeightRange.mk 0 0)]))
                    (mismatch_processor [1; 1; 1; 5; 6; 20; 21] 99 {[ (6, 5) := 1 ]} {[21]}))
          as [_ Hrun].
        -- reflexivity.
        -- vm_compute. reflexivity.
        -- vm_compute. reflexivity.
        -- vm_compute. discriminate.
        -- exact Hrun.
Defined.
